(** * ByteAlchemy cipher engine

    A shallow embedding of [core/decoder/aes_pure.py],
    [core/decoder/sm4.py] and [core/decoder/pipeline.py]: the two block
    ciphers with their key schedules, the padding schemes, the five modes
    of operation, the string-level entry points [encrypt]/[decrypt] and
    [sm4_encrypt]/[sm4_decrypt], and the chain of operations built on them.

    Python values are represented as follows.
    - [bytes] is a [list Z]; a Python [bytes] object only holds values in
      0..255, which the predicate [is_bytesb] records where a proof needs it.
    - [int] is [Z] (unbounded, as in Python); bit operations are [Z.land],
      [Z.lor], [Z.lxor], [Z.shiftl], [Z.shiftr].
    - [str] is [string].
    - a raised exception is the [Raise] case of [result].
    - a custom S-box table is a list of Python values ([pyval]): the code
      takes it as [json.loads] or the caller gives it and never checks its
      elements, so a constructor meets them as they are.
    - functions of the Python standard library (digests, codecs, [json],
      [os.urandom]) are fields of the record [PyLib]; the theorems hold for
      every instance that meets the stated contract. *)

From Stdlib Require Import ZArith String Ascii List Bool Lia Btauto.
Import ListNotations.
Open Scope Z_scope.

(** ** Bytes, exceptions, slices *)

Definition bytes := list Z.

Definition is_byteb (b : Z) : bool := (0 <=? b) && (b <? 256).
Definition is_bytesb (l : bytes) : bool := forallb is_byteb l.

(** What a [ValueError] raised by the encoders is about. *)
Inductive reason :=
| BadKeyHex            (* the key is not a valid hex string *)
| BadDataHex           (* the input data is not a valid hex string *)
| BadIvHexLength       (* the hex IV does not decode to 16 bytes *)
| BadIvHex             (* the IV is not a valid hex string *)
| UnsupportedMode      (* unknown mode of operation *)
| InputParseFailed     (* the ciphertext cannot be decoded as declared *)
| TooShortForIV        (* the ciphertext is too short to hold an IV *)
| InvalidPaddingLength (* the padding length byte is outside 1..16 *)
| InvalidPaddingBytes  (* a PKCS7 filler byte differs from the length *)
| ByteRange.           (* bytes(l) of a value outside range(256) *)

Inductive pyerror :=
| ValueError (r : reason)
| IndexError        (* sequence index out of range *)
| StructError       (* struct.error: wrong buffer size or value range *)
| OverflowError     (* int too big to convert *)
| TypeError.        (* an operand of the wrong type *)

Inductive result (A : Type) : Type :=
| Ok (a : A)
| Raise (e : pyerror).
Arguments Ok {A} a.
Arguments Raise {A} e.

Definition bind {A B : Type} (c : result A) (k : A -> result B) : result B :=
  match c with
  | Ok a => k a
  | Raise e => Raise e
  end.

Notation "x <- c ;; k" := (bind c (fun x => k))
  (at level 61, c at next level, right associativity).

(** [l[i:j]] for [0 <= i <= j]. *)
Definition slice {A : Type} (l : list A) (i j : nat) : list A :=
  firstn (j - i) (skipn i l).

(** [l[-k:]] and [l[:-k]] for [k >= 1]. *)
Definition last_n {A : Type} (l : list A) (k : nat) : list A :=
  skipn (length l - k) l.
Definition drop_last_n {A : Type} (l : list A) (k : nat) : list A :=
  firstn (length l - k) l.

(** [bytes([a ^ b for a, b in zip(x, y)])]. *)
Definition xor_bytes (x y : bytes) : bytes :=
  map (fun p => Z.lxor (fst p) (snd p)) (combine x y).

(** The position that the index [k] names in a list of length [n]: a
    negative index counts from the end. *)
Definition position (n : nat) (k : Z) : nat :=
  Z.to_nat (if k <? 0 then k + Z.of_nat n else k).

(** [-n <= k < n]: the index names an element. *)
Definition in_range (n : nat) (k : Z) : bool :=
  (- Z.of_nat n <=? k) && (k <? Z.of_nat n).

(** [tbl[b]] for an index that names an element. *)
Definition lookup (tbl : list Z) (b : Z) : Z :=
  nth (position (length tbl) b) tbl 0.

(** [l[k] = v] for an index inside the list. *)
Fixpoint list_set (l : list Z) (k : nat) (v : Z) : list Z :=
  match l, k with
  | [], _ => []
  | _ :: r, O => v :: r
  | a :: r, S k' => a :: list_set r k' v
  end.

(** [l[k] = v]: [IndexError] when the index names no element. *)
Definition set_item (l : list Z) (k : Z) (v : Z) : result (list Z) :=
  if in_range (length l) k then Ok (list_set l (position (length l) k) v)
  else Raise IndexError.

(** [bytes(l)]: every value must be in [range(256)]. *)
Definition to_bytes (l : list Z) : result bytes :=
  if is_bytesb l then Ok l else Raise (ValueError ByteRange).

(** A loop [for b in l: a = f(a, b)] that an exception of [f] leaves. *)
Fixpoint foldM {A B : Type} (f : A -> B -> result A) (l : list B) (a : A)
  : result A :=
  match l with
  | [] => Ok a
  | b :: r => a' <- f a b ;; foldM f r a'
  end.

(** The Python values an [sbox] argument can be, what [json.loads]
    returns, and what a custom table can hold.  [float] and [dict] are
    left out: [_parse_sbox] treats them like every other value that is not
    a list, and as an element of a table a [float] behaves like a [str]. *)
#[warnings="-register-all"]
Inductive pyval :=
| PyNone
| PyBool (b : bool)
| PyInt (z : Z)
| PyStr (s : string)
| PyList (l : list pyval).

(** An element of a table used as a list index or as an operand of [<<],
    [|] and [^]: an [int] ([bool] is one); every other value raises
    [TypeError]. *)
Definition as_int (v : pyval) : result Z :=
  match v with
  | PyInt z => Ok z
  | PyBool b => Ok (if b then 1 else 0)
  | _ => Raise TypeError
  end.

(** [l[k]] on a list of Python values, for [0 <= k]. *)
Definition item (l : list pyval) (k : Z) : result pyval :=
  match nth_error l (Z.to_nat k) with
  | Some v => Ok v
  | None => Raise IndexError
  end.

(** The chunks [data[i:i+16]] for [i] in [range(0, len(data), 16)]. *)
Fixpoint blocks_from (fuel : nat) (data : bytes) : list bytes :=
  match fuel with
  | O => []
  | S fuel' =>
      match data with
      | [] => []
      | _ :: _ => firstn 16 data :: blocks_from fuel' (skipn 16 data)
      end
  end.
Definition blocks16 (data : bytes) : list bytes :=
  blocks_from (length data) data.

(** [sbox if sbox and len(sbox) == 256 else standard], as in both
    constructors. *)
Definition select_sbox {A : Type} (standard : list A) (sbox : option (list A))
  : list A :=
  match sbox with
  | Some s => if Nat.eqb (length s) 256 then s else standard
  | None => standard
  end.

(** ** class AesPure *)

Module AesPure.

Definition STANDARD_SBOX : list Z := [
    0x63; 0x7c; 0x77; 0x7b; 0xf2; 0x6b; 0x6f; 0xc5; 0x30; 0x01; 0x67; 0x2b; 0xfe; 0xd7; 0xab; 0x76;
    0xca; 0x82; 0xc9; 0x7d; 0xfa; 0x59; 0x47; 0xf0; 0xad; 0xd4; 0xa2; 0xaf; 0x9c; 0xa4; 0x72; 0xc0;
    0xb7; 0xfd; 0x93; 0x26; 0x36; 0x3f; 0xf7; 0xcc; 0x34; 0xa5; 0xe5; 0xf1; 0x71; 0xd8; 0x31; 0x15;
    0x04; 0xc7; 0x23; 0xc3; 0x18; 0x96; 0x05; 0x9a; 0x07; 0x12; 0x80; 0xe2; 0xeb; 0x27; 0xb2; 0x75;
    0x09; 0x83; 0x2c; 0x1a; 0x1b; 0x6e; 0x5a; 0xa0; 0x52; 0x3b; 0xd6; 0xb3; 0x29; 0xe3; 0x2f; 0x84;
    0x53; 0xd1; 0x00; 0xed; 0x20; 0xfc; 0xb1; 0x5b; 0x6a; 0xcb; 0xbe; 0x39; 0x4a; 0x4c; 0x58; 0xcf;
    0xd0; 0xef; 0xaa; 0xfb; 0x43; 0x4d; 0x33; 0x85; 0x45; 0xf9; 0x02; 0x7f; 0x50; 0x3c; 0x9f; 0xa8;
    0x51; 0xa3; 0x40; 0x8f; 0x92; 0x9d; 0x38; 0xf5; 0xbc; 0xb6; 0xda; 0x21; 0x10; 0xff; 0xf3; 0xd2;
    0xcd; 0x0c; 0x13; 0xec; 0x5f; 0x97; 0x44; 0x17; 0xc4; 0xa7; 0x7e; 0x3d; 0x64; 0x5d; 0x19; 0x73;
    0x60; 0x81; 0x4f; 0xdc; 0x22; 0x2a; 0x90; 0x88; 0x46; 0xee; 0xb8; 0x14; 0xde; 0x5e; 0x0b; 0xdb;
    0xe0; 0x32; 0x3a; 0x0a; 0x49; 0x06; 0x24; 0x5c; 0xc2; 0xd3; 0xac; 0x62; 0x91; 0x95; 0xe4; 0x79;
    0xe7; 0xc8; 0x37; 0x6d; 0x8d; 0xd5; 0x4e; 0xa9; 0x6c; 0x56; 0xf4; 0xea; 0x65; 0x7a; 0xae; 0x08;
    0xba; 0x78; 0x25; 0x2e; 0x1c; 0xa6; 0xb4; 0xc6; 0xe8; 0xdd; 0x74; 0x1f; 0x4b; 0xbd; 0x8b; 0x8a;
    0x70; 0x3e; 0xb5; 0x66; 0x48; 0x03; 0xf6; 0x0e; 0x61; 0x35; 0x57; 0xb9; 0x86; 0xc1; 0x1d; 0x9e;
    0xe1; 0xf8; 0x98; 0x11; 0x69; 0xd9; 0x8e; 0x94; 0x9b; 0x1e; 0x87; 0xe9; 0xce; 0x55; 0x28; 0xdf;
    0x8c; 0xa1; 0x89; 0x0d; 0xbf; 0xe6; 0x42; 0x68; 0x41; 0x99; 0x2d; 0x0f; 0xb0; 0x54; 0xbb; 0x16 ].

Definition RCON : list Z :=
  [0x00; 0x01; 0x02; 0x04; 0x08; 0x10; 0x20; 0x40; 0x80; 0x1b; 0x36].

(** A 4x4 state, [state[row][col]]; a round key is four 4-byte words. *)
Definition state := list (list Z).

Definition get2 (s : state) (i j : nat) : Z := nth j (nth i s []) 0.

Definition idx4 : list nat := [0; 1; 2; 3]%nat.

(** The 4x4 table [[f i j for j in range(4)] for i in range(4)]. *)
Definition tab4 (f : nat -> nat -> Z) : state :=
  map (fun i => map (fun j => f i j) idx4) idx4.

Record t := mk {
  sbox : list Z;
  rsbox : list Z;
  rounds : nat;
  round_keys : list state;
  swap_key_schedule : bool;
  swap_data_round : bool
}.

Definition _sub_word (word : list Z) (sbox : list Z) : list Z :=
  map (fun b => lookup sbox b) word.

Definition _rot_word (word : list Z) : list Z :=
  skipn 1 word ++ firstn 1 word.

(** The length adjustment at the head of [key_expansion]: the key as used
    and the round count. *)
Definition key_norm (key : bytes) : bytes * nat :=
  let key_size := length key in
  if Nat.eqb key_size 16 then (key, 10%nat)
  else if Nat.eqb key_size 24 then (key, 12%nat)
  else if Nat.eqb key_size 32 then (key, 14%nat)
  else
    let key' :=
      if Nat.ltb key_size 16 then key ++ repeat 0 (16 - key_size)
      else if Nat.ltb key_size 24 then firstn 16 key
      else if Nat.ltb key_size 32 then firstn 24 key
      else firstn 32 key in
    let key_size' := length key' in
    (key', if Nat.eqb key_size' 16 then 10%nat
           else if Nat.eqb key_size' 24 then 12%nat else 14%nat).

(** [temp[0] ^= c]. *)
Definition xor_head (temp : list Z) (c : Z) : list Z :=
  match temp with
  | [] => []
  | a :: r => Z.lxor a c :: r
  end.

(** One iteration of the word loop: the word appended at index [i]. *)
Definition next_word (sbox : list Z) (swap_ks : bool) (Nk : nat)
    (words : list (list Z)) (i : nat) : list Z :=
  let temp := nth (i - 1) words [] in
  let temp :=
    if Nat.eqb (i mod Nk) 0 then
      let temp := _rot_word temp in
      let temp := _sub_word temp sbox in
      let temp := if swap_ks then rev temp else temp in
      xor_head temp (nth (i / Nk) RCON 0)
    else if Nat.ltb 6 Nk && Nat.eqb (i mod Nk) 4 then _sub_word temp sbox
    else temp in
  map (fun j => Z.lxor (nth j (nth (i - Nk) words []) 0) (nth j temp 0)) idx4.

(** [[words[i:i+4] for i in range(0, len(words), 4)]]. *)
Fixpoint group4 (fuel : nat) (words : list (list Z)) : list state :=
  match fuel with
  | O => []
  | S fuel' =>
      match words with
      | [] => []
      | _ :: _ => firstn 4 words :: group4 fuel' (skipn 4 words)
      end
  end.

Definition expand_words (sbox : list Z) (swap_ks : bool) (key : bytes)
    (Nk Nr : nat) : list (list Z) :=
  let words := map (fun i => slice key (4 * i) (4 * i + 4)) (seq 0 Nk) in
  fold_left (fun words i => words ++ [next_word sbox swap_ks Nk words i])
            (seq Nk (4 * (Nr + 1) - Nk)) words.

(** [key_expansion]: the round count and the round keys. *)
Definition key_expansion (sbox : list Z) (swap_ks : bool) (key : bytes)
  : nat * list state :=
  let '(key, Nr) := key_norm key in
  let Nk := (length key / 4)%nat in
  let words := expand_words sbox swap_ks key Nk Nr in
  (Nr, group4 (length words) words).

(** The loop of [__init__] that fills the inverse table:
    [rsbox[sbox[i]] = i] for [i] in [range(256)], starting from 256 zeros.
    An element that is no [int] raises [TypeError], an [int] outside
    -256..255 raises [IndexError], and a negative one counts from the end
    of [rsbox]. *)
Definition inverse_sbox (sbox : list pyval) : result (list Z) :=
  foldM (fun r i => v <- item sbox (Z.of_nat i) ;;
                    k <- as_int v ;;
                    set_item r k (Z.of_nat i))
        (seq 0 256) (repeat 0 256%nat).

(** The elements of a table as integers, once [inverse_sbox] has read
    them all. *)
Definition int_values (sbox : list pyval) : list Z :=
  map (fun v => match as_int v with Ok z => z | Raise _ => 0 end) sbox.

(** [__init__]: the table is chosen, the inverse table filled, the key
    expanded. *)
Definition init (key : bytes) (custom : option (list pyval))
    (swap_ks swap_dr : bool) : result t :=
  let sb := select_sbox (map PyInt STANDARD_SBOX) custom in
  rsb <- inverse_sbox sb ;;
  let '(Nr, rks) := key_expansion (int_values sb) swap_ks key in
  Ok (mk (int_values sb) rsb Nr rks swap_ks swap_dr).

(** The inverse table and the instance in closed form, for a table whose
    elements are bytes; [init] returns them on such a table (lemmas
    [inverse_sbox_bytes] and [init_bytes]). *)
Definition inverse_table (sbox : list Z) : list Z :=
  fold_left (fun r i => list_set r (Z.to_nat (nth i sbox 0)) (Z.of_nat i))
            (seq 0 256) (repeat 0 256%nat).

Definition build (key : bytes) (custom : option (list Z))
    (swap_ks swap_dr : bool) : t :=
  let sb := select_sbox STANDARD_SBOX custom in
  let '(Nr, rks) := key_expansion sb swap_ks key in
  mk sb (inverse_table sb) Nr rks swap_ks swap_dr.

(** Rows 0<->3 and 1<->2 exchanged within each column. *)
Definition _magic_swap_state (s : state) : state :=
  tab4 (fun i j => get2 s (3 - i) j).

Definition _sub_bytes (s : state) (sbox : list Z) : state :=
  tab4 (fun i j => lookup sbox (get2 s i j)).

Definition rotl_row (k : nat) (row : list Z) : list Z :=
  skipn k row ++ firstn k row.
Definition rotr_row (k : nat) (row : list Z) : list Z :=
  last_n row k ++ drop_last_n row k.

Definition _shift_rows (s : state) : state :=
  [nth 0 s []; rotl_row 1 (nth 1 s []); rotl_row 2 (nth 2 s []);
   rotl_row 3 (nth 3 s [])].

Definition _inv_shift_rows (s : state) : state :=
  [nth 0 s []; rotr_row 1 (nth 1 s []); rotr_row 2 (nth 2 s []);
   rotr_row 3 (nth 3 s [])].

Definition _xtime (a : Z) : Z :=
  if Z.eqb (Z.land a 0x80) 0 then Z.land (Z.shiftl a 1) 0xFF
  else Z.land (Z.lxor (Z.shiftl a 1) 0x1B) 0xFF.

(** Column [i] after the four in-place updates of [_mix_columns]. *)
Definition mix_column (s : state) (i : nat) : list Z :=
  let t := Z.lxor (Z.lxor (Z.lxor (get2 s 0 i) (get2 s 1 i)) (get2 s 2 i))
                  (get2 s 3 i) in
  let u := get2 s 0 i in
  [Z.lxor (get2 s 0 i) (Z.lxor t (_xtime (Z.lxor (get2 s 0 i) (get2 s 1 i))));
   Z.lxor (get2 s 1 i) (Z.lxor t (_xtime (Z.lxor (get2 s 1 i) (get2 s 2 i))));
   Z.lxor (get2 s 2 i) (Z.lxor t (_xtime (Z.lxor (get2 s 2 i) (get2 s 3 i))));
   Z.lxor (get2 s 3 i) (Z.lxor t (_xtime (Z.lxor (get2 s 3 i) u)))].

Definition _mix_columns (s : state) : state :=
  tab4 (fun r c => nth r (mix_column s c) 0).

(** Column [i] after the first loop of [_inv_mix_columns]. *)
Definition pre_inv_column (s : state) (i : nat) : list Z :=
  let u := _xtime (_xtime (Z.lxor (get2 s 0 i) (get2 s 2 i))) in
  let v := _xtime (_xtime (Z.lxor (get2 s 1 i) (get2 s 3 i))) in
  [Z.lxor (get2 s 0 i) u; Z.lxor (get2 s 1 i) v;
   Z.lxor (get2 s 2 i) u; Z.lxor (get2 s 3 i) v].

Definition _inv_mix_columns (s : state) : state :=
  _mix_columns (tab4 (fun r c => nth r (pre_inv_column s c) 0)).

Definition _add_round_key (s : state) (round_key : state) : state :=
  tab4 (fun i j => Z.lxor (get2 s i j) (get2 round_key j i)).

(** The block as a state: four 4-byte slices, transposed. *)
Definition load_state (block : bytes) : state :=
  let st := map (fun i => slice block i (i + 4)) [0; 4; 8; 12]%nat in
  tab4 (fun i j => get2 st j i).

(** The state read column by column. *)
Definition flatten (s : state) : bytes :=
  flat_map (fun j => map (fun i => get2 s i j) idx4) idx4.

Definition swap_if (b : bool) (s : state) : state :=
  if b then _magic_swap_state s else s.

Definition enc_round (aes : t) (s : state) (i : nat) : state :=
  let s := _sub_bytes s (sbox aes) in
  let s := swap_if (swap_data_round aes) s in
  let s := _shift_rows s in
  let s := _mix_columns s in
  _add_round_key s (nth i (round_keys aes) []).

Definition enc_final (aes : t) (s : state) : state :=
  let s := _sub_bytes s (sbox aes) in
  let s := swap_if (swap_data_round aes) s in
  let s := _shift_rows s in
  _add_round_key s (nth (rounds aes) (round_keys aes) []).

(** [encrypt_block]; a block shorter than 16 bytes makes the transposition
    index out of range, and the final [bytes(output)] refuses a value
    outside 0..255 (which a table with negative elements can leave). *)
Definition encrypt_block (aes : t) (block : bytes) : result bytes :=
  if Nat.ltb (length block) 16 then Raise IndexError
  else
    let s := load_state block in
    let s := _add_round_key s (nth 0 (round_keys aes) []) in
    let s := fold_left (enc_round aes) (seq 1 (rounds aes - 1)) s in
    to_bytes (flatten (enc_final aes s)).

Definition dec_round (aes : t) (s : state) (i : nat) : state :=
  let s := _inv_shift_rows s in
  let s := _sub_bytes s (rsbox aes) in
  let s := swap_if (swap_data_round aes) s in
  let s := _add_round_key s (nth i (round_keys aes) []) in
  _inv_mix_columns s.

Definition dec_final (aes : t) (s : state) : state :=
  let s := _inv_shift_rows s in
  let s := _sub_bytes s (rsbox aes) in
  let s := swap_if (swap_data_round aes) s in
  _add_round_key s (nth 0 (round_keys aes) []).

Definition decrypt_block (aes : t) (block : bytes) : result bytes :=
  if Nat.ltb (length block) 16 then Raise IndexError
  else
    let s := load_state block in
    let s := _add_round_key s (nth (rounds aes) (round_keys aes) []) in
    let s := fold_left (dec_round aes) (rev (seq 1 (rounds aes - 1))) s in
    to_bytes (flatten (dec_final aes s)).

End AesPure.

(** ** class SM4Encoders: the block cipher *)

Module SM4.

Definition STANDARD_SBOX : list Z := [
    0xd6; 0x90; 0xe9; 0xfe; 0xcc; 0xe1; 0x3d; 0xb7; 0x16; 0xb6; 0x14; 0xc2; 0x28; 0xfb; 0x2c; 0x05;
    0x2b; 0x67; 0x9a; 0x76; 0x2a; 0xbe; 0x04; 0xc3; 0xaa; 0x44; 0x13; 0x26; 0x49; 0x86; 0x06; 0x99;
    0x9c; 0x42; 0x50; 0xf4; 0x91; 0xef; 0x98; 0x7a; 0x33; 0x54; 0x0b; 0x43; 0xed; 0xcf; 0xac; 0x62;
    0xe4; 0xb3; 0x1c; 0xa9; 0xc9; 0x08; 0xe8; 0x95; 0x80; 0xdf; 0x94; 0xfa; 0x75; 0x8f; 0x3f; 0xa6;
    0x47; 0x07; 0xa7; 0xfc; 0xf3; 0x73; 0x17; 0xba; 0x83; 0x59; 0x3c; 0x19; 0xe6; 0x85; 0x4f; 0xa8;
    0x68; 0x6b; 0x81; 0xb2; 0x71; 0x64; 0xda; 0x8b; 0xf8; 0xeb; 0x0f; 0x4b; 0x70; 0x56; 0x9d; 0x35;
    0x1e; 0x24; 0x0e; 0x5e; 0x63; 0x58; 0xd1; 0xa2; 0x25; 0x22; 0x7c; 0x3b; 0x01; 0x21; 0x78; 0x87;
    0xd4; 0x00; 0x46; 0x57; 0x9f; 0xd3; 0x27; 0x52; 0x4c; 0x36; 0x02; 0xe7; 0xa0; 0xc4; 0xc8; 0x9e;
    0xea; 0xbf; 0x8a; 0xd2; 0x40; 0xc7; 0x38; 0xb5; 0xa3; 0xf7; 0xf2; 0xce; 0xf9; 0x61; 0x15; 0xa1;
    0xe0; 0xae; 0x5d; 0xa4; 0x9b; 0x34; 0x1a; 0x55; 0xad; 0x93; 0x32; 0x30; 0xf5; 0x8c; 0xb1; 0xe3;
    0x1d; 0xf6; 0xe2; 0x2e; 0x82; 0x66; 0xca; 0x60; 0xc0; 0x29; 0x23; 0xab; 0x0d; 0x53; 0x4e; 0x6f;
    0xd5; 0xdb; 0x37; 0x45; 0xde; 0xfd; 0x8e; 0x2f; 0x03; 0xff; 0x6a; 0x72; 0x6d; 0x6c; 0x5b; 0x51;
    0x8d; 0x1b; 0xaf; 0x92; 0xbb; 0xdd; 0xbc; 0x7f; 0x11; 0xd9; 0x5c; 0x41; 0x1f; 0x10; 0x5a; 0xd8;
    0x0a; 0xc1; 0x31; 0x88; 0xa5; 0xcd; 0x7b; 0xbd; 0x2d; 0x74; 0xd0; 0x12; 0xb8; 0xe5; 0xb4; 0xb0;
    0x89; 0x69; 0x97; 0x4a; 0x0c; 0x96; 0x77; 0x7e; 0x65; 0xb9; 0xf1; 0x09; 0xc5; 0x6e; 0xc6; 0x84;
    0x18; 0xf0; 0x7d; 0xec; 0x3a; 0xdc; 0x4d; 0x20; 0x79; 0xee; 0x5f; 0x3e; 0xd7; 0xcb; 0x39; 0x48 ].

Definition SM4_FK : list Z := [0xa3b1bac6; 0x56aa3350; 0x677d9197; 0xb27022dc].

Definition SM4_CK : list Z := [
    0x00070e15; 0x1c232a31; 0x383f464d; 0x545b6269;
    0x70777e85; 0x8c939aa1; 0xa8afb6bd; 0xc4cbd2d9;
    0xe0e7eef5; 0xfc030a11; 0x181f262d; 0x343b4249;
    0x50575e65; 0x6c737a81; 0x888f969d; 0xa4abb2b9;
    0xc0c7ced5; 0xdce3eaf1; 0xf8ff060d; 0x141b2229;
    0x30373e45; 0x4c535a61; 0x686f767d; 0x848b9299;
    0xa0a7aeb5; 0xbcc3cad1; 0xd8dfe6ed; 0xf4fb0209;
    0x10171e25; 0x2c333a41; 0x484f565d; 0x646b7279 ].

(** The instance after [__init__] and [set_key]: the table as it was
    given, the 32 round keys, the flag. *)
Record t := mk {
  sbox : list pyval;
  sk : list Z;
  swap_data_round : bool
}.

Definition _rotl (x : Z) (n : Z) : Z :=
  Z.lor (Z.land (Z.shiftl x n) 0xffffffff)
        (Z.land (Z.shiftr x (32 - n)) 0xffffffff).

(** The four table elements that [_tau] and [_tau_swapped] fetch. *)
Definition tau_items (sbox : list pyval) (a : Z)
  : result (pyval * pyval * pyval * pyval) :=
  b0 <- item sbox (Z.land (Z.shiftr a 24) 0xff) ;;
  b1 <- item sbox (Z.land (Z.shiftr a 16) 0xff) ;;
  b2 <- item sbox (Z.land (Z.shiftr a 8) 0xff) ;;
  b3 <- item sbox (Z.land a 0xff) ;;
  Ok (b0, b1, b2, b3).

(** [(b0 << 24) | (b1 << 16) | (b2 << 8) | b3]: an element that is no
    [int] raises [TypeError] when the expression reaches it. *)
Definition _tau (sbox : list pyval) (a : Z) : result Z :=
  bs <- tau_items sbox a ;;
  let '(b0, b1, b2, b3) := bs in
  v0 <- as_int b0 ;; v1 <- as_int b1 ;; v2 <- as_int b2 ;; v3 <- as_int b3 ;;
  Ok (Z.lor (Z.lor (Z.lor (Z.shiftl v0 24) (Z.shiftl v1 16)) (Z.shiftl v2 8))
            v3).

Definition _tau_swapped (sbox : list pyval) (a : Z) : result Z :=
  bs <- tau_items sbox a ;;
  let '(b0, b1, b2, b3) := bs in
  v3 <- as_int b3 ;; v2 <- as_int b2 ;; v1 <- as_int b1 ;; v0 <- as_int b0 ;;
  Ok (Z.lor (Z.lor (Z.lor (Z.shiftl v3 24) (Z.shiftl v2 16)) (Z.shiftl v1 8))
            v0).

Definition _l_key (b : Z) : Z :=
  Z.lxor (Z.lxor b (_rotl b 13)) (_rotl b 23).

Definition _l (b : Z) : Z :=
  Z.lxor (Z.lxor (Z.lxor (Z.lxor b (_rotl b 2)) (_rotl b 10)) (_rotl b 18))
         (_rotl b 24).

(** One big-endian unsigned 32-bit word from four bytes, and back. *)
Definition be32 (b : bytes) : Z :=
  fold_left (fun acc x => Z.lor (Z.shiftl acc 8) x) b 0.
Definition be32_bytes (w : Z) : bytes :=
  [Z.land (Z.shiftr w 24) 0xff; Z.land (Z.shiftr w 16) 0xff;
   Z.land (Z.shiftr w 8) 0xff; Z.land w 0xff].

Definition is_u32b (w : Z) : bool := (0 <=? w) && (w <? 0x100000000).

(** [struct.unpack('>4I', b)]: the buffer must hold exactly 16 bytes. *)
Definition unpack4I (b : bytes) : result (list Z) :=
  if Nat.eqb (length b) 16 then
    Ok (map (fun i => be32 (slice b i (i + 4))) [0; 4; 8; 12]%nat)
  else Raise StructError.

(** [struct.pack('>4I', a, b, c, d)]: every argument must fit 32 bits. *)
Definition pack4I (ws : list Z) : result bytes :=
  if forallb is_u32b ws then Ok (flat_map be32_bytes ws)
  else Raise StructError.

(** The key as unpacked by [set_key]: a key that is not 16 bytes long makes
    the first [unpack] fail and is then zero-padded or cut to 16 bytes. *)
Definition key16 (key : bytes) : bytes :=
  if Nat.eqb (length key) 16 then key
  else if Nat.ltb (length key) 16 then key ++ repeat 0 (16 - length key)
  else firstn 16 key.

Definition apply_tau (sbox : list pyval) (swapped : bool) (a : Z)
  : result Z :=
  if swapped then _tau_swapped sbox a else _tau sbox a.

(** One iteration of the key loop on the array [K]. *)
Definition key_step (sbox : list pyval) (swap_ks : bool) (K : list Z)
    (i : nat) : result (list Z) :=
  let rk := Z.lxor (Z.lxor (Z.lxor (nth (i + 1) K 0) (nth (i + 2) K 0))
                           (nth (i + 3) K 0)) (nth i SM4_CK 0) in
  rk <- apply_tau sbox swap_ks rk ;;
  let rk := _l_key rk in
  Ok (list_set K (i + 4) (Z.lxor (nth i K 0) rk)).

(** [set_key]; [mode] is 0 to encrypt and 1 to decrypt. *)
Definition set_key (sbox : list pyval) (key : bytes) (mode : Z)
    (swap_ks swap_dr : bool) : result t :=
  let MK := map (fun i => be32 (slice (key16 key) i (i + 4)))
                [0; 4; 8; 12]%nat in
  let K := map (fun p => Z.lxor (fst p) (snd p)) (combine MK SM4_FK)
           ++ repeat 0 32%nat in
  K <- foldM (key_step sbox swap_ks) (seq 0 32) K ;;
  let sk := skipn 4 K in
  Ok (mk sbox (if Z.eqb mode 1 then rev sk else sk) swap_dr).

(** One iteration of the round loop on [X]. *)
Definition round_step (c : t) (X : list Z) (i : nat) : result (list Z) :=
  let temp := Z.lxor (Z.lxor (Z.lxor (nth 1 X 0) (nth 2 X 0)) (nth 3 X 0))
                     (nth i (sk c) 0) in
  temp <- apply_tau (sbox c) (swap_data_round c) temp ;;
  let temp := _l temp in
  let x0 := Z.lxor (nth 0 X 0) temp in
  Ok [nth 1 X 0; nth 2 X 0; nth 3 X 0; x0].

(** [one_round]: the 32 rounds on one 16-byte block. *)
Definition one_round (c : t) (block : bytes) : result bytes :=
  X <- unpack4I block ;;
  X <- foldM (round_step c) (seq 0 32) X ;;
  pack4I [nth 3 X 0; nth 2 X 0; nth 1 X 0; nth 0 X 0].

(** [SM4Encoders(custom_sbox)] followed by [set_key]: the constructor
    stores the table without reading it. *)
Definition init (custom : option (list pyval)) (key : bytes) (mode : Z)
    (swap_ks swap_dr : bool) : result t :=
  set_key (select_sbox (map PyInt STANDARD_SBOX) custom) key mode swap_ks
          swap_dr.

End SM4.

(** ** SM4 on a table of integers

    The same functions in closed form for a table whose elements are all
    integers, where no step can raise; [SM4] agrees with them on such a
    table (lemmas [set_key_ints] and [one_round_ints]). *)

Module Sm4Ints.
Import SM4.

Record t := mk {
  sbox : list Z;
  sk : list Z;
  swap_data_round : bool
}.

Definition _tau (sbox : list Z) (a : Z) : Z :=
  let b0 := lookup sbox (Z.land (Z.shiftr a 24) 0xff) in
  let b1 := lookup sbox (Z.land (Z.shiftr a 16) 0xff) in
  let b2 := lookup sbox (Z.land (Z.shiftr a 8) 0xff) in
  let b3 := lookup sbox (Z.land a 0xff) in
  Z.lor (Z.lor (Z.lor (Z.shiftl b0 24) (Z.shiftl b1 16)) (Z.shiftl b2 8)) b3.

Definition _tau_swapped (sbox : list Z) (a : Z) : Z :=
  let b0 := lookup sbox (Z.land (Z.shiftr a 24) 0xff) in
  let b1 := lookup sbox (Z.land (Z.shiftr a 16) 0xff) in
  let b2 := lookup sbox (Z.land (Z.shiftr a 8) 0xff) in
  let b3 := lookup sbox (Z.land a 0xff) in
  Z.lor (Z.lor (Z.lor (Z.shiftl b3 24) (Z.shiftl b2 16)) (Z.shiftl b1 8)) b0.

Definition apply_tau (sbox : list Z) (swapped : bool) (a : Z) : Z :=
  if swapped then _tau_swapped sbox a else _tau sbox a.

(** One iteration of the key loop on the array [K]. *)
Definition key_step (sbox : list Z) (swap_ks : bool) (K : list Z) (i : nat)
  : list Z :=
  let rk := Z.lxor (Z.lxor (Z.lxor (nth (i + 1) K 0) (nth (i + 2) K 0))
                           (nth (i + 3) K 0)) (nth i SM4_CK 0) in
  let rk := apply_tau sbox swap_ks rk in
  let rk := _l_key rk in
  list_set K (i + 4) (Z.lxor (nth i K 0) rk).

(** [set_key]; [mode] is 0 to encrypt and 1 to decrypt. *)
Definition set_key (sbox : list Z) (key : bytes) (mode : Z)
    (swap_ks swap_dr : bool) : t :=
  let MK := map (fun i => be32 (slice (key16 key) i (i + 4)))
                [0; 4; 8; 12]%nat in
  let K := map (fun p => Z.lxor (fst p) (snd p)) (combine MK SM4_FK)
           ++ repeat 0 32%nat in
  let K := fold_left (key_step sbox swap_ks) (seq 0 32) K in
  let sk := skipn 4 K in
  mk sbox (if Z.eqb mode 1 then rev sk else sk) swap_dr.

(** One iteration of the round loop on [X]. *)
Definition round_step (c : t) (X : list Z) (i : nat) : list Z :=
  let temp := Z.lxor (Z.lxor (Z.lxor (nth 1 X 0) (nth 2 X 0)) (nth 3 X 0))
                     (nth i (sk c) 0) in
  let temp := apply_tau (sbox c) (swap_data_round c) temp in
  let temp := _l temp in
  let x0 := Z.lxor (nth 0 X 0) temp in
  [nth 1 X 0; nth 2 X 0; nth 3 X 0; x0].

(** [one_round]: the 32 rounds on one 16-byte block. *)
Definition one_round (c : t) (block : bytes) : result bytes :=
  X <- unpack4I block ;;
  let X := fold_left (round_step c) (seq 0 32) X in
  pack4I [nth 3 X 0; nth 2 X 0; nth 1 X 0; nth 0 X 0].

Definition init (custom : option (list Z)) (key : bytes) (mode : Z)
    (swap_ks swap_dr : bool) : t :=
  set_key (select_sbox STANDARD_SBOX custom) key mode swap_ks swap_dr.

End Sm4Ints.

(** ** Python strings and the standard library *)

Definition lower_ascii (c : ascii) : ascii :=
  let n := nat_of_ascii c in
  if Nat.leb 65 n && Nat.leb n 90 then ascii_of_nat (n + 32) else c.
Definition upper_ascii (c : ascii) : ascii :=
  let n := nat_of_ascii c in
  if Nat.leb 97 n && Nat.leb n 122 then ascii_of_nat (n - 32) else c.

Fixpoint map_string (f : ascii -> ascii) (s : string) : string :=
  match s with
  | EmptyString => EmptyString
  | String c r => String (f c) (map_string f r)
  end.

(** [s.lower()] and [s.upper()]; the names compared below are ASCII. *)
Definition lower (s : string) : string := map_string lower_ascii s.
Definition upper (s : string) : string := map_string upper_ascii s.

(** [s.replace(c, '')] for a one-character [c]. *)
Fixpoint remove_char (c : ascii) (s : string) : string :=
  match s with
  | EmptyString => EmptyString
  | String a r =>
      if Ascii.eqb a c then remove_char c r else String a (remove_char c r)
  end.

Definition space : ascii := ascii_of_nat 32.
Definition newline : ascii := ascii_of_nat 10.

(** [s in names]. *)
Definition str_in (s : string) (names : list string) : bool :=
  existsb (String.eqb s) names.

(** Truth value of a [str] and of an optional [str]. *)
Definition str_true (s : string) : bool := negb (String.eqb s "").
Definition opt_true (o : option string) : bool :=
  match o with
  | Some s => str_true s
  | None => false
  end.

(** [o and o.lower() == name]. *)
Definition opt_is (o : option string) (name : string) : bool :=
  match o with
  | Some s => str_true s && String.eqb (lower s) name
  | None => false
  end.

(** [bool(v)]. *)
Definition truthy (v : pyval) : bool :=
  match v with
  | PyNone => false
  | PyBool b => b
  | PyInt z => negb (Z.eqb z 0)
  | PyStr s => str_true s
  | PyList l => negb (Nat.eqb (length l) 0)
  end.

(** The functions of the Python standard library that the encoders call.
    [None] stands for a raised exception. *)
Record PyLib := {
  sha256 : bytes -> bytes;             (* hashlib.sha256(b).digest() *)
  md5 : bytes -> bytes;                (* hashlib.md5(b).digest() *)
  utf8_encode : string -> bytes;       (* s.encode('utf-8') *)
  utf8_decode : bytes -> option string;(* b.decode('utf-8') *)
  b64encode : bytes -> string;         (* base64.b64encode(b).decode('utf-8') *)
  b64decode : string -> option bytes;  (* base64.b64decode(s) *)
  fromhex : string -> option bytes;    (* bytes.fromhex(s) *)
  unhexlify : string -> option bytes;  (* binascii.unhexlify(s) *)
  bytes_hex : bytes -> string;         (* b.hex() *)
  py_repr : string -> string;          (* repr(s) *)
  json_loads : string -> option pyval; (* json.loads(s) *)
  urandom : nat -> bytes               (* os.urandom(n) *)
}.

(** [int.from_bytes(b, byteorder='big')]. *)
Definition int_from_bytes (b : bytes) : Z :=
  fold_left (fun acc x => acc * 256 + x) b 0.

(** [n.to_bytes(16, byteorder='big')]: fails unless [0 <= n < 2^128]. *)
Definition to_bytes16 (n : Z) : result bytes :=
  if (0 <=? n) && (n <? 2 ^ 128) then
    Ok (map (fun i => (n / 256 ^ Z.of_nat (15 - i)) mod 256) (seq 0 16))
  else Raise OverflowError.

(** [string.printable]: the ASCII characters 32..126 and the whitespace
    9..13. *)
Definition in_printable (c : ascii) : bool :=
  let n := nat_of_ascii c in
  (Nat.leb 32 n && Nat.leb n 126) || (Nat.leb 9 n && Nat.leb n 13).

Fixpoint all_chars (p : ascii -> bool) (s : string) : bool :=
  match s with
  | EmptyString => true
  | String c r => p c && all_chars p r
  end.

(** [any(c not in printable and c not in ['\n', '\r', '\t'] for c in s)]. *)
Definition has_weird (s : string) : bool :=
  negb (all_chars
          (fun c => in_printable c
                    || str_in (String c EmptyString)
                         [String newline EmptyString;
                          String (ascii_of_nat 13) EmptyString;
                          String (ascii_of_nat 9) EmptyString]) s).

(** ['\x00' in s]. *)
Definition has_nul (s : string) : bool :=
  negb (all_chars (fun c => negb (Ascii.eqb c (ascii_of_nat 0))) s).

(** The tail of both [decrypt] functions: plain text when the bytes decode
    to printable text, its [repr] when they decode to other text, the hex
    digits when they do not decode. *)
Definition render (L : PyLib) (res : bytes) : string :=
  match utf8_decode L res with
  | Some text_res =>
      if has_nul text_res || has_weird text_res then py_repr L text_res
      else text_res
  | None => bytes_hex L res
  end.

(** [b.rstrip(b'\x00')]. *)
Fixpoint lstrip0 (l : bytes) : bytes :=
  match l with
  | [] => []
  | a :: r => if Z.eqb a 0 then lstrip0 r else l
  end.
Definition rstrip0 (l : bytes) : bytes := rev (lstrip0 (rev l)).

(** [data[-1]]. *)
Fixpoint last_byte (data : bytes) : option Z :=
  match data with
  | [] => None
  | a :: r =>
      match r with
      | [] => Some a
      | _ :: _ => last_byte r
      end
  end.

(** [data[:-p]] for a byte [p]; [data[:-0]] is [data[:0]]. *)
Definition cut_tail (data : bytes) (p : Z) : bytes :=
  if Z.eqb p 0 then [] else drop_last_n data (Z.to_nat p).

Fixpoint bytes_eqb (x y : bytes) : bool :=
  match x, y with
  | [], [] => true
  | a :: x', b :: y' => Z.eqb a b && bytes_eqb x' y'
  | _, _ => false
  end.

(** [_parse_sbox], the same text in both classes. *)
Definition _parse_sbox (L : PyLib) (sbox_str : pyval) : option (list pyval) :=
  if negb (truthy sbox_str) then None
  else
    match sbox_str with
    | PyList l => if Nat.eqb (length l) 256 then Some l else None
    | PyStr s =>
        let from_json :=
          match json_loads L s with
          | Some (PyList l) => if Nat.eqb (length l) 256 then Some l else None
          | _ => None
          end in
        match from_json with
        | Some l => Some l
        | None =>
            match unhexlify L (remove_char newline (remove_char space s)) with
            | Some b =>
                if Nat.eqb (length b) 256 then Some (map PyInt b) else None
            | None => None
            end
        end
    | _ => None
    end.

(** ** The mode loops

    Both classes spell out the same loops over [range(0, len(data), 16)];
    [E] is the block call ([encrypt_block], [decrypt_block] or
    [one_round]), [res] the bytes accumulated so far. *)

Section Modes.

Variable E : bytes -> result bytes.

(** ECB with [if len(block) < 16: break]. *)
Fixpoint ecb_break (blocks : list bytes) (res : bytes) : result bytes :=
  match blocks with
  | [] => Ok res
  | block :: rest =>
      if Nat.ltb (length block) 16 then Ok res
      else c <- E block ;; ecb_break rest (res ++ c)
  end.

(** ECB without the length test. *)
Fixpoint ecb_all (blocks : list bytes) (res : bytes) : result bytes :=
  match blocks with
  | [] => Ok res
  | block :: rest => c <- E block ;; ecb_all rest (res ++ c)
  end.

Fixpoint cbc_encrypt (blocks : list bytes) (prev res : bytes)
  : result bytes :=
  match blocks with
  | [] => Ok res
  | chunk :: rest =>
      let block := xor_bytes chunk prev in
      enc <- E block ;;
      cbc_encrypt rest enc (res ++ enc)
  end.

(** CBC decryption with [if len(block) < 16: break]. *)
Fixpoint cbc_decrypt_break (blocks : list bytes) (prev res : bytes)
  : result bytes :=
  match blocks with
  | [] => Ok res
  | block :: rest =>
      if Nat.ltb (length block) 16 then Ok res
      else dec <- E block ;;
           cbc_decrypt_break rest block (res ++ xor_bytes dec prev)
  end.

(** CBC decryption without the length test. *)
Fixpoint cbc_decrypt_all (blocks : list bytes) (prev res : bytes)
  : result bytes :=
  match blocks with
  | [] => Ok res
  | block :: rest =>
      output_block <- E block ;;
      cbc_decrypt_all rest block (res ++ xor_bytes output_block prev)
  end.

Fixpoint ctr_loop (blocks : list bytes) (ctr : Z) (res : bytes)
  : result bytes :=
  match blocks with
  | [] => Ok res
  | block :: rest =>
      ctr_block <- to_bytes16 ctr ;;
      keystream <- E ctr_block ;;
      let chunk_len := length block in
      let chunk := xor_bytes block (firstn chunk_len keystream) in
      ctr_loop rest (ctr + 1) (res ++ chunk)
  end.

Fixpoint ofb_loop (blocks : list bytes) (last_iv res : bytes)
  : result bytes :=
  match blocks with
  | [] => Ok res
  | block :: rest =>
      keystream <- E last_iv ;;
      let chunk_len := length block in
      let chunk := xor_bytes block (firstn chunk_len keystream) in
      ofb_loop rest keystream (res ++ chunk)
  end.

Fixpoint cfb_encrypt (blocks : list bytes) (last_block res : bytes)
  : result bytes :=
  match blocks with
  | [] => Ok res
  | block :: rest =>
      keystream <- E last_block ;;
      let chunk_len := length block in
      let cipher_chunk := xor_bytes block (firstn chunk_len keystream) in
      cfb_encrypt rest
        (if Nat.eqb chunk_len 16 then cipher_chunk else last_block)
        (res ++ cipher_chunk)
  end.

Fixpoint cfb_decrypt (blocks : list bytes) (last_block res : bytes)
  : result bytes :=
  match blocks with
  | [] => Ok res
  | block :: rest =>
      keystream <- E last_block ;;
      let chunk_len := length block in
      let plain_chunk := xor_bytes block (firstn chunk_len keystream) in
      cfb_decrypt rest
        (if Nat.eqb chunk_len 16 then block else last_block)
        (res ++ plain_chunk)
  end.

End Modes.

Definition stream_modes : list string := ["CFB"; "OFB"; "CTR"]%string.
Definition iv_modes : list string := ["CBC"; "CFB"; "OFB"; "CTR"]%string.

Definition zeros16 : bytes := repeat 0 16%nat.

(** [not iv and iv_bytes and mode != 'ECB']: the IV goes in front of the
    ciphertext. *)
Definition carries_iv (iv : string) (iv_bytes : option bytes) (mode : string)
  : bool :=
  negb (str_true iv)
  && match iv_bytes with
     | Some (_ :: _) => true
     | _ => false
     end
  && negb (String.eqb mode "ECB").

Definition iv_or_empty (iv_bytes : option bytes) : bytes :=
  match iv_bytes with
  | Some b => b
  | None => []
  end.

Definition of_option {A : Type} (o : option A) (e : pyerror) : result A :=
  match o with
  | Some a => Ok a
  | None => Raise e
  end.

(** ** class AesPureEncoders *)

Module AesPureEncoders.

Definition _pad (L : PyLib) (data : bytes) (padding : string) : bytes :=
  let padding := lower padding in
  if String.eqb padding "nopadding" then data
  else
    let pad_len := (16 - length data mod 16)%nat in
    if String.eqb padding "pkcs7" then
      data ++ repeat (Z.of_nat pad_len) pad_len
    else if String.eqb padding "zeropadding" then
      data ++ repeat 0 pad_len
    else if String.eqb padding "iso10126" then
      data ++ urandom L (pad_len - 1) ++ [Z.of_nat pad_len]
    else if String.eqb padding "ansix923" then
      data ++ repeat 0 (pad_len - 1) ++ [Z.of_nat pad_len]
    else data ++ repeat (Z.of_nat pad_len) pad_len.

Definition _unpad (data : bytes) (padding : string) : result bytes :=
  let padding := lower padding in
  if String.eqb padding "nopadding" then Ok data
  else if String.eqb padding "zeropadding" then Ok (rstrip0 data)
  else if str_in padding ["pkcs7"; "iso10126"; "ansix923"]%string then
    pad_len <- of_option (last_byte data) IndexError ;;
    if (16 <? pad_len) || (pad_len <? 1) then
      Raise (ValueError InvalidPaddingLength)
    else Ok (cut_tail data pad_len)
  else
    pad_len <- of_option (last_byte data) IndexError ;;
    Ok (cut_tail data pad_len).

(** The key bytes: the hex digits of [key], or the SHA-256 digest of its
    text. *)
Definition key_bytes_of (L : PyLib) (key key_type : string) : result bytes :=
  if String.eqb (lower key_type) "hex" then
    of_option (fromhex L (remove_char space key)) (ValueError BadKeyHex)
  else Ok (sha256 L (utf8_encode L key)).

(** [AesPure(key_bytes, custom_sbox, ...)]. *)
Definition make_cipher (key_bytes : bytes) (custom : option (list pyval))
    (swap_ks swap_dr : bool) : result AesPure.t :=
  AesPure.init key_bytes custom swap_ks swap_dr.

(** A non-empty [iv] argument as bytes. *)
Definition given_iv (L : PyLib) (iv iv_type : string) : result bytes :=
  if String.eqb (lower iv_type) "hex" then
    match fromhex L (remove_char space iv) with
    | Some b =>
        if Nat.eqb (length b) 16 then Ok b
        else Raise (ValueError BadIvHexLength)
    | None => Raise (ValueError BadIvHex)
    end
  else Ok (md5 L (utf8_encode L iv)).

(** The mode dispatch of [encrypt] on the padded bytes. *)
Definition encrypt_modes (aes : AesPure.t) (mode : string) (iv_bytes : bytes)
    (padded : bytes) : result bytes :=
  let E := AesPure.encrypt_block aes in
  let blocks := blocks16 padded in
  if String.eqb mode "ECB" then ecb_break E blocks []
  else if String.eqb mode "CBC" then cbc_encrypt E blocks iv_bytes []
  else if String.eqb mode "CTR" then
    ctr_loop E blocks (int_from_bytes iv_bytes) []
  else if String.eqb mode "OFB" then ofb_loop E blocks iv_bytes []
  else if String.eqb mode "CFB" then cfb_encrypt E blocks iv_bytes []
  else Raise (ValueError UnsupportedMode).

(** [encrypt] up to, and without, the final Base64 step: the bytes handed
    to [base64.b64encode]; [None] is the early [return ""]. *)
Definition encrypt_bytes (L : PyLib) (data key mode iv padding : string)
    (sbox : pyval) (swap_key_schedule swap_data_round : bool)
    (key_type iv_type : string) (data_type : option string)
  : result (option bytes) :=
  if negb (str_true data) then Ok None
  else
    key_bytes <- key_bytes_of L key key_type ;;
    let custom_sbox := _parse_sbox L sbox in
    aes <- make_cipher key_bytes custom_sbox swap_key_schedule
                       swap_data_round ;;
    data_bytes <-
      (if opt_is data_type "hex" then
         of_option (fromhex L (remove_char newline (remove_char space data)))
                   (ValueError BadDataHex)
       else Ok (utf8_encode L data)) ;;
    let mode := upper mode in
    iv_bytes <-
      (if str_in mode iv_modes then
         if negb (str_true iv) then Ok (Some zeros16)
         else b <- given_iv L iv iv_type ;; Ok (Some b)
       else Ok None) ;;
    let is_stream := str_in mode stream_modes in
    let padded :=
      if is_stream && String.eqb (lower padding) "nopadding" then data_bytes
      else _pad L data_bytes padding in
    res <- encrypt_modes aes mode (iv_or_empty iv_bytes) padded ;;
    if carries_iv iv iv_bytes mode then Ok (Some (iv_or_empty iv_bytes ++ res))
    else Ok (Some res).

Definition encrypt (L : PyLib) (data key mode iv padding : string)
    (sbox : pyval) (swap_key_schedule swap_data_round : bool)
    (key_type iv_type : string) (data_type : option string)
  : result string :=
  out <- encrypt_bytes L data key mode iv padding sbox swap_key_schedule
                       swap_data_round key_type iv_type data_type ;;
  match out with
  | None => Ok ""%string
  | Some b => Ok (b64encode L b)
  end.

(** The ciphertext bytes of [decrypt]: hex when [data_type] says so,
    Base64 otherwise. *)
Definition decode_input (L : PyLib) (data : string)
    (data_type : option string) : option bytes :=
  if opt_is data_type "hex" then
    fromhex L (remove_char newline (remove_char space data))
  else b64decode L data.

(** The mode dispatch of [decrypt]. *)
Definition decrypt_modes (aes : AesPure.t) (mode : string) (iv_bytes : bytes)
    (data_content : bytes) : result bytes :=
  let E := AesPure.encrypt_block aes in
  let blocks := blocks16 data_content in
  if String.eqb mode "ECB" then
    ecb_break (AesPure.decrypt_block aes) blocks []
  else if String.eqb mode "CBC" then
    cbc_decrypt_break (AesPure.decrypt_block aes) blocks iv_bytes []
  else if String.eqb mode "CTR" then
    ctr_loop E blocks (int_from_bytes iv_bytes) []
  else if String.eqb mode "OFB" then ofb_loop E blocks iv_bytes []
  else if String.eqb mode "CFB" then cfb_decrypt E blocks iv_bytes []
  else Raise (ValueError UnsupportedMode).

(** [try: res = _unpad(res, padding) except: pass]. *)
Definition try_unpad (res : bytes) (padding : string) : bytes :=
  match _unpad res padding with
  | Ok r => r
  | Raise _ => res
  end.

(** What [decrypt] does before its output step: either an early return of
    a fixed string ([inl]) or the bytes [res] of the mode loop ([inr]),
    not yet unpadded. *)
Definition decrypt_bytes (L : PyLib) (data key mode iv padding : string)
    (sbox : pyval) (swap_key_schedule swap_data_round : bool)
    (key_type iv_type : string) (data_type : option string)
  : result (string + bytes) :=
  if negb (str_true data) then Ok (inl ""%string)
  else
    key_bytes <- key_bytes_of L key key_type ;;
    let custom_sbox := _parse_sbox L sbox in
    aes <- make_cipher key_bytes custom_sbox swap_key_schedule
                       swap_data_round ;;
    match decode_input L data data_type with
    | None =>
        if opt_true data_type then Raise (ValueError InputParseFailed)
        else Ok (inl "[Error] Invalid input data"%string)
    | Some encrypted =>
        let mode := upper mode in
        ivd <-
          (if str_in mode iv_modes then
             if str_true iv then
               b <- given_iv L iv iv_type ;; Ok (b, encrypted)
             else if Nat.ltb (length encrypted) 16 then
               Raise (ValueError TooShortForIV)
             else Ok (firstn 16 encrypted, skipn 16 encrypted)
           else Ok ([], encrypted)) ;;
        res <- decrypt_modes aes mode (fst ivd) (snd ivd) ;;
        Ok (inr res)
    end.

Definition decrypt (L : PyLib) (data key mode iv padding : string)
    (sbox : pyval) (swap_key_schedule swap_data_round : bool)
    (key_type iv_type : string) (data_type : option string)
  : result string :=
  out <- decrypt_bytes L data key mode iv padding sbox swap_key_schedule
                       swap_data_round key_type iv_type data_type ;;
  match out with
  | inl s => Ok s
  | inr res =>
      let is_stream := str_in (upper mode) stream_modes in
      let res := if negb is_stream then try_unpad res padding else res in
      Ok (render L res)
  end.

End AesPureEncoders.

(** ** class SM4Encoders: paddings and entry points *)

Module SM4Encoders.

Definition _pad_data (L : PyLib) (data : bytes) (padding : string) : bytes :=
  let block_size := 16%nat in
  let padding := lower padding in
  let pad_len := (block_size - length data mod block_size)%nat in
  if String.eqb padding "pkcs7" then
    data ++ repeat (Z.of_nat pad_len) pad_len
  else if String.eqb padding "zeropadding" then
    if Nat.eqb pad_len block_size then data else data ++ repeat 0 pad_len
  else if String.eqb padding "iso10126" then
    data ++ urandom L (pad_len - 1) ++ [Z.of_nat pad_len]
  else if String.eqb padding "ansix923" then
    data ++ repeat 0 (pad_len - 1) ++ [Z.of_nat pad_len]
  else if String.eqb padding "nopadding" then data
  else data ++ repeat (Z.of_nat pad_len) pad_len.

Definition _unpad_data (data : bytes) (padding : string) : result bytes :=
  let block_size := 16 in
  let padding := lower padding in
  if String.eqb padding "pkcs7" then
    pad_len <- of_option (last_byte data) IndexError ;;
    if (block_size <? pad_len) || (pad_len <? 1) then
      Raise (ValueError InvalidPaddingLength)
    else if negb (bytes_eqb (last_n data (Z.to_nat pad_len))
                            (repeat pad_len (Z.to_nat pad_len))) then
      Raise (ValueError InvalidPaddingBytes)
    else Ok (cut_tail data pad_len)
  else if String.eqb padding "zeropadding" then Ok (rstrip0 data)
  else if String.eqb padding "iso10126" || String.eqb padding "ansix923" then
    pad_len <- of_option (last_byte data) IndexError ;;
    if (block_size <? pad_len) || (pad_len <? 1) then
      Raise (ValueError InvalidPaddingLength)
    else Ok (cut_tail data pad_len)
  else Ok data.

(** The key bytes: the hex digits of [key], or the MD5 digest of its text. *)
Definition key_bytes_of (L : PyLib) (key key_type : string) : result bytes :=
  if String.eqb (lower key_type) "hex" then
    of_option (fromhex L (remove_char space key)) (ValueError BadKeyHex)
  else Ok (md5 L (utf8_encode L key)).

(** A non-empty [iv] argument as bytes. *)
Definition given_iv (L : PyLib) (iv iv_type : string) : result bytes :=
  if String.eqb (lower iv_type) "hex" then
    match fromhex L (remove_char space iv) with
    | Some b =>
        if Nat.eqb (length b) 16 then Ok b
        else Raise (ValueError BadIvHexLength)
    | None => Raise (ValueError BadIvHex)
    end
  else Ok (md5 L (utf8_encode L iv)).

(** [SM4Encoders(custom_sbox)] and [set_key]. *)
Definition make_cipher (custom : option (list pyval)) (key_bytes : bytes)
    (mode : Z) (swap_ks swap_dr : bool) : result SM4.t :=
  SM4.init custom key_bytes mode swap_ks swap_dr.

Definition encrypt_modes (sm4 : SM4.t) (mode : string) (iv_bytes : bytes)
    (padded : bytes) : result bytes :=
  let E := SM4.one_round sm4 in
  let blocks := blocks16 padded in
  if String.eqb mode "ECB" then ecb_break E blocks []
  else if String.eqb mode "CBC" then cbc_encrypt E blocks iv_bytes []
  else if String.eqb mode "CTR" then
    ctr_loop E blocks (int_from_bytes iv_bytes) []
  else if String.eqb mode "OFB" then ofb_loop E blocks iv_bytes []
  else if String.eqb mode "CFB" then cfb_encrypt E blocks iv_bytes []
  else Raise (ValueError UnsupportedMode).

(** [sm4_encrypt] up to, and without, the final Base64 step. *)
Definition sm4_encrypt_bytes (L : PyLib) (data key mode iv padding : string)
    (sbox : pyval) (key_type iv_type : string)
    (swap_key_schedule swap_data_round swap_endian : bool)
    (data_type : option string) : result (option bytes) :=
  if negb (str_true data) then Ok None
  else
    let swap_key_schedule := if swap_endian then true else swap_key_schedule in
    let swap_data_round := if swap_endian then true else swap_data_round in
    key_bytes <- key_bytes_of L key key_type ;;
    let custom_sbox := _parse_sbox L sbox in
    let mode := upper mode in
    iv_bytes <-
      (if str_in mode iv_modes then
         if negb (str_true iv) then Ok (Some zeros16)
         else b <- given_iv L iv iv_type ;; Ok (Some b)
       else Ok None) ;;
    sm4 <- make_cipher custom_sbox key_bytes 0 swap_key_schedule
                       swap_data_round ;;
    data_bytes <-
      (if opt_is data_type "hex" then
         of_option (fromhex L (remove_char newline (remove_char space data)))
                   (ValueError BadDataHex)
       else Ok (utf8_encode L data)) ;;
    let is_stream := str_in mode stream_modes in
    let padded :=
      if is_stream then
        if String.eqb (lower padding) "nopadding" then data_bytes
        else _pad_data L data_bytes padding
      else _pad_data L data_bytes padding in
    encrypted <- encrypt_modes sm4 mode (iv_or_empty iv_bytes) padded ;;
    if carries_iv iv iv_bytes mode then
      Ok (Some (iv_or_empty iv_bytes ++ encrypted))
    else Ok (Some encrypted).

Definition sm4_encrypt (L : PyLib) (data key mode iv padding : string)
    (sbox : pyval) (key_type iv_type : string)
    (swap_key_schedule swap_data_round swap_endian : bool)
    (data_type : option string) : result string :=
  out <- sm4_encrypt_bytes L data key mode iv padding sbox key_type iv_type
                           swap_key_schedule swap_data_round swap_endian
                           data_type ;;
  match out with
  | None => Ok ""%string
  | Some b => Ok (b64encode L b)
  end.

Definition decode_input (L : PyLib) (data : string)
    (data_type : option string) : option bytes :=
  if opt_is data_type "hex" then
    fromhex L (remove_char newline (remove_char space data))
  else b64decode L data.

(** The mode chain of [sm4_decrypt]; it has no final [else], so an unknown
    mode leaves [decrypted] empty. *)
Definition decrypt_modes (sm4 : SM4.t) (mode : string) (iv_bytes : bytes)
    (data_content : bytes) : result bytes :=
  let E := SM4.one_round sm4 in
  let blocks := blocks16 data_content in
  if String.eqb mode "ECB" then ecb_all E blocks []
  else if String.eqb mode "CBC" then cbc_decrypt_all E blocks iv_bytes []
  else if String.eqb mode "CTR" then
    ctr_loop E blocks (int_from_bytes iv_bytes) []
  else if String.eqb mode "OFB" then ofb_loop E blocks iv_bytes []
  else if String.eqb mode "CFB" then cfb_decrypt E blocks iv_bytes []
  else Ok [].

(** What [sm4_decrypt] does before unpadding: an early return of a fixed
    string ([inl]) or the bytes [decrypted] of the mode loop ([inr]). *)
Definition sm4_decrypt_bytes (L : PyLib) (data key mode iv padding : string)
    (sbox : pyval) (key_type iv_type : string)
    (swap_key_schedule swap_data_round swap_endian : bool)
    (data_type : option string) : result (string + bytes) :=
  if negb (str_true data) then Ok (inl ""%string)
  else
    let swap_key_schedule := if swap_endian then true else swap_key_schedule in
    let swap_data_round := if swap_endian then true else swap_data_round in
    key_bytes <- key_bytes_of L key key_type ;;
    let custom_sbox := _parse_sbox L sbox in
    match decode_input L data data_type with
    | None =>
        if opt_true data_type then Raise (ValueError InputParseFailed)
        else Ok (inl ""%string)
    | Some encrypted_data =>
        let mode := upper mode in
        if str_in mode iv_modes && negb (str_true iv)
           && Nat.ltb (length encrypted_data) 16
        then Ok (inl ""%string)
        else
          ivd <-
            (if str_in mode iv_modes then
               if str_true iv then
                 b <- given_iv L iv iv_type ;; Ok (b, encrypted_data)
               else Ok (firstn 16 encrypted_data, skipn 16 encrypted_data)
             else Ok ([], encrypted_data)) ;;
          sm4 <- make_cipher custom_sbox key_bytes
                   (if str_in mode ["ECB"; "CBC"]%string then 1 else 0)
                   swap_key_schedule swap_data_round ;;
          decrypted <- decrypt_modes sm4 mode (fst ivd) (snd ivd) ;;
          Ok (inr decrypted)
    end.

Definition sm4_decrypt (L : PyLib) (data key mode iv padding : string)
    (sbox : pyval) (key_type iv_type : string)
    (swap_key_schedule swap_data_round swap_endian : bool)
    (data_type : option string) : result string :=
  out <- sm4_decrypt_bytes L data key mode iv padding sbox key_type iv_type
                           swap_key_schedule swap_data_round swap_endian
                           data_type ;;
  match out with
  | inl s => Ok s
  | inr decrypted =>
      let is_stream := str_in (upper mode) stream_modes in
      final_bytes <-
        (if negb is_stream then _unpad_data decrypted padding
         else Ok decrypted) ;;
      Ok (render L final_bytes)
  end.

End SM4Encoders.

(** ** pipeline.py: operations and chains of operations *)

Module pipeline.

(** The [params] dict of an operation, for the keys that the AES and SM4
    operations read.  [None] is a key that is absent; a key that is
    present holds a value of the type the entry point expects. *)
Record params_t := {
  p_key : option string;
  p_mode : option string;
  p_iv : option string;
  p_padding : option string;
  p_sbox : option pyval;
  p_key_type : option string;
  p_iv_type : option string;
  p_data_type : option string;
  p_swap_key_schedule : option bool;
  p_swap_data_round : option bool;
  p_swap_endian : option bool
}.

(** The empty dict. *)
Definition no_params : params_t :=
  {| p_key := None; p_mode := None; p_iv := None; p_padding := None;
     p_sbox := None; p_key_type := None; p_iv_type := None;
     p_data_type := None; p_swap_key_schedule := None;
     p_swap_data_round := None; p_swap_endian := None |}.

(** [params.get(k, default)]. *)
Definition get {A : Type} (v : option A) (default : A) : A :=
  match v with
  | Some a => a
  | None => default
  end.

Record Operation := {
  name : string;
  func : string -> params_t -> result string;
  params : params_t
}.

(** [Operation(name, func, params)], with [params or {}]. *)
Definition Operation_init (name : string)
    (func : string -> params_t -> result string)
    (params : option params_t) : Operation :=
  {| name := name; func := func; params := get params no_params |}.

Definition apply (self : Operation) (data : string) : result string :=
  func self data (params self).

(** [l.pop(i)] and [l.insert(i, x)] for [0 <= i]: what is left of the list,
    and the list with [x] put before position [i], or at the end when the
    list is shorter. *)
Definition pop {A : Type} (l : list A) (i : nat) : list A :=
  firstn i l ++ skipn (S i) l.
Definition insert {A : Type} (l : list A) (i : nat) (x : A) : list A :=
  firstn i l ++ x :: skipn i l.

Module Pipeline.

Definition t := list Operation.

Definition init : t := [].

Definition add_operation (self : t) (operation : Operation) : t :=
  self ++ [operation].

Definition remove_operation (self : t) (index : Z) : t :=
  if (0 <=? index) && (index <? Z.of_nat (length self)) then
    pop self (Z.to_nat index)
  else self.

Definition move_operation (self : t) (old_index new_index : Z) : t :=
  if (0 <=? old_index) && (old_index <? Z.of_nat (length self))
     && ((0 <=? new_index) && (new_index <? Z.of_nat (length self))) then
    match nth_error self (Z.to_nat old_index) with
    | Some op => insert (pop self (Z.to_nat old_index)) (Z.to_nat new_index) op
    | None => self
    end
  else self.

(** [for op in self.operations: data = op.apply(data)]; an exception of an
    operation ends the run. *)
Fixpoint run (self : t) (data : string) : result string :=
  match self with
  | [] => Ok data
  | op :: rest => d <- apply op data ;; run rest d
  end.

End Pipeline.

(** The registered AES and SM4 operations. *)
Definition aes_encrypt (L : PyLib) (data : string) (params : params_t)
  : result string :=
  let key := get (p_key params) ""%string in
  let mode := get (p_mode params) "CBC"%string in
  let iv := get (p_iv params) ""%string in
  let padding := get (p_padding params) "pkcs7"%string in
  let sbox := get (p_sbox params) PyNone in
  let val_key_type := get (p_key_type params) "utf-8"%string in
  let val_iv_type := get (p_iv_type params) "utf-8"%string in
  let val_data_type := p_data_type params in
  let val_swap_key := get (p_swap_key_schedule params) false in
  let val_swap_data := get (p_swap_data_round params) false in
  AesPureEncoders.encrypt L data key mode iv padding sbox val_swap_key
    val_swap_data val_key_type val_iv_type val_data_type.

Definition aes_decrypt (L : PyLib) (data : string) (params : params_t)
  : result string :=
  let key := get (p_key params) ""%string in
  let mode := get (p_mode params) "CBC"%string in
  let iv := get (p_iv params) ""%string in
  let padding := get (p_padding params) "pkcs7"%string in
  let sbox := get (p_sbox params) PyNone in
  let val_key_type := get (p_key_type params) "utf-8"%string in
  let val_iv_type := get (p_iv_type params) "utf-8"%string in
  let val_data_type := p_data_type params in
  let val_swap_key := get (p_swap_key_schedule params) false in
  let val_swap_data := get (p_swap_data_round params) false in
  AesPureEncoders.decrypt L data key mode iv padding sbox val_swap_key
    val_swap_data val_key_type val_iv_type val_data_type.

Definition sm4_encrypt (L : PyLib) (data : string) (params : params_t)
  : result string :=
  let key := get (p_key params) ""%string in
  let mode := get (p_mode params) "ECB"%string in
  let iv := get (p_iv params) ""%string in
  let padding := get (p_padding params) "pkcs7"%string in
  let sbox := get (p_sbox params) PyNone in
  let val_key_type := get (p_key_type params) "utf-8"%string in
  let val_iv_type := get (p_iv_type params) "utf-8"%string in
  let val_swap_endian := get (p_swap_endian params) false in
  let val_swap_key := get (p_swap_key_schedule params) false in
  let val_swap_data := get (p_swap_data_round params) false in
  let val_data_type := p_data_type params in
  SM4Encoders.sm4_encrypt L data key mode iv padding sbox val_key_type
    val_iv_type val_swap_key val_swap_data val_swap_endian val_data_type.

Definition sm4_decrypt (L : PyLib) (data : string) (params : params_t)
  : result string :=
  let key := get (p_key params) ""%string in
  let mode := get (p_mode params) "ECB"%string in
  let iv := get (p_iv params) ""%string in
  let padding := get (p_padding params) "pkcs7"%string in
  let sbox := get (p_sbox params) PyNone in
  let val_key_type := get (p_key_type params) "utf-8"%string in
  let val_iv_type := get (p_iv_type params) "utf-8"%string in
  let val_swap_endian := get (p_swap_endian params) false in
  let val_swap_key := get (p_swap_key_schedule params) false in
  let val_swap_data := get (p_swap_data_round params) false in
  let val_data_type := p_data_type params in
  SM4Encoders.sm4_decrypt L data key mode iv padding sbox val_key_type
    val_iv_type val_swap_key val_swap_data val_swap_endian val_data_type.

End pipeline.

(** ** Well-formedness predicates used by the statements *)

Fixpoint nodupb (l : list Z) : bool :=
  match l with
  | [] => true
  | a :: r => negb (existsb (Z.eqb a) r) && nodupb r
  end.

(** A substitution table whose entries are bytes. *)
Definition sbox_bytesb (s : list Z) : bool :=
  Nat.eqb (length s) 256 && is_bytesb s.

(** A substitution table that is a permutation of 0..255. *)
Definition sbox_permb (s : list Z) : bool :=
  sbox_bytesb s && nodupb s.

(** A 16-byte block. *)
Definition is_blockb (b : bytes) : bool :=
  Nat.eqb (length b) 16 && is_bytesb b.

(** A 4x4 state of bytes. *)
Definition state_okb (s : AesPure.state) : bool :=
  Nat.eqb (length s) 4
  && forallb (fun r => Nat.eqb (length r) 4 && is_bytesb r) s.

(** A round key whose entries are bytes. *)
Definition rk_bytes (k : AesPure.state) : Prop :=
  forall j i, is_byteb (AesPure.get2 k j i) = true.

(** Key-schedule words whose entries are bytes. *)
Definition words_bytes (ws : list (list Z)) : Prop :=
  Forall (fun w => is_bytesb w = true) ws.

(** A cipher instance as [__init__] leaves it when the table is a
    permutation: the inverse table belongs to the table and the round keys
    hold bytes. *)
Definition aes_ok (aes : AesPure.t) : Prop :=
  sbox_permb (AesPure.sbox aes) = true
  /\ AesPure.rsbox aes = AesPure.inverse_table (AesPure.sbox aes)
  /\ forall r, rk_bytes (nth r (AesPure.round_keys aes) []).

(** One SM4 round with the round key given: the body of [round_step]. *)
Definition sm4_round (sb : list Z) (swapped : bool) (X : list Z) (k : Z)
  : list Z :=
  let temp := Z.lxor (Z.lxor (Z.lxor (nth 1 X 0) (nth 2 X 0)) (nth 3 X 0)) k in
  let temp := SM4._l (Sm4Ints.apply_tau sb swapped temp) in
  [nth 1 X 0; nth 2 X 0; nth 3 X 0; Z.lxor (nth 0 X 0) temp].

(** Four 32-bit words. *)
Definition words4b (X : list Z) : bool :=
  Nat.eqb (length X) 4 && forallb SM4.is_u32b X.

(** The output order of [one_round]: [X[3], X[2], X[1], X[0]]. *)
Definition rev4 (X : list Z) : list Z :=
  [nth 3 X 0; nth 2 X 0; nth 1 X 0; nth 0 X 0].

(** The integers of a table whose elements are all integers. *)
Fixpoint table_ints (l : list pyval) : option (list Z) :=
  match l with
  | [] => Some []
  | v :: r =>
      match as_int v with
      | Ok z => option_map (cons z) (table_ints r)
      | Raise _ => None
      end
  end.

(** An SM4 instance after [set_key] on a table of bytes, in closed form
    and as the code has it. *)
Definition ints_ok (c : Sm4Ints.t) : Prop :=
  is_bytesb (Sm4Ints.sbox c) = true /\ length (Sm4Ints.sk c) = 32%nat.

(** The instance that [set_key] returns for a table [l] whose integers are
    [tbl] (lemma [set_key_ints]). *)
Definition sm4_built (l : list pyval) (tbl : list Z) (key : bytes) (mode : Z)
    (swap_ks swap_dr : bool) : SM4.t :=
  SM4.mk l (Sm4Ints.sk (Sm4Ints.set_key tbl key mode swap_ks swap_dr)) swap_dr.

(** The element at [i] is an integer that names a place in a list of 256
    elements, as the loop of [AesPure.__init__] needs it. *)
Definition index_entry (t : list pyval) (i : nat) : bool :=
  match as_int (nth i t PyNone) with
  | Ok z => in_range 256 z
  | Raise _ => false
  end.

(** What that loop raises at an element that is no such integer. *)
Definition entry_error (t : list pyval) (i : nat) : pyerror :=
  match as_int (nth i t PyNone) with
  | Ok _ => IndexError
  | Raise e => e
  end.

(** The table that a constructor call uses. *)
Definition table_of (standard : list Z) (custom : option (list pyval))
  : list pyval :=
  select_sbox (map PyInt standard) custom.

Definition sm4_ok (c : SM4.t) : Prop :=
  (exists tbl, table_ints (SM4.sbox c) = Some tbl
               /\ length tbl = 256%nat /\ is_bytesb tbl = true)
  /\ length (SM4.sk c) = 32%nat.

(** The shape of [blocks16 data]: full 16-byte chunks, the last one of 1 to
    16 bytes. *)
Inductive chunked : list bytes -> Prop :=
| chunked_nil : chunked []
| chunked_last b : (1 <= length b <= 16)%nat -> chunked [b]
| chunked_cons b b' r :
    length b = 16%nat -> chunked (b' :: r) -> chunked (b :: b' :: r).

(** Chunk by chunk the same lengths. *)
Definition same_lengths (xs ys : list bytes) : Prop :=
  Forall2 (fun x y => length x = length y) xs ys.

Definition all_blocks (bs : list bytes) : Prop :=
  Forall (fun b => is_blockb b = true) bs.

Definition all_bytes (bs : list bytes) : Prop :=
  Forall (fun b => is_bytesb b = true) bs.

(** The contract of the standard library that the statements rely on. *)
Record lib_ok (L : PyLib) : Prop := {
  sha256_bytes : forall x, is_bytesb (sha256 L x) = true;
  md5_block : forall x, is_blockb (md5 L x) = true;
  utf8_bytes : forall s, is_bytesb (utf8_encode L s) = true;
  utf8_roundtrip : forall s, utf8_decode L (utf8_encode L s) = Some s;
  utf8_nonempty : forall s, utf8_encode L s = [] -> s = ""%string;
  b64_roundtrip :
    forall b, is_bytesb b = true -> b64decode L (b64encode L b) = Some b;
  b64_nonempty : forall b, b64encode L b = ""%string -> b = [];
  fromhex_bytes : forall s b, fromhex L s = Some b -> is_bytesb b = true;
  urandom_bytes :
    forall n, length (urandom L n) = n /\ is_bytesb (urandom L n) = true
}.

(** The paddings that [_unpad] takes off again exactly. *)
Definition exact_padding (padding : string) : bool :=
  str_in (lower padding) ["pkcs7"; "ansix923"]%string.

(** The five modes, named in upper case. *)
Definition supported_mode (mode : string) : bool :=
  str_in mode ["ECB"; "CBC"; "CFB"; "OFB"; "CTR"]%string.

(** In CTR mode the counter stays below 2^128 for every chunk of the data. *)
Definition ctr_in_range (mode : string) (iv data : bytes) : Prop :=
  mode = "CTR"%string ->
  int_from_bytes iv + Z.of_nat (length (blocks16 data)) <= 2 ^ 128.

(** The custom table of a call, if any, is one the cipher can use. *)
Definition sbox_arg_ok (L : PyLib) (sbox : pyval) (ok : list Z -> bool)
  : Prop :=
  match _parse_sbox L sbox with
  | None => True
  | Some l => exists tbl, table_ints l = Some tbl /\ ok tbl = true
  end.

(** The IV a call works with: sixteen zero bytes when [iv] is empty. *)
Definition iv_of (L : PyLib) (iv iv_type : string) : result bytes :=
  if str_true iv then AesPureEncoders.given_iv L iv iv_type else Ok zeros16.

(** The padding choices under which decryption takes the padding off
    again: an exact padding or block-aligned data without padding in ECB
    and CBC, no padding in the stream modes. *)
Definition roundtrip_padding (mode padding : string) (data : bytes) : Prop :=
  if str_in (upper mode) stream_modes then
    lower padding = "nopadding"%string
  else
    exact_padding padding = true
    \/ (lower padding = "nopadding"%string /\ (length data mod 16 = 0)%nat).

(** The bytes an encryption hands to Base64: the mode output [res], behind
    the IV [ivb] when the caller gave none and the mode uses one. *)
Definition wire (iv mode : string) (ivb res : bytes) : bytes :=
  if carries_iv iv (if str_in mode iv_modes then Some ivb else None) mode
  then ivb ++ res else res.

(** A 4x4 state, whatever its entries. *)
Definition shape44b (s : AesPure.state) : bool :=
  Nat.eqb (length s) 4 && forallb (fun r => Nat.eqb (length r) 4) s.

(** The last byte is not a padding length: it lies outside 1..16. *)
Definition bad_length_byte (res : bytes) : Prop :=
  exists p, last_byte res = Some p /\ (16 < p \/ p < 1).

(** The last byte is a padding length, but the bytes it covers are not all
    equal to it. *)
Definition bad_filler (res : bytes) : Prop :=
  exists p, last_byte res = Some p /\ 1 <= p <= 16
            /\ bytes_eqb (last_n res (Z.to_nat p)) (repeat p (Z.to_nat p))
               = false.

(** The paddings whose removal checks the length byte. *)
Definition length_checked (padding : string) : bool :=
  str_in (lower padding) ["pkcs7"; "iso10126"; "ansix923"]%string.

(** The three ways [_parse_sbox] comes to return the table [t]: the
    argument is the list [t] itself; it is a text that [json.loads] reads
    as the list [t]; or it is a text that [json.loads] does not read as a
    list of 256 elements and that, spaces and newlines removed,
    [unhexlify] decodes to the bytes of [t]. *)
Definition sbox_source (L : PyLib) (v : pyval) (t : list pyval) : Prop :=
  length t = 256%nat
  /\ (v = PyList t
      \/ (exists s, v = PyStr s /\ str_true s = true
                    /\ json_loads L s = Some (PyList t))
      \/ (exists s b, v = PyStr s /\ str_true s = true
                      /\ (forall l, json_loads L s = Some (PyList l) ->
                                    length l <> 256%nat)
                      /\ unhexlify L (remove_char newline
                                        (remove_char space s)) = Some b
                      /\ t = map PyInt b)).

(** The bytes a stream mode (CFB, OFB, CTR) works on: the data itself under
    nopadding, the padded data under every other padding. *)
Definition aes_stream_input (L : PyLib) (padding : string) (data : bytes)
  : bytes :=
  if String.eqb (lower padding) "nopadding" then data
  else AesPureEncoders._pad L data padding.

Definition sm4_stream_input (L : PyLib) (padding : string) (data : bytes)
  : bytes :=
  if String.eqb (lower padding) "nopadding" then data
  else SM4Encoders._pad_data L data padding.


(** The mode choices with keystream cancellation: OFB, and CFB as long as
    the data fit in one block. *)
Definition cancelling (mode : string) (data : bytes) : Prop :=
  mode = "OFB"%string
  \/ (mode = "CFB"%string /\ (length data <= 16)%nat).

(** The bytes the mode loop of [encrypt] works on: the data themselves in a
    stream mode under nopadding, the padded data otherwise. *)
Definition aes_mode_input (L : PyLib) (mode padding : string) (data : bytes)
  : bytes :=
  if str_in (upper mode) stream_modes
     && String.eqb (lower padding) "nopadding"
  then data else AesPureEncoders._pad L data padding.

Definition sm4_mode_input (L : PyLib) (mode padding : string) (data : bytes)
  : bytes :=
  if str_in (upper mode) stream_modes then
    if String.eqb (lower padding) "nopadding" then data
    else SM4Encoders._pad_data L data padding
  else SM4Encoders._pad_data L data padding.

(** The IV handed to the mode loop: none (the empty bytes) in ECB. *)
Definition iv_for (mode : string) (ivb : bytes) : bytes :=
  if str_in (upper mode) iv_modes then ivb else [].


(** ** A reference instance of the library

    The functions below follow the CPython behaviour of the library calls
    on the values this model can hold; they serve to run the entry points
    on concrete inputs.  The general theorems do not depend on them: they
    hold for every [PyLib] that meets [lib_ok]. *)

Module RefLib.

Definition mask32 : Z := 0xffffffff.
Definition add32 (x y : Z) : Z := (x + y) mod 0x100000000.
Definition not32 (x : Z) : Z := Z.lxor x mask32.
Definition rotl32 (x n : Z) : Z :=
  Z.lor (Z.land (Z.shiftl x n) mask32) (Z.shiftr x (32 - n)).
Definition rotr32 (x n : Z) : Z := rotl32 x (32 - n).

(** Big- and little-endian bytes of a word. *)
Definition be_bytes (n : nat) (w : Z) : bytes :=
  map (fun i => (w / 256 ^ Z.of_nat (n - 1 - i)) mod 256) (seq 0 n).
Definition le_bytes (n : nat) (w : Z) : bytes :=
  map (fun i => (w / 256 ^ Z.of_nat i) mod 256) (seq 0 n).
Definition be_word (b : bytes) : Z :=
  fold_left (fun acc x => acc * 256 + x) b 0.
Definition le_word (b : bytes) : Z := be_word (rev b).

(** The words of a 64-byte block. *)
Definition block_words (word : bytes -> Z) (block : bytes) : list Z :=
  map (fun i => word (slice block (4 * i) (4 * i + 4))) (seq 0 16).

(** The 64-byte blocks of a padded message. *)
Fixpoint blocks64 (fuel : nat) (data : bytes) : list bytes :=
  match fuel with
  | O => []
  | S fuel' =>
      match data with
      | [] => []
      | _ :: _ => firstn 64 data :: blocks64 fuel' (skipn 64 data)
      end
  end.

(** Merkle-Damgard padding: 0x80, zeros up to 56 mod 64, the bit length on
    eight bytes. *)
Definition md_pad (len_bytes : Z -> bytes) (msg : bytes) : bytes :=
  let n := length msg in
  let zeros := ((64 - (n + 9) mod 64) mod 64)%nat in
  msg ++ [0x80] ++ repeat 0 zeros ++ len_bytes (8 * Z.of_nat n).

(** *** SHA-256 (FIPS 180-4) *)

(** The primes below [n], by trial division. *)
Definition is_prime (n : nat) : bool :=
  Nat.ltb 1 n
  && forallb (fun d => negb (Nat.eqb (n mod d) 0)) (seq 2 (n - 2)).

Definition primes_below (n : nat) : list Z :=
  map Z.of_nat (filter is_prime (seq 0 n)).

(** The largest [r] below [2^bits] with [r^3 <= n]. *)
Fixpoint cube_root (bits : nat) (n r : Z) : Z :=
  match bits with
  | O => r
  | S b =>
      let r' := r + 2 ^ Z.of_nat b in
      cube_root b n (if r' * r' * r' <=? n then r' else r)
  end.

(** The round constants: the first 32 bits of the fractional parts of the
    cube roots of the first 64 primes. *)
Definition SHA256_K : list Z :=
  Eval vm_compute in
    map (fun p => cube_root 36 (p * 2 ^ 96) 0 mod 2 ^ 32) (primes_below 312).

(** The initial hash value: the first 32 bits of the fractional parts of
    the square roots of the first 8 primes. *)
Definition SHA256_H0 : list Z :=
  Eval vm_compute in
    map (fun p => Z.sqrt (p * 2 ^ 64) mod 2 ^ 32) (primes_below 20).

Definition sha_schedule (block : bytes) : list Z :=
  fold_left
    (fun W t =>
       let w2 := nth (t - 2) W 0 in
       let w15 := nth (t - 15) W 0 in
       let s0 := Z.lxor (Z.lxor (rotr32 w15 7) (rotr32 w15 18))
                        (Z.shiftr w15 3) in
       let s1 := Z.lxor (Z.lxor (rotr32 w2 17) (rotr32 w2 19))
                        (Z.shiftr w2 10) in
       W ++ [add32 (add32 (add32 s1 (nth (t - 7) W 0)) s0) (nth (t - 16) W 0)])
    (seq 16 48) (block_words be_word block).

Definition sha_round (W : list Z) (st : list Z) (t : nat) : list Z :=
  let a := nth 0 st 0 in let b := nth 1 st 0 in
  let c := nth 2 st 0 in let d := nth 3 st 0 in
  let e := nth 4 st 0 in let f := nth 5 st 0 in
  let g := nth 6 st 0 in let h := nth 7 st 0 in
  let S1 := Z.lxor (Z.lxor (rotr32 e 6) (rotr32 e 11)) (rotr32 e 25) in
  let ch := Z.lxor (Z.land e f) (Z.land (not32 e) g) in
  let t1 := add32 (add32 (add32 (add32 h S1) ch) (nth t SHA256_K 0))
                  (nth t W 0) in
  let S0 := Z.lxor (Z.lxor (rotr32 a 2) (rotr32 a 13)) (rotr32 a 22) in
  let maj := Z.lxor (Z.lxor (Z.land a b) (Z.land a c)) (Z.land b c) in
  let t2 := add32 S0 maj in
  [add32 t1 t2; a; b; c; add32 d t1; e; f; g].

Definition sha_block (H : list Z) (block : bytes) : list Z :=
  let W := sha_schedule block in
  let st := fold_left (sha_round W) (seq 0 64) H in
  map (fun p => add32 (fst p) (snd p)) (combine H st).

Definition sha256 (msg : bytes) : bytes :=
  let padded := md_pad (be_bytes 8) msg in
  let H := fold_left sha_block (blocks64 (length padded) padded) SHA256_H0 in
  flat_map (be_bytes 4) H.

(** *** MD5 (RFC 1321) *)

Definition MD5_K : list Z := [
    0xd76aa478; 0xe8c7b756; 0x242070db; 0xc1bdceee;
    0xf57c0faf; 0x4787c62a; 0xa8304613; 0xfd469501;
    0x698098d8; 0x8b44f7af; 0xffff5bb1; 0x895cd7be;
    0x6b901122; 0xfd987193; 0xa679438e; 0x49b40821;
    0xf61e2562; 0xc040b340; 0x265e5a51; 0xe9b6c7aa;
    0xd62f105d; 0x02441453; 0xd8a1e681; 0xe7d3fbc8;
    0x21e1cde6; 0xc33707d6; 0xf4d50d87; 0x455a14ed;
    0xa9e3e905; 0xfcefa3f8; 0x676f02d9; 0x8d2a4c8a;
    0xfffa3942; 0x8771f681; 0x6d9d6122; 0xfde5380c;
    0xa4beea44; 0x4bdecfa9; 0xf6bb4b60; 0xbebfbc70;
    0x289b7ec6; 0xeaa127fa; 0xd4ef3085; 0x04881d05;
    0xd9d4d039; 0xe6db99e5; 0x1fa27cf8; 0xc4ac5665;
    0xf4292244; 0x432aff97; 0xab9423a7; 0xfc93a039;
    0x655b59c3; 0x8f0ccc92; 0xffeff47d; 0x85845dd1;
    0x6fa87e4f; 0xfe2ce6e0; 0xa3014314; 0x4e0811a1;
    0xf7537e82; 0xbd3af235; 0x2ad7d2bb; 0xeb86d391 ].

Definition MD5_S : list Z :=
  [7; 12; 17; 22; 7; 12; 17; 22; 7; 12; 17; 22; 7; 12; 17; 22;
   5; 9; 14; 20; 5; 9; 14; 20; 5; 9; 14; 20; 5; 9; 14; 20;
   4; 11; 16; 23; 4; 11; 16; 23; 4; 11; 16; 23; 4; 11; 16; 23;
   6; 10; 15; 21; 6; 10; 15; 21; 6; 10; 15; 21; 6; 10; 15; 21].

Definition MD5_INIT : list Z :=
  [0x67452301; 0xefcdab89; 0x98badcfe; 0x10325476].

Definition md5_round (M : list Z) (st : list Z) (i : nat) : list Z :=
  let A := nth 0 st 0 in let B := nth 1 st 0 in
  let C := nth 2 st 0 in let D := nth 3 st 0 in
  let '(F, g) :=
    if Nat.ltb i 16 then
      (Z.lor (Z.land B C) (Z.land (not32 B) D), i)
    else if Nat.ltb i 32 then
      (Z.lor (Z.land D B) (Z.land (not32 D) C), ((5 * i + 1) mod 16)%nat)
    else if Nat.ltb i 48 then
      (Z.lxor (Z.lxor B C) D, ((3 * i + 5) mod 16)%nat)
    else (Z.lxor C (Z.lor B (not32 D)), ((7 * i) mod 16)%nat) in
  let F := add32 (add32 (add32 F A) (nth i MD5_K 0)) (nth g M 0) in
  [D; add32 B (rotl32 F (nth i MD5_S 0)); B; C].

Definition md5_block (H : list Z) (block : bytes) : list Z :=
  let M := block_words le_word block in
  let st := fold_left (md5_round M) (seq 0 64) H in
  map (fun p => add32 (fst p) (snd p)) (combine H st).

Definition md5 (msg : bytes) : bytes :=
  let padded := md_pad (le_bytes 8) msg in
  let H := fold_left md5_block (blocks64 (length padded) padded) MD5_INIT in
  flat_map (le_bytes 4) H.

(** *** Characters *)

Definition code (c : ascii) : Z := Z.of_nat (nat_of_ascii c).
Definition chr (z : Z) : ascii := ascii_of_nat (Z.to_nat z).

Definition between (lo hi x : Z) : bool := (lo <=? x) && (x <=? hi).

(** *** Hex: [bytes.fromhex], [binascii.unhexlify], [bytes.hex] *)

Definition hex_val (c : ascii) : option Z :=
  let n := code c in
  if between 48 57 n then Some (n - 48)
  else if between 97 102 n then Some (n - 87)
  else if between 65 70 n then Some (n - 55)
  else None.

Definition hex_digit (n : Z) : ascii :=
  if n <? 10 then chr (n + 48) else chr (n + 87).

(** ASCII whitespace: space, tab, newline, vertical tab, form feed,
    carriage return. *)
Definition is_space (c : ascii) : bool :=
  let n := code c in (n =? 32) || between 9 13 n.

(** [bytes.fromhex]: pairs of hex digits, whitespace allowed between
    pairs. *)
Fixpoint fromhex (s : string) : option bytes :=
  match s with
  | EmptyString => Some []
  | String c r =>
      if is_space c then fromhex r
      else
        match hex_val c, r with
        | Some h, String c2 r2 =>
            match hex_val c2 with
            | Some l => option_map (cons (h * 16 + l)) (fromhex r2)
            | None => None
            end
        | _, _ => None
        end
  end.

(** [binascii.unhexlify]: pairs of hex digits and nothing else. *)
Fixpoint unhexlify (s : string) : option bytes :=
  match s with
  | EmptyString => Some []
  | String c r =>
      match hex_val c, r with
      | Some h, String c2 r2 =>
          match hex_val c2 with
          | Some l => option_map (cons (h * 16 + l)) (unhexlify r2)
          | None => None
          end
      | _, _ => None
      end
  end.

Fixpoint bytes_hex (b : bytes) : string :=
  match b with
  | [] => EmptyString
  | x :: r =>
      String (hex_digit (x / 16)) (String (hex_digit (x mod 16)) (bytes_hex r))
  end.

(** *** Base64 *)

Definition b64_alphabet : list ascii :=
  list_ascii_of_string
    "ABCDEFGHIJKLMNOPQRSTUVWXYZabcdefghijklmnopqrstuvwxyz0123456789+/".

Definition b64_char (n : Z) : ascii :=
  nth (Z.to_nat n) b64_alphabet (ascii_of_nat 65).

Definition b64_val (c : ascii) : option Z :=
  let n := code c in
  if between 65 90 n then Some (n - 65)
  else if between 97 122 n then Some (n - 71)
  else if between 48 57 n then Some (n + 4)
  else if n =? 43 then Some 62
  else if n =? 47 then Some 63
  else None.

Definition pad_char : ascii := ascii_of_nat 61.

(** [base64.b64encode(b).decode('utf-8')]. *)
Fixpoint b64encode (b : bytes) : string :=
  match b with
  | [] => EmptyString
  | x :: r =>
      match r with
      | [] =>
          String (b64_char (x / 4))
            (String (b64_char (x mod 4 * 16))
               (String pad_char (String pad_char EmptyString)))
      | y :: r' =>
          match r' with
          | [] =>
              String (b64_char (x / 4))
                (String (b64_char (x mod 4 * 16 + y / 16))
                   (String (b64_char (y mod 16 * 4))
                      (String pad_char EmptyString)))
          | z :: r'' =>
              String (b64_char (x / 4))
                (String (b64_char (x mod 4 * 16 + y / 16))
                   (String (b64_char (y mod 16 * 4 + z / 64))
                      (String (b64_char (z mod 64)) (b64encode r''))))
          end
      end
  end.

(** The loop of [binascii.a2b_base64] in its default, lenient mode:
    characters outside the alphabet are skipped, a pad character ends the
    input once the pending group is complete, and leftover characters of an
    incomplete group are an error. *)
Fixpoint b64_loop (s : string) (quad_pos : nat) (leftchar : Z) (pads : nat)
    (out : bytes) : option bytes :=
  match s with
  | EmptyString => if Nat.eqb quad_pos 0 then Some out else None
  | String ch r =>
      if Ascii.eqb ch pad_char then
        if Nat.leb 2 quad_pos then
          if Nat.leb 4 (quad_pos + (pads + 1)) then Some out
          else b64_loop r quad_pos leftchar (pads + 1) out
        else b64_loop r quad_pos leftchar pads out
      else
        match b64_val ch with
        | None => b64_loop r quad_pos leftchar pads out
        | Some v =>
            match quad_pos with
            | 0%nat => b64_loop r 1 v 0 out
            | 1%nat =>
                b64_loop r 2 (v mod 16) 0 (out ++ [leftchar * 4 + v / 16])
            | 2%nat =>
                b64_loop r 3 (v mod 4) 0 (out ++ [leftchar * 16 + v / 4])
            | _ => b64_loop r 0 0 0 (out ++ [leftchar * 64 + v])
            end
        end
  end.

Definition is_ascii_str (s : string) : bool :=
  all_chars (fun c => code c <? 128) s.

(** [base64.b64decode(s)] on a [str]: the text must be ASCII. *)
Definition b64decode (s : string) : option bytes :=
  if is_ascii_str s then b64_loop s 0 0 0 [] else None.

(** *** UTF-8 on text of code points below 256 *)

Fixpoint utf8_encode (s : string) : bytes :=
  match s with
  | EmptyString => []
  | String c r =>
      let n := code c in
      if n <? 128 then n :: utf8_encode r
      else (192 + n / 64) :: (128 + n mod 64) :: utf8_encode r
  end.

(** The strict decoder, on byte strings whose text stays below U+0100;
    other byte strings, valid UTF-8 or not, give [None] here. *)
Fixpoint utf8_decode (b : bytes) : option string :=
  match b with
  | [] => Some EmptyString
  | x :: r =>
      if between 0 127 x then option_map (String (chr x)) (utf8_decode r)
      else if between 194 195 x then
        match r with
        | y :: r' =>
            if between 128 191 y then
              option_map (String (chr ((x - 192) * 64 + (y - 128))))
                         (utf8_decode r')
            else None
        | [] => None
        end
      else None
  end.

(** *** [repr] of a [str] *)

Fixpoint has_char (c : ascii) (s : string) : bool :=
  match s with
  | EmptyString => false
  | String a r => Ascii.eqb a c || has_char c r
  end.

Definition hex_escape (n : Z) : string :=
  String (ascii_of_nat 92)
    (String (ascii_of_nat 120)
       (String (hex_digit (n / 16)) (String (hex_digit (n mod 16)) EmptyString))).

Definition escape2 (c : ascii) : string :=
  String (ascii_of_nat 92) (String c EmptyString).

(** [str.isprintable] below U+0100. *)
Definition printable_char (n : Z) : bool :=
  between 32 126 n || (between 161 255 n && negb (n =? 173)).

Definition repr_char (quote : ascii) (c : ascii) : string :=
  let n := code c in
  if Ascii.eqb c quote || (n =? 92) then escape2 c
  else if n =? 9 then escape2 (ascii_of_nat 116)
  else if n =? 10 then escape2 (ascii_of_nat 110)
  else if n =? 13 then escape2 (ascii_of_nat 114)
  else if printable_char n then String c EmptyString
  else hex_escape n.

Fixpoint repr_body (quote : ascii) (s : string) : string :=
  match s with
  | EmptyString => String quote EmptyString
  | String c r => (repr_char quote c ++ repr_body quote r)%string
  end.

Definition py_repr (s : string) : string :=
  let single := ascii_of_nat 39 in
  let double := ascii_of_nat 34 in
  let quote := if has_char single s && negb (has_char double s) then double
               else single in
  String quote (repr_body quote s).

(** *** [json.loads] on arrays of integers

    The reader covers the JSON texts an S-box can be written as: an array
    of integers, with optional whitespace.  Other JSON texts are not read
    here ([None]). *)

Definition is_json_space (c : ascii) : bool :=
  let n := code c in (n =? 32) || (n =? 9) || (n =? 10) || (n =? 13).

Fixpoint skip_ws (s : string) : string :=
  match s with
  | EmptyString => EmptyString
  | String c r => if is_json_space c then skip_ws r else s
  end.

Definition is_digit (c : ascii) : bool := between 48 57 (code c).

(** The digits at the head of [s], as a number, and the rest. *)
Fixpoint read_digits (s : string) (acc : Z) : Z * string :=
  match s with
  | EmptyString => (acc, EmptyString)
  | String c r =>
      if is_digit c then read_digits r (acc * 10 + (code c - 48))
      else (acc, s)
  end.

(** A JSON integer: an optional minus, then [0] or a number without a
    leading zero, not followed by a fraction or an exponent. *)
Definition read_int (s : string) : option (Z * string) :=
  let '(neg, s1) :=
    match s with
    | String c r => if code c =? 45 then (true, r) else (false, s)
    | EmptyString => (false, s)
    end in
  match s1 with
  | String c r =>
      if is_digit c then
        let '(n, rest) :=
          if code c =? 48 then (0, r) else read_digits s1 0 in
        match rest with
        | String d _ =>
            if is_digit d || (code d =? 46) || (code d =? 101)
               || (code d =? 69)
            then None
            else Some (if neg then - n else n, rest)
        | EmptyString => Some (if neg then - n else n, rest)
        end
      else None
  | EmptyString => None
  end.

(** The elements after the first one: [, int]* ws* ]. *)
Fixpoint read_items (fuel : nat) (s : string) (acc : list pyval)
  : option (list pyval * string) :=
  match fuel with
  | O => None
  | S fuel' =>
      match skip_ws s with
      | String c r =>
          if code c =? 93 then Some (rev acc, r)
          else if code c =? 44 then
            match read_int (skip_ws r) with
            | Some (n, rest) => read_items fuel' rest (PyInt n :: acc)
            | None => None
            end
          else None
      | EmptyString => None
      end
  end.

Definition json_loads (s : string) : option pyval :=
  match skip_ws s with
  | String c r =>
      if code c =? 91 then
        let r1 := skip_ws r in
        let parsed :=
          match r1 with
          | String d r2 =>
              if code d =? 93 then Some ([], r2)
              else
                match read_int r1 with
                | Some (n, rest) =>
                    read_items (String.length rest + 1) rest [PyInt n]
                | None => None
                end
          | EmptyString => None
          end in
        match parsed with
        | Some (l, rest) =>
            match skip_ws rest with
            | EmptyString => Some (PyList l)
            | String _ _ => None
            end
        | None => None
        end
      else None
  | EmptyString => None
  end.

(** [os.urandom]: one of its possible outcomes. *)
Definition urandom (n : nat) : bytes := repeat 0 n.

Definition lib : PyLib :=
  Build_PyLib sha256 md5 utf8_encode utf8_decode b64encode b64decode fromhex
    unhexlify bytes_hex py_repr json_loads urandom.

End RefLib.

(** * Proofs *)

Lemma is_byteb_iff b : is_byteb b = true <-> 0 <= b < 256.
Proof. unfold is_byteb. rewrite andb_true_iff, Z.leb_le, Z.ltb_lt. tauto. Qed.

Lemma land_128_testbit a : (Z.land a 0x80 =? 0) = negb (Z.testbit a 7).
Proof.
  destruct (Z.testbit a 7) eqn:E; cbn [negb].
  - apply Z.eqb_neq. intro H.
    assert (Z.testbit (Z.land a 128) 7 = false) by (rewrite H; apply Z.bits_0).
    rewrite Z.land_spec, E in H0. discriminate.
  - apply Z.eqb_eq. apply Z.bits_inj'. intros n Hn.
    rewrite Z.land_spec, Z.bits_0.
    destruct (Z.eq_dec n 7) as [->|Hne]; [now rewrite E|].
    replace (Z.testbit 128 n) with false; [apply andb_false_r|].
    symmetry. change 128 with (2 ^ 7). apply Z.pow2_bits_false. lia.
Qed.

Lemma xtime_alt a :
  AesPure._xtime a =
  Z.lxor (Z.land (Z.shiftl a 1) 255) (if Z.testbit a 7 then 27 else 0).
Proof.
  unfold AesPure._xtime. rewrite land_128_testbit.
  destruct (Z.testbit a 7); cbn [negb].
  - apply Z.bits_inj'. intros n Hn.
    rewrite Z.land_spec, !Z.lxor_spec, Z.land_spec.
    destruct (Z.testbit 255 n) eqn:E.
    + btauto.
    + replace (Z.testbit 27 n) with false; [btauto|].
      destruct (Z.ltb_spec n 8).
      * assert (n = 0 \/ n = 1 \/ n = 2 \/ n = 3 \/ n = 4 \/ n = 5 \/ n = 6 \/ n = 7) by lia.
        intuition subst; discriminate.
      * symmetry. apply Z.bits_above_log2; [lia|]. cbn. lia.
  - now rewrite Z.lxor_0_r.
Qed.

Lemma xtime_lxor a b :
  AesPure._xtime (Z.lxor a b) = Z.lxor (AesPure._xtime a) (AesPure._xtime b).
Proof.
  rewrite !xtime_alt. rewrite Z.lxor_spec.
  apply Z.bits_inj'. intros n Hn.
  rewrite !Z.lxor_spec, !Z.land_spec, !Z.shiftl_spec by lia. rewrite Z.lxor_spec.
  destruct (Z.testbit a 7), (Z.testbit b 7); cbn [xorb]; rewrite ?Z.bits_0; btauto.
Qed.

(** * Bytes *)

Lemma is_bytesb_Forall l :
  is_bytesb l = true <-> Forall (fun b => 0 <= b < 256) l.
Proof.
  unfold is_bytesb. rewrite forallb_forall, Forall_forall.
  split; intros H x Hx; apply is_byteb_iff; auto.
Qed.

Lemma lxor_byte a b :
  is_byteb a = true -> is_byteb b = true -> is_byteb (Z.lxor a b) = true.
Proof.
  rewrite !is_byteb_iff. intros [Ha Ha'] [Hb Hb'].
  split; [now apply Z.lxor_nonneg|].
  destruct (Z.eq_dec (Z.lxor a b) 0) as [->|Hne]; [lia|].
  apply (Z.log2_lt_pow2 _ 8); [pose proof (proj2 (Z.lxor_nonneg a b)); lia|].
  pose proof (Z.log2_lxor a b Ha Hb).
  assert (Z.log2 a < 8).
  { destruct (Z.eq_dec a 0) as [->|]; [cbn; lia|]. apply Z.log2_lt_pow2; lia. }
  assert (Z.log2 b < 8).
  { destruct (Z.eq_dec b 0) as [->|]; [cbn; lia|]. apply Z.log2_lt_pow2; lia. }
  lia.
Qed.

Lemma land_255_byte a : is_byteb (Z.land a 255) = true.
Proof.
  apply is_byteb_iff. change 255 with (Z.ones 8).
  rewrite Z.land_ones by lia. apply Z.mod_pos_bound. lia.
Qed.

Lemma lxor_cancel a k : Z.lxor (Z.lxor a k) k = a.
Proof. now rewrite Z.lxor_assoc, Z.lxor_nilpotent, Z.lxor_0_r. Qed.

Lemma nth_byte l j : is_bytesb l = true -> is_byteb (nth j l 0) = true.
Proof.
  intros H. destruct (nth_in_or_default j l 0) as [Hin| ->]; [|reflexivity].
  unfold is_bytesb in H. rewrite forallb_forall in H. auto.
Qed.

Lemma lookup_byte tbl b :
  is_bytesb tbl = true -> is_byteb (lookup tbl b) = true.
Proof. intros H. unfold lookup. now apply nth_byte. Qed.

Lemma lookup_nonneg tbl b : 0 <= b -> lookup tbl b = nth (Z.to_nat b) tbl 0.
Proof.
  intros H. unfold lookup, position.
  now replace (b <? 0) with false by (symmetry; apply Z.ltb_ge; exact H).
Qed.

Lemma to_bytes_ok l : is_bytesb l = true -> to_bytes l = Ok l.
Proof. intros H. unfold to_bytes. now rewrite H. Qed.

Lemma is_bytesb_app x y :
  is_bytesb (x ++ y) = is_bytesb x && is_bytesb y.
Proof. apply forallb_app. Qed.

Lemma is_bytesb_firstn n l : is_bytesb l = true -> is_bytesb (firstn n l) = true.
Proof.
  intros H. rewrite <- (firstn_skipn n l), is_bytesb_app in H.
  now apply andb_true_iff in H.
Qed.

Lemma is_bytesb_skipn n l : is_bytesb l = true -> is_bytesb (skipn n l) = true.
Proof.
  intros H. rewrite <- (firstn_skipn n l), is_bytesb_app in H.
  now apply andb_true_iff in H.
Qed.

Lemma is_bytesb_rev l : is_bytesb l = true -> is_bytesb (rev l) = true.
Proof.
  unfold is_bytesb. rewrite !forallb_forall. intros H x Hx.
  apply H. now apply in_rev.
Qed.

Lemma is_bytesb_repeat b n : is_byteb b = true -> is_bytesb (repeat b n) = true.
Proof.
  intros H. unfold is_bytesb. rewrite forallb_forall. intros x Hx.
  apply repeat_spec in Hx. now subst.
Qed.

Lemma is_bytesb_slice l i j : is_bytesb l = true -> is_bytesb (slice l i j) = true.
Proof. intros. unfold slice. now apply is_bytesb_firstn, is_bytesb_skipn. Qed.

Lemma xtime_byte a : is_byteb (AesPure._xtime a) = true.
Proof. unfold AesPure._xtime. destruct (_ =? _); apply land_255_byte. Qed.

(** * Loops that can raise, and tables of integers *)

Lemma foldM_ok {A B : Type} (f : A -> B -> result A) (g : A -> B -> A)
    (P : A -> Prop) (l : list B) (a : A) :
  P a ->
  (forall a b, P a -> In b l -> f a b = Ok (g a b) /\ P (g a b)) ->
  foldM f l a = Ok (fold_left g l a) /\ P (fold_left g l a).
Proof.
  revert a. induction l as [|b l IH]; intros a Ha H; [now split|].
  cbn [foldM fold_left].
  destruct (H a b Ha (or_introl eq_refl)) as [E Hg]. rewrite E. cbn [bind].
  apply IH; [exact Hg|]. intros a' b' Ha' Hb'. apply H; [exact Ha'|].
  now right.
Qed.

Lemma foldM_app {A B : Type} (f : A -> B -> result A) (l1 l2 : list B) a :
  foldM f (l1 ++ l2) a = (a' <- foldM f l1 a ;; foldM f l2 a').
Proof.
  revert a. induction l1 as [|b l1 IH]; intros a; [reflexivity|].
  cbn [app foldM]. destruct (f a b); cbn [bind]; [apply IH|reflexivity].
Qed.

Lemma table_ints_cons v l tbl :
  table_ints (v :: l) = Some tbl ->
  exists z r, as_int v = Ok z /\ table_ints l = Some r /\ tbl = z :: r.
Proof.
  cbn [table_ints]. destruct (as_int v) as [z|e]; [|discriminate].
  destruct (table_ints l) as [r|]; [|discriminate].
  intros [= <-]. eauto.
Qed.

Lemma table_ints_length l tbl :
  table_ints l = Some tbl -> length tbl = length l.
Proof.
  revert tbl. induction l as [|v l IH]; intros tbl H.
  - now injection H as <-.
  - apply table_ints_cons in H as (z & r & _ & Hr & ->).
    cbn [length]. now rewrite (IH r Hr).
Qed.

Lemma table_ints_nth l tbl i :
  table_ints l = Some tbl -> (i < length l)%nat ->
  exists v, nth_error l i = Some v /\ as_int v = Ok (nth i tbl 0).
Proof.
  revert tbl i. induction l as [|v l IH]; intros tbl i H Hi;
    [cbn in Hi; lia|].
  apply table_ints_cons in H as (z & r & Hz & Hr & ->).
  destruct i as [|i]; [exists v; now split|].
  cbn [nth_error nth]. apply IH; [exact Hr|]. cbn in Hi. lia.
Qed.

Lemma table_ints_item l tbl k :
  table_ints l = Some tbl -> 0 <= k < Z.of_nat (length l) ->
  exists v, item l k = Ok v /\ as_int v = Ok (lookup tbl k).
Proof.
  intros H Hk.
  destruct (table_ints_nth l tbl (Z.to_nat k) H) as (v & Ev & Hv); [lia|].
  exists v. unfold item. rewrite Ev. split; [reflexivity|].
  now rewrite lookup_nonneg by lia.
Qed.

Lemma table_ints_map_int tbl : table_ints (map PyInt tbl) = Some tbl.
Proof.
  induction tbl as [|z tbl IH]; [reflexivity|].
  cbn [map table_ints as_int]. now rewrite IH.
Qed.

Module AesFacts.
Import AesPure.

(** * AES: the round transformations *)

Lemma row4_inv (r : list Z) :
  Nat.eqb (length r) 4 && is_bytesb r = true ->
  exists a b c d, r = [a; b; c; d] /\ is_byteb a = true /\ is_byteb b = true
                  /\ is_byteb c = true /\ is_byteb d = true.
Proof.
  destruct r as [|a [|b [|c [|d [|e r]]]]]; try discriminate.
  cbn [length Nat.eqb andb is_bytesb forallb]. rewrite !andb_true_iff.
  intros (Ha & Hb & Hc & Hd & _). now exists a, b, c, d.
Qed.

Lemma state_ok_inv s :
  state_okb s = true ->
  exists r0 r1 r2 r3, s = [r0; r1; r2; r3]
    /\ (Nat.eqb (length r0) 4 && is_bytesb r0 = true)
    /\ (Nat.eqb (length r1) 4 && is_bytesb r1 = true)
    /\ (Nat.eqb (length r2) 4 && is_bytesb r2 = true)
    /\ (Nat.eqb (length r3) 4 && is_bytesb r3 = true).
Proof.
  unfold state_okb.
  destruct s as [|r0 [|r1 [|r2 [|r3 [|r4 s]]]]]; try discriminate.
  cbn [length Nat.eqb andb forallb]. rewrite !andb_true_iff.
  intros ((?&?) & (?&?) & (?&?) & (?&?) & _).
  exists r0, r1, r2, r3. rewrite !andb_true_iff. tauto.
Qed.

Ltac open_state s H :=
  let H0 := fresh "Hr" in let H1 := fresh "Hr" in
  let H2 := fresh "Hr" in let H3 := fresh "Hr" in
  destruct (state_ok_inv s H) as (?r & ?r & ?r & ?r & -> & H0 & H1 & H2 & H3);
  destruct (row4_inv _ H0) as (?a & ?a & ?a & ?a & -> & ? & ? & ? & ?);
  destruct (row4_inv _ H1) as (?b & ?b & ?b & ?b & -> & ? & ? & ? & ?);
  destruct (row4_inv _ H2) as (?c & ?c & ?c & ?c & -> & ? & ? & ? & ?);
  destruct (row4_inv _ H3) as (?d & ?d & ?d & ?d & -> & ? & ? & ? & ?);
  clear H H0 H1 H2 H3.

Ltac run_state :=
  cbv [_sub_bytes _magic_swap_state _shift_rows _inv_shift_rows _mix_columns
       _inv_mix_columns _add_round_key mix_column pre_inv_column swap_if
       rotl_row rotr_row last_n drop_last_n tab4 get2 idx4 map nth skipn
       firstn app length Nat.sub].

Ltac bytes_ok :=
  unfold state_okb; cbn [length Nat.eqb andb forallb is_bytesb];
  repeat first [ reflexivity | assumption
               | apply lxor_byte | apply lookup_byte | apply xtime_byte
               | match goal with
                 | Hk : rk_bytes ?k |- is_byteb (get2 ?k _ _) = true => apply Hk
                 end
               | apply andb_true_intro; split ].

Lemma sub_bytes_ok s tbl :
  state_okb s = true -> is_bytesb tbl = true ->
  state_okb (_sub_bytes s tbl) = true.
Proof. intros H Ht. open_state s H. run_state. bytes_ok. Qed.

Lemma magic_swap_ok s :
  state_okb s = true -> state_okb (_magic_swap_state s) = true.
Proof. intros H. open_state s H. run_state. bytes_ok. Qed.

Lemma swap_if_ok b s :
  state_okb s = true -> state_okb (swap_if b s) = true.
Proof. destruct b; [apply magic_swap_ok|auto]. Qed.

Lemma shift_rows_ok s :
  state_okb s = true -> state_okb (_shift_rows s) = true.
Proof. intros H. open_state s H. run_state. bytes_ok. Qed.

Lemma inv_shift_rows_ok s :
  state_okb s = true -> state_okb (_inv_shift_rows s) = true.
Proof. intros H. open_state s H. run_state. bytes_ok. Qed.

Lemma mix_columns_ok s :
  state_okb s = true -> state_okb (_mix_columns s) = true.
Proof. intros H. open_state s H. run_state. bytes_ok. Qed.

Lemma add_round_key_ok s k :
  state_okb s = true -> rk_bytes k -> state_okb (_add_round_key s k) = true.
Proof.
  intros H Hk. open_state s H.
  cbv [_add_round_key tab4 idx4 map]. unfold get2 at 1 3 5 7 9 11 13 15 17 19 21 23 25 27 29 31.
  cbn [nth]. bytes_ok.
Qed.

Lemma magic_swap_involutive s :
  state_okb s = true -> _magic_swap_state (_magic_swap_state s) = s.
Proof. intros H. open_state s H. reflexivity. Qed.

Lemma inv_shift_shift s :
  state_okb s = true -> _inv_shift_rows (_shift_rows s) = s.
Proof. intros H. open_state s H. reflexivity. Qed.

Lemma add_round_key_involutive s k :
  state_okb s = true -> _add_round_key (_add_round_key s k) k = s.
Proof.
  intros H. open_state s H.
  cbv [_add_round_key tab4 idx4 map]. 
  repeat match goal with |- context [get2 (?r :: ?s) ?i ?j] =>
    let v := eval cbv [get2 nth] in (get2 (r :: s) i j) in
    change (get2 (r :: s) i j) with v end.
  now rewrite !lxor_cancel.
Qed.

Ltac xor_bits :=
  apply Z.bits_inj'; intros ? _; rewrite !Z.lxor_spec; btauto.

Section InvMixColumn.
Variables a b c d : Z.
Let T := _xtime.
Let t := Z.lxor (Z.lxor (Z.lxor a b) c) d.
Let a' := Z.lxor a (Z.lxor t (T (Z.lxor a b))).
Let b' := Z.lxor b (Z.lxor t (T (Z.lxor b c))).
Let c' := Z.lxor c (Z.lxor t (T (Z.lxor c d))).
Let d' := Z.lxor d (Z.lxor t (T (Z.lxor d a))).
Let u := T (T (Z.lxor a' c')).
Let v := T (T (Z.lxor b' d')).
Let a2 := Z.lxor a' u.
Let b2 := Z.lxor b' v.
Let c2 := Z.lxor c' u.
Let d2 := Z.lxor d' v.
Let t2 := Z.lxor (Z.lxor (Z.lxor a2 b2) c2) d2.

Lemma inv_mix_entry0 : Z.lxor a2 (Z.lxor t2 (T (Z.lxor a2 b2))) = a.
Proof.
  subst t2 a2 b2 c2 d2 u v a' b' c' d' t T. rewrite !xtime_lxor. xor_bits.
Qed.
Lemma inv_mix_entry1 : Z.lxor b2 (Z.lxor t2 (T (Z.lxor b2 c2))) = b.
Proof.
  subst t2 a2 b2 c2 d2 u v a' b' c' d' t T. rewrite !xtime_lxor. xor_bits.
Qed.
Lemma inv_mix_entry2 : Z.lxor c2 (Z.lxor t2 (T (Z.lxor c2 d2))) = c.
Proof.
  subst t2 a2 b2 c2 d2 u v a' b' c' d' t T. rewrite !xtime_lxor. xor_bits.
Qed.
Lemma inv_mix_entry3 : Z.lxor d2 (Z.lxor t2 (T (Z.lxor d2 a2))) = d.
Proof.
  subst t2 a2 b2 c2 d2 u v a' b' c' d' t T. rewrite !xtime_lxor. xor_bits.
Qed.
End InvMixColumn.

Lemma inv_mix_mix s :
  state_okb s = true -> _inv_mix_columns (_mix_columns s) = s.
Proof.
  intros H. open_state s H. run_state.
  repeat (f_equal; try apply inv_mix_entry0; try apply inv_mix_entry1;
          try apply inv_mix_entry2; try apply inv_mix_entry3).
Qed.

(** * AES: the inverse table *)

Lemma list_set_length l k v : length (list_set l k v) = length l.
Proof. revert k. induction l; intros [|k]; cbn; auto. Qed.

Lemma nth_list_set_eq l k v d :
  (k < length l)%nat -> nth k (list_set l k v) d = v.
Proof.
  revert k. induction l; intros [|k] H; cbn in *; try lia; auto.
  apply IHl. lia.
Qed.

Lemma nth_list_set_neq l k j v d :
  k <> j -> nth j (list_set l k v) d = nth j l d.
Proof.
  revert k j. induction l; intros [|k] [|j] H; cbn; auto; try congruence.
Qed.

Lemma existsb_eqb_In a l : existsb (Z.eqb a) l = true <-> In a l.
Proof.
  rewrite existsb_exists. split.
  - intros (x & Hx & E). apply Z.eqb_eq in E. now subst.
  - intros H. exists a. split; [assumption|apply Z.eqb_refl].
Qed.

Lemma nodupb_NoDup l : nodupb l = true -> NoDup l.
Proof.
  induction l as [|a l IH]; cbn; [constructor|].
  rewrite andb_true_iff, negb_true_iff. intros [Hn Hl].
  constructor; [|auto]. intro Hin. apply existsb_eqb_In in Hin. congruence.
Qed.

Lemma sbox_permb_inv s :
  sbox_permb s = true ->
  length s = 256%nat /\ is_bytesb s = true /\ NoDup s.
Proof.
  unfold sbox_permb, sbox_bytesb. rewrite !andb_true_iff, Nat.eqb_eq.
  intros [[? ?] ?]. auto using nodupb_NoDup.
Qed.

Section InverseTable.
Variable sb : list Z.
Hypothesis sb_perm : sbox_permb sb = true.

Let step (r : list Z) (i : nat) : list Z :=
  list_set r (Z.to_nat (nth i sb 0)) (Z.of_nat i).

Lemma inverse_loop_length n init :
  length (fold_left step (seq 0 n) init) = length init.
Proof.
  induction n as [|n IH]; [reflexivity|].
  rewrite seq_S, fold_left_app. cbn. unfold step at 1.
  now rewrite list_set_length.
Qed.

Lemma inverse_loop_spec n init i :
  (n <= 256)%nat -> length init = 256%nat -> (i < n)%nat ->
  nth (Z.to_nat (nth i sb 0)) (fold_left step (seq 0 n) init) 0
  = Z.of_nat i.
Proof.
  destruct (sbox_permb_inv sb sb_perm) as (Hlen & Hb & Hnd).
  intros Hn Hinit. induction n as [|n IH]; intros Hi; [lia|].
  rewrite seq_S, fold_left_app. cbn [fold_left Nat.add]. unfold step at 1.
  assert (Hrange : forall j, (Z.to_nat (nth j sb 0%Z) < 256)%nat).
  { intros j. pose proof (nth_byte sb j Hb) as Hj.
    apply is_byteb_iff in Hj. lia. }
  destruct (Nat.eq_dec i n) as [->|Hne].
  - apply nth_list_set_eq. rewrite inverse_loop_length, Hinit. apply Hrange.
  - rewrite nth_list_set_neq; [apply IH; lia|].
    intro E. apply Hne. symmetry.
    apply (proj1 (NoDup_nth sb 0) Hnd); try lia.
    pose proof (nth_byte sb i Hb) as H1. pose proof (nth_byte sb n Hb) as H2.
    apply is_byteb_iff in H1, H2. lia.
Qed.

Lemma inverse_table_spec x :
  is_byteb x = true -> lookup (inverse_table sb) (lookup sb x) = x.
Proof.
  intros Hx.
  assert (Hb : is_bytesb sb = true) by apply (sbox_permb_inv sb sb_perm).
  pose proof (lookup_byte sb x Hb) as Hy. apply is_byteb_iff in Hx, Hy.
  rewrite (lookup_nonneg _ (lookup sb x)) by lia.
  rewrite (lookup_nonneg sb x) in * by lia. unfold inverse_table.
  fold step. rewrite inverse_loop_spec; try lia.
  apply repeat_length.
Qed.
End InverseTable.

(** * AES: the key schedule holds bytes *)

Lemma nth_word_bytes ws i :
  words_bytes ws -> is_bytesb (nth i ws []) = true.
Proof.
  intros H. destruct (nth_in_or_default i ws []) as [Hin| ->]; [|reflexivity].
  unfold words_bytes in H. rewrite Forall_forall in H. auto.
Qed.

Lemma sub_word_bytes w sb :
  is_bytesb sb = true -> is_bytesb (_sub_word w sb) = true.
Proof.
  intros H. unfold _sub_word, is_bytesb. rewrite forallb_forall.
  intros x Hx. apply in_map_iff in Hx as (b & <- & _). now apply lookup_byte.
Qed.

Lemma rcon_bytes i : is_byteb (nth i RCON 0) = true.
Proof. apply nth_byte. reflexivity. Qed.

Lemma xor_head_bytes w c :
  is_bytesb w = true -> is_byteb c = true -> is_bytesb (xor_head w c) = true.
Proof.
  destruct w as [|a w]; [reflexivity|]. cbn. rewrite !andb_true_iff.
  intros [Ha Hw] Hc. split; [now apply lxor_byte|assumption].
Qed.

Lemma next_word_bytes sb sks Nk ws i :
  is_bytesb sb = true -> words_bytes ws ->
  is_bytesb (next_word sb sks Nk ws i) = true.
Proof.
  intros Hsb Hws. unfold next_word.
  set (temp := if Nat.eqb (i mod Nk) 0 then _ else _).
  assert (Ht : is_bytesb temp = true).
  { subst temp. pose proof (nth_word_bytes ws (i - 1) Hws) as Hw.
    destruct (Nat.eqb (i mod Nk) 0).
    - apply xor_head_bytes; [|apply rcon_bytes].
      destruct sks; [apply is_bytesb_rev|]; now apply sub_word_bytes.
    - destruct (_ && _); [now apply sub_word_bytes|assumption]. }
  pose proof (nth_word_bytes ws (i - Nk) Hws) as Hw.
  cbn [map idx4 is_bytesb forallb].
  rewrite !lxor_byte; auto using nth_byte.
Qed.

Lemma expand_words_bytes sb sks key Nk Nr :
  is_bytesb sb = true -> is_bytesb key = true ->
  words_bytes (expand_words sb sks key Nk Nr).
Proof.
  intros Hsb Hkey. unfold expand_words.
  set (ws0 := map _ (seq 0 Nk)).
  assert (H0 : words_bytes ws0).
  { subst ws0. unfold words_bytes. rewrite Forall_forall. intros w Hw.
    apply in_map_iff in Hw as (i & <- & _). now apply is_bytesb_slice. }
  generalize (seq Nk (4 * (Nr + 1) - Nk)). intros idxs.
  revert H0. generalize ws0. clear ws0.
  induction idxs as [|i idxs IH]; intros ws Hws; [assumption|].
  cbn [fold_left]. apply IH. unfold words_bytes. rewrite Forall_app. split; [assumption|].
  constructor; [|constructor]. now apply next_word_bytes.
Qed.

Lemma group4_bytes fuel ws :
  words_bytes ws -> Forall words_bytes (group4 fuel ws).
Proof.
  revert ws. induction fuel as [|fuel IH]; intros ws H; [constructor|].
  cbn. destruct ws as [|w ws]; [constructor|].
  assert (H' := H). unfold words_bytes in H'.
  rewrite <- (firstn_skipn 4 (w :: ws)), Forall_app in H'. destruct H' as [H1 H2].
  constructor; [exact H1|]. apply IH. exact H2.
Qed.

Lemma key_norm_bytes key :
  is_bytesb key = true -> is_bytesb (fst (key_norm key)) = true.
Proof.
  intros H. unfold key_norm.
  repeat match goal with |- context [if ?c then _ else _] => destruct c end;
    cbn [fst]; auto using is_bytesb_firstn.
  all: rewrite is_bytesb_app, H; now apply is_bytesb_repeat.
Qed.

Lemma words_rk_bytes k : words_bytes k -> rk_bytes k.
Proof. intros H j i. unfold get2. apply nth_byte. now apply nth_word_bytes. Qed.

Lemma round_keys_bytes key custom sks sdr r :
  is_bytesb key = true ->
  is_bytesb (select_sbox STANDARD_SBOX custom) = true ->
  rk_bytes (nth r (round_keys (build key custom sks sdr)) []).
Proof.
  intros Hkey Hsb. unfold build, key_expansion.
  pose proof (key_norm_bytes key Hkey) as Hn.
  destruct (key_norm key) as [key' Nr]. cbn [fst] in Hn. cbn [round_keys].
  set (ws := expand_words _ _ _ _ _).
  assert (Hws : words_bytes ws) by now apply expand_words_bytes.
  pose proof (group4_bytes (length ws) ws Hws) as Hg.
  destruct (nth_in_or_default r (group4 (length ws) ws) []) as [Hin|E].
  - rewrite Forall_forall in Hg. apply words_rk_bytes. now apply Hg.
  - rewrite E. intros j i. unfold get2. now destruct j, i.
Qed.

(** * AES: one block *)

Lemma block16_inv (B : bytes) :
  length B = 16%nat ->
  exists x0 x1 x2 x3 x4 x5 x6 x7 x8 x9 x10 x11 x12 x13 x14 x15,
    B = [x0; x1; x2; x3; x4; x5; x6; x7; x8; x9; x10; x11; x12; x13; x14; x15].
Proof.
  intros H.
  do 16 (destruct B as [|? B]; [discriminate|]).
  destruct B; [|discriminate]. repeat eexists.
Qed.

Lemma is_blockb_inv B :
  is_blockb B = true -> length B = 16%nat /\ is_bytesb B = true.
Proof. unfold is_blockb. now rewrite andb_true_iff, Nat.eqb_eq. Qed.

Lemma load_state_ok B : is_blockb B = true -> state_okb (load_state B) = true.
Proof.
  intros H. apply is_blockb_inv in H as [Hl Hb].
  destruct (block16_inv B Hl) as (x0&x1&x2&x3&x4&x5&x6&x7&x8&x9&x10&x11&x12&x13&x14&x15&->).
  cbn in Hb |- *. exact Hb || (rewrite !andb_true_iff in *; tauto).
Qed.

Lemma flatten_load B : length B = 16%nat -> flatten (load_state B) = B.
Proof.
  intros Hl.
  destruct (block16_inv B Hl) as (x0&x1&x2&x3&x4&x5&x6&x7&x8&x9&x10&x11&x12&x13&x14&x15&->).
  reflexivity.
Qed.

Lemma load_flatten s : state_okb s = true -> load_state (flatten s) = s.
Proof. intros H. open_state s H. reflexivity. Qed.

Lemma flatten_block s : state_okb s = true -> is_blockb (flatten s) = true.
Proof.
  intros H. open_state s H. unfold is_blockb.
  cbn [flatten flat_map map idx4 get2 nth app length Nat.eqb andb is_bytesb
       forallb].
  repeat match goal with H : is_byteb ?x = true |- _ => rewrite H; clear H end.
  reflexivity.
Qed.

Section AesBlock.
Variable aes : AesPure.t.
Hypothesis Haes : aes_ok aes.

Lemma aes_sbox_bytes : is_bytesb (sbox aes) = true.
Proof.
  destruct Haes as (Hp & _). apply sbox_permb_inv in Hp. tauto.
Qed.

(** SubBytes, the optional swap and ShiftRows, undone by their inverses
    in the order [decrypt_block] applies them. *)
Lemma unsub_sub s :
  state_okb s = true ->
  swap_if (swap_data_round aes)
    (_sub_bytes
       (_inv_shift_rows
          (_shift_rows
             (swap_if (swap_data_round aes) (_sub_bytes s (sbox aes)))))
       (rsbox aes)) = s.
Proof.
  intros H. destruct Haes as (Hp & Hrs & _).
  rewrite inv_shift_shift
    by (apply swap_if_ok, sub_bytes_ok; [assumption|apply aes_sbox_bytes]).
  rewrite Hrs. open_state s H.
  destruct (swap_data_round aes); run_state;
    rewrite !(inverse_table_spec _ Hp) by assumption; reflexivity.
Qed.

Lemma enc_round_ok s i :
  state_okb s = true -> state_okb (enc_round aes s i) = true.
Proof.
  intros H. unfold enc_round. destruct Haes as (_ & _ & Hk).
  apply add_round_key_ok; [|apply Hk].
  apply mix_columns_ok, shift_rows_ok, swap_if_ok, sub_bytes_ok;
    [assumption|apply aes_sbox_bytes].
Qed.

Lemma enc_rounds_ok idxs s :
  state_okb s = true -> state_okb (fold_left (enc_round aes) idxs s) = true.
Proof.
  revert s. induction idxs as [|i idxs IH]; intros s H; [assumption|].
  cbn [fold_left]. apply IH. now apply enc_round_ok.
Qed.

Lemma sub_shift_ok s :
  state_okb s = true ->
  state_okb (_shift_rows
               (swap_if (swap_data_round aes) (_sub_bytes s (sbox aes))))
  = true.
Proof.
  intros H. apply shift_rows_ok, swap_if_ok, sub_bytes_ok;
    [assumption|apply aes_sbox_bytes].
Qed.

(** The decryption rounds, run over the round keys in reverse, take the
    state back through the encryption rounds. *)
Lemma dec_rounds_enc_rounds idxs s :
  state_okb s = true ->
  fold_left (dec_round aes) (rev idxs)
    (_shift_rows
       (swap_if (swap_data_round aes)
          (_sub_bytes (fold_left (enc_round aes) idxs s) (sbox aes))))
  = _shift_rows (swap_if (swap_data_round aes) (_sub_bytes s (sbox aes))).
Proof.
  revert s. induction idxs as [|i idxs IH]; intros s H; [reflexivity|].
  cbn [rev fold_left]. rewrite fold_left_app.
  rewrite IH by now apply enc_round_ok.
  cbn [fold_left]. unfold dec_round.
  rewrite unsub_sub by now apply enc_round_ok.
  unfold enc_round.
  rewrite add_round_key_involutive
    by now apply mix_columns_ok, sub_shift_ok.
  apply inv_mix_mix. now apply sub_shift_ok.
Qed.

Lemma encrypt_block_ok B :
  is_blockb B = true ->
  exists C, encrypt_block aes B = Ok C /\ is_blockb C = true.
Proof.
  intros HB. pose proof (is_blockb_inv B HB) as [Hl _].
  unfold encrypt_block. rewrite Hl. cbn [Nat.ltb Nat.leb].
  destruct Haes as (_ & _ & Hk).
  match goal with |- exists C, to_bytes ?x = _ /\ _ =>
    assert (Hx : is_blockb x = true) end.
  { apply flatten_block. unfold enc_final.
    apply add_round_key_ok; [|apply Hk]. apply sub_shift_ok, enc_rounds_ok.
    apply add_round_key_ok; [|apply Hk]. now apply load_state_ok. }
  eexists. split; [|exact Hx].
  apply to_bytes_ok. now apply is_blockb_inv in Hx.
Qed.

Lemma decrypt_encrypt_block B C :
  is_blockb B = true -> encrypt_block aes B = Ok C ->
  decrypt_block aes C = Ok B.
Proof.
  intros HB HC. pose proof (is_blockb_inv B HB) as [Hl _].
  destruct (encrypt_block_ok B HB) as (C' & HC' & HbC).
  rewrite HC in HC'. injection HC' as <-.
  pose proof (is_blockb_inv C HbC) as [HlC _].
  unfold encrypt_block in HC. rewrite Hl in HC. cbn [Nat.ltb Nat.leb] in HC.
  unfold to_bytes in HC. destruct (is_bytesb _); [|discriminate HC].
  injection HC as <-. clear HbC HlC.
  destruct Haes as (_ & _ & Hk).
  set (s0 := _add_round_key (load_state B) (nth 0 (round_keys aes) [])).
  assert (Hs0 : state_okb s0 = true).
  { apply add_round_key_ok; [|apply Hk]. now apply load_state_ok. }
  set (sn := fold_left (enc_round aes) (seq 1 (rounds aes - 1)) s0).
  assert (Hsn : state_okb sn = true) by now apply enc_rounds_ok.
  unfold decrypt_block, enc_final.
  set (c := _add_round_key _ (nth (rounds aes) (round_keys aes) [])).
  assert (Hc : state_okb c = true).
  { apply add_round_key_ok; [|apply Hk]. now apply sub_shift_ok. }
  pose proof (flatten_block c Hc) as Hfc.
  apply is_blockb_inv in Hfc as [Hfl _]. rewrite Hfl. cbn [Nat.ltb Nat.leb].
  rewrite load_flatten by assumption. subst c.
  rewrite add_round_key_involutive by now apply sub_shift_ok.
  subst sn. rewrite dec_rounds_enc_rounds by assumption.
  unfold dec_final. rewrite unsub_sub by assumption. subst s0.
  rewrite add_round_key_involutive by now apply load_state_ok.
  rewrite flatten_load by assumption.
  apply to_bytes_ok. now apply is_blockb_inv in HB.
Qed.
End AesBlock.

Lemma aes_init_ok key custom sks sdr :
  is_bytesb key = true ->
  sbox_permb (select_sbox STANDARD_SBOX custom) = true ->
  aes_ok (build key custom sks sdr).
Proof.
  intros Hk Hp. unfold aes_ok. split; [|split].
  - unfold build. now destruct (key_expansion _ _ _).
  - unfold build. now destruct (key_expansion _ _ _).
  - intros r. apply round_keys_bytes; [assumption|].
    apply sbox_permb_inv in Hp. tauto.
Qed.

(** * AES: [__init__] on a table of bytes *)

Lemma int_values_ints l tbl : table_ints l = Some tbl -> int_values l = tbl.
Proof.
  revert tbl. induction l as [|v l IH]; intros tbl H.
  - now injection H as <-.
  - apply table_ints_cons in H as (z & r & Hz & Hr & ->).
    unfold int_values in *. cbn [map]. now rewrite Hz, (IH r Hr).
Qed.

Lemma set_item_byte r k v :
  length r = 256%nat -> is_byteb k = true ->
  set_item r k v = Ok (list_set r (Z.to_nat k) v).
Proof.
  intros Hr Hk. apply is_byteb_iff in Hk. unfold set_item, in_range, position.
  rewrite Hr.
  replace (- Z.of_nat 256 <=? k) with true by (symmetry; apply Z.leb_le; lia).
  replace (k <? Z.of_nat 256) with true by (symmetry; apply Z.ltb_lt; lia).
  now replace (k <? 0) with false by (symmetry; apply Z.ltb_ge; lia).
Qed.

Lemma inverse_sbox_bytes l tbl :
  table_ints l = Some tbl -> sbox_bytesb tbl = true ->
  inverse_sbox l = Ok (inverse_table tbl).
Proof.
  intros Hl Hb. unfold sbox_bytesb in Hb.
  apply andb_true_iff in Hb as [Hlen Hb]. apply Nat.eqb_eq in Hlen.
  pose proof (table_ints_length l tbl Hl) as Hll.
  unfold inverse_sbox, inverse_table.
  apply (foldM_ok _ _ (fun r => length r = 256%nat)); [apply repeat_length|].
  intros r i Hr Hi. apply in_seq in Hi.
  destruct (table_ints_nth l tbl i Hl) as (v & Ev & Hv); [lia|].
  unfold item. rewrite Nat2Z.id, Ev. cbn [bind]. rewrite Hv. cbn [bind].
  rewrite set_item_byte; [|exact Hr|now apply nth_byte].
  split; [reflexivity|]. now rewrite list_set_length.
Qed.

(** On a table of bytes, given as integers, and on the standard table,
    [__init__] returns the instance in closed form. *)
Lemma init_bytes key l tbl sks sdr :
  table_ints l = Some tbl -> sbox_bytesb tbl = true ->
  init key (Some l) sks sdr = Ok (build key (Some tbl) sks sdr).
Proof.
  intros Hl Hb. pose proof Hb as Hb'. unfold sbox_bytesb in Hb'.
  apply andb_true_iff in Hb' as [Hlen _].
  pose proof (table_ints_length l tbl Hl) as Hll.
  unfold init, build, select_sbox. rewrite Hlen.
  replace (Nat.eqb (length l) 256) with true by (now rewrite <- Hll).
  rewrite (inverse_sbox_bytes l tbl Hl Hb). cbn [bind].
  rewrite (int_values_ints l tbl Hl).
  now destruct (key_expansion tbl sks key).
Qed.

Lemma init_standard key sks sdr :
  init key None sks sdr = Ok (build key None sks sdr).
Proof.
  unfold init, build, select_sbox.
  rewrite (inverse_sbox_bytes (map PyInt STANDARD_SBOX) STANDARD_SBOX
             (table_ints_map_int _) eq_refl).
  cbn [bind]. rewrite (int_values_ints _ _ (table_ints_map_int _)).
  now destruct (key_expansion STANDARD_SBOX sks key).
Qed.

Lemma init_table key custom tbl sks sdr :
  table_ints (table_of STANDARD_SBOX custom) = Some tbl ->
  sbox_bytesb tbl = true ->
  init key custom sks sdr = Ok (build key (Some tbl) sks sdr).
Proof.
  intros Hl Hb. pose proof Hb as Hb'. unfold sbox_bytesb in Hb'.
  apply andb_true_iff in Hb' as [Hlen _].
  unfold init, build. fold (table_of STANDARD_SBOX custom).
  rewrite (inverse_sbox_bytes _ tbl Hl Hb). cbn [bind].
  rewrite (int_values_ints _ tbl Hl). unfold select_sbox. rewrite Hlen.
  now destruct (key_expansion tbl sks key).
Qed.

Lemma build_table_ok key tbl sks sdr :
  is_bytesb key = true -> sbox_permb tbl = true ->
  aes_ok (build key (Some tbl) sks sdr).
Proof.
  intros Hk Hp. apply aes_init_ok; [exact Hk|].
  unfold select_sbox.
  replace (Nat.eqb (length tbl) 256) with true; [exact Hp|].
  symmetry. apply Nat.eqb_eq. now apply sbox_permb_inv in Hp.
Qed.

End AesFacts.
Import AesFacts.

Module Sm4Facts.
Import SM4.
Import Sm4Ints.

(** * SM4: words and bytes *)

Lemma is_u32b_iff w : is_u32b w = true <-> 0 <= w < 2 ^ 32.
Proof.
  unfold is_u32b. rewrite andb_true_iff, Z.leb_le, Z.ltb_lt.
  change (2 ^ 32) with 4294967296. tauto.
Qed.

Lemma lxor_bound k a b :
  0 < k -> 0 <= a < 2 ^ k -> 0 <= b < 2 ^ k -> 0 <= Z.lxor a b < 2 ^ k.
Proof.
  intros Hk [Ha Ha'] [Hb Hb'].
  assert (0 < 2 ^ k) by (apply Z.pow_pos_nonneg; lia).
  split; [now apply Z.lxor_nonneg|].
  destruct (Z.eq_dec (Z.lxor a b) 0) as [->|Hne]; [lia|].
  apply Z.log2_lt_pow2; [pose proof (proj2 (Z.lxor_nonneg a b)); lia|].
  pose proof (Z.log2_lxor a b Ha Hb).
  assert (Z.log2 a < k).
  { destruct (Z.eq_dec a 0) as [->|]; [cbn; lia|]. apply Z.log2_lt_pow2; lia. }
  assert (Z.log2 b < k).
  { destruct (Z.eq_dec b 0) as [->|]; [cbn; lia|]. apply Z.log2_lt_pow2; lia. }
  lia.
Qed.

Lemma lor_bound k a b :
  0 < k -> 0 <= a < 2 ^ k -> 0 <= b < 2 ^ k -> 0 <= Z.lor a b < 2 ^ k.
Proof.
  intros Hk [Ha Ha'] [Hb Hb'].
  assert (0 < 2 ^ k) by (apply Z.pow_pos_nonneg; lia).
  split; [now apply Z.lor_nonneg|].
  destruct (Z.eq_dec (Z.lor a b) 0) as [->|Hne]; [lia|].
  apply Z.log2_lt_pow2; [pose proof (proj2 (Z.lor_nonneg a b)); lia|].
  rewrite Z.log2_lor by assumption.
  assert (Z.log2 a < k).
  { destruct (Z.eq_dec a 0) as [->|]; [cbn; lia|]. apply Z.log2_lt_pow2; lia. }
  assert (Z.log2 b < k).
  { destruct (Z.eq_dec b 0) as [->|]; [cbn; lia|]. apply Z.log2_lt_pow2; lia. }
  lia.
Qed.

Lemma lxor_u32 a b :
  is_u32b a = true -> is_u32b b = true -> is_u32b (Z.lxor a b) = true.
Proof. rewrite !is_u32b_iff. apply lxor_bound. lia. Qed.

Lemma lor_u32 a b :
  is_u32b a = true -> is_u32b b = true -> is_u32b (Z.lor a b) = true.
Proof. rewrite !is_u32b_iff. apply lor_bound. lia. Qed.

Lemma land_mask_u32 a : is_u32b (Z.land a 0xffffffff) = true.
Proof.
  apply is_u32b_iff. change 0xffffffff with (Z.ones 32).
  rewrite Z.land_ones by lia. apply Z.mod_pos_bound. lia.
Qed.

Lemma rotl_u32 x n : is_u32b (_rotl x n) = true.
Proof. unfold _rotl. apply lor_u32; apply land_mask_u32. Qed.

Lemma l_u32 b : is_u32b b = true -> is_u32b (_l b) = true.
Proof. intros H. unfold _l. repeat apply lxor_u32; auto using rotl_u32. Qed.

Lemma shiftl_byte_u32 b k :
  is_byteb b = true -> 0 <= k <= 24 -> is_u32b (Z.shiftl b k) = true.
Proof.
  rewrite is_byteb_iff, is_u32b_iff. intros Hb Hk.
  rewrite Z.shiftl_mul_pow2 by lia.
  assert (2 ^ k <= 2 ^ 24) by (apply Z.pow_le_mono_r; lia).
  assert (0 < 2 ^ k) by (apply Z.pow_pos_nonneg; lia).
  change (2 ^ 24) with 16777216 in *. change (2 ^ 32) with 4294967296. nia.
Qed.

Lemma byte_u32 b : is_byteb b = true -> is_u32b b = true.
Proof. rewrite is_byteb_iff, is_u32b_iff. change (2 ^ 32) with 4294967296. lia. Qed.

Lemma apply_tau_u32 sb swapped a :
  is_bytesb sb = true -> is_u32b (apply_tau sb swapped a) = true.
Proof.
  intros H. unfold apply_tau, _tau, _tau_swapped.
  destruct swapped; repeat apply lor_u32;
    try (apply shiftl_byte_u32; [now apply lookup_byte|lia]);
    apply byte_u32; now apply lookup_byte.
Qed.

Lemma lor_shiftl8 acc x :
  0 <= x < 256 -> Z.lor (Z.shiftl acc 8) x = acc * 256 + x.
Proof.
  intros Hx. rewrite Z.shiftl_mul_pow2 by lia. change (2 ^ 8) with 256.
  assert (E : Z.land (acc * 256) x = 0).
  { apply Z.bits_inj'. intros n Hn. rewrite Z.land_spec, Z.bits_0.
    destruct (Z.ltb_spec n 8).
    - change 256 with (2 ^ 8). rewrite Z.mul_pow2_bits_low by lia. reflexivity.
    - replace (Z.testbit x n) with false; [apply andb_false_r|].
      symmetry. destruct (Z.eq_dec x 0) as [->|]; [apply Z.bits_0|].
      apply Z.bits_above_log2; [lia|].
      assert (Z.log2 x < 8) by (apply Z.log2_lt_pow2; lia). lia. }
  rewrite <- Z.lxor_lor by assumption. symmetry. now apply Z.add_nocarry_lxor.
Qed.

Lemma be32_4 b0 b1 b2 b3 :
  is_bytesb [b0; b1; b2; b3] = true ->
  be32 [b0; b1; b2; b3] = ((b0 * 256 + b1) * 256 + b2) * 256 + b3.
Proof.
  cbn [is_bytesb forallb]. rewrite !andb_true_iff, !is_byteb_iff.
  intros (H0 & H1 & H2 & H3 & _).
  unfold be32. cbn [fold_left]. rewrite !lor_shiftl8 by assumption. lia.
Qed.

Lemma be32_bytes_spec w :
  be32_bytes w =
  [(w / 16777216) mod 256; (w / 65536) mod 256; (w / 256) mod 256; w mod 256].
Proof.
  unfold be32_bytes. change 0xff with (Z.ones 8).
  rewrite !Z.land_ones, !Z.shiftr_div_pow2 by lia. reflexivity.
Qed.

Lemma be32_bytes_ok w : is_bytesb (be32_bytes w) = true.
Proof.
  unfold be32_bytes. cbn [is_bytesb forallb]. now rewrite !land_255_byte.
Qed.

Lemma be32_of_bytes w : is_u32b w = true -> be32 (be32_bytes w) = w.
Proof.
  intros H. apply is_u32b_iff in H. change (2 ^ 32) with 4294967296 in H.
  rewrite be32_bytes_spec.
  rewrite be32_4 by (rewrite <- be32_bytes_spec; apply be32_bytes_ok).
  Z.div_mod_to_equations. lia.
Qed.

Lemma bytes_of_be32 b0 b1 b2 b3 :
  is_bytesb [b0; b1; b2; b3] = true ->
  be32_bytes (be32 [b0; b1; b2; b3]) = [b0; b1; b2; b3].
Proof.
  intros H. rewrite be32_4 by assumption. rewrite be32_bytes_spec.
  cbn [is_bytesb forallb] in H. rewrite !andb_true_iff, !is_byteb_iff in H.
  destruct H as (H0 & H1 & H2 & H3 & _).
  repeat f_equal; Z.div_mod_to_equations; lia.
Qed.

Lemma be32_u32 b0 b1 b2 b3 :
  is_bytesb [b0; b1; b2; b3] = true -> is_u32b (be32 [b0; b1; b2; b3]) = true.
Proof.
  intros H. rewrite be32_4 by assumption. apply is_u32b_iff.
  cbn [is_bytesb forallb] in H. rewrite !andb_true_iff, !is_byteb_iff in H.
  change (2 ^ 32) with 4294967296. lia.
Qed.

(** * SM4: one block *)

Lemma round_step_eq c X i :
  round_step c X i = sm4_round (sbox c) (swap_data_round c) X (nth i (sk c) 0).
Proof. reflexivity. Qed.

Lemma fold_seq_nth {A : Type} (f : A -> Z -> A) (pre ks : list Z) (x : A) :
  fold_left (fun acc i => f acc (nth i (pre ++ ks) 0))
            (seq (length pre) (length ks)) x
  = fold_left f ks x.
Proof.
  revert pre x. induction ks as [|k ks IH]; intros pre x; [reflexivity|].
  cbn [length seq fold_left].
  rewrite app_nth2, Nat.sub_diag by lia. cbn [nth].
  specialize (IH (pre ++ [k]) (f x k)).
  rewrite <- app_assoc, length_app, Nat.add_comm in IH. cbn in IH.
  exact IH.
Qed.

Lemma rounds_as_fold c X :
  length (sk c) = 32%nat ->
  fold_left (round_step c) (seq 0 32) X
  = fold_left (sm4_round (sbox c) (swap_data_round c)) (sk c) X.
Proof.
  intros H. rewrite <- (fold_seq_nth _ [] (sk c)). cbn [length app].
  now rewrite H.
Qed.

Lemma words4b_inv X :
  words4b X = true ->
  exists a b c d, X = [a; b; c; d] /\ is_u32b a = true /\ is_u32b b = true
                  /\ is_u32b c = true /\ is_u32b d = true.
Proof.
  unfold words4b.
  destruct X as [|a [|b [|c [|d [|e X]]]]]; try discriminate.
  cbn [length Nat.eqb andb forallb]. rewrite !andb_true_iff.
  intros (Ha & Hb & Hc & Hd & _). now exists a, b, c, d.
Qed.

Lemma words4b_intro a b c d :
  is_u32b a = true -> is_u32b b = true -> is_u32b c = true ->
  is_u32b d = true -> words4b [a; b; c; d] = true.
Proof.
  intros Ha Hb Hc Hd. unfold words4b. cbn. now rewrite Ha, Hb, Hc, Hd.
Qed.

Lemma sm4_round_words sb swapped X k :
  is_bytesb sb = true -> words4b X = true ->
  words4b (sm4_round sb swapped X k) = true.
Proof.
  intros Hsb HX. destruct (words4b_inv X HX) as (a & b & c & d & -> & Ha & Hb & Hc & Hd).
  unfold sm4_round. cbn [nth]. apply words4b_intro; auto.
  apply lxor_u32; [assumption|]. now apply l_u32, apply_tau_u32.
Qed.

Lemma sm4_rounds_words sb swapped ks X :
  is_bytesb sb = true -> words4b X = true ->
  words4b (fold_left (sm4_round sb swapped) ks X) = true.
Proof.
  intros Hsb. revert X. induction ks as [|k ks IH]; intros X HX; [assumption|].
  cbn [fold_left]. apply IH. now apply sm4_round_words.
Qed.

Lemma rev4_words X : words4b X = true -> words4b (rev4 X) = true.
Proof.
  intros HX. destruct (words4b_inv X HX) as (a & b & c & d & -> & Ha & Hb & Hc & Hd).
  now apply words4b_intro.
Qed.

Lemma rev4_involutive X : words4b X = true -> rev4 (rev4 X) = X.
Proof.
  intros HX. destruct (words4b_inv X HX) as (a & b & c & d & -> & _).
  reflexivity.
Qed.

(** The Feistel step undoes itself on the reversed registers. *)
Lemma sm4_round_inverse sb swapped X k :
  words4b X = true ->
  sm4_round sb swapped (rev4 (sm4_round sb swapped X k)) k = rev4 X.
Proof.
  intros HX. destruct (words4b_inv X HX) as (a & b & c & d & -> & _).
  unfold sm4_round, rev4. cbn [nth].
  assert (E : Z.lxor (Z.lxor d c) b = Z.lxor (Z.lxor b c) d).
  { rewrite (Z.lxor_comm d c), Z.lxor_assoc, (Z.lxor_comm d b).
    now rewrite <- Z.lxor_assoc, (Z.lxor_comm c b). }
  now rewrite E, lxor_cancel.
Qed.

Lemma sm4_rounds_inverse sb swapped ks X :
  is_bytesb sb = true -> words4b X = true ->
  fold_left (sm4_round sb swapped) (rev ks)
    (rev4 (fold_left (sm4_round sb swapped) ks X)) = rev4 X.
Proof.
  intros Hsb. revert X. induction ks as [|k ks IH]; intros X HX; [reflexivity|].
  cbn [rev fold_left]. rewrite fold_left_app.
  rewrite IH by now apply sm4_round_words.
  cbn [fold_left]. now apply sm4_round_inverse.
Qed.

Lemma unpack4I_ok B :
  is_blockb B = true ->
  exists X, unpack4I B = Ok X /\ words4b X = true
            /\ flat_map be32_bytes X = B.
Proof.
  intros H. unfold is_blockb in H. apply andb_true_iff in H as [Hl Hb].
  apply Nat.eqb_eq in Hl. unfold unpack4I. rewrite Hl. cbn [Nat.eqb].
  do 16 (destruct B as [|? B]; [discriminate|]).
  destruct B; [|discriminate].
  eexists. split; [reflexivity|].
  cbn [map slice skipn firstn Nat.add Nat.sub].
  cbn [is_bytesb forallb] in Hb. rewrite !andb_true_iff in Hb.
  destruct Hb as (?&?&?&?&?&?&?&?&?&?&?&?&?&?&?&?&_).
  assert (forall a b c d, is_byteb a = true -> is_byteb b = true ->
            is_byteb c = true -> is_byteb d = true ->
            is_bytesb [a; b; c; d] = true) as Hq.
  { intros a b c d Ha Hb' Hc Hd. cbn. now rewrite Ha, Hb', Hc, Hd. }
  split.
  - apply words4b_intro; apply be32_u32; auto.
  - cbn [flat_map]. rewrite !bytes_of_be32 by auto. reflexivity.
Qed.

Lemma pack4I_ok X :
  words4b X = true ->
  exists C, pack4I X = Ok C /\ is_blockb C = true /\ unpack4I C = Ok X.
Proof.
  intros HX. destruct (words4b_inv X HX) as (a & b & c & d & -> & Ha & Hb & Hc & Hd).
  unfold pack4I. cbn [forallb]. rewrite Ha, Hb, Hc, Hd. cbn [andb].
  eexists. split; [reflexivity|]. split.
  - unfold is_blockb. cbn [flat_map app be32_bytes length Nat.eqb andb].
    cbn [is_bytesb forallb]. now rewrite !land_255_byte.
  - unfold unpack4I. cbn [flat_map app be32_bytes length Nat.eqb].
    cbn [map slice skipn firstn Nat.add Nat.sub].
    pose proof (be32_of_bytes a Ha) as Ea. pose proof (be32_of_bytes b Hb) as Eb.
    pose proof (be32_of_bytes c Hc) as Ec. pose proof (be32_of_bytes d Hd) as Ed.
    unfold be32_bytes in Ea, Eb, Ec, Ed. now rewrite Ea, Eb, Ec, Ed.
Qed.

Lemma ints_round_unfold c B X :
  length (sk c) = 32%nat -> unpack4I B = Ok X ->
  one_round c B
  = pack4I (rev4 (fold_left (sm4_round (sbox c) (swap_data_round c)) (sk c) X)).
Proof.
  intros Hlen EX. rewrite <- rounds_as_fold by assumption.
  unfold one_round. rewrite EX. reflexivity.
Qed.

Section IntsBlock.
Variables e d : Sm4Ints.t.
Hypothesis He : ints_ok e.
Hypothesis Hsbox : sbox d = sbox e.
Hypothesis Hswap : swap_data_round d = swap_data_round e.
Hypothesis Hsk : sk d = rev (sk e).

Lemma ints_round_ok B :
  is_blockb B = true -> exists C, one_round e B = Ok C /\ is_blockb C = true.
Proof.
  intros HB. destruct He as [Hsb Hlen].
  destruct (unpack4I_ok B HB) as (X & EX & HX & _).
  rewrite (ints_round_unfold e B X Hlen EX).
  set (Y := fold_left _ (sk e) X).
  assert (HY : words4b Y = true) by now apply sm4_rounds_words.
  destruct (pack4I_ok (rev4 Y) (rev4_words Y HY)) as (C & EC & HC & _).
  exists C. split; [exact EC|exact HC].
Qed.

Lemma ints_round_inverse B C :
  is_blockb B = true -> one_round e B = Ok C -> one_round d C = Ok B.
Proof.
  intros HB HC. destruct He as [Hsb Hlen].
  destruct (unpack4I_ok B HB) as (X & EX & HX & Hflat).
  rewrite (ints_round_unfold e B X Hlen EX) in HC.
  assert (HY : words4b (fold_left (sm4_round (sbox e) (swap_data_round e))
                          (sk e) X) = true)
    by now apply sm4_rounds_words.
  destruct (pack4I_ok _ (rev4_words _ HY)) as (C' & EC & _ & EU).
  rewrite EC in HC. injection HC as ->.
  assert (Hlen' : length (sk d) = 32%nat)
    by (rewrite Hsk, length_rev; assumption).
  rewrite (ints_round_unfold d C _ Hlen' EU).
  rewrite Hsbox, Hswap, Hsk.
  rewrite sm4_rounds_inverse by assumption.
  rewrite rev4_involutive by assumption.
  destruct (words4b_inv X HX) as (x0 & x1 & x2 & x3 & -> & H0 & H1 & H2 & H3).
  unfold pack4I. cbn [forallb]. rewrite H0, H1, H2, H3. cbn [andb].
  now rewrite Hflat.
Qed.
End IntsBlock.

Lemma key_loop_length sb sks idxs K :
  length (fold_left (key_step sb sks) idxs K) = length K.
Proof.
  revert K. induction idxs as [|i idxs IH]; intros K; [reflexivity|].
  cbn [fold_left]. rewrite IH. unfold key_step.
  generalize (Z.lxor (nth i K 0)
                (_l_key (apply_tau sb sks
                   (Z.lxor (Z.lxor (Z.lxor (nth (i + 1) K 0) (nth (i + 2) K 0))
                                   (nth (i + 3) K 0)) (nth i SM4_CK 0))))).
  generalize (i + 4)%nat. clear. intros k v. revert k.
  induction K; intros [|k]; cbn; auto.
Qed.

Lemma set_key_sk_length sb key mode sks sdr :
  length (sk (set_key sb key mode sks sdr)) = 32%nat.
Proof.
  unfold set_key. cbn [sk].
  assert (length (skipn 4 (fold_left (key_step sb sks) (seq 0 32)
            (map (fun p => Z.lxor (fst p) (snd p))
               (combine (map (fun i => be32 (slice (key16 key) i (i + 4)))
                           [0; 4; 8; 12]%nat) SM4_FK) ++ repeat 0 32)))
          = 32%nat) as H.
  { rewrite length_skipn, key_loop_length, length_app, length_map,
      length_combine, length_map, repeat_length. reflexivity. }
  destruct (mode =? 1); [rewrite length_rev|]; exact H.
Qed.

Lemma ints_init_ok custom key mode sks sdr :
  is_bytesb (select_sbox STANDARD_SBOX custom) = true ->
  ints_ok (init custom key mode sks sdr).
Proof.
  intros H. split; [exact H|apply set_key_sk_length].
Qed.

Lemma ints_decrypt_keys custom key sks sdr :
  sbox (init custom key 1 sks sdr) = sbox (init custom key 0 sks sdr)
  /\ swap_data_round (init custom key 1 sks sdr)
     = swap_data_round (init custom key 0 sks sdr)
  /\ sk (init custom key 1 sks sdr) = rev (sk (init custom key 0 sks sdr)).
Proof.
  unfold init, set_key. cbn [sbox swap_data_round sk].
  change (1 =? 1) with true. change (0 =? 1) with false. cbv iota.
  split; [reflexivity|split]; reflexivity.
Qed.

End Sm4Facts.
Import Sm4Facts.

(** * SM4: the code on a table of integers

    When every element of the table is an integer no lookup raises, and
    the key schedule and the rounds are the closed forms of [Sm4Ints]. *)

Section Sm4Lift.
Variables (l : list pyval) (tbl : list Z).
Hypothesis Hl : table_ints l = Some tbl.
Hypothesis Hlen : length l = 256%nat.

Lemma masked_item a :
  exists v, item l (Z.land a 255) = Ok v
            /\ as_int v = Ok (lookup tbl (Z.land a 255)).
Proof.
  apply table_ints_item; [exact Hl|].
  pose proof (land_255_byte a) as H. apply is_byteb_iff in H.
  rewrite Hlen. lia.
Qed.

Lemma tau_items_ints a :
  exists b0 b1 b2 b3,
    SM4.tau_items l a = Ok (b0, b1, b2, b3)
    /\ as_int b0 = Ok (lookup tbl (Z.land (Z.shiftr a 24) 255))
    /\ as_int b1 = Ok (lookup tbl (Z.land (Z.shiftr a 16) 255))
    /\ as_int b2 = Ok (lookup tbl (Z.land (Z.shiftr a 8) 255))
    /\ as_int b3 = Ok (lookup tbl (Z.land a 255)).
Proof.
  destruct (masked_item (Z.shiftr a 24)) as (b0 & E0 & H0).
  destruct (masked_item (Z.shiftr a 16)) as (b1 & E1 & H1).
  destruct (masked_item (Z.shiftr a 8)) as (b2 & E2 & H2).
  destruct (masked_item a) as (b3 & E3 & H3).
  exists b0, b1, b2, b3. unfold SM4.tau_items.
  rewrite E0, E1, E2, E3. cbn [bind]. auto.
Qed.

Lemma apply_tau_ints swapped a :
  SM4.apply_tau l swapped a = Ok (Sm4Ints.apply_tau tbl swapped a).
Proof.
  destruct (tau_items_ints a) as (b0 & b1 & b2 & b3 & E & H0 & H1 & H2 & H3).
  unfold SM4.apply_tau, Sm4Ints.apply_tau, SM4._tau, SM4._tau_swapped,
    Sm4Ints._tau, Sm4Ints._tau_swapped.
  rewrite E. cbn [bind]. rewrite H0, H1, H2, H3. cbn [bind].
  now destruct swapped.
Qed.

Lemma key_step_ints sks K i :
  SM4.key_step l sks K i = Ok (Sm4Ints.key_step tbl sks K i).
Proof.
  unfold SM4.key_step, Sm4Ints.key_step. now rewrite apply_tau_ints.
Qed.

Lemma set_key_ints key mode sks sdr :
  SM4.set_key l key mode sks sdr
  = Ok (SM4.mk l (Sm4Ints.sk (Sm4Ints.set_key tbl key mode sks sdr)) sdr).
Proof.
  unfold SM4.set_key, Sm4Ints.set_key. cbn [Sm4Ints.sk].
  match goal with |- context [foldM _ _ ?K0] =>
    destruct (foldM_ok (SM4.key_step l sks) (Sm4Ints.key_step tbl sks)
                (fun _ => True) (seq 0 32) K0 I) as [E _] end.
  { intros K i _ _. split; [apply key_step_ints|exact I]. }
  rewrite E. reflexivity.
Qed.

Lemma one_round_ints sk sdr B :
  SM4.one_round (SM4.mk l sk sdr) B
  = Sm4Ints.one_round (Sm4Ints.mk tbl sk sdr) B.
Proof.
  unfold SM4.one_round, Sm4Ints.one_round.
  destruct (SM4.unpack4I B) as [X|e]; [|reflexivity]. cbn [bind].
  destruct (foldM_ok (SM4.round_step (SM4.mk l sk sdr))
              (Sm4Ints.round_step (Sm4Ints.mk tbl sk sdr))
              (fun _ => True) (seq 0 32) X I) as [E _].
  { intros Y i _ _. split; [|exact I].
    unfold SM4.round_step, Sm4Ints.round_step.
    cbn [SM4.sbox SM4.sk SM4.swap_data_round Sm4Ints.sbox Sm4Ints.sk
         Sm4Ints.swap_data_round].
    now rewrite apply_tau_ints. }
  rewrite E. reflexivity.
Qed.
End Sm4Lift.

Lemma sm4_ok_ints (c : SM4.t) :
  sm4_ok c ->
  exists tbl,
    table_ints (SM4.sbox c) = Some tbl
    /\ ints_ok (Sm4Ints.mk tbl (SM4.sk c) (SM4.swap_data_round c))
    /\ forall B,
         SM4.one_round c B
         = Sm4Ints.one_round
             (Sm4Ints.mk tbl (SM4.sk c) (SM4.swap_data_round c)) B.
Proof.
  intros [(tbl & Ht & Hlt & Hb) Hsk]. exists tbl.
  split; [exact Ht|]. split; [split; assumption|].
  intros B. destruct c as [l sk sdr]. cbn [SM4.sbox SM4.sk SM4.swap_data_round] in *.
  apply one_round_ints; [exact Ht|].
  now rewrite <- (table_ints_length l tbl Ht).
Qed.

Section Sm4Block.
Variables e d : SM4.t.
Hypothesis He : sm4_ok e.
Hypothesis Hsbox : SM4.sbox d = SM4.sbox e.
Hypothesis Hswap : SM4.swap_data_round d = SM4.swap_data_round e.
Hypothesis Hsk : SM4.sk d = rev (SM4.sk e).

Lemma one_round_ok B :
  is_blockb B = true ->
  exists C, SM4.one_round e B = Ok C /\ is_blockb C = true.
Proof.
  intros HB. destruct (sm4_ok_ints e He) as (tbl & _ & Hok & Er).
  rewrite Er. now apply ints_round_ok.
Qed.

Lemma sm4_ok_decrypt : sm4_ok d.
Proof.
  destruct He as [Ht Hl]. split; [now rewrite Hsbox|].
  now rewrite Hsk, length_rev.
Qed.

Lemma one_round_inverse B C :
  is_blockb B = true -> SM4.one_round e B = Ok C -> SM4.one_round d C = Ok B.
Proof.
  intros HB HC. destruct (sm4_ok_ints e He) as (tbl & Ht & Hok & Er).
  destruct (sm4_ok_ints d sm4_ok_decrypt) as (tbl' & Ht' & _ & Er').
  rewrite Hsbox, Ht in Ht'. injection Ht' as <-.
  rewrite Er in HC. rewrite Er'.
  revert HC. apply ints_round_inverse; auto.
Qed.
End Sm4Block.

(** [SM4Encoders(custom)] and [set_key] on a table of integers: the two
    directions give instances that differ in the order of the round keys
    only. *)
Lemma table_of_length standard custom :
  length standard = 256%nat -> length (table_of standard custom) = 256%nat.
Proof.
  intros H. unfold table_of, select_sbox. destruct custom as [l|].
  - destruct (Nat.eqb (length l) 256) eqn:E.
    + now apply Nat.eqb_eq.
    + now rewrite length_map.
  - now rewrite length_map.
Qed.

Lemma sm4_init_built custom key mode sks sdr tbl :
  table_ints (table_of SM4.STANDARD_SBOX custom) = Some tbl ->
  SM4.init custom key mode sks sdr
  = Ok (sm4_built (table_of SM4.STANDARD_SBOX custom) tbl key mode sks sdr).
Proof.
  intros Ht. unfold SM4.init. fold (table_of SM4.STANDARD_SBOX custom).
  apply set_key_ints; [exact Ht|]. now apply table_of_length.
Qed.

Lemma sm4_built_ok l tbl key mode sks sdr :
  table_ints l = Some tbl -> sbox_bytesb tbl = true ->
  sm4_ok (sm4_built l tbl key mode sks sdr).
Proof.
  intros Ht Hb. unfold sbox_bytesb in Hb.
  apply andb_true_iff in Hb as [Hlen Hb]. apply Nat.eqb_eq in Hlen.
  split.
  - exists tbl. cbn [sm4_built SM4.sbox]. auto.
  - cbn [sm4_built SM4.sk]. apply set_key_sk_length.
Qed.

Lemma sm4_built_keys l tbl key sks sdr :
  SM4.sbox (sm4_built l tbl key 1 sks sdr)
  = SM4.sbox (sm4_built l tbl key 0 sks sdr)
  /\ SM4.swap_data_round (sm4_built l tbl key 1 sks sdr)
     = SM4.swap_data_round (sm4_built l tbl key 0 sks sdr)
  /\ SM4.sk (sm4_built l tbl key 1 sks sdr)
     = rev (SM4.sk (sm4_built l tbl key 0 sks sdr)).
Proof.
  unfold sm4_built, Sm4Ints.set_key.
  cbn [SM4.sbox SM4.swap_data_round SM4.sk Sm4Ints.sk].
  change (1 =? 1) with true. change (0 =? 1) with false. cbv iota.
  split; [reflexivity|split]; reflexivity.
Qed.

(** * Chunks of 16 bytes *)

Lemma blocks_from_nil fuel : blocks_from fuel [] = [].
Proof. now destruct fuel. Qed.

Lemma blocks_from_fuel fuel data :
  (length data <= fuel)%nat -> blocks_from fuel data = blocks16 data.
Proof.
  unfold blocks16. remember (length data) as n eqn:Hn.
  revert fuel data Hn.
  induction n as [n IH] using lt_wf_ind. intros fuel data Hn Hle.
  destruct data as [|a data].
  - now rewrite !blocks_from_nil.
  - cbn [length] in Hn. destruct fuel as [|fuel]; [lia|].
    destruct n as [|n]; [lia|]. cbn [blocks_from]. f_equal.
    assert (Hs : (length (skipn 16 (a :: data)) <= n)%nat).
    { rewrite length_skipn. cbn [length]. lia. }
    rewrite (IH (length (skipn 16 (a :: data)))) with (fuel := fuel);
      try lia; try reflexivity.
    rewrite (IH (length (skipn 16 (a :: data)))) with (fuel := n);
      try lia; reflexivity.
Qed.

Lemma blocks16_cons a data :
  blocks16 (a :: data)
  = firstn 16 (a :: data) :: blocks16 (skipn 16 (a :: data)).
Proof.
  unfold blocks16 at 1. cbn [length blocks_from]. f_equal.
  apply blocks_from_fuel. rewrite length_skipn. cbn [length]. lia.
Qed.

Lemma blocks16_ind (P : bytes -> Prop) :
  P [] ->
  (forall a data, P (skipn 16 (a :: data)) -> P (a :: data)) ->
  forall data, P data.
Proof.
  intros H0 Hs data. remember (length data) as n eqn:Hn. revert data Hn.
  induction n as [n IH] using lt_wf_ind. intros [|a data] Hn; [exact H0|].
  apply Hs. apply (IH (length (skipn 16 (a :: data)))); [|reflexivity].
  rewrite Hn, length_skipn. cbn [length]. lia.
Qed.

Lemma concat_blocks16 data : concat (blocks16 data) = data.
Proof.
  induction data as [|a data IH] using blocks16_ind; [reflexivity|].
  rewrite blocks16_cons. cbn [concat]. rewrite IH. apply firstn_skipn.
Qed.

Lemma blocks16_chunked data : chunked (blocks16 data).
Proof.
  induction data as [|a data IH] using blocks16_ind; [constructor|].
  rewrite blocks16_cons.
  destruct (skipn 16 (a :: data)) as [|b rest] eqn:E.
  - change (blocks16 []) with (@nil bytes). constructor.
    rewrite length_firstn. cbn [length]. lia.
  - rewrite blocks16_cons in IH |- *. constructor; [|exact IH].
    rewrite length_firstn.
    assert (length (skipn 16 (a :: data)) <> 0%nat) by (rewrite E; discriminate).
    rewrite length_skipn in H. lia.
Qed.

Lemma blocks16_of_chunked bs : chunked bs -> blocks16 (concat bs) = bs.
Proof.
  induction 1 as [|b Hb|b b' r Hb Hc IH]; [reflexivity| |].
  - cbn [concat]. rewrite app_nil_r. destruct b as [|a b]; [cbn in Hb; lia|].
    rewrite blocks16_cons.
    rewrite firstn_all2 by lia. rewrite skipn_all2 by lia. reflexivity.
  - cbn [concat] in *. destruct b as [|a b]; [discriminate|].
    cbn [app]. rewrite blocks16_cons.
    change (a :: b ++ b' ++ concat r) with ((a :: b) ++ b' ++ concat r).
    rewrite firstn_app, skipn_app, Hb, Nat.sub_diag.
    rewrite firstn_all2, skipn_all2 by lia. cbn [firstn skipn app].
    rewrite app_nil_r. now rewrite IH.
Qed.

Lemma chunked_same_lengths xs ys :
  same_lengths xs ys -> chunked xs -> chunked ys.
Proof.
  intros H Hc. revert ys H.
  induction Hc as [|b Hb|b b' r Hb Hc IH]; intros ys H.
  - inversion H. constructor.
  - inversion H as [|x y xs' ys' Hxy Hr]; subst. inversion Hr; subst.
    constructor. lia.
  - inversion H as [|x y xs' ys' Hxy Hr]; subst.
    inversion Hr as [|x2 y2 xs2 ys2 Hxy2 Hr2]; subst.
    constructor; [lia|]. apply IH. assumption.
Qed.

Lemma same_lengths_concat xs ys :
  same_lengths xs ys -> length (concat xs) = length (concat ys).
Proof.
  induction 1 as [|x y xs ys Hxy H IH]; [reflexivity|].
  cbn [concat]. rewrite !length_app. lia.
Qed.

Lemma chunked_short bs : chunked bs -> Forall (fun b => (length b <= 16)%nat) bs.
Proof.
  induction 1; constructor; auto; lia.
Qed.

Lemma blocks16_bytes data :
  is_bytesb data = true -> all_bytes (blocks16 data).
Proof.
  induction data as [|a data IH] using blocks16_ind; intros H; [constructor|].
  rewrite blocks16_cons. constructor.
  - now apply is_bytesb_firstn.
  - apply IH. now apply is_bytesb_skipn.
Qed.

Lemma blocks16_aligned data :
  is_bytesb data = true -> (length data mod 16 = 0)%nat ->
  all_blocks (blocks16 data).
Proof.
  induction data as [|a data IH] using blocks16_ind; intros Hb Hm; [constructor|].
  rewrite blocks16_cons.
  assert (Hlen : (16 <= length (a :: data))%nat).
  { apply Nat.Div0.div_exact in Hm.
    destruct (length (a :: data) / 16)%nat eqn:E; [cbn [length] in Hm; lia|lia]. }
  constructor.
  - unfold is_blockb. rewrite length_firstn, Nat.min_l by exact Hlen.
    cbn [Nat.eqb andb]. now apply is_bytesb_firstn.
  - apply IH; [now apply is_bytesb_skipn|].
    rewrite length_skipn.
    apply Nat.Div0.div_exact in Hm. rewrite Hm.
    replace (16 * (length (a :: data) / 16) - 16)%nat
      with ((length (a :: data) / 16 - 1) * 16)%nat by lia.
    apply Nat.Div0.mod_mul.
Qed.

Lemma all_blocks_chunked bs : all_blocks bs -> chunked bs.
Proof.
  induction 1 as [|b bs Hb H IH]; [constructor|].
  unfold is_blockb in Hb. apply andb_true_iff in Hb as [Hl _].
  apply Nat.eqb_eq in Hl.
  destruct bs; constructor; auto; lia.
Qed.

Lemma all_blocks_bytes bs : all_blocks bs -> is_bytesb (concat bs) = true.
Proof.
  induction 1 as [|b bs Hb H IH]; [reflexivity|].
  cbn [concat]. rewrite is_bytesb_app, IH.
  unfold is_blockb in Hb. apply andb_true_iff in Hb as [_ ->]. reflexivity.
Qed.

Lemma all_blocks_length bs :
  all_blocks bs -> length (concat bs) = (16 * length bs)%nat.
Proof.
  induction 1 as [|b bs Hb H IH]; [reflexivity|].
  cbn [concat length]. rewrite length_app, IH.
  unfold is_blockb in Hb. apply andb_true_iff in Hb as [Hl _].
  apply Nat.eqb_eq in Hl. lia.
Qed.

(** * xor of byte strings *)

Lemma xor_bytes_length x y :
  length (xor_bytes x y) = Nat.min (length x) (length y).
Proof. unfold xor_bytes. now rewrite length_map, length_combine. Qed.

Lemma xor_bytes_cancel x k :
  (length x <= length k)%nat -> xor_bytes (xor_bytes x k) k = x.
Proof.
  revert k. induction x as [|a x IH]; intros [|b k] H; cbn in *; try lia;
    try reflexivity.
  rewrite lxor_cancel. f_equal. apply IH. lia.
Qed.

Lemma xor_bytes_bytes x y :
  is_bytesb x = true -> is_bytesb y = true -> is_bytesb (xor_bytes x y) = true.
Proof.
  revert y. induction x as [|a x IH]; intros [|b y]; cbn; try reflexivity.
  rewrite !andb_true_iff. intros [Ha Hx] [Hb Hy].
  split; [now apply lxor_byte|now apply IH].
Qed.

Lemma xor_bytes_app x1 x2 y1 y2 :
  length x1 = length y1 ->
  xor_bytes (x1 ++ x2) (y1 ++ y2) = xor_bytes x1 y1 ++ xor_bytes x2 y2.
Proof.
  revert y1. induction x1 as [|a x1 IH]; intros [|b y1] H; cbn in *;
    try discriminate; [reflexivity|].
  f_equal. apply IH. lia.
Qed.

Lemma xor_same_key x y k :
  length x = length y -> (length x <= length k)%nat ->
  xor_bytes (xor_bytes x k) (xor_bytes y k) = xor_bytes x y.
Proof.
  revert y k. induction x as [|a x IH]; intros [|b y] [|c k] H Hk; cbn in *;
    try discriminate; try lia; try reflexivity.
  f_equal.
  - rewrite (Z.lxor_comm b c), Z.lxor_assoc, <- (Z.lxor_assoc c c b).
    now rewrite Z.lxor_nilpotent, Z.lxor_0_l.
  - apply IH; lia.
Qed.

Lemma xor_block x y :
  is_blockb x = true -> is_blockb y = true -> is_blockb (xor_bytes x y) = true.
Proof.
  unfold is_blockb. rewrite !andb_true_iff, !Nat.eqb_eq.
  intros [Hx Hbx] [Hy Hby]. split.
  - rewrite xor_bytes_length. lia.
  - now apply xor_bytes_bytes.
Qed.

(** * The mode loops *)

Lemma to_bytes16_block n :
  0 <= n < 2 ^ 128 ->
  exists b, to_bytes16 n = Ok b /\ is_blockb b = true.
Proof.
  intros [H0 H1]. unfold to_bytes16.
  apply Z.leb_le in H0. apply Z.ltb_lt in H1. rewrite H0, H1. cbn [andb].
  eexists. split; [reflexivity|].
  unfold is_blockb. rewrite length_map, length_seq. cbn [Nat.eqb andb].
  unfold is_bytesb. rewrite forallb_forall. intros x Hx.
  apply in_map_iff in Hx as (i & <- & _). apply is_byteb_iff.
  apply Z.mod_pos_bound. lia.
Qed.

Lemma to_bytes16_overflow n : 2 ^ 128 <= n -> to_bytes16 n = Raise OverflowError.
Proof.
  intros H. unfold to_bytes16.
  replace (n <? 2 ^ 128) with false by (symmetry; apply Z.ltb_ge; exact H).
  now rewrite andb_false_r.
Qed.

Lemma all_bytes_concat bs : all_bytes bs -> is_bytesb (concat bs) = true.
Proof.
  induction 1 as [|b bs Hb H IH]; [reflexivity|].
  cbn [concat]. now rewrite is_bytesb_app, Hb, IH.
Qed.

Lemma is_blockb_length b : is_blockb b = true -> length b = 16%nat.
Proof. unfold is_blockb. rewrite andb_true_iff, Nat.eqb_eq. tauto. Qed.

Lemma is_blockb_bytes b : is_blockb b = true -> is_bytesb b = true.
Proof. unfold is_blockb. rewrite andb_true_iff. tauto. Qed.

Section BlockModes.
Variables E D : bytes -> result bytes.
Hypothesis E_total :
  forall B, is_blockb B = true -> exists C, E B = Ok C /\ is_blockb C = true.
Hypothesis D_E :
  forall B C, is_blockb B = true -> E B = Ok C -> D C = Ok B.

Lemma ecb_roundtrip bs res :
  all_blocks bs ->
  exists cs, ecb_break E bs res = Ok (res ++ concat cs)
    /\ all_blocks cs /\ length cs = length bs
    /\ (forall r, ecb_break D cs r = Ok (r ++ concat bs))
    /\ (forall r, ecb_all D cs r = Ok (r ++ concat bs)).
Proof.
  intros H. revert res. induction H as [|b bs Hb H IH]; intros res.
  - exists []. cbn. rewrite app_nil_r. repeat split; try constructor;
      intros; now rewrite app_nil_r.
  - destruct (E_total b Hb) as (c & Ec & Hc).
    destruct (IH (res ++ c)) as (cs & E1 & Hcs & Hlen & Hd & Hd').
    exists (c :: cs). cbn [ecb_break ecb_all concat length].
    rewrite (is_blockb_length b Hb), (is_blockb_length c Hc).
    cbn [Nat.ltb Nat.leb]. rewrite Ec. cbn [bind].
    rewrite E1, <- app_assoc. split; [reflexivity|].
    split; [now constructor|]. split; [now rewrite Hlen|].
    rewrite (D_E b c Hb Ec). cbn [bind].
    split; intros r; [rewrite Hd|rewrite Hd']; now rewrite <- app_assoc.
Qed.

Lemma cbc_roundtrip bs prev res :
  is_blockb prev = true -> all_blocks bs ->
  exists cs, cbc_encrypt E bs prev res = Ok (res ++ concat cs)
    /\ all_blocks cs /\ length cs = length bs
    /\ (forall r, cbc_decrypt_break D cs prev r = Ok (r ++ concat bs))
    /\ (forall r, cbc_decrypt_all D cs prev r = Ok (r ++ concat bs)).
Proof.
  intros Hp H. revert prev Hp res.
  induction H as [|b bs Hb H IH]; intros prev Hp res.
  - exists []. cbn. rewrite app_nil_r. repeat split; try constructor;
      intros; now rewrite app_nil_r.
  - pose proof (xor_block b prev Hb Hp) as Hx.
    destruct (E_total _ Hx) as (c & Ec & Hc).
    destruct (IH c Hc (res ++ c)) as (cs & E1 & Hcs & Hlen & Hd & Hd').
    exists (c :: cs).
    cbn [cbc_encrypt cbc_decrypt_break cbc_decrypt_all concat length].
    rewrite (is_blockb_length c Hc). cbn [Nat.ltb Nat.leb].
    rewrite Ec. cbn [bind]. rewrite E1, <- app_assoc.
    split; [reflexivity|]. split; [now constructor|].
    split; [now rewrite Hlen|].
    rewrite (D_E _ c Hx Ec). cbn [bind].
    rewrite xor_bytes_cancel
      by (rewrite (is_blockb_length b Hb), (is_blockb_length prev Hp); lia).
    split; intros r; [rewrite Hd|rewrite Hd']; now rewrite <- app_assoc.
Qed.
End BlockModes.

Section StreamModes.
Variable E : bytes -> result bytes.
Hypothesis E_total :
  forall B, is_blockb B = true -> exists C, E B = Ok C /\ is_blockb C = true.

Let short (bs : list bytes) : Prop :=
  Forall (fun b => (length b <= 16)%nat) bs.

Lemma chunk_cancel b ks :
  (length b <= 16)%nat -> is_blockb ks = true ->
  xor_bytes (xor_bytes b (firstn (length b) ks))
            (firstn (length (xor_bytes b (firstn (length b) ks))) ks) = b
  /\ length (xor_bytes b (firstn (length b) ks)) = length b.
Proof.
  intros Hb Hk. pose proof (is_blockb_length ks Hk) as Hl.
  assert (El : length (xor_bytes b (firstn (length b) ks)) = length b).
  { rewrite xor_bytes_length, length_firstn. lia. }
  split; [|exact El]. rewrite El. apply xor_bytes_cancel.
  rewrite length_firstn. lia.
Qed.

Lemma chunk_bytes b ks :
  is_bytesb b = true -> is_blockb ks = true ->
  is_bytesb (xor_bytes b (firstn (length b) ks)) = true.
Proof.
  intros Hb Hk. apply xor_bytes_bytes; [exact Hb|].
  apply is_bytesb_firstn. now apply is_blockb_bytes.
Qed.

Lemma ctr_roundtrip bs ctr res :
  0 <= ctr -> ctr + Z.of_nat (length bs) <= 2 ^ 128 -> short bs ->
  all_bytes bs ->
  exists cs, ctr_loop E bs ctr res = Ok (res ++ concat cs)
    /\ same_lengths bs cs /\ all_bytes cs
    /\ (forall r, ctr_loop E cs ctr r = Ok (r ++ concat bs)).
Proof.
  intros H0 H1 H Hby. revert ctr res H0 H1.
  induction H as [|b bs Hb H IH]; intros ctr res H0 H1.
  - exists []. cbn. rewrite app_nil_r. repeat split; try constructor.
    intros; now rewrite app_nil_r.
  - cbn [length] in H1. inversion Hby as [|? ? Hbb Hby']; subst.
    destruct (to_bytes16_block ctr) as (cb & Ecb & Hcb); [lia|].
    destruct (E_total cb Hcb) as (ks & Eks & Hks).
    destruct (IH Hby' (ctr + 1) (res ++ xor_bytes b (firstn (length b) ks)))
      as (cs & E1 & Hcs & Hcb' & Hd); [lia|lia|].
    destruct (chunk_cancel b ks Hb Hks) as [Hcancel Hlen].
    exists (xor_bytes b (firstn (length b) ks) :: cs).
    cbn [ctr_loop concat]. rewrite Ecb. cbn [bind]. rewrite Eks. cbn [bind].
    rewrite E1, <- app_assoc. split; [reflexivity|].
    split; [constructor; [now rewrite Hlen|exact Hcs]|].
    split; [constructor; [now apply chunk_bytes|exact Hcb']|].
    intros r. rewrite Hcancel, Hd. now rewrite <- app_assoc.
Qed.

Lemma ctr_overflow bs ctr res b :
  2 ^ 128 <= ctr -> ctr_loop E (b :: bs) ctr res = Raise OverflowError.
Proof.
  intros H. cbn [ctr_loop]. now rewrite to_bytes16_overflow.
Qed.

Lemma ofb_roundtrip bs iv res :
  is_blockb iv = true -> short bs -> all_bytes bs ->
  exists cs, ofb_loop E bs iv res = Ok (res ++ concat cs)
    /\ same_lengths bs cs /\ all_bytes cs
    /\ (forall r, ofb_loop E cs iv r = Ok (r ++ concat bs)).
Proof.
  intros Hiv H Hby. revert iv res Hiv.
  induction H as [|b bs Hb H IH]; intros iv res Hiv.
  - exists []. cbn. rewrite app_nil_r. repeat split; try constructor.
    intros; now rewrite app_nil_r.
  - inversion Hby as [|? ? Hbb Hby']; subst.
    destruct (E_total iv Hiv) as (ks & Eks & Hks).
    destruct (IH Hby' ks (res ++ xor_bytes b (firstn (length b) ks)) Hks)
      as (cs & E1 & Hcs & Hcb' & Hd).
    destruct (chunk_cancel b ks Hb Hks) as [Hcancel Hlen].
    exists (xor_bytes b (firstn (length b) ks) :: cs).
    cbn [ofb_loop concat]. rewrite Eks. cbn [bind].
    rewrite E1, <- app_assoc. split; [reflexivity|].
    split; [constructor; [now rewrite Hlen|exact Hcs]|].
    split; [constructor; [now apply chunk_bytes|exact Hcb']|].
    intros r. rewrite Hcancel, Hd. now rewrite <- app_assoc.
Qed.

Lemma cfb_roundtrip bs iv res :
  is_blockb iv = true -> short bs -> all_bytes bs ->
  exists cs, cfb_encrypt E bs iv res = Ok (res ++ concat cs)
    /\ same_lengths bs cs /\ all_bytes cs
    /\ (forall r, cfb_decrypt E cs iv r = Ok (r ++ concat bs)).
Proof.
  intros Hiv H Hby. revert iv res Hiv.
  induction H as [|b bs Hb H IH]; intros iv res Hiv.
  - exists []. cbn. rewrite app_nil_r. repeat split; try constructor.
    intros; now rewrite app_nil_r.
  - inversion Hby as [|? ? Hbb Hby']; subst.
    destruct (E_total iv Hiv) as (ks & Eks & Hks).
    destruct (chunk_cancel b ks Hb Hks) as [Hcancel Hlen].
    set (c := xor_bytes b (firstn (length b) ks)) in *.
    assert (Hnext : is_blockb (if Nat.eqb (length b) 16 then c else iv) = true).
    { destruct (Nat.eqb (length b) 16) eqn:E16; [|exact Hiv].
      apply Nat.eqb_eq in E16. unfold is_blockb.
      rewrite Hlen, E16. cbn [Nat.eqb andb]. subst c.
      apply xor_bytes_bytes; [exact Hbb|].
      apply is_bytesb_firstn. now apply is_blockb_bytes. }
    destruct (IH Hby' _ (res ++ c) Hnext) as (cs & E1 & Hcs & Hcb' & Hd).
    exists (c :: cs).
    cbn [cfb_encrypt cfb_decrypt concat]. rewrite Eks. cbn [bind].
    fold c. rewrite E1, <- app_assoc. split; [reflexivity|].
    split; [constructor; [now rewrite Hlen|exact Hcs]|].
    split; [constructor; [now apply chunk_bytes|exact Hcb']|].
    intros r. rewrite Hcancel, Hlen, Hd. now rewrite <- app_assoc.
Qed.

(** OFB and CTR: the keystream does not depend on the data. *)
Lemma ofb_cancellation xs ys iv rx ry :
  is_blockb iv = true -> short xs -> same_lengths xs ys ->
  exists cx cy, ofb_loop E xs iv rx = Ok (rx ++ cx)
    /\ ofb_loop E ys iv ry = Ok (ry ++ cy)
    /\ xor_bytes cx cy = xor_bytes (concat xs) (concat ys).
Proof.
  intros Hiv H Hs. revert iv rx ry Hiv H.
  induction Hs as [|x y xs ys Hxy Hs IH]; intros iv rx ry Hiv H.
  - exists [], []. cbn. now rewrite !app_nil_r.
  - inversion H as [|? ? Hx H']; subst.
    destruct (E_total iv Hiv) as (ks & Eks & Hks).
    destruct (IH ks (rx ++ xor_bytes x (firstn (length x) ks))
                 (ry ++ xor_bytes y (firstn (length y) ks)) Hks H')
      as (cx & cy & Ex & Ey & Hxor).
    exists (xor_bytes x (firstn (length x) ks) ++ cx),
           (xor_bytes y (firstn (length y) ks) ++ cy).
    cbn [ofb_loop concat]. rewrite Eks. cbn [bind].
    rewrite Ex, Ey, <- !app_assoc. split; [reflexivity|].
    split; [reflexivity|].
    pose proof (is_blockb_length ks Hks) as Hl.
    rewrite !xor_bytes_app; try lia.
    + rewrite Hxor. f_equal. rewrite <- Hxy. apply xor_same_key; [lia|].
      rewrite length_firstn. lia.
    + rewrite !xor_bytes_length, !length_firstn. lia.
Qed.

(** CFB: the first keystream block is [E iv] whatever the data. *)
Lemma cfb_cancellation_one_block x y iv :
  is_blockb iv = true -> (length x <= 16)%nat -> length x = length y ->
  exists cx cy, cfb_encrypt E [x] iv [] = Ok cx
    /\ cfb_encrypt E [y] iv [] = Ok cy
    /\ xor_bytes cx cy = xor_bytes x y.
Proof.
  intros Hiv Hx Hxy. destruct (E_total iv Hiv) as (ks & Eks & Hks).
  exists (xor_bytes x (firstn (length x) ks)),
         (xor_bytes y (firstn (length y) ks)).
  cbn [cfb_encrypt]. rewrite Eks. cbn [bind app].
  split; [reflexivity|]. split; [reflexivity|].
  rewrite <- Hxy. apply xor_same_key; [lia|].
  rewrite length_firstn, (is_blockb_length ks Hks). lia.
Qed.
End StreamModes.

(** * Paddings *)

Lemma last_byte_app_one x a : last_byte (x ++ [a]) = Some a.
Proof.
  induction x as [|b x IH]; [reflexivity|].
  cbn [app last_byte]. destruct (x ++ [a]) eqn:E.
  - destruct x; discriminate.
  - exact IH.
Qed.

Lemma repeat_snoc (a : Z) n : repeat a (S n) = repeat a n ++ [a].
Proof. induction n; cbn in *; [reflexivity|]. now rewrite <- IHn. Qed.

Lemma last_byte_repeat x a n : last_byte (x ++ repeat a (S n)) = Some a.
Proof. now rewrite repeat_snoc, app_assoc, last_byte_app_one. Qed.

Lemma pad_len_range n :
  (1 <= 16 - n mod 16 <= 16)%nat.
Proof. pose proof (Nat.mod_upper_bound n 16). lia. Qed.

Lemma padded_length_aligned n :
  ((n + (16 - n mod 16)) mod 16 = 0)%nat.
Proof.
  pose proof (Nat.mod_upper_bound n 16 ltac:(lia)) as H.
  rewrite (Nat.div_mod_eq n 16) at 1.
  replace (16 * (n / 16) + n mod 16 + (16 - n mod 16))%nat
    with ((n / 16 + 1) * 16)%nat by lia.
  apply Nat.Div0.mod_mul.
Qed.

Lemma drop_last_n_app (x y : bytes) : drop_last_n (x ++ y) (length y) = x.
Proof.
  unfold drop_last_n. rewrite length_app, Nat.add_sub.
  rewrite firstn_app, Nat.sub_diag, firstn_all. cbn. apply app_nil_r.
Qed.

Lemma last_n_app (x y : bytes) : last_n (x ++ y) (length y) = y.
Proof.
  unfold last_n. rewrite length_app, Nat.add_sub.
  rewrite skipn_app, Nat.sub_diag, skipn_all. reflexivity.
Qed.

Lemma cut_tail_app (x y : bytes) :
  (1 <= length y)%nat -> cut_tail (x ++ y) (Z.of_nat (length y)) = x.
Proof.
  intros H. unfold cut_tail.
  destruct (Z.eqb_spec (Z.of_nat (length y)) 0); [lia|].
  rewrite Nat2Z.id. apply drop_last_n_app.
Qed.

Lemma last_n_app_eq (x y : bytes) k :
  k = length y -> last_n (x ++ y) k = y.
Proof. intros ->. apply last_n_app. Qed.

Lemma cut_tail_app_eq (x y : bytes) k :
  k = Z.of_nat (length y) -> (1 <= length y)%nat -> cut_tail (x ++ y) k = x.
Proof. intros ->. apply cut_tail_app. Qed.

Lemma bytes_eqb_refl x : bytes_eqb x x = true.
Proof. induction x; cbn; [reflexivity|]. now rewrite Z.eqb_refl. Qed.

Lemma str_in_cases s names :
  str_in s names = true -> In s names.
Proof.
  unfold str_in. rewrite existsb_exists. intros (x & Hx & E).
  apply String.eqb_eq in E. now subst.
Qed.

Lemma exact_padding_cases padding :
  exact_padding padding = true ->
  lower padding = "pkcs7"%string \/ lower padding = "ansix923"%string.
Proof.
  intros H. apply str_in_cases in H. cbn in H. intuition congruence.
Qed.

Section Padding.
Variable L : PyLib.
Variables (data : bytes) (padding : string).
Hypothesis data_bytes : is_bytesb data = true.
Hypothesis Hpad : exact_padding padding = true.

Let n := (16 - length data mod 16)%nat.

Lemma aes_pad_shape :
  exists tail, AesPureEncoders._pad L data padding = data ++ tail
    /\ length tail = n /\ is_bytesb tail = true
    /\ last_byte (data ++ tail) = Some (Z.of_nat n)
    /\ SM4Encoders._pad_data L data padding = data ++ tail
    /\ (lower padding = "pkcs7"%string -> tail = repeat (Z.of_nat n) n).
Proof.
  pose proof (pad_len_range (length data)) as Hn. fold n in Hn.
  assert (Hnb : is_byteb (Z.of_nat n) = true) by (apply is_byteb_iff; lia).
  unfold AesPureEncoders._pad, SM4Encoders._pad_data. fold n.
  destruct (exact_padding_cases padding Hpad) as [-> | ->]; cbn [String.eqb Ascii.eqb Bool.eqb].
  - exists (repeat (Z.of_nat n) n). split; [reflexivity|].
    split; [apply repeat_length|]. split; [now apply is_bytesb_repeat|].
    split; [|split; [reflexivity|auto]].
    destruct n as [|k]; [lia|]. apply last_byte_repeat.
  - exists (repeat 0 (n - 1) ++ [Z.of_nat n]). split; [reflexivity|].
    split; [rewrite length_app, repeat_length; cbn [length]; lia|].
    split; [rewrite is_bytesb_app, is_bytesb_repeat by reflexivity;
            cbn [is_bytesb forallb andb]; now rewrite Hnb|].
    split; [now rewrite app_assoc, last_byte_app_one|].
    split; [reflexivity|discriminate].
Qed.

Lemma aes_pad_aligned :
  is_bytesb (AesPureEncoders._pad L data padding) = true
  /\ (length (AesPureEncoders._pad L data padding) mod 16 = 0)%nat.
Proof.
  destruct aes_pad_shape as (tail & -> & Hl & Hb & _).
  rewrite is_bytesb_app, data_bytes, Hb, length_app, Hl.
  split; [reflexivity|apply padded_length_aligned].
Qed.

Lemma aes_unpad_pad :
  AesPureEncoders._unpad (AesPureEncoders._pad L data padding) padding
  = Ok data.
Proof.
  pose proof (pad_len_range (length data)) as Hn. fold n in Hn.
  destruct aes_pad_shape as (tail & -> & Hl & Hb & Hlast & _).
  unfold AesPureEncoders._unpad. rewrite Hlast. cbn [of_option bind].
  replace ((16 <? Z.of_nat n) || (Z.of_nat n <? 1)) with false
    by (symmetry; apply orb_false_iff; split;
        [apply Z.ltb_ge|apply Z.ltb_ge]; lia).
  rewrite <- Hl, cut_tail_app by lia.
  destruct (exact_padding_cases padding Hpad) as [-> | ->]; reflexivity.
Qed.

Lemma sm4_unpad_pad :
  SM4Encoders._unpad_data (SM4Encoders._pad_data L data padding) padding
  = Ok data.
Proof.
  pose proof (pad_len_range (length data)) as Hn. fold n in Hn.
  destruct aes_pad_shape as (tail & _ & Hl & Hb & Hlast & -> & Hpk).
  unfold SM4Encoders._unpad_data.
  assert (Hrange : (16 <? Z.of_nat n) || (Z.of_nat n <? 1) = false)
    by (apply orb_false_iff; split; [apply Z.ltb_ge|apply Z.ltb_ge]; lia).
  destruct (exact_padding_cases padding Hpad) as [E | E]; rewrite E;
    cbn [String.eqb Ascii.eqb Bool.eqb orb];
    rewrite Hlast; cbn [of_option bind]; rewrite Hrange.
  - rewrite (Hpk E), Nat2Z.id.
    rewrite last_n_app_eq by (symmetry; apply repeat_length).
    rewrite bytes_eqb_refl. cbn [negb].
    now rewrite cut_tail_app_eq by (rewrite repeat_length; lia).
  - now rewrite cut_tail_app_eq by (rewrite Hl; lia).
Qed.
End Padding.

(** * The mode dispatch of both classes *)

Lemma int_from_bytes_nonneg b : is_bytesb b = true -> 0 <= int_from_bytes b.
Proof.
  unfold int_from_bytes.
  assert (G : forall acc, 0 <= acc -> is_bytesb b = true ->
                0 <= fold_left (fun acc x => acc * 256 + x) b acc).
  { induction b as [|a b IH]; intros acc Hacc Hb; [exact Hacc|].
    cbn [fold_left]. cbn [is_bytesb forallb] in Hb.
    apply andb_true_iff in Hb as [Ha Hb]. apply is_byteb_iff in Ha.
    apply IH; [lia|exact Hb]. }
  intros Hb. apply G; [lia|exact Hb].
Qed.

Lemma supported_mode_cases mode :
  supported_mode mode = true ->
  mode = "ECB"%string \/ mode = "CBC"%string \/ mode = "CFB"%string
  \/ mode = "OFB"%string \/ mode = "CTR"%string.
Proof.
  intros H. apply str_in_cases in H. cbn in H. intuition congruence.
Qed.

Ltac mode_cases H :=
  destruct (supported_mode_cases _ H) as [-> | [-> | [-> | [-> | ->]]]].

Ltac eval_mode :=
  cbn [String.eqb Ascii.eqb Bool.eqb str_in existsb orb andb negb
       stream_modes iv_modes].

Lemma blocks_length_eq cs padded :
  all_blocks cs -> all_blocks (blocks16 padded) ->
  length cs = length (blocks16 padded) ->
  length (concat cs) = length padded.
Proof.
  intros Hcs Hb Hlen.
  pose proof (all_blocks_length cs Hcs) as L1.
  pose proof (all_blocks_length _ Hb) as L2.
  rewrite concat_blocks16 in L2. unfold bytes in *. lia.
Qed.

Section Dispatch.
Variables E D : bytes -> result bytes.
Hypothesis E_total :
  forall B, is_blockb B = true -> exists C, E B = Ok C /\ is_blockb C = true.
Hypothesis D_E :
  forall B C, is_blockb B = true -> E B = Ok C -> D C = Ok B.

Variables (mode : string) (ivb padded : bytes).
Hypothesis Hmode : supported_mode mode = true.
Hypothesis Hpadded : is_bytesb padded = true.
Hypothesis Hiv : str_in mode iv_modes = true -> is_blockb ivb = true.
Hypothesis Haligned :
  str_in mode stream_modes = false -> (length padded mod 16 = 0)%nat.
Hypothesis Hctr : ctr_in_range mode ivb padded.

Let short_blocks : Forall (fun b => (length b <= 16)%nat) (blocks16 padded).
Proof. apply chunked_short, blocks16_chunked. Qed.

Lemma ecb_case :
  mode = "ECB"%string ->
  exists res, ecb_break E (blocks16 padded) [] = Ok res
    /\ is_bytesb res = true /\ length res = length padded
    /\ ecb_break D (blocks16 res) [] = Ok padded
    /\ ecb_all D (blocks16 res) [] = Ok padded.
Proof.
  intros Em.
  assert (Hal : (length padded mod 16 = 0)%nat) by (apply Haligned; now rewrite Em).
  pose proof (blocks16_aligned padded Hpadded Hal) as Hb.
  destruct (ecb_roundtrip E D E_total D_E _ [] Hb)
    as (cs & E1 & Hcs & Hlen & Hd & Hd').
  exists (concat cs). split; [exact E1|].
  split; [now apply all_blocks_bytes|].
  split; [now apply blocks_length_eq|].
  rewrite blocks16_of_chunked by now apply all_blocks_chunked.
  rewrite Hd, Hd'. cbn [app]. now rewrite concat_blocks16.
Qed.

Lemma cbc_case :
  mode = "CBC"%string ->
  exists res, cbc_encrypt E (blocks16 padded) ivb [] = Ok res
    /\ is_bytesb res = true /\ length res = length padded
    /\ cbc_decrypt_break D (blocks16 res) ivb [] = Ok padded
    /\ cbc_decrypt_all D (blocks16 res) ivb [] = Ok padded.
Proof.
  intros Em. assert (Hi : is_blockb ivb = true) by (apply Hiv; now rewrite Em).
  assert (Hal : (length padded mod 16 = 0)%nat) by (apply Haligned; now rewrite Em).
  pose proof (blocks16_aligned padded Hpadded Hal) as Hb.
  destruct (cbc_roundtrip E D E_total D_E _ ivb [] Hi Hb)
    as (cs & E1 & Hcs & Hlen & Hd & Hd').
  exists (concat cs). split; [exact E1|].
  split; [now apply all_blocks_bytes|].
  split; [now apply blocks_length_eq|].
  rewrite blocks16_of_chunked by now apply all_blocks_chunked.
  rewrite Hd, Hd'. cbn [app]. now rewrite concat_blocks16.
Qed.

Lemma stream_finish cs :
  same_lengths (blocks16 padded) cs -> all_bytes cs ->
  is_bytesb (concat cs) = true /\ length (concat cs) = length padded
  /\ blocks16 (concat cs) = cs.
Proof.
  intros Hs Hb. split; [now apply all_bytes_concat|]. split.
  - rewrite <- (same_lengths_concat _ _ Hs). now rewrite concat_blocks16.
  - apply blocks16_of_chunked.
    apply (chunked_same_lengths _ _ Hs), blocks16_chunked.
Qed.

Lemma ctr_case :
  mode = "CTR"%string ->
  exists res, ctr_loop E (blocks16 padded) (int_from_bytes ivb) [] = Ok res
    /\ is_bytesb res = true /\ length res = length padded
    /\ ctr_loop E (blocks16 res) (int_from_bytes ivb) [] = Ok padded.
Proof.
  intros Em. assert (Hi : is_blockb ivb = true) by (apply Hiv; now rewrite Em).
  destruct (ctr_roundtrip E E_total (blocks16 padded) (int_from_bytes ivb) [])
    as (cs & E1 & Hs & Hb & Hd);
    [apply int_from_bytes_nonneg; now apply is_blockb_bytes
    |now apply Hctr|exact short_blocks|now apply blocks16_bytes|].
  destruct (stream_finish cs Hs Hb) as (H1 & H2 & H3).
  exists (concat cs). rewrite H3, Hd. cbn [app].
  now rewrite concat_blocks16.
Qed.

Lemma ofb_case :
  mode = "OFB"%string ->
  exists res, ofb_loop E (blocks16 padded) ivb [] = Ok res
    /\ is_bytesb res = true /\ length res = length padded
    /\ ofb_loop E (blocks16 res) ivb [] = Ok padded.
Proof.
  intros Em. assert (Hi : is_blockb ivb = true) by (apply Hiv; now rewrite Em).
  destruct (ofb_roundtrip E E_total (blocks16 padded) ivb [] Hi short_blocks)
    as (cs & E1 & Hs & Hb & Hd); [now apply blocks16_bytes|].
  destruct (stream_finish cs Hs Hb) as (H1 & H2 & H3).
  exists (concat cs). rewrite H3, Hd. cbn [app].
  now rewrite concat_blocks16.
Qed.

Lemma cfb_case :
  mode = "CFB"%string ->
  exists res, cfb_encrypt E (blocks16 padded) ivb [] = Ok res
    /\ is_bytesb res = true /\ length res = length padded
    /\ cfb_decrypt E (blocks16 res) ivb [] = Ok padded.
Proof.
  intros Em. assert (Hi : is_blockb ivb = true) by (apply Hiv; now rewrite Em).
  destruct (cfb_roundtrip E E_total (blocks16 padded) ivb [] Hi short_blocks)
    as (cs & E1 & Hs & Hb & Hd); [now apply blocks16_bytes|].
  destruct (stream_finish cs Hs Hb) as (H1 & H2 & H3).
  exists (concat cs). rewrite H3, Hd. cbn [app].
  now rewrite concat_blocks16.
Qed.
End Dispatch.

Lemma aes_modes_roundtrip aes mode ivb padded :
  aes_ok aes -> supported_mode mode = true -> is_bytesb padded = true ->
  (str_in mode iv_modes = true -> is_blockb ivb = true) ->
  (str_in mode stream_modes = false -> (length padded mod 16 = 0)%nat) ->
  ctr_in_range mode ivb padded ->
  exists res, AesPureEncoders.encrypt_modes aes mode ivb padded = Ok res
    /\ is_bytesb res = true /\ length res = length padded
    /\ AesPureEncoders.decrypt_modes aes mode ivb res = Ok padded.
Proof.
  intros Haes Hm Hp Hiv Hal Hctr.
  pose proof (encrypt_block_ok aes Haes) as Et.
  pose proof (decrypt_encrypt_block aes Haes) as De.
  unfold AesPureEncoders.encrypt_modes, AesPureEncoders.decrypt_modes.
  assert (Hm' := Hm). mode_cases Hm'; eval_mode.
  - destruct (ecb_case _ _ Et De _ padded Hp Hal eq_refl)
      as (res & ? & ? & ? & ? & _). now exists res.
  - destruct (cbc_case _ _ Et De _ ivb padded Hp Hiv Hal eq_refl)
      as (res & ? & ? & ? & ? & _). now exists res.
  - destruct (cfb_case _ Et _ ivb padded Hp Hiv eq_refl)
      as (res & ? & ? & ? & ?). now exists res.
  - destruct (ofb_case _ Et _ ivb padded Hp Hiv eq_refl)
      as (res & ? & ? & ? & ?). now exists res.
  - destruct (ctr_case _ Et _ ivb padded Hp Hiv Hctr eq_refl)
      as (res & ? & ? & ? & ?). now exists res.
Qed.

Lemma sm4_modes_roundtrip l tbl key sks sdr mode ivb padded :
  table_ints l = Some tbl -> sbox_bytesb tbl = true ->
  supported_mode mode = true -> is_bytesb padded = true ->
  (str_in mode iv_modes = true -> is_blockb ivb = true) ->
  (str_in mode stream_modes = false -> (length padded mod 16 = 0)%nat) ->
  ctr_in_range mode ivb padded ->
  exists res,
    SM4Encoders.encrypt_modes (sm4_built l tbl key 0 sks sdr) mode ivb padded
    = Ok res
    /\ is_bytesb res = true /\ length res = length padded
    /\ SM4Encoders.decrypt_modes
         (sm4_built l tbl key
            (if str_in mode ["ECB"; "CBC"]%string then 1 else 0) sks sdr)
         mode ivb res = Ok padded.
Proof.
  intros Ht Hsb Hm Hp Hiv Hal Hctr.
  pose proof (sm4_built_ok l tbl key 0 sks sdr Ht Hsb) as He.
  destruct (sm4_built_keys l tbl key sks sdr) as (K1 & K2 & K3).
  pose proof (one_round_ok _ He) as Et.
  pose proof (one_round_inverse _ _ He K1 K2 K3) as De.
  unfold SM4Encoders.encrypt_modes, SM4Encoders.decrypt_modes.
  assert (Hm' := Hm). mode_cases Hm'; eval_mode.
  - destruct (ecb_case _ _ Et De _ padded Hp Hal eq_refl)
      as (res & ? & ? & ? & _ & ?). now exists res.
  - destruct (cbc_case _ _ Et De _ ivb padded Hp Hiv Hal eq_refl)
      as (res & ? & ? & ? & _ & ?). now exists res.
  - destruct (cfb_case _ Et _ ivb padded Hp Hiv eq_refl)
      as (res & ? & ? & ? & ?). now exists res.
  - destruct (ofb_case _ Et _ ivb padded Hp Hiv eq_refl)
      as (res & ? & ? & ? & ?). now exists res.
  - destruct (ctr_case _ Et _ ivb padded Hp Hiv Hctr eq_refl)
      as (res & ? & ? & ? & ?). now exists res.
Qed.

(** * The entry points *)

Lemma standard_aes_sbox_perm : sbox_permb AesPure.STANDARD_SBOX = true.
Proof. vm_compute. reflexivity. Qed.

Lemma standard_sm4_sbox_bytes : sbox_bytesb SM4.STANDARD_SBOX = true.
Proof. vm_compute. reflexivity. Qed.

Lemma select_sbox_some (std tbl : list Z) :
  length tbl = 256%nat -> select_sbox std (Some tbl) = tbl.
Proof. intros H. unfold select_sbox. now rewrite H. Qed.

Lemma sbox_bytesb_inv s :
  sbox_bytesb s = true -> length s = 256%nat /\ is_bytesb s = true.
Proof. unfold sbox_bytesb. now rewrite andb_true_iff, Nat.eqb_eq. Qed.

Lemma all_chars_impl (p q : ascii -> bool) s :
  (forall c, p c = true -> q c = true) ->
  all_chars p s = true -> all_chars q s = true.
Proof.
  intros Hpq. induction s as [|c s IH]; [reflexivity|].
  cbn [all_chars]. rewrite !andb_true_iff. intros [Hc Hs].
  split; [now apply Hpq|now apply IH].
Qed.

Section WithLib.
Variable L : PyLib.
Hypothesis HL : lib_ok L.

Lemma render_text P :
  all_chars in_printable P = true -> render L (utf8_encode L P) = P.
Proof.
  intros HP. unfold render. rewrite (utf8_roundtrip L HL).
  assert (Hnul : has_nul P = false).
  { unfold has_nul. apply negb_false_iff.
    apply (all_chars_impl in_printable); [|exact HP].
    intros c Hc. apply negb_true_iff. apply Ascii.eqb_neq. intros ->.
    discriminate. }
  assert (Hw : has_weird P = false).
  { unfold has_weird. apply negb_false_iff.
    apply (all_chars_impl in_printable); [|exact HP].
    intros c Hc. now rewrite Hc. }
  now rewrite Hnul, Hw.
Qed.

Lemma given_iv_block iv iv_type b :
  AesPureEncoders.given_iv L iv iv_type = Ok b -> is_blockb b = true.
Proof.
  unfold AesPureEncoders.given_iv.
  destruct (String.eqb (lower iv_type) "hex").
  - destruct (fromhex L _) as [x|] eqn:E; [|discriminate].
    destruct (Nat.eqb (length x) 16) eqn:El; [|discriminate].
    intros [= <-]. unfold is_blockb. rewrite El.
    now rewrite (fromhex_bytes L HL _ _ E).
  - intros [= <-]. apply (md5_block L HL).
Qed.

Lemma iv_of_block iv iv_type b :
  iv_of L iv iv_type = Ok b -> is_blockb b = true.
Proof.
  unfold iv_of. destruct (str_true iv).
  - apply given_iv_block.
  - now intros [= <-].
Qed.

Lemma aes_key_bytes key key_type kb :
  AesPureEncoders.key_bytes_of L key key_type = Ok kb -> is_bytesb kb = true.
Proof.
  unfold AesPureEncoders.key_bytes_of.
  destruct (String.eqb (lower key_type) "hex").
  - destruct (fromhex L _) as [x|] eqn:E; [|discriminate].
    intros [= <-]. apply (fromhex_bytes L HL _ _ E).
  - intros [= <-]. apply (sha256_bytes L HL).
Qed.

Lemma sm4_key_bytes key key_type kb :
  SM4Encoders.key_bytes_of L key key_type = Ok kb -> is_bytesb kb = true.
Proof.
  unfold SM4Encoders.key_bytes_of.
  destruct (String.eqb (lower key_type) "hex").
  - destruct (fromhex L _) as [x|] eqn:E; [|discriminate].
    intros [= <-]. apply (fromhex_bytes L HL _ _ E).
  - intros [= <-]. apply is_blockb_bytes, (md5_block L HL).
Qed.

Lemma aes_make_cipher_ok kb sbox sks sdr :
  is_bytesb kb = true -> sbox_arg_ok L sbox sbox_permb ->
  exists aes,
    AesPureEncoders.make_cipher kb (_parse_sbox L sbox) sks sdr = Ok aes
    /\ aes_ok aes.
Proof.
  intros Hk Hs. unfold sbox_arg_ok in Hs. unfold AesPureEncoders.make_cipher.
  destruct (_parse_sbox L sbox) as [l|].
  - destruct Hs as (tbl & Ht & Hp).
    assert (Hb : sbox_bytesb tbl = true)
      by (unfold sbox_permb in Hp; now apply andb_true_iff in Hp).
    rewrite (init_bytes kb l tbl sks sdr Ht Hb).
    eexists. split; [reflexivity|]. apply aes_init_ok; [exact Hk|].
    rewrite select_sbox_some; [exact Hp|].
    apply sbox_permb_inv in Hp. tauto.
  - rewrite init_standard.
    eexists. split; [reflexivity|]. apply aes_init_ok; [exact Hk|].
    exact standard_aes_sbox_perm.
Qed.

Lemma table_of_some (std : list Z) l tbl :
  table_ints l = Some tbl -> length tbl = 256%nat ->
  table_of std (Some l) = l.
Proof.
  intros Ht Hl. unfold table_of, select_sbox.
  now rewrite <- (table_ints_length l tbl Ht), Hl.
Qed.

Lemma sm4_make_cipher_ok kb sbox sks sdr :
  sbox_arg_ok L sbox sbox_bytesb ->
  exists l tbl,
    table_ints l = Some tbl /\ sbox_bytesb tbl = true
    /\ forall mode,
         SM4Encoders.make_cipher (_parse_sbox L sbox) kb mode sks sdr
         = Ok (sm4_built l tbl kb mode sks sdr).
Proof.
  intros Hs. unfold sbox_arg_ok in Hs. unfold SM4Encoders.make_cipher.
  destruct (_parse_sbox L sbox) as [l|].
  - destruct Hs as (tbl & Ht & Hp). exists l, tbl.
    split; [exact Ht|]. split; [exact Hp|]. intros mode.
    pose proof (sbox_bytesb_inv _ Hp) as [Hl _].
    rewrite (sm4_init_built (Some l) kb mode sks sdr tbl)
      by (now rewrite (table_of_some _ l tbl Ht Hl)).
    now rewrite (table_of_some _ l tbl Ht Hl).
  - exists (map PyInt SM4.STANDARD_SBOX), SM4.STANDARD_SBOX.
    split; [apply table_ints_map_int|].
    split; [exact standard_sm4_sbox_bytes|]. intros mode.
    now rewrite (sm4_init_built None kb mode sks sdr SM4.STANDARD_SBOX)
      by apply table_ints_map_int.
Qed.
End WithLib.

(** * Round trip through the AES entry points *)

Lemma str_true_false s : str_true s = false -> s = ""%string.
Proof.
  unfold str_true. rewrite negb_false_iff. apply String.eqb_eq.
Qed.

Lemma iv_step_eq L iv iv_type :
  (if negb (str_true iv) then Ok (Some zeros16)
   else b <- AesPureEncoders.given_iv L iv iv_type ;; Ok (Some b))
  = (b <- iv_of L iv iv_type ;; Ok (Some b)).
Proof. unfold iv_of. now destruct (str_true iv). Qed.

Lemma stream_modes_iv m : str_in m stream_modes = true -> str_in m iv_modes = true.
Proof.
  intros H. apply str_in_cases in H. cbn in H.
  destruct H as [<- | [<- | [<- | []]]]; reflexivity.
Qed.

Section AesRoundTrip.
Variable L : PyLib.
Hypothesis HL : lib_ok L.
Variables (P key mode iv padding : string) (sbox : pyval) (sks sdr : bool).
Variables (key_type iv_type : string) (kb ivb : bytes).
Hypothesis HP : all_chars in_printable P = true.
Hypothesis Hkey : AesPureEncoders.key_bytes_of L key key_type = Ok kb.
Hypothesis Hsbox : sbox_arg_ok L sbox sbox_permb.
Hypothesis Hmode : supported_mode (upper mode) = true.
Hypothesis Hiv :
  str_in (upper mode) iv_modes = true -> iv_of L iv iv_type = Ok ivb.
Hypothesis Hpad : roundtrip_padding mode padding (utf8_encode L P).
Hypothesis Hctr : ctr_in_range (upper mode) ivb (utf8_encode L P).

Let data := utf8_encode L P.
Let is_stream := str_in (upper mode) stream_modes.
Let padded :=
  if is_stream && String.eqb (lower padding) "nopadding" then data
  else AesPureEncoders._pad L data padding.

Lemma aes_padded_facts :
  is_bytesb padded = true
  /\ (is_stream = false -> (length padded mod 16 = 0)%nat)
  /\ (if negb is_stream then AesPureEncoders.try_unpad padded padding
      else padded) = data
  /\ (is_stream = true -> padded = data)
  /\ (length data <= length padded)%nat.
Proof.
  pose proof (utf8_bytes L HL P) as Hd. fold data in Hd.
  pose proof Hpad as Hpad'.
  unfold roundtrip_padding in Hpad'. fold is_stream data in Hpad'.
  subst padded. destruct is_stream; cbn [andb negb].
  - rewrite Hpad'. cbn [String.eqb Ascii.eqb Bool.eqb]. repeat split; auto.
    discriminate.
  - destruct Hpad' as [Hx | [Hn Hal]].
    + destruct (aes_pad_aligned L data padding Hd Hx) as [H1 H2].
      split; [exact H1|]. split; [auto|].
      split; [|split; [discriminate|]].
      * unfold AesPureEncoders.try_unpad.
        now rewrite (aes_unpad_pad L data padding Hx).
      * destruct (aes_pad_shape L data padding Hx) as (tail & -> & _).
        rewrite length_app. lia.
    + assert (E : AesPureEncoders._pad L data padding = data).
      { unfold AesPureEncoders._pad. now rewrite Hn. }
      rewrite E. split; [exact Hd|]. split; [auto|].
      split; [|split; [discriminate|lia]].
      unfold AesPureEncoders.try_unpad, AesPureEncoders._unpad.
      now rewrite Hn.
Qed.

Let iv_used : bytes := if str_in (upper mode) iv_modes then ivb else [].

Lemma aes_iv_step :
  (if str_in (upper mode) iv_modes then
     if negb (str_true iv) then Ok (Some zeros16)
     else b <- AesPureEncoders.given_iv L iv iv_type ;; Ok (Some b)
   else Ok None)
  = Ok (if str_in (upper mode) iv_modes then Some ivb else None).
Proof.
  rewrite iv_step_eq. destruct (str_in (upper mode) iv_modes); [|reflexivity].
  now rewrite Hiv.
Qed.

Lemma aes_modes_step aes :
  aes_ok aes ->
  exists res,
    AesPureEncoders.encrypt_modes aes (upper mode) iv_used padded = Ok res
    /\ is_bytesb res = true /\ length res = length padded
    /\ AesPureEncoders.decrypt_modes aes (upper mode) iv_used res = Ok padded.
Proof.
  intros Haes. destruct aes_padded_facts as (Hb & Hal & _ & Hs & _).
  apply aes_modes_roundtrip; auto.
  - subst iv_used. intros Hin. rewrite Hin.
    apply (iv_of_block L HL iv iv_type). now apply Hiv.
  - intros Em. pose proof (Hctr Em) as Hc.
    subst iv_used. rewrite Hs by (subst is_stream; now rewrite Em).
    rewrite Em. exact Hc.
Qed.

Lemma aes_encrypt_bytes_spec :
  str_true P = true ->
  exists aes res,
    AesPureEncoders.make_cipher kb (_parse_sbox L sbox) sks sdr = Ok aes
    /\ AesPureEncoders.encrypt_bytes L P key mode iv padding sbox sks sdr
         key_type iv_type None = Ok (Some (wire iv (upper mode) ivb res))
    /\ is_bytesb res = true /\ length res = length padded
    /\ AesPureEncoders.decrypt_modes aes (upper mode) iv_used res = Ok padded.
Proof.
  intros HPne.
  destruct (aes_make_cipher_ok L kb sbox sks sdr
              (aes_key_bytes L HL _ _ _ Hkey) Hsbox) as (aes & Eaes & Haes).
  destruct (aes_modes_step aes Haes) as (res & Eres & Hb & Hl & Hd).
  exists aes, res. split; [exact Eaes|]. split; [|auto].
  unfold AesPureEncoders.encrypt_bytes. rewrite HPne. cbn [negb].
  rewrite Hkey. cbn [bind]. rewrite Eaes. cbn [bind opt_is].
  rewrite aes_iv_step. cbn [bind].
  fold data. fold is_stream. fold padded.
  replace (iv_or_empty (if str_in (upper mode) iv_modes then Some ivb else None))
    with iv_used by (subst iv_used; now destruct (str_in (upper mode) iv_modes)).
  rewrite Eres. cbn [bind]. unfold wire.
  destruct (carries_iv _ _ _) eqn:Ec; [|reflexivity].
  subst iv_used. destruct (str_in (upper mode) iv_modes); [reflexivity|].
  unfold carries_iv in Ec. destruct (str_true iv); discriminate.
Qed.

Lemma aes_wire_facts res :
  is_bytesb res = true -> length res = length padded ->
  str_true P = true ->
  is_bytesb (wire iv (upper mode) ivb res) = true
  /\ wire iv (upper mode) ivb res <> []
  /\ (if str_in (upper mode) iv_modes then
        if str_true iv then
          b <- AesPureEncoders.given_iv L iv iv_type ;;
          Ok (b, wire iv (upper mode) ivb res)
        else if Nat.ltb (length (wire iv (upper mode) ivb res)) 16 then
          Raise (ValueError TooShortForIV)
        else Ok (firstn 16 (wire iv (upper mode) ivb res),
                 skipn 16 (wire iv (upper mode) ivb res))
      else Ok ([], wire iv (upper mode) ivb res))
     = Ok (iv_used, res).
Proof.
  intros Hb Hl HPne.
  assert (Hne : res <> []).
  { destruct aes_padded_facts as (_ & _ & _ & _ & Hle).
    intros ->. cbn [length] in Hl.
    assert (Hd0 : length data = 0%nat) by lia.
    apply length_zero_iff_nil in Hd0. subst data.
    apply (utf8_nonempty L HL) in Hd0. subst P. discriminate. }
  unfold wire, carries_iv. subst iv_used.
  destruct (str_in (upper mode) iv_modes) eqn:Em.
  - pose proof (Hiv eq_refl) as Ei.
    pose proof (iv_of_block L HL _ _ _ Ei) as Hblk.
    assert (Hecb : String.eqb (upper mode) "ECB" = false).
    { apply String.eqb_neq. intros E. rewrite E in Em. discriminate. }
    rewrite Hecb. unfold iv_of in Ei. destruct (str_true iv) eqn:Es;
      cbn [negb andb].
    + rewrite Ei. cbn [bind]. repeat split; auto.
    + injection Ei as <-. cbn [zeros16 repeat app andb negb].
      split; [exact Hb|]. split; [discriminate|].
      cbn [length Nat.ltb Nat.leb firstn skipn]. reflexivity.
  - destruct (negb (str_true iv)); cbn [andb]; repeat split; auto.
Qed.

Theorem aes_roundtrip_string :
  exists c,
    AesPureEncoders.encrypt L P key mode iv padding sbox sks sdr key_type
      iv_type None = Ok c
    /\ AesPureEncoders.decrypt L c key mode iv padding sbox sks sdr key_type
         iv_type None = Ok P.
Proof.
  destruct (str_true P) eqn:HPne.
  - destruct (aes_encrypt_bytes_spec HPne)
      as (aes & res & Eaes & Eenc & Hb & Hl & Hdec).
    destruct (aes_wire_facts res Hb Hl HPne) as (Hwb & Hwne & Hivd).
    exists (b64encode L (wire iv (upper mode) ivb res)).
    unfold AesPureEncoders.encrypt. rewrite Eenc. cbn [bind].
    split; [reflexivity|].
    unfold AesPureEncoders.decrypt, AesPureEncoders.decrypt_bytes.
    assert (Hc : str_true (b64encode L (wire iv (upper mode) ivb res)) = true).
    { unfold str_true. apply negb_true_iff, String.eqb_neq. intros E.
      now apply (b64_nonempty L HL) in E. }
    rewrite Hc. cbn [negb]. rewrite Hkey. cbn [bind].
    rewrite Eaes. cbn [bind].
    unfold AesPureEncoders.decode_input. cbn [opt_is].
    rewrite (b64_roundtrip L HL _ Hwb).
    rewrite Hivd. cbn [bind fst snd]. rewrite Hdec. cbn [bind].
    destruct aes_padded_facts as (_ & _ & Hun & _).
    fold is_stream. rewrite Hun. subst data.
    now rewrite (render_text L HL P HP).
  - apply str_true_false in HPne. subst P. exists ""%string.
    split; reflexivity.
Qed.
End AesRoundTrip.

(** * Round trip through the SM4 entry points *)

Lemma sm4_given_iv_eq L iv iv_type :
  SM4Encoders.given_iv L iv iv_type = AesPureEncoders.given_iv L iv iv_type.
Proof. reflexivity. Qed.

Section Sm4RoundTrip.
Variable L : PyLib.
Hypothesis HL : lib_ok L.
Variables (P key mode iv padding : string) (sbox : pyval).
Variables (sks sdr swap_endian : bool).
Variables (key_type iv_type : string) (kb ivb : bytes).
Hypothesis HP : all_chars in_printable P = true.
Hypothesis Hkey : SM4Encoders.key_bytes_of L key key_type = Ok kb.
Hypothesis Hsbox : sbox_arg_ok L sbox sbox_bytesb.
Hypothesis Hmode : supported_mode (upper mode) = true.
Hypothesis Hiv :
  str_in (upper mode) iv_modes = true -> iv_of L iv iv_type = Ok ivb.
Hypothesis Hpad : roundtrip_padding mode padding (utf8_encode L P).
Hypothesis Hctr : ctr_in_range (upper mode) ivb (utf8_encode L P).

Let data := utf8_encode L P.
Let is_stream := str_in (upper mode) stream_modes.
Let padded :=
  if is_stream then
    if String.eqb (lower padding) "nopadding" then data
    else SM4Encoders._pad_data L data padding
  else SM4Encoders._pad_data L data padding.
Let ks := if swap_endian then true else sks.
Let dr := if swap_endian then true else sdr.

Lemma sm4_padded_facts :
  is_bytesb padded = true
  /\ (is_stream = false -> (length padded mod 16 = 0)%nat)
  /\ (if negb is_stream then SM4Encoders._unpad_data padded padding
      else Ok padded) = Ok data
  /\ (is_stream = true -> padded = data)
  /\ (length data <= length padded)%nat.
Proof.
  pose proof (utf8_bytes L HL P) as Hd. fold data in Hd.
  pose proof Hpad as Hpad'.
  unfold roundtrip_padding in Hpad'. fold is_stream data in Hpad'.
  subst padded. destruct is_stream; cbn [andb negb].
  - rewrite Hpad'. cbn [String.eqb Ascii.eqb Bool.eqb]. repeat split; auto.
    discriminate.
  - destruct Hpad' as [Hx | [Hn Hal]].
    + destruct (aes_pad_shape L data padding Hx)
        as (tail & Ea & Htl & Htb & _ & Es & _).
      destruct (aes_pad_aligned L data padding Hd Hx) as [H1 H2].
      rewrite Ea in H1, H2. 
      split; [now rewrite Es|]. split; [intros _; now rewrite Es|].
      split; [|split; [discriminate|]].
      * apply (sm4_unpad_pad L data padding Hx).
      * rewrite Es, length_app. lia.
    + assert (E : SM4Encoders._pad_data L data padding = data).
      { unfold SM4Encoders._pad_data. now rewrite Hn. }
      rewrite E. split; [exact Hd|]. split; [auto|].
      split; [|split; [discriminate|lia]].
      unfold SM4Encoders._unpad_data. now rewrite Hn.
Qed.

Let iv_used : bytes := if str_in (upper mode) iv_modes then ivb else [].

Lemma sm4_iv_step :
  (if str_in (upper mode) iv_modes then
     if negb (str_true iv) then Ok (Some zeros16)
     else b <- SM4Encoders.given_iv L iv iv_type ;; Ok (Some b)
   else Ok None)
  = Ok (if str_in (upper mode) iv_modes then Some ivb else None).
Proof.
  rewrite sm4_given_iv_eq, iv_step_eq.
  destruct (str_in (upper mode) iv_modes); [|reflexivity].
  now rewrite Hiv.
Qed.

Lemma sm4_modes_step l tbl :
  table_ints l = Some tbl -> sbox_bytesb tbl = true ->
  exists res,
    SM4Encoders.encrypt_modes (sm4_built l tbl kb 0 ks dr) (upper mode)
      iv_used padded = Ok res
    /\ is_bytesb res = true /\ length res = length padded
    /\ SM4Encoders.decrypt_modes
         (sm4_built l tbl kb
            (if str_in (upper mode) ["ECB"; "CBC"]%string then 1 else 0)
            ks dr)
         (upper mode) iv_used res = Ok padded.
Proof.
  intros Ht Hsb. destruct sm4_padded_facts as (Hb & Hal & _ & Hs & _).
  apply sm4_modes_roundtrip; auto.
  - subst iv_used. intros Hin. rewrite Hin.
    apply (iv_of_block L HL iv iv_type). now apply Hiv.
  - intros Em. pose proof (Hctr Em) as Hc.
    subst iv_used. rewrite Hs by (subst is_stream; now rewrite Em).
    rewrite Em. exact Hc.
Qed.

Lemma sm4_encrypt_bytes_spec :
  str_true P = true ->
  exists l tbl res,
    (forall m, SM4Encoders.make_cipher (_parse_sbox L sbox) kb m ks dr
               = Ok (sm4_built l tbl kb m ks dr))
    /\ SM4Encoders.sm4_encrypt_bytes L P key mode iv padding sbox key_type
         iv_type sks sdr swap_endian None
       = Ok (Some (wire iv (upper mode) ivb res))
    /\ is_bytesb res = true /\ length res = length padded
    /\ SM4Encoders.decrypt_modes
         (sm4_built l tbl kb
            (if str_in (upper mode) ["ECB"; "CBC"]%string then 1 else 0)
            ks dr)
         (upper mode) iv_used res = Ok padded.
Proof.
  intros HPne.
  destruct (sm4_make_cipher_ok L kb sbox ks dr Hsbox)
    as (l & tbl & Ht & Hsb & Emk).
  destruct (sm4_modes_step l tbl Ht Hsb) as (res & Eres & Hb & Hl & Hd).
  exists l, tbl, res. split; [exact Emk|]. split; [|auto].
  unfold SM4Encoders.sm4_encrypt_bytes. rewrite HPne. cbn [negb].
  fold ks dr. rewrite Hkey. cbn [bind].
  rewrite sm4_iv_step. cbn [bind]. rewrite Emk. cbn [bind opt_is].
  fold data. fold is_stream. fold padded.
  replace (iv_or_empty (if str_in (upper mode) iv_modes then Some ivb else None))
    with iv_used by (subst iv_used; now destruct (str_in (upper mode) iv_modes)).
  rewrite Eres. cbn [bind]. unfold wire.
  destruct (carries_iv _ _ _) eqn:Ec; [|reflexivity].
  subst iv_used. destruct (str_in (upper mode) iv_modes); [reflexivity|].
  unfold carries_iv in Ec. destruct (str_true iv); discriminate.
Qed.

Lemma sm4_wire_facts res :
  is_bytesb res = true -> length res = length padded ->
  str_true P = true ->
  is_bytesb (wire iv (upper mode) ivb res) = true
  /\ wire iv (upper mode) ivb res <> []
  /\ str_in (upper mode) iv_modes && negb (str_true iv)
     && Nat.ltb (length (wire iv (upper mode) ivb res)) 16 = false
  /\ (if str_in (upper mode) iv_modes then
        if str_true iv then
          b <- SM4Encoders.given_iv L iv iv_type ;;
          Ok (b, wire iv (upper mode) ivb res)
        else Ok (firstn 16 (wire iv (upper mode) ivb res),
                 skipn 16 (wire iv (upper mode) ivb res))
      else Ok ([], wire iv (upper mode) ivb res))
     = Ok (iv_used, res).
Proof.
  intros Hb Hl HPne.
  assert (Hne : res <> []).
  { destruct sm4_padded_facts as (_ & _ & _ & _ & Hle).
    intros ->. cbn [length] in Hl.
    assert (Hd0 : length data = 0%nat) by lia.
    apply length_zero_iff_nil in Hd0. subst data.
    apply (utf8_nonempty L HL) in Hd0. subst P. discriminate. }
  unfold wire, carries_iv. subst iv_used. rewrite sm4_given_iv_eq.
  destruct (str_in (upper mode) iv_modes) eqn:Em.
  - pose proof (Hiv eq_refl) as Ei.
    pose proof (iv_of_block L HL _ _ _ Ei) as Hblk.
    assert (Hecb : String.eqb (upper mode) "ECB" = false).
    { apply String.eqb_neq. intros E. rewrite E in Em. discriminate. }
    rewrite Hecb. unfold iv_of in Ei. destruct (str_true iv) eqn:Es;
      cbn [negb andb].
    + rewrite Ei. cbn [bind]. repeat split; auto.
    + injection Ei as <-. cbn [zeros16 repeat app andb negb].
      split; [exact Hb|]. split; [discriminate|].
      cbn [length Nat.ltb Nat.leb firstn skipn]. split; reflexivity.
  - destruct (negb (str_true iv)); cbn [andb]; repeat split; auto.
Qed.

Theorem sm4_roundtrip_string :
  exists c,
    SM4Encoders.sm4_encrypt L P key mode iv padding sbox key_type iv_type
      sks sdr swap_endian None = Ok c
    /\ SM4Encoders.sm4_decrypt L c key mode iv padding sbox key_type iv_type
         sks sdr swap_endian None = Ok P.
Proof.
  destruct (str_true P) eqn:HPne.
  - destruct (sm4_encrypt_bytes_spec HPne)
      as (l & tbl & res & Emk & Eenc & Hb & Hl & Hdec).
    destruct (sm4_wire_facts res Hb Hl HPne) as (Hwb & Hwne & Hshort & Hivd).
    exists (b64encode L (wire iv (upper mode) ivb res)).
    unfold SM4Encoders.sm4_encrypt. rewrite Eenc. cbn [bind].
    split; [reflexivity|].
    unfold SM4Encoders.sm4_decrypt, SM4Encoders.sm4_decrypt_bytes.
    assert (Hc : str_true (b64encode L (wire iv (upper mode) ivb res)) = true).
    { unfold str_true. apply negb_true_iff, String.eqb_neq. intros E.
      now apply (b64_nonempty L HL) in E. }
    rewrite Hc. cbn [negb]. fold ks dr. rewrite Hkey. cbn [bind].
    unfold SM4Encoders.decode_input. cbn [opt_is].
    rewrite (b64_roundtrip L HL _ Hwb).
    rewrite Hshort, Hivd. cbn [bind fst snd]. rewrite Emk. cbn [bind].
    rewrite Hdec. cbn [bind].
    destruct sm4_padded_facts as (_ & _ & Hun & _).
    fold is_stream. rewrite Hun. cbn [bind]. subst data.
    now rewrite (render_text L HL P HP).
  - apply str_true_false in HPne. subst P. exists ""%string.
    split; reflexivity.
Qed.
End Sm4RoundTrip.

Module RefLibFacts.
Import RefLib.

(** * The reference library meets the contract *)

Lemma code_range c : 0 <= code c < 256.
Proof.
  unfold code. pose proof (nat_ascii_bounded c). lia.
Qed.

Lemma chr_code c : chr (code c) = c.
Proof. unfold chr, code. rewrite Nat2Z.id. apply ascii_nat_embedding. Qed.

Lemma between_true lo hi x : lo <= x <= hi -> between lo hi x = true.
Proof.
  intros [H1 H2]. unfold between.
  apply Z.leb_le in H1. apply Z.leb_le in H2. now rewrite H1, H2.
Qed.

Lemma between_false lo hi x : x < lo \/ hi < x -> between lo hi x = false.
Proof.
  intros H. unfold between. apply andb_false_iff.
  destruct H; [left; now apply Z.leb_gt|right; now apply Z.leb_gt].
Qed.

Lemma mod256_byte w : is_byteb (w mod 256) = true.
Proof. apply is_byteb_iff. apply Z.mod_pos_bound. lia. Qed.

Lemma word_bytes_ok (f : nat -> Z) n w :
  is_bytesb (map (fun i => (w / f i) mod 256) (seq 0 n)) = true.
Proof.
  unfold is_bytesb. rewrite forallb_forall. intros x Hx.
  apply in_map_iff in Hx as (i & <- & _). apply mod256_byte.
Qed.

Lemma flat_map_bytes (f : Z -> bytes) ws :
  (forall w, is_bytesb (f w) = true) -> is_bytesb (flat_map f ws) = true.
Proof.
  intros Hf. induction ws as [|w ws IH]; [reflexivity|].
  cbn [flat_map]. now rewrite is_bytesb_app, Hf, IH.
Qed.

Lemma sha256_is_bytes x : is_bytesb (sha256 x) = true.
Proof.
  unfold sha256. apply flat_map_bytes. intros w. apply word_bytes_ok.
Qed.

Lemma md5_round_length M st i : length (md5_round M st i) = 4%nat.
Proof.
  unfold md5_round.
  destruct (Nat.ltb i 16); [reflexivity|].
  destruct (Nat.ltb i 32); [reflexivity|].
  destruct (Nat.ltb i 48); reflexivity.
Qed.

Lemma md5_block_length H block : length H = 4%nat -> length (md5_block H block) = 4%nat.
Proof.
  intros HH. unfold md5_block. rewrite length_map, length_combine, HH.
  change (seq 0 64) with (seq 0 63 ++ [63%nat]). rewrite fold_left_app.
  cbn [fold_left]. now rewrite md5_round_length.
Qed.

Lemma md5_is_block x : is_blockb (md5 x) = true.
Proof.
  unfold md5. set (padded := md_pad _ _).
  assert (HH : length (fold_left md5_block (blocks64 (length padded) padded)
                         MD5_INIT) = 4%nat).
  { assert (H0 : length MD5_INIT = 4%nat) by reflexivity. revert H0.
    generalize MD5_INIT. generalize (blocks64 (length padded) padded).
    intros bs. induction bs as [|b bs IH]; intros H H0; [exact H0|].
    cbn [fold_left]. apply IH. now apply md5_block_length. }
  destruct (fold_left md5_block _ _) as [|a [|b [|c [|d [|e r]]]]];
    try discriminate.
  unfold is_blockb. apply andb_true_intro. split; [reflexivity|].
  apply flat_map_bytes. intros w. apply word_bytes_ok.
Qed.

Lemma utf8_encode_bytes s : is_bytesb (utf8_encode s) = true.
Proof.
  induction s as [|c s IH]; [reflexivity|].
  cbn [utf8_encode]. pose proof (code_range c) as Hc.
  destruct (Z.ltb_spec (code c) 128); cbn [is_bytesb forallb];
    fold (is_bytesb (utf8_encode s)); rewrite IH.
  - rewrite (proj2 (is_byteb_iff _)) by lia. reflexivity.
  - rewrite !(proj2 (is_byteb_iff _)); [reflexivity| |].
    + pose proof (Z.mod_pos_bound (code c) 64). lia.
    + assert (code c / 64 <= 3) by (apply Z.lt_succ_r, Z.div_lt_upper_bound; lia).
      assert (0 <= code c / 64) by (apply Z.div_pos; lia). lia.
Qed.

Lemma utf8_decode_encode s : utf8_decode (utf8_encode s) = Some s.
Proof.
  induction s as [|c s IH]; [reflexivity|].
  cbn [utf8_encode]. pose proof (code_range c) as Hc.
  destruct (Z.ltb_spec (code c) 128).
  - cbn [utf8_decode]. rewrite between_true by lia. rewrite IH. cbn [option_map].
    now rewrite chr_code.
  - assert (H2 : 2 <= code c / 64 <= 3).
    { split; [apply Z.div_le_lower_bound; lia|].
      apply Z.lt_succ_r, Z.div_lt_upper_bound; lia. }
    pose proof (Z.mod_pos_bound (code c) 64 ltac:(lia)) as Hm.
    cbn [utf8_decode]. rewrite between_false by lia.
    rewrite between_true by lia. rewrite between_true by lia.
    rewrite IH. cbn [option_map].
    replace ((192 + code c / 64 - 192) * 64 + (128 + code c mod 64 - 128))
      with (code c) by (rewrite (Z.div_mod (code c) 64) at 1; lia).
    now rewrite chr_code.
Qed.

Lemma utf8_encode_nonempty s : utf8_encode s = [] -> s = ""%string.
Proof.
  destruct s as [|c s]; [reflexivity|]. cbn [utf8_encode].
  destruct (code c <? 128); discriminate.
Qed.

Lemma fromhex_is_bytes s b : fromhex s = Some b -> is_bytesb b = true.
Proof.
  remember (String.length s) as n eqn:Hn. revert s b Hn.
  induction n as [n IH] using lt_wf_ind. intros s b Hn.
  destruct s as [|c r]; cbn [fromhex].
  - now intros [= <-].
  - destruct (is_space c).
    + apply (IH (String.length r)); [cbn in Hn; lia|reflexivity].
    + destruct (hex_val c) as [h|] eqn:Eh; [|discriminate].
      destruct r as [|c2 r2]; [discriminate|].
      destruct (hex_val c2) as [l|] eqn:El; [|discriminate].
      destruct (fromhex r2) as [b'|] eqn:Er; [|discriminate].
      cbn [option_map]. intros [= <-].
      cbn [is_bytesb forallb]. fold (is_bytesb b').
      rewrite (IH (String.length r2)) with (s := r2) (b := b');
        [|cbn in Hn; lia|reflexivity|exact Er].
      rewrite andb_true_r. apply is_byteb_iff.
      assert (Hv : forall d v, hex_val d = Some v -> 0 <= v < 16).
      { intros d v. unfold hex_val, between.
        repeat match goal with
               | |- context [if ?c then _ else _] => destruct c eqn:?
               end; intros [= <-]; lia. }
      pose proof (Hv _ _ Eh). pose proof (Hv _ _ El). lia.
Qed.

(** * Base64 of the reference library *)

Lemma sextet_cases (P : Z -> Prop) :
  (forall k, (k < 64)%nat -> P (Z.of_nat k)) ->
  forall n, 0 <= n < 64 -> P n.
Proof.
  intros H n Hn. rewrite <- (Z2Nat.id n) by lia. apply H. lia.
Qed.

Lemma b64_char_props n :
  0 <= n < 64 ->
  b64_val (b64_char n) = Some n
  /\ Ascii.eqb (b64_char n) pad_char = false
  /\ (code (b64_char n) <? 128) = true.
Proof.
  revert n. apply sextet_cases. intros k Hk.
  do 64 (destruct k as [|k]; [vm_compute; auto|]). lia.
Qed.

Section Triple.
Variables x y z : Z.
Hypothesis Hx : 0 <= x < 256.
Hypothesis Hy : 0 <= y < 256.
Hypothesis Hz : 0 <= z < 256.

Let s0 := x / 4.
Let s1 := x mod 4 * 16 + y / 16.
Let s2 := y mod 16 * 4 + z / 64.
Let s3 := z mod 64.

Lemma sextets_range :
  0 <= s0 < 64 /\ 0 <= s1 < 64 /\ 0 <= s2 < 64 /\ 0 <= s3 < 64
  /\ 0 <= x mod 4 * 16 < 64 /\ 0 <= y mod 16 * 4 < 64.
Proof. subst s0 s1 s2 s3. repeat split; Z.div_mod_to_equations; lia. Qed.

Lemma sextets_join :
  s0 * 4 + s1 / 16 = x /\ s1 mod 16 * 16 + s2 / 4 = y
  /\ s2 mod 4 * 64 + s3 = z
  /\ s0 * 4 + (x mod 4 * 16) / 16 = x
  /\ (x mod 4 * 16 + y / 16) mod 16 * 16 + (y mod 16 * 4) / 4 = y.
Proof. subst s0 s1 s2 s3. repeat split; Z.div_mod_to_equations; lia. Qed.
End Triple.

Ltac step_char H :=
  let V := fresh "V" in let E := fresh "E" in let A := fresh "A" in
  destruct (b64_char_props _ H) as (V & E & A);
  cbn [b64_loop]; rewrite E, V; clear V E A.

Lemma b64_loop_triple x y z rest out :
  0 <= x < 256 -> 0 <= y < 256 -> 0 <= z < 256 ->
  b64_loop
    (String (b64_char (x / 4))
       (String (b64_char (x mod 4 * 16 + y / 16))
          (String (b64_char (y mod 16 * 4 + z / 64))
             (String (b64_char (z mod 64)) rest)))) 0 0 0 out
  = b64_loop rest 0 0 0 (out ++ [x; y; z]).
Proof.
  intros Hx Hy Hz.
  destruct (sextets_range x y z Hx Hy Hz) as (R0 & R1 & R2 & R3 & _).
  destruct (sextets_join x y z Hx Hy Hz) as (J0 & J1 & J2 & _).
  step_char R0. step_char R1. step_char R2. step_char R3.
  rewrite J0, J1, J2. now rewrite <- !app_assoc.
Qed.

Lemma b64_loop_encode b out :
  is_bytesb b = true -> b64_loop (b64encode b) 0 0 0 out = Some (out ++ b).
Proof.
  remember (length b) as n eqn:Hn. revert b out Hn.
  induction n as [n IH] using lt_wf_ind. intros b out Hn Hb.
  destruct b as [|x [|y [|z r]]].
  - cbn. now rewrite app_nil_r.
  - cbn [is_bytesb forallb] in Hb. rewrite !andb_true_iff, !is_byteb_iff in Hb.
    destruct Hb as (Hx & _).
    destruct (sextets_range x 0 0 Hx ltac:(lia) ltac:(lia)) as (R0 & _ & _ & _ & R1 & _).
    destruct (sextets_join x 0 0 Hx ltac:(lia) ltac:(lia)) as (_ & _ & _ & J0 & _).
    cbn [b64encode]. step_char R0. step_char R1.
    cbn. now rewrite J0.
  - cbn [is_bytesb forallb] in Hb. rewrite !andb_true_iff, !is_byteb_iff in Hb.
    destruct Hb as (Hx & Hy & _).
    destruct (sextets_range x y 0 Hx Hy ltac:(lia)) as (R0 & R1 & _ & _ & _ & R2).
    destruct (sextets_join x y 0 Hx Hy ltac:(lia)) as (J0 & _ & _ & _ & J1).
    cbn [b64encode]. step_char R0. step_char R1. step_char R2.
    cbn. rewrite J0, J1. now rewrite <- app_assoc.
  - cbn [is_bytesb forallb] in Hb. fold (is_bytesb r) in Hb.
    rewrite !andb_true_iff, !is_byteb_iff in Hb.
    destruct Hb as (Hx & Hy & Hz & Hr).
    cbn [b64encode]. rewrite b64_loop_triple by assumption.
    rewrite (IH (length r)) with (b := r); [|cbn in Hn; lia|reflexivity|exact Hr].
    now rewrite <- app_assoc.
Qed.

Lemma b64encode_ascii b : is_bytesb b = true -> is_ascii_str (b64encode b) = true.
Proof.
  remember (length b) as n eqn:Hn. revert b Hn.
  induction n as [n IH] using lt_wf_ind. intros b Hn Hb.
  destruct b as [|x [|y [|z r]]]; [reflexivity| | |];
    cbn [is_bytesb forallb] in Hb; try fold (is_bytesb r) in Hb;
    rewrite !andb_true_iff, !is_byteb_iff in Hb.
  - destruct Hb as (Hx & _).
    destruct (sextets_range x 0 0 Hx ltac:(lia) ltac:(lia)) as (R0 & _ & _ & _ & R1 & _).
    cbn [b64encode is_ascii_str all_chars].
    rewrite (proj2 (proj2 (b64_char_props _ R0))),
            (proj2 (proj2 (b64_char_props _ R1))). reflexivity.
  - destruct Hb as (Hx & Hy & _).
    destruct (sextets_range x y 0 Hx Hy ltac:(lia)) as (R0 & R1 & _ & _ & _ & R2).
    cbn [b64encode is_ascii_str all_chars].
    rewrite (proj2 (proj2 (b64_char_props _ R0))),
            (proj2 (proj2 (b64_char_props _ R1))),
            (proj2 (proj2 (b64_char_props _ R2))). reflexivity.
  - destruct Hb as (Hx & Hy & Hz & Hr).
    destruct (sextets_range x y z Hx Hy Hz) as (R0 & R1 & R2 & R3 & _).
    cbn [b64encode is_ascii_str all_chars].
    rewrite (proj2 (proj2 (b64_char_props _ R0))),
            (proj2 (proj2 (b64_char_props _ R1))),
            (proj2 (proj2 (b64_char_props _ R2))),
            (proj2 (proj2 (b64_char_props _ R3))).
    cbn [andb]. apply (IH (length r)); [cbn in Hn; lia|reflexivity|exact Hr].
Qed.

Lemma b64decode_encode b :
  is_bytesb b = true -> b64decode (b64encode b) = Some b.
Proof.
  intros Hb. unfold b64decode. rewrite b64encode_ascii by assumption.
  now rewrite b64_loop_encode.
Qed.

Lemma b64encode_nonempty b : b64encode b = ""%string -> b = [].
Proof. destruct b as [|x [|y [|z r]]]; [reflexivity| | |]; discriminate. Qed.

Theorem ref_lib_ok : lib_ok RefLib.lib.
Proof.
  constructor.
  - exact sha256_is_bytes.
  - exact md5_is_block.
  - exact utf8_encode_bytes.
  - exact utf8_decode_encode.
  - exact utf8_encode_nonempty.
  - exact b64decode_encode.
  - exact b64encode_nonempty.
  - exact fromhex_is_bytes.
  - intros n. split; [apply repeat_length|].
    apply is_bytesb_repeat. reflexivity.
Qed.

End RefLibFacts.
Import RefLibFacts.

(** * The data-round swap and one AES block *)

Lemma magic_swap_twice s :
  shape44b s = true ->
  AesPure._magic_swap_state (AesPure._magic_swap_state s) = s.
Proof.
  unfold shape44b.
  destruct s as [|r0 [|r1 [|r2 [|r3 [|r4 s]]]]]; try discriminate.
  cbn [length Nat.eqb andb forallb]. rewrite !andb_true_iff, !Nat.eqb_eq.
  intros (H0 & H1 & H2 & H3 & _).
  destruct r0 as [|? [|? [|? [|? [|]]]]]; try discriminate.
  destruct r1 as [|? [|? [|? [|? [|]]]]]; try discriminate.
  destruct r2 as [|? [|? [|? [|? [|]]]]]; try discriminate.
  destruct r3 as [|? [|? [|? [|? [|]]]]]; try discriminate.
  reflexivity.
Qed.

(** C6 - Swap involution.  Applying [_magic_swap_state] twice to a 4x4
    state gives the state back; and with the data-round swap enabled,
    for every key, every S-box that is a permutation (the custom table, or
    the standard one when none is given) and every 16-byte block [B], the
    cipher is built and [encrypt_block] returns a block that
    [decrypt_block] of the same cipher turns back into [B]. *)
Theorem C6_swap_involution_and_block_roundtrip :
  forall (s : AesPure.state) (key : bytes) (custom : option (list pyval))
         (tbl : list Z) (swap_ks : bool) (B : bytes),
    shape44b s = true ->
    is_bytesb key = true ->
    table_ints (table_of AesPure.STANDARD_SBOX custom) = Some tbl ->
    sbox_permb tbl = true ->
    is_blockb B = true ->
    AesPure._magic_swap_state (AesPure._magic_swap_state s) = s
    /\ exists aes C,
         AesPure.init key custom swap_ks true = Ok aes
         /\ AesPure.encrypt_block aes B = Ok C
         /\ AesPure.decrypt_block aes C = Ok B.
Proof.
  intros s key custom tbl swap_ks B Hs Hk Ht Hp HB.
  split; [now apply magic_swap_twice|].
  assert (Hb : sbox_bytesb tbl = true)
    by (unfold sbox_permb in Hp; now apply andb_true_iff in Hp).
  pose proof (build_table_ok key tbl swap_ks true Hk Hp) as Hok.
  destruct (encrypt_block_ok _ Hok B HB) as (C & EC & _).
  exists (AesPure.build key (Some tbl) swap_ks true), C.
  split; [now apply init_table|]. split; [exact EC|].
  now apply (decrypt_encrypt_block _ Hok B C).
Qed.

Lemma C6_witness :
  exists aes C,
    AesPure.init (map Z.of_nat (seq 0 16)) None true true = Ok aes
    /\ AesPure.encrypt_block aes (map Z.of_nat (seq 16 16)) = Ok C
    /\ AesPure.decrypt_block aes C = Ok (map Z.of_nat (seq 16 16)).
Proof.
  apply (C6_swap_involution_and_block_roundtrip
           [[1; 2; 3; 4]; [5; 6; 7; 8]; [9; 10; 11; 12]; [13; 14; 15; 16]]
           (map Z.of_nat (seq 0 16)) None AesPure.STANDARD_SBOX true
           (map Z.of_nat (seq 16 16)));
    vm_compute; reflexivity.
Defined.

(** * Key length normalisation *)

Lemma fold_append_length {A : Type} (f : list A -> nat -> A) idxs ws :
  length (fold_left (fun ws i => ws ++ [f ws i]) idxs ws)
  = (length ws + length idxs)%nat.
Proof.
  revert ws. induction idxs as [|i idxs IH]; intros ws; cbn [fold_left length].
  - lia.
  - rewrite IH, length_app. cbn [length]. lia.
Qed.

Lemma expand_words_length sbox swap_ks key Nk Nr :
  length (AesPure.expand_words sbox swap_ks key Nk Nr)
  = (Nk + (4 * (Nr + 1) - Nk))%nat.
Proof.
  unfold AesPure.expand_words.
  now rewrite fold_append_length, length_map, !length_seq.
Qed.

Lemma group4_length n :
  forall fuel (ws : list (list Z)),
    length ws = (4 * n)%nat -> (length ws <= fuel)%nat ->
    length (AesPure.group4 fuel ws) = n.
Proof.
  induction n as [|n IH]; intros fuel ws Hl Hf.
  - destruct ws; [|discriminate]. now destruct fuel.
  - destruct fuel as [|fuel]; [lia|].
    destruct ws as [|w ws]; [discriminate|].
    cbn [AesPure.group4 length]. f_equal. apply IH.
    + rewrite length_skipn. lia.
    + rewrite length_skipn. cbn [length] in *. lia.
Qed.

(** C7 - AES key normalisation.  [key_expansion] works on a key of 16, 24
    or 32 bytes: a key of such a length is kept, a shorter one is
    zero-padded to 16 bytes, one of 17..23 bytes is cut to 16, one of
    25..31 bytes is cut to 24, a longer one is cut to 32; the round count
    is 10, 12 or 14 for a resulting key of 16, 24 or 32 bytes, and the
    schedule holds one round key more than there are rounds. *)
Theorem C7_key_normalisation :
  forall (sbox : list Z) (swap_ks : bool) (key : bytes),
    let n := length key in
    let key' := fst (AesPure.key_norm key) in
    let rounds := fst (AesPure.key_expansion sbox swap_ks key) in
    ((n < 16)%nat -> key' = key ++ repeat 0 (16 - n))
    /\ ((16 < n < 24)%nat -> key' = firstn 16 key)
    /\ ((24 < n < 32)%nat -> key' = firstn 24 key)
    /\ ((32 < n)%nat -> key' = firstn 32 key)
    /\ (n = 16%nat \/ n = 24%nat \/ n = 32%nat -> key' = key)
    /\ (length key' = 16%nat /\ rounds = 10%nat
        \/ length key' = 24%nat /\ rounds = 12%nat
        \/ length key' = 32%nat /\ rounds = 14%nat)
    /\ rounds = snd (AesPure.key_norm key)
    /\ length (snd (AesPure.key_expansion sbox swap_ks key)) = S rounds.
Proof.
  intros sbox swap_ks key n key' rounds.
  assert (Er : rounds = snd (AesPure.key_norm key)).
  { subst rounds. unfold AesPure.key_expansion.
    now destruct (AesPure.key_norm key). }
  assert (Hmain :
    ((n < 16)%nat -> key' = key ++ repeat 0 (16 - n))
    /\ ((16 < n < 24)%nat -> key' = firstn 16 key)
    /\ ((24 < n < 32)%nat -> key' = firstn 24 key)
    /\ ((32 < n)%nat -> key' = firstn 32 key)
    /\ (n = 16%nat \/ n = 24%nat \/ n = 32%nat -> key' = key)
    /\ (length key' = 16%nat /\ snd (AesPure.key_norm key) = 10%nat
        \/ length key' = 24%nat /\ snd (AesPure.key_norm key) = 12%nat
        \/ length key' = 32%nat /\ snd (AesPure.key_norm key) = 14%nat)).
  2: { rewrite Er.
       destruct Hmain as (H1 & H2 & H3 & H4 & H5 & H6).
       repeat (split; [assumption|]). split; [reflexivity|].
       unfold AesPure.key_expansion. subst key'.
       destruct (AesPure.key_norm key) as [k Nr]. cbn [fst snd] in *.
       apply group4_length; [|lia].
       rewrite expand_words_length.
       destruct H6 as [[-> ->] | [[-> ->] | [-> ->]]]; reflexivity. }
  subst key'. unfold AesPure.key_norm. fold n.
  destruct (Nat.eqb_spec n 16) as [E16|N16].
  { cbn [fst snd]. repeat split; try lia; auto. }
  destruct (Nat.eqb_spec n 24) as [E24|N24].
  { cbn [fst snd]. repeat split; try lia; auto. }
  destruct (Nat.eqb_spec n 32) as [E32|N32].
  { cbn [fst snd]. repeat split; try lia; auto. }
  cbn [fst snd].
  destruct (Nat.ltb_spec n 16) as [L16|G16].
  { assert (El : length (key ++ repeat 0 (16 - n)) = 16%nat)
      by (rewrite length_app, repeat_length; fold n; lia).
    rewrite El. cbn [Nat.eqb]. repeat split; try lia; auto. }
  destruct (Nat.ltb_spec n 24) as [L24|G24].
  { assert (El : length (firstn 16 key) = 16%nat)
      by (rewrite length_firstn; fold n; lia).
    rewrite El. cbn [Nat.eqb]. repeat split; try lia; auto. }
  destruct (Nat.ltb_spec n 32) as [L32|G32].
  { assert (El : length (firstn 24 key) = 24%nat)
      by (rewrite length_firstn; fold n; lia).
    rewrite El. cbn [Nat.eqb]. repeat split; try lia; auto. }
  assert (El : length (firstn 32 key) = 32%nat)
    by (rewrite length_firstn; fold n; lia).
  rewrite El. cbn [Nat.eqb]. repeat split; try lia; auto.
Qed.

(** * The CTR counter *)

Lemma blocks16_two d :
  (16 < length d)%nat -> exists b1 b2 r, blocks16 d = b1 :: b2 :: r.
Proof.
  intros H. destruct d as [|a d]; [cbn in H; lia|].
  rewrite blocks16_cons.
  destruct (skipn 16 (a :: d)) as [|x rest] eqn:E.
  - assert (length (skipn 16 (a :: d)) = 0%nat) by now rewrite E.
    rewrite length_skipn in H0. lia.
  - rewrite blocks16_cons. eauto.
Qed.

Lemma all_ff_counter : int_from_bytes (repeat 255 16) = 2 ^ 128 - 1.
Proof. reflexivity. Qed.

Section CtrOverflow.
Variable E : bytes -> result bytes.
Hypothesis E_total :
  forall B, is_blockb B = true -> exists C, E B = Ok C.

Lemma ctr_loop_all_ff b1 b2 r res :
  ctr_loop E (b1 :: b2 :: r) (int_from_bytes (repeat 255 16)) res
  = Raise OverflowError.
Proof.
  rewrite all_ff_counter. cbn [ctr_loop].
  destruct (to_bytes16_block (2 ^ 128 - 1)) as (cb & Ecb & Hcb); [lia|].
  rewrite Ecb. cbn [bind].
  destruct (E_total cb Hcb) as (ks & Eks). rewrite Eks. cbn [bind].
  rewrite to_bytes16_overflow by lia. reflexivity.
Qed.

Lemma ctr_loop_two_blocks d res :
  (16 < length d)%nat ->
  ctr_loop E (blocks16 d) (int_from_bytes (repeat 255 16)) res
  = Raise OverflowError.
Proof.
  intros H. destruct (blocks16_two d H) as (b1 & b2 & r & ->).
  apply ctr_loop_all_ff.
Qed.
End CtrOverflow.

Lemma aes_encrypt_block_total aes B :
  aes_ok aes -> is_blockb B = true ->
  exists C, AesPure.encrypt_block aes B = Ok C.
Proof.
  intros Ha H. destruct (encrypt_block_ok aes Ha B H) as (C & EC & _). eauto.
Qed.

Lemma sm4_one_round_total c B :
  sm4_ok c -> is_blockb B = true -> exists C, SM4.one_round c B = Ok C.
Proof.
  intros Hc HB. destruct (one_round_ok c Hc B HB) as (C & EC & _). eauto.
Qed.

Lemma aes_pad_extends L data padding :
  (length data <= length (AesPureEncoders._pad L data padding))%nat.
Proof.
  unfold AesPureEncoders._pad.
  repeat match goal with
         | |- context [if ?c then _ else _] => destruct c
         end; rewrite ?length_app; lia.
Qed.

Lemma sm4_pad_extends L data padding :
  (length data <= length (SM4Encoders._pad_data L data padding))%nat.
Proof.
  unfold SM4Encoders._pad_data.
  repeat match goal with
         | |- context [if ?c then _ else _] => destruct c
         end; rewrite ?length_app; lia.
Qed.

Section Ctr.
Variable L : PyLib.
Hypothesis HL : lib_ok L.
Variables (P c key mode iv padding : string) (sbox : pyval).
Variables (sks sdr swap_endian : bool) (key_type iv_type : string).
Variables (data_type : option string) (kbA kbS enc : bytes).
Hypothesis Hmode : upper mode = "CTR"%string.
Hypothesis Hiv_given : str_true iv = true.
Hypothesis Hiv : AesPureEncoders.given_iv L iv iv_type = Ok (repeat 255 16).
Hypothesis HkA : AesPureEncoders.key_bytes_of L key key_type = Ok kbA.
Hypothesis HkS : SM4Encoders.key_bytes_of L key key_type = Ok kbS.
Hypothesis Hsbox : sbox_arg_ok L sbox sbox_permb.

Lemma sbox_perm_bytes : sbox_arg_ok L sbox sbox_bytesb.
Proof.
  pose proof Hsbox as H. unfold sbox_arg_ok in *.
  destruct (_parse_sbox L sbox); [|exact I].
  destruct H as (tbl & Et & Hp). exists tbl. split; [exact Et|].
  unfold sbox_permb in Hp. now apply andb_true_iff in Hp.
Qed.

Lemma aes_ctr_encrypt_overflow :
  str_true P = true -> (16 < length (utf8_encode L P))%nat ->
  AesPureEncoders.encrypt L P key mode iv padding sbox sks sdr key_type
    iv_type None = Raise OverflowError.
Proof.
  intros HP Hlen.
  destruct (aes_make_cipher_ok L kbA sbox sks sdr
              (aes_key_bytes L HL _ _ _ HkA) Hsbox) as (aes & Eaes & Hok).
  unfold AesPureEncoders.encrypt, AesPureEncoders.encrypt_bytes.
  rewrite HP. cbn [negb]. rewrite HkA. cbn [bind]. rewrite Eaes.
  cbn [bind opt_is]. rewrite Hmode. eval_mode. rewrite Hiv_given.
  cbn [negb]. rewrite Hiv. cbn [bind iv_or_empty].
  unfold AesPureEncoders.encrypt_modes. eval_mode.
  rewrite ctr_loop_two_blocks;
    [reflexivity|intros B HB; now apply (aes_encrypt_block_total aes)|].
  destruct (String.eqb (lower padding) "nopadding"); [exact Hlen|].
  pose proof (aes_pad_extends L (utf8_encode L P) padding). lia.
Qed.

Lemma aes_ctr_decrypt_overflow :
  str_true c = true ->
  AesPureEncoders.decode_input L c data_type = Some enc ->
  (16 < length enc)%nat ->
  AesPureEncoders.decrypt L c key mode iv padding sbox sks sdr key_type
    iv_type data_type = Raise OverflowError.
Proof.
  intros Hc Hdec Hlen.
  destruct (aes_make_cipher_ok L kbA sbox sks sdr
              (aes_key_bytes L HL _ _ _ HkA) Hsbox) as (aes & Eaes & Hok).
  unfold AesPureEncoders.decrypt, AesPureEncoders.decrypt_bytes.
  rewrite Hc. cbn [negb]. rewrite HkA. cbn [bind]. rewrite Eaes.
  cbn [bind]. rewrite Hdec, Hmode. eval_mode. rewrite Hiv_given, Hiv.
  cbn [bind fst snd]. unfold AesPureEncoders.decrypt_modes. eval_mode.
  rewrite ctr_loop_two_blocks;
    [reflexivity|intros B HB; now apply (aes_encrypt_block_total aes)|exact Hlen].
Qed.

Lemma sm4_ctr_encrypt_overflow :
  str_true P = true -> (16 < length (utf8_encode L P))%nat ->
  SM4Encoders.sm4_encrypt L P key mode iv padding sbox key_type iv_type
    sks sdr swap_endian None = Raise OverflowError.
Proof.
  intros HP Hlen.
  destruct (sm4_make_cipher_ok L kbS sbox
              (if swap_endian then true else sks)
              (if swap_endian then true else sdr) sbox_perm_bytes)
    as (l & tbl & Ht & Hsb & Emk).
  unfold SM4Encoders.sm4_encrypt, SM4Encoders.sm4_encrypt_bytes.
  rewrite HP. cbn [negb]. rewrite HkS. cbn [bind]. rewrite Hmode. eval_mode.
  rewrite Hiv_given. cbn [negb]. rewrite sm4_given_iv_eq, Hiv.
  cbn [bind]. rewrite Emk. cbn [bind opt_is iv_or_empty].
  unfold SM4Encoders.encrypt_modes. eval_mode.
  rewrite ctr_loop_two_blocks; [reflexivity| |].
  - intros B HB. apply sm4_one_round_total; [|exact HB].
    now apply sm4_built_ok.
  - destruct (String.eqb (lower padding) "nopadding"); [exact Hlen|].
    pose proof (sm4_pad_extends L (utf8_encode L P) padding). lia.
Qed.

Lemma sm4_ctr_decrypt_overflow :
  str_true c = true ->
  SM4Encoders.decode_input L c data_type = Some enc ->
  (16 < length enc)%nat ->
  SM4Encoders.sm4_decrypt L c key mode iv padding sbox key_type iv_type
    sks sdr swap_endian data_type = Raise OverflowError.
Proof.
  intros Hc Hdec Hlen.
  destruct (sm4_make_cipher_ok L kbS sbox
              (if swap_endian then true else sks)
              (if swap_endian then true else sdr) sbox_perm_bytes)
    as (l & tbl & Ht & Hsb & Emk).
  unfold SM4Encoders.sm4_decrypt, SM4Encoders.sm4_decrypt_bytes.
  rewrite Hc. cbn [negb]. rewrite HkS. cbn [bind]. rewrite Hdec, Hmode.
  eval_mode. rewrite Hiv_given. cbn [negb andb].
  rewrite sm4_given_iv_eq, Hiv. cbn [bind fst snd]. rewrite Emk.
  cbn [bind]. unfold SM4Encoders.decrypt_modes. eval_mode.
  rewrite ctr_loop_two_blocks; [reflexivity| |exact Hlen].
  intros B HB. apply sm4_one_round_total; [|exact HB].
  now apply sm4_built_ok.
Qed.
End Ctr.

(** C10 - CTR counter overflow.  The CTR counter is the integer read
    big-endian from the IV and grows by one per 16-byte chunk without
    wrapping: with an IV of sixteen 0xFF bytes the second chunk asks for
    the 16-byte form of 2^128, which fails, so encrypting a plaintext and
    decrypting a ciphertext of more than 16 bytes raise [OverflowError],
    in AES and in SM4. *)
Theorem C10_ctr_counter_overflow :
  forall (L : PyLib) (P c key mode iv padding : string) (sbox : pyval)
         (sks sdr swap_endian : bool) (key_type iv_type : string)
         (data_type : option string) (kbA kbS enc : bytes),
    lib_ok L ->
    upper mode = "CTR"%string ->
    str_true iv = true ->
    AesPureEncoders.given_iv L iv iv_type = Ok (repeat 255 16) ->
    AesPureEncoders.key_bytes_of L key key_type = Ok kbA ->
    SM4Encoders.key_bytes_of L key key_type = Ok kbS ->
    sbox_arg_ok L sbox sbox_permb ->
    str_true P = true -> (16 < length (utf8_encode L P))%nat ->
    str_true c = true ->
    AesPureEncoders.decode_input L c data_type = Some enc ->
    (16 < length enc)%nat ->
    int_from_bytes (repeat 255 16) + 1 = 2 ^ 128
    /\ to_bytes16 (int_from_bytes (repeat 255 16) + 1) = Raise OverflowError
    /\ AesPureEncoders.encrypt L P key mode iv padding sbox sks sdr key_type
         iv_type None = Raise OverflowError
    /\ AesPureEncoders.decrypt L c key mode iv padding sbox sks sdr key_type
         iv_type data_type = Raise OverflowError
    /\ SM4Encoders.sm4_encrypt L P key mode iv padding sbox key_type iv_type
         sks sdr swap_endian None = Raise OverflowError
    /\ SM4Encoders.sm4_decrypt L c key mode iv padding sbox key_type iv_type
         sks sdr swap_endian data_type = Raise OverflowError.
Proof.
  intros L P c key mode iv padding sbox sks sdr swap_endian key_type iv_type
         data_type kbA kbS enc HL Hm Hi Hiv HkA HkS Hs HP HlP Hc Hdec Hle.
  split; [reflexivity|]. split; [reflexivity|].
  split; [eapply aes_ctr_encrypt_overflow; eassumption|].
  split; [eapply aes_ctr_decrypt_overflow; eassumption|].
  split; [eapply sm4_ctr_encrypt_overflow; eassumption|].
  eapply sm4_ctr_decrypt_overflow; eassumption.
Qed.

Lemma C10_witness :
  AesPureEncoders.encrypt RefLib.lib "ABCDEFGHIJKLMNOPQ" "k" "ctr"
    "ffffffffffffffffffffffffffffffff" "nopadding" PyNone false false
    "utf-8" "hex" None = Raise OverflowError
  /\ SM4Encoders.sm4_decrypt RefLib.lib
       "0000000000000000000000000000000000" "k" "ctr"
       "ffffffffffffffffffffffffffffffff" "nopadding" PyNone "utf-8" "hex"
       false false false (Some "hex"%string) = Raise OverflowError.
Proof.
  assert (H := C10_ctr_counter_overflow RefLib.lib "ABCDEFGHIJKLMNOPQ"
                "0000000000000000000000000000000000" "k" "ctr"
                "ffffffffffffffffffffffffffffffff" "nopadding" PyNone
                false false false "utf-8" "hex" (Some "hex"%string)
                (RefLib.sha256 [107]) (RefLib.md5 [107]) (repeat 0 17)
                ref_lib_ok).
  destruct H as (_ & _ & H1 & _ & _ & H4);
    try (vm_compute; first [reflexivity | exact I | lia]).
  split; [exact H1|exact H4].
Defined.

(** * ECB and a trailing partial block *)

Lemma ecb_break_app E bs tail res :
  all_blocks bs -> (length tail < 16)%nat ->
  ecb_break E (bs ++ [tail]) res = ecb_break E bs res.
Proof.
  intros Hbs Ht. revert res. induction Hbs as [|b bs Hb Hbs IH]; intros res.
  - cbn [app ecb_break]. apply Nat.ltb_lt in Ht. now rewrite Ht.
  - cbn [app ecb_break]. rewrite (is_blockb_length b Hb).
    cbn [Nat.ltb Nat.leb]. destruct (E b) as [c|e]; [|reflexivity].
    cbn [bind]. apply IH.
Qed.

Lemma blocks16_app_tail data tail :
  is_bytesb data = true -> (length data mod 16 = 0)%nat ->
  (1 <= length tail < 16)%nat ->
  blocks16 (data ++ tail) = blocks16 data ++ [tail].
Proof.
  intros Hb Hal Ht.
  pose proof (blocks16_aligned data Hb Hal) as Hbs.
  rewrite <- (concat_blocks16 data) at 1.
  assert (E : concat (blocks16 data) ++ tail = concat (blocks16 data ++ [tail])).
  { rewrite concat_app. cbn [concat]. now rewrite app_nil_r. }
  rewrite E. apply blocks16_of_chunked.
  clear E. induction Hbs as [|b bs Hb' Hbs IH].
  - cbn [app]. constructor. lia.
  - cbn [app]. destruct bs as [|b' bs'].
    + cbn [app]. constructor; [now apply is_blockb_length|]. constructor. lia.
    + cbn [app] in *. constructor; [now apply is_blockb_length|]. exact IH.
Qed.

(** With the length test, the chunks before the partial one are processed
    and the partial one is left out. *)
Lemma ecb_break_drops_tail E data tail :
  is_bytesb data = true -> (length data mod 16 = 0)%nat ->
  (1 <= length tail < 16)%nat ->
  ecb_break E (blocks16 (data ++ tail)) []
  = ecb_break E (blocks16 data) [].
Proof.
  intros Hb Hal Ht. rewrite blocks16_app_tail by assumption.
  apply ecb_break_app; [now apply blocks16_aligned|lia].
Qed.

Lemma one_round_raises c b e :
  sm4_ok c -> SM4.one_round c b = Raise e -> e = StructError.
Proof.
  intros Hc. destruct (sm4_ok_ints c Hc) as (tbl & _ & _ & ->).
  unfold Sm4Ints.one_round, SM4.unpack4I, SM4.pack4I.
  destruct (Nat.eqb (length b) 16); cbn [bind].
  - destruct (forallb SM4.is_u32b _); [discriminate|]. now intros [= <-].
  - now intros [= <-].
Qed.

(** Without the length test, a partial last chunk reaches [one_round],
    whose [struct.unpack] rejects it. *)
Lemma ecb_all_partial c bs res :
  sm4_ok c -> chunked bs -> (length (concat bs) mod 16 <> 0)%nat ->
  ecb_all (SM4.one_round c) bs res = Raise StructError.
Proof.
  intros Hok Hc. revert res. induction Hc as [|b Hb|b b' r Hb Hc IH]; intros res Hm.
  - now cbn in Hm.
  - cbn [concat] in Hm. rewrite app_nil_r in Hm. cbn [ecb_all].
    assert (Hne : Nat.eqb (length b) 16 = false).
    { apply Nat.eqb_neq. intros E. rewrite E in Hm. now cbn in Hm. }
    unfold SM4.one_round, SM4.unpack4I. now rewrite Hne.
  - cbn [ecb_all]. destruct (SM4.one_round c b) as [x|e] eqn:E.
    + cbn [bind]. apply IH. intros H0. apply Hm.
      change (concat (b :: b' :: r)) with (b ++ concat (b' :: r)).
      rewrite length_app, Hb.
      rewrite <- Nat.Div0.add_mod_idemp_r, H0. reflexivity.
    + cbn [bind]. now rewrite (one_round_raises _ _ _ Hok E).
Qed.

Lemma sm4_ecb_decrypt_partial c iv data :
  sm4_ok c -> (length data mod 16 <> 0)%nat ->
  SM4Encoders.decrypt_modes c "ECB" iv data = Raise StructError.
Proof.
  intros Hok H. unfold SM4Encoders.decrypt_modes. eval_mode.
  apply ecb_all_partial; [exact Hok|apply blocks16_chunked|].
  now rewrite concat_blocks16.
Qed.

(** C2 - ECB and a trailing partial block.  On a 17-byte input in ECB mode
    with no padding, AES encryption, AES decryption and SM4 encryption give
    what they give on its first 16 bytes: the last byte is dropped.  SM4
    decryption has no length test in its ECB loop: the 16-byte input
    decrypts, the 17-byte input raises [struct.error]. *)
Theorem C2_ecb_trailing_partial_block :
  let key := "000102030405060708090a0b0c0d0e0f"%string in
  let data16 := "00112233445566778899aabbccddeeff"%string in
  let data17 := "00112233445566778899aabbccddeeff00"%string in
  let hex := Some "hex"%string in
  (exists c,
      AesPureEncoders.encrypt RefLib.lib data17 key "ECB" "" "nopadding"
        PyNone false false "hex" "utf-8" hex = Ok c
      /\ AesPureEncoders.encrypt RefLib.lib data16 key "ECB" "" "nopadding"
           PyNone false false "hex" "utf-8" hex = Ok c)
  /\ (exists p,
         AesPureEncoders.decrypt RefLib.lib data17 key "ECB" "" "nopadding"
           PyNone false false "hex" "utf-8" hex = Ok p
         /\ AesPureEncoders.decrypt RefLib.lib data16 key "ECB" ""
              "nopadding" PyNone false false "hex" "utf-8" hex = Ok p)
  /\ (exists c,
         SM4Encoders.sm4_encrypt RefLib.lib data17 key "ECB" "" "nopadding"
           PyNone "hex" "utf-8" false false false hex = Ok c
         /\ SM4Encoders.sm4_encrypt RefLib.lib data16 key "ECB" ""
              "nopadding" PyNone "hex" "utf-8" false false false hex = Ok c)
  /\ (exists p,
         SM4Encoders.sm4_decrypt RefLib.lib data16 key "ECB" "" "nopadding"
           PyNone "hex" "utf-8" false false false hex = Ok p)
  /\ SM4Encoders.sm4_decrypt RefLib.lib data17 key "ECB" "" "nopadding"
       PyNone "hex" "utf-8" false false false hex = Raise StructError.
Proof.
  cbv zeta.
  split; [eexists; split; vm_compute; reflexivity|].
  split; [eexists; split; vm_compute; reflexivity|].
  split; [eexists; split; vm_compute; reflexivity|].
  split; [eexists; vm_compute; reflexivity|].
  vm_compute. reflexivity.
Qed.

(** * Padding removal that fails *)

Lemma block_modes_not_stream m :
  str_in m ["ECB"; "CBC"]%string = true -> str_in m stream_modes = false.
Proof.
  intros H. apply str_in_cases in H. cbn in H.
  destruct H as [<- | [<- | []]]; reflexivity.
Qed.

Lemma length_checked_cases padding :
  length_checked padding = true ->
  lower padding = "pkcs7"%string \/ lower padding = "iso10126"%string
  \/ lower padding = "ansix923"%string.
Proof.
  intros H. apply str_in_cases in H. cbn in H. intuition congruence.
Qed.

Lemma bad_length_test p :
  16 < p \/ p < 1 -> (16 <? p) || (p <? 1) = true.
Proof.
  intros [H | H]; apply orb_true_iff; [left|right]; now apply Z.ltb_lt.
Qed.

Lemma aes_unpad_bad_length res padding :
  length_checked padding = true -> bad_length_byte res ->
  AesPureEncoders._unpad res padding = Raise (ValueError InvalidPaddingLength).
Proof.
  intros Hc (p & Hl & Hp). unfold AesPureEncoders._unpad.
  fold (length_checked padding). rewrite Hc, Hl. cbn [of_option bind].
  rewrite (bad_length_test p Hp).
  destruct (length_checked_cases padding Hc) as [-> | [-> | ->]]; reflexivity.
Qed.

Lemma sm4_unpad_bad_length res padding :
  length_checked padding = true -> bad_length_byte res ->
  SM4Encoders._unpad_data res padding
  = Raise (ValueError InvalidPaddingLength).
Proof.
  intros Hc (p & Hl & Hp). unfold SM4Encoders._unpad_data.
  destruct (length_checked_cases padding Hc) as [-> | [-> | ->]];
    cbn [String.eqb Ascii.eqb Bool.eqb orb]; rewrite Hl;
    cbn [of_option bind]; now rewrite (bad_length_test p Hp).
Qed.

Lemma sm4_unpad_bad_filler res padding :
  lower padding = "pkcs7"%string -> bad_filler res ->
  SM4Encoders._unpad_data res padding
  = Raise (ValueError InvalidPaddingBytes).
Proof.
  intros Hc (p & Hl & Hp & Hf). unfold SM4Encoders._unpad_data.
  rewrite Hc. cbn [String.eqb Ascii.eqb Bool.eqb]. rewrite Hl.
  cbn [of_option bind].
  replace ((16 <? p) || (p <? 1)) with false
    by (symmetry; apply orb_false_iff; split; apply Z.ltb_ge; lia).
  now rewrite Hf.
Qed.

(** C3 - Padding removal failures.  In ECB or CBC, under a padding that
    checks the length byte (pkcs7, iso10126, ansix923): when the bytes
    that AES decryption produces end in a length byte outside 1..16,
    [_unpad] raises and [AesPureEncoders.decrypt] returns the rendering of
    the bytes as they are, still padded; when the bytes that SM4
    decryption produces end in such a byte, [_unpad_data] raises and
    [sm4_decrypt] raises the same error.  SM4 alone also checks the filler
    bytes of pkcs7 and raises on a filler byte that differs from the
    length byte.  Each cipher is taken on its own: nothing is assumed of
    the other one. *)
Theorem C3_padding_failure_handling :
  forall (L : PyLib) (data key mode iv padding : string) (sbox : pyval)
         (sks sdr swap_endian : bool) (key_type iv_type : string)
         (data_type : option string),
    str_in (upper mode) ["ECB"; "CBC"]%string = true ->
    length_checked padding = true ->
    (forall resA,
       AesPureEncoders.decrypt_bytes L data key mode iv padding sbox sks sdr
         key_type iv_type data_type = Ok (inr resA) ->
       bad_length_byte resA ->
       AesPureEncoders._unpad resA padding
       = Raise (ValueError InvalidPaddingLength)
       /\ AesPureEncoders.decrypt L data key mode iv padding sbox sks sdr
            key_type iv_type data_type = Ok (render L resA))
    /\ (forall resS,
          SM4Encoders.sm4_decrypt_bytes L data key mode iv padding sbox
            key_type iv_type sks sdr swap_endian data_type = Ok (inr resS) ->
          bad_length_byte resS ->
          SM4Encoders._unpad_data resS padding
          = Raise (ValueError InvalidPaddingLength)
          /\ SM4Encoders.sm4_decrypt L data key mode iv padding sbox key_type
               iv_type sks sdr swap_endian data_type
             = Raise (ValueError InvalidPaddingLength))
    /\ (forall resS,
          SM4Encoders.sm4_decrypt_bytes L data key mode iv padding sbox
            key_type iv_type sks sdr swap_endian data_type = Ok (inr resS) ->
          lower padding = "pkcs7"%string -> bad_filler resS ->
          SM4Encoders._unpad_data resS padding
          = Raise (ValueError InvalidPaddingBytes)
          /\ SM4Encoders.sm4_decrypt L data key mode iv padding sbox key_type
               iv_type sks sdr swap_endian data_type
             = Raise (ValueError InvalidPaddingBytes)).
Proof.
  intros L data key mode iv padding sbox sks sdr swap_endian key_type iv_type
         data_type Hm Hc.
  pose proof (block_modes_not_stream _ Hm) as Hns.
  split; [|split].
  - intros resA HA HbA.
    pose proof (aes_unpad_bad_length resA padding Hc HbA) as Hu.
    split; [exact Hu|].
    unfold AesPureEncoders.decrypt. rewrite HA. cbn [bind].
    rewrite Hns. cbn [negb]. unfold AesPureEncoders.try_unpad.
    now rewrite Hu.
  - intros resS HS HbS.
    pose proof (sm4_unpad_bad_length resS padding Hc HbS) as Hu.
    split; [exact Hu|].
    unfold SM4Encoders.sm4_decrypt. rewrite HS. cbn [bind].
    rewrite Hns. cbn [negb]. now rewrite Hu.
  - intros resS HS Hp HbS.
    pose proof (sm4_unpad_bad_filler resS padding Hp HbS) as Hu.
    split; [exact Hu|].
    unfold SM4Encoders.sm4_decrypt. rewrite HS. cbn [bind].
    rewrite Hns. cbn [negb]. now rewrite Hu.
Qed.

(** One 16-byte ciphertext for both ciphers, and a 17-byte one on which
    AES still reaches the padding removal while SM4 fails before it. *)
Lemma C3_witness :
  AesPureEncoders.decrypt RefLib.lib "00112233445566778899aabbccddeeff"
    "000102030405060708090a0b0c0d0e0f" "ECB" "" "pkcs7" PyNone false false
    "hex" "utf-8" (Some "hex"%string)
  = Ok "762a5ab50929189cefdb99434790aad8"%string
  /\ SM4Encoders.sm4_decrypt RefLib.lib "00112233445566778899aabbccddeeff"
       "000102030405060708090a0b0c0d0e0f" "ECB" "" "pkcs7" PyNone "hex"
       "utf-8" false false false (Some "hex"%string)
     = Raise (ValueError InvalidPaddingLength)
  /\ AesPureEncoders.decrypt RefLib.lib "00112233445566778899aabbccddeeff00"
       "000102030405060708090a0b0c0d0e0f" "ECB" "" "pkcs7" PyNone false
       false "hex" "utf-8" (Some "hex"%string)
     = Ok "762a5ab50929189cefdb99434790aad8"%string.
Proof.
  assert (H := C3_padding_failure_handling RefLib.lib
                "00112233445566778899aabbccddeeff"
                "000102030405060708090a0b0c0d0e0f" "ECB" "" "pkcs7" PyNone
                false false false "hex" "utf-8" (Some "hex"%string)
                eq_refl eq_refl).
  assert (H' := C3_padding_failure_handling RefLib.lib
                 "00112233445566778899aabbccddeeff00"
                 "000102030405060708090a0b0c0d0e0f" "ECB" "" "pkcs7" PyNone
                 false false false "hex" "utf-8" (Some "hex"%string)
                 eq_refl eq_refl).
  destruct H as (HA & HS & _). destruct H' as (HA' & _).
  split; [|split].
  - destruct (HA [118; 42; 90; 181; 9; 41; 24; 156; 239; 219; 153; 67; 71;
                  144; 170; 216]) as [_ E].
    + vm_compute. reflexivity.
    + exists 216. split; [vm_compute; reflexivity | left; lia].
    + rewrite E. vm_compute. reflexivity.
  - apply (HS [218; 53; 148; 130; 180; 63; 26; 203; 8; 146; 137; 80; 209;
               242; 36; 161]).
    + vm_compute. reflexivity.
    + exists 161. split; [vm_compute; reflexivity | left; lia].
  - destruct (HA' [118; 42; 90; 181; 9; 41; 24; 156; 239; 219; 153; 67; 71;
                   144; 170; 216]) as [_ E].
    + vm_compute. reflexivity.
    + exists 216. split; [vm_compute; reflexivity | left; lia].
    + rewrite E. vm_compute. reflexivity.
Defined.

(** * Input that cannot be decoded, or is too short for an IV *)

Lemma aes_make_cipher_total L kb sbox sks sdr :
  sbox_arg_ok L sbox sbox_bytesb ->
  exists aes,
    AesPureEncoders.make_cipher kb (_parse_sbox L sbox) sks sdr = Ok aes.
Proof.
  unfold sbox_arg_ok, AesPureEncoders.make_cipher.
  destruct (_parse_sbox L sbox) as [l|].
  - intros (tbl & Ht & Hb). rewrite (init_bytes kb l tbl sks sdr Ht Hb).
    eexists; reflexivity.
  - intros _. rewrite init_standard. eexists; reflexivity.
Qed.

Section Malformed.
Variables (L : PyLib) (data key mode iv padding : string) (sbox : pyval).
Variables (sks sdr swap_endian : bool) (key_type iv_type : string).
Variables (data_type : option string) (kbA kbS : bytes).
Hypothesis Hdata : str_true data = true.
Hypothesis HkA : AesPureEncoders.key_bytes_of L key key_type = Ok kbA.
Hypothesis HkS : SM4Encoders.key_bytes_of L key key_type = Ok kbS.
Hypothesis Hsbox : sbox_arg_ok L sbox sbox_bytesb.

Lemma aes_undecodable :
  AesPureEncoders.decode_input L data data_type = None ->
  AesPureEncoders.decrypt L data key mode iv padding sbox sks sdr key_type
    iv_type data_type
  = if opt_true data_type then Raise (ValueError InputParseFailed)
    else Ok "[Error] Invalid input data"%string.
Proof.
  intros Hd.
  destruct (aes_make_cipher_total L kbA sbox sks sdr Hsbox) as [aes Ha].
  unfold AesPureEncoders.decrypt, AesPureEncoders.decrypt_bytes.
  rewrite Hdata, HkA. cbn [negb bind]. rewrite Ha. cbn [bind].
  rewrite Hd. now destruct (opt_true data_type).
Qed.

Lemma sm4_undecodable :
  SM4Encoders.decode_input L data data_type = None ->
  SM4Encoders.sm4_decrypt L data key mode iv padding sbox key_type iv_type
    sks sdr swap_endian data_type
  = if opt_true data_type then Raise (ValueError InputParseFailed)
    else Ok ""%string.
Proof.
  intros Hd.
  unfold SM4Encoders.sm4_decrypt, SM4Encoders.sm4_decrypt_bytes.
  rewrite Hdata, HkS. cbn [negb bind]. rewrite Hd.
  now destruct (opt_true data_type).
Qed.

Lemma aes_too_short enc :
  AesPureEncoders.decode_input L data data_type = Some enc ->
  str_in (upper mode) iv_modes = true -> str_true iv = false ->
  (length enc < 16)%nat ->
  AesPureEncoders.decrypt L data key mode iv padding sbox sks sdr key_type
    iv_type data_type = Raise (ValueError TooShortForIV).
Proof.
  intros Hd Hm Hi Hl.
  destruct (aes_make_cipher_total L kbA sbox sks sdr Hsbox) as [aes Ha].
  unfold AesPureEncoders.decrypt, AesPureEncoders.decrypt_bytes.
  rewrite Hdata, HkA. cbn [negb bind]. rewrite Ha. cbn [bind].
  rewrite Hd, Hm, Hi.
  replace (length enc <? 16)%nat with true
    by (symmetry; now apply Nat.ltb_lt).
  reflexivity.
Qed.

Lemma sm4_too_short enc :
  SM4Encoders.decode_input L data data_type = Some enc ->
  str_in (upper mode) iv_modes = true -> str_true iv = false ->
  (length enc < 16)%nat ->
  SM4Encoders.sm4_decrypt L data key mode iv padding sbox key_type iv_type
    sks sdr swap_endian data_type = Ok ""%string.
Proof.
  intros Hd Hm Hi Hl.
  unfold SM4Encoders.sm4_decrypt, SM4Encoders.sm4_decrypt_bytes.
  rewrite Hdata, HkS. cbn [negb bind]. rewrite Hd, Hm, Hi.
  replace (length enc <? 16)%nat with true
    by (symmetry; now apply Nat.ltb_lt).
  reflexivity.
Qed.
End Malformed.

(** C9 (as the code has it) - Malformed decrypt input.  With a non-empty
    data string, a key that is accepted and an S-box argument that is absent
    or a table of bytes: input that cannot be decoded makes both decryptors
    raise [ValueError] only when a data type is declared; with none declared
    AES returns the string "[Error] Invalid input data" and SM4 the empty
    string.  Input that decodes to fewer than 16 bytes, in a mode with an IV
    and with no IV supplied, makes AES raise [ValueError] while SM4 returns
    the empty string. *)
Theorem C9_malformed_input_handling :
  forall (L : PyLib) (data key mode iv padding : string) (sbox : pyval)
         (sks sdr swap_endian : bool) (key_type iv_type : string)
         (data_type : option string) (kbA kbS : bytes),
    str_true data = true ->
    AesPureEncoders.key_bytes_of L key key_type = Ok kbA ->
    SM4Encoders.key_bytes_of L key key_type = Ok kbS ->
    sbox_arg_ok L sbox sbox_bytesb ->
    (AesPureEncoders.decode_input L data data_type = None ->
     AesPureEncoders.decrypt L data key mode iv padding sbox sks sdr
       key_type iv_type data_type
     = (if opt_true data_type then Raise (ValueError InputParseFailed)
        else Ok "[Error] Invalid input data"%string)
     /\ SM4Encoders.sm4_decrypt L data key mode iv padding sbox key_type
          iv_type sks sdr swap_endian data_type
        = (if opt_true data_type then Raise (ValueError InputParseFailed)
           else Ok ""%string))
    /\ (forall enc,
          AesPureEncoders.decode_input L data data_type = Some enc ->
          str_in (upper mode) iv_modes = true -> str_true iv = false ->
          (length enc < 16)%nat ->
          AesPureEncoders.decrypt L data key mode iv padding sbox sks sdr
            key_type iv_type data_type = Raise (ValueError TooShortForIV)
          /\ SM4Encoders.sm4_decrypt L data key mode iv padding sbox key_type
               iv_type sks sdr swap_endian data_type = Ok ""%string).
Proof.
  intros L data key mode iv padding sbox sks sdr swap_endian key_type iv_type
         data_type kbA kbS Hdata HkA HkS Hsbox.
  split.
  - intros Hd. split.
    + eapply aes_undecodable; eassumption.
    + eapply sm4_undecodable; eassumption.
  - intros enc Hd Hm Hi Hl. split.
    + eapply aes_too_short; eassumption.
    + eapply sm4_too_short; eassumption.
Qed.

Lemma C9_witness :
  AesPureEncoders.decrypt RefLib.lib "QQ==" "k" "CBC" "" "pkcs7" PyNone
    false false "utf-8" "utf-8" None = Raise (ValueError TooShortForIV)
  /\ SM4Encoders.sm4_decrypt RefLib.lib "QQ==" "k" "CBC" "" "pkcs7" PyNone
       "utf-8" "utf-8" false false false None = Ok ""%string.
Proof.
  assert (H := C9_malformed_input_handling RefLib.lib "QQ==" "k" "CBC" ""
                "pkcs7" PyNone false false false "utf-8" "utf-8" None
                (RefLib.sha256 [107]) (RefLib.md5 [107])).
  destruct H as (_ & H); try (vm_compute; first [reflexivity | exact I]).
  apply (H [65]); vm_compute; first [reflexivity | lia].
Defined.

(** Counterexample to C9 as stated: a base64 input of one byte, in CBC mode
    with no IV supplied, is too short to hold an IV, and SM4 answers with
    an ordinary (empty) string; and an input that is not base64, with no
    data type declared, is answered with ordinary strings by both. *)
Lemma C9_counterexample :
  AesPureEncoders.decode_input RefLib.lib "QQ==" None = Some [65]
  /\ SM4Encoders.sm4_decrypt RefLib.lib "QQ==" "k" "CBC" "" "pkcs7" PyNone
       "utf-8" "utf-8" false false false None = Ok ""%string
  /\ AesPureEncoders.decode_input RefLib.lib "A" None = None
  /\ AesPureEncoders.decrypt RefLib.lib "A" "k" "CBC" "" "pkcs7" PyNone
       false false "utf-8" "utf-8" None
     = Ok "[Error] Invalid input data"%string
  /\ SM4Encoders.sm4_decrypt RefLib.lib "A" "k" "CBC" "" "pkcs7" PyNone
       "utf-8" "utf-8" false false false None = Ok ""%string.
Proof. vm_compute. repeat split; reflexivity. Qed.

(** * S-box resolution *)

Lemma parse_sbox_list L l :
  _parse_sbox L (PyList l)
  = if Nat.eqb (length l) 256 then Some l else None.
Proof.
  unfold _parse_sbox, truthy.
  destruct l as [|a l]; [reflexivity|]. reflexivity.
Qed.

Lemma parse_sbox_hex L s t :
  str_true s = true ->
  (forall l, json_loads L s = Some (PyList l) -> length l <> 256%nat) ->
  match unhexlify L (remove_char newline (remove_char space s)) with
  | Some b => if Nat.eqb (length b) 256 then Some (map PyInt b) else None
  | None => None
  end = Some t ->
  sbox_source L (PyStr s) t.
Proof.
  intros Hs Hj.
  destruct (unhexlify L _) as [b|] eqn:Eh; [|discriminate].
  destruct (Nat.eqb (length b) 256) eqn:Eb; [|discriminate].
  intros [= <-]. apply Nat.eqb_eq in Eb.
  split; [now rewrite length_map|].
  right; right. exists s, b. auto.
Qed.

Lemma parse_sbox_sound L v t : _parse_sbox L v = Some t -> sbox_source L v t.
Proof.
  unfold _parse_sbox.
  destruct v as [|b|z|s|l]; cbn [truthy].
  - discriminate.
  - destruct b; discriminate.
  - destruct (negb (z =? 0)); discriminate.
  - destruct (str_true s) eqn:Es; cbn [negb]; [|discriminate].
    destruct (json_loads L s) as [[|b|z|s'|l]|] eqn:Ej;
      try (apply parse_sbox_hex; [exact Es | intros l0; rewrite Ej;
                                             discriminate]).
    destruct (Nat.eqb (length l) 256) eqn:El.
    + intros [= <-]. apply Nat.eqb_eq in El. split; [exact El|].
      right; left. exists s. auto.
    + apply parse_sbox_hex; [exact Es|].
      intros l0. rewrite Ej. intros [= <-]. now apply Nat.eqb_neq.
  - destruct (negb (Nat.eqb (length l) 0)); [|discriminate].
    destruct (Nat.eqb (length l) 256) eqn:El; [|discriminate].
    intros [= <-]. apply Nat.eqb_eq in El. split; auto.
Qed.

Lemma parse_sbox_complete L v t : sbox_source L v t -> _parse_sbox L v = Some t.
Proof.
  intros (Hl & [-> | [(s & -> & Hs & Hj) | (s & b & -> & Hs & Hj & Hh & ->)]]).
  - rewrite parse_sbox_list, Hl. reflexivity.
  - unfold _parse_sbox. cbn [truthy]. rewrite Hs, Hj, Hl. reflexivity.
  - unfold _parse_sbox. cbn [truthy]. rewrite Hs. cbn [negb].
    rewrite length_map in Hl.
    destruct (json_loads L s) as [[|b0|z|s'|l]|] eqn:Ej;
      try (rewrite Hh, Hl; reflexivity).
    destruct (Nat.eqb (length l) 256) eqn:El.
    + apply Nat.eqb_eq in El. now destruct (Hj l eq_refl).
    + rewrite Hh, Hl. reflexivity.
Qed.

Lemma foldM_inv {A B : Type} (f : A -> B -> result A) (P : A -> Prop)
    (l : list B) (a : A) :
  P a ->
  (forall a b, P a -> In b l -> exists a', f a b = Ok a' /\ P a') ->
  exists a', foldM f l a = Ok a' /\ P a'.
Proof.
  revert a. induction l as [|b l IH]; intros a Ha H; [now exists a|].
  cbn [foldM]. destruct (H a b Ha (or_introl eq_refl)) as (a' & E & Ha').
  rewrite E. cbn [bind]. apply IH; [exact Ha'|].
  intros x y Hx Hy. apply H; [exact Hx | now right].
Qed.

Lemma foldM_raise {A B : Type} (f : A -> B -> result A) (l : list B) (a : A) e :
  foldM f l a = Raise e -> exists a' b, In b l /\ f a' b = Raise e.
Proof.
  revert a. induction l as [|b l IH]; intros a; [discriminate|].
  cbn [foldM]. destruct (f a b) as [a'|e'] eqn:E; cbn [bind].
  - intros H. destruct (IH a' H) as (x & y & Hy & Hf).
    exists x, y. split; [now right | exact Hf].
  - intros [= ->]. exists a, b. split; [now left | exact E].
Qed.

(** ** The loop of [AesPure.__init__] on any table *)

Section AesTable.
Variable t : list pyval.
Hypothesis Ht : length t = 256%nat.

Let step (r : list Z) (i : nat) : result (list Z) :=
  v <- item t (Z.of_nat i) ;; k <- as_int v ;; set_item r k (Z.of_nat i).

Lemma step_good r i :
  length r = 256%nat -> (i < 256)%nat -> index_entry t i = true ->
  exists r', step r i = Ok r' /\ length r' = 256%nat.
Proof.
  intros Hr Hi He. unfold step, item. rewrite Nat2Z.id.
  destruct (nth_error t i) as [v|] eqn:Ev;
    [|apply nth_error_None in Ev; lia].
  cbn [bind]. unfold index_entry in He.
  rewrite (nth_error_nth t i PyNone Ev) in He.
  destruct (as_int v) as [z|e]; [|discriminate]. cbn [bind].
  unfold set_item. rewrite Hr, He. eexists. split; [reflexivity|].
  now rewrite list_set_length.
Qed.

Lemma step_bad r i :
  length r = 256%nat -> (i < 256)%nat -> index_entry t i = false ->
  step r i = Raise (entry_error t i).
Proof.
  intros Hr Hi He. unfold step, item. rewrite Nat2Z.id.
  destruct (nth_error t i) as [v|] eqn:Ev;
    [|apply nth_error_None in Ev; lia].
  cbn [bind]. unfold index_entry in He. unfold entry_error.
  rewrite (nth_error_nth t i PyNone Ev) in *.
  destruct (as_int v) as [z|e]; [|reflexivity]. cbn [bind].
  unfold set_item. now rewrite Hr, He.
Qed.

Lemma inverse_sbox_good :
  (forall j, (j < 256)%nat -> index_entry t j = true) ->
  exists r, AesPure.inverse_sbox t = Ok r.
Proof.
  intros H. unfold AesPure.inverse_sbox. fold step.
  destruct (foldM_inv step (fun r => length r = 256%nat) (seq 0 256)
              (repeat 0 256%nat) (repeat_length _ _)) as (r & E & _).
  - intros r i Hr Hi. apply in_seq in Hi.
    apply step_good; [exact Hr | lia | apply H; lia].
  - now exists r.
Qed.

Lemma inverse_sbox_bad i :
  (i < 256)%nat ->
  (forall j, (j < i)%nat -> index_entry t j = true) ->
  index_entry t i = false ->
  AesPure.inverse_sbox t = Raise (entry_error t i).
Proof.
  intros Hi Hgood Hbad. unfold AesPure.inverse_sbox. fold step.
  replace (seq 0 256) with (seq 0 i ++ i :: seq (S i) (255 - i)).
  2: { change (i :: seq (S i) (255 - i)) with (seq i (S (255 - i))).
       rewrite <- seq_app. f_equal. lia. }
  rewrite foldM_app.
  destruct (foldM_inv step (fun r => length r = 256%nat) (seq 0 i)
              (repeat 0 256%nat) (repeat_length _ _)) as (r & E & Hr).
  - intros r j Hr Hj. apply in_seq in Hj.
    apply step_good; [exact Hr | lia | apply Hgood; lia].
  - rewrite E. cbn [bind foldM].
    now rewrite (step_bad r i Hr Hi Hbad).
Qed.
End AesTable.

Lemma aes_init_sbox kb custom sks sdr aes :
  AesPure.init kb custom sks sdr = Ok aes ->
  AesPure.sbox aes
  = AesPure.int_values (table_of AesPure.STANDARD_SBOX custom).
Proof.
  unfold AesPure.init. fold (table_of AesPure.STANDARD_SBOX custom).
  destruct (AesPure.inverse_sbox _) as [r|e]; cbn [bind]; [|discriminate].
  destruct (AesPure.key_expansion _ sks kb) as [Nr rks].
  now intros [= <-].
Qed.

Lemma aes_init_raise kb t sks sdr e :
  length t = 256%nat -> AesPure.inverse_sbox t = Raise e ->
  AesPure.init kb (Some t) sks sdr = Raise e.
Proof.
  intros Ht E. unfold AesPure.init, select_sbox. rewrite Ht.
  cbn [Nat.eqb]. now rewrite E.
Qed.

Lemma aes_init_good kb t sks sdr :
  length t = 256%nat ->
  (forall j, (j < 256)%nat -> index_entry t j = true) ->
  exists aes, AesPure.init kb (Some t) sks sdr = Ok aes
              /\ AesPure.sbox aes = AesPure.int_values t.
Proof.
  intros Ht H. destruct (inverse_sbox_good t Ht H) as (r & E).
  unfold AesPure.init, select_sbox. rewrite Ht. cbn [Nat.eqb].
  rewrite E. cbn [bind].
  destruct (AesPure.key_expansion _ sks kb) as [Nr rks].
  eexists. split; reflexivity.
Qed.

(** ** The table of an SM4 instance *)

Lemma apply_tau_raise t swapped a e :
  length t = 256%nat -> SM4.apply_tau t swapped a = Raise e -> e = TypeError.
Proof.
  intros Ht. unfold SM4.apply_tau, SM4._tau, SM4._tau_swapped, SM4.tau_items.
  assert (Hitem : forall x, exists v, item t (Z.land x 255) = Ok v).
  { intros x. unfold item.
    destruct (nth_error t (Z.to_nat (Z.land x 255))) as [v|] eqn:E;
      [now exists v|].
    apply nth_error_None in E. pose proof (land_255_byte x) as H.
    apply is_byteb_iff in H. lia. }
  destruct (Hitem (Z.shiftr a 24)) as (b0 & ->).
  destruct (Hitem (Z.shiftr a 16)) as (b1 & ->).
  destruct (Hitem (Z.shiftr a 8)) as (b2 & ->).
  destruct (Hitem a) as (b3 & ->). cbn [bind].
  assert (Hint : forall v x, as_int v = Raise x -> x = TypeError).
  { intros [|b|z|s|l] x; cbn; congruence. }
  destruct swapped;
    destruct (as_int b0) eqn:E0, (as_int b1) eqn:E1, (as_int b2) eqn:E2,
             (as_int b3) eqn:E3; cbn [bind]; try discriminate;
    intros [= <-]; eauto.
Qed.

Lemma sm4_set_key_raise t kb mode sks sdr e :
  length t = 256%nat -> SM4.set_key t kb mode sks sdr = Raise e ->
  e = TypeError.
Proof.
  intros Ht. unfold SM4.set_key.
  match goal with |- context [foldM ?f ?l ?K] =>
    destruct (foldM f l K) as [K'|e'] eqn:E end; cbn [bind]; [discriminate|].
  intros [= <-]. apply foldM_raise in E as (K' & i & _ & E).
  unfold SM4.key_step in E.
  match type of E with context [SM4.apply_tau t sks ?a] =>
    destruct (SM4.apply_tau t sks a) as [v|x] eqn:Ea end;
    cbn [bind] in E; [discriminate|].
  injection E as <-. now apply (apply_tau_raise t sks _ _ Ht Ea).
Qed.

Lemma sm4_init_some t kb mode sks sdr :
  length t = 256%nat ->
  SM4.init (Some t) kb mode sks sdr = SM4.set_key t kb mode sks sdr.
Proof.
  intros Ht. unfold SM4.init, select_sbox. now rewrite Ht.
Qed.

(** C8 (as the code has it) - S-box resolution.  [_parse_sbox] never
    raises; it returns a table exactly when the argument is a list of 256
    elements, a text that [json.loads] reads as a list of 256 elements, or
    a text that is no such JSON and whose hex digits decode to 256 bytes;
    a list of any other length gives [None].  On [None] both ciphers are
    built with their standard S-box.  [_parse_sbox] does not look at the
    elements of the table it returns.  A table of 256 bytes is the table
    of the cipher that is built.  [AesPure.__init__] reads every element
    in turn and raises at the first one that is no integer in -256..255:
    [TypeError] when it is no integer, [IndexError] when it is out of
    range; when there is none the cipher is built.  SM4 stores the table
    unread: its construction succeeds on every table of integers, and
    when it fails it raises [TypeError], on a table that holds an element
    that is no integer. *)
Theorem C8_sbox_resolution :
  forall (L : PyLib) (v : pyval),
    (forall t, _parse_sbox L v = Some t <-> sbox_source L v t)
    /\ (forall l, length l <> 256%nat -> _parse_sbox L (PyList l) = None)
    /\ (forall kb mode sks sdr,
          _parse_sbox L v = None ->
          (exists aes,
             AesPureEncoders.make_cipher kb (_parse_sbox L v) sks sdr = Ok aes
             /\ AesPure.sbox aes = AesPure.STANDARD_SBOX)
          /\ (exists sm4,
                SM4Encoders.make_cipher (_parse_sbox L v) kb mode sks sdr
                = Ok sm4
                /\ SM4.sbox sm4 = map PyInt SM4.STANDARD_SBOX))
    /\ (forall t tbl kb mode sks sdr,
          _parse_sbox L v = Some t -> table_ints t = Some tbl ->
          is_bytesb tbl = true ->
          (exists aes,
             AesPureEncoders.make_cipher kb (_parse_sbox L v) sks sdr = Ok aes
             /\ AesPure.sbox aes = tbl)
          /\ (exists sm4,
                SM4Encoders.make_cipher (_parse_sbox L v) kb mode sks sdr
                = Ok sm4
                /\ SM4.sbox sm4 = t))
    /\ (forall t kb sks sdr,
          _parse_sbox L v = Some t ->
          ((forall j, (j < 256)%nat -> index_entry t j = true) ->
           exists aes,
             AesPureEncoders.make_cipher kb (_parse_sbox L v) sks sdr = Ok aes
             /\ AesPure.sbox aes = AesPure.int_values t)
          /\ (forall i,
                (i < 256)%nat ->
                (forall j, (j < i)%nat -> index_entry t j = true) ->
                index_entry t i = false ->
                AesPureEncoders.make_cipher kb (_parse_sbox L v) sks sdr
                = Raise (entry_error t i)))
    /\ (forall t kb mode sks sdr,
          _parse_sbox L v = Some t ->
          (forall tbl,
             table_ints t = Some tbl ->
             exists sm4,
               SM4Encoders.make_cipher (_parse_sbox L v) kb mode sks sdr
               = Ok sm4
               /\ SM4.sbox sm4 = t)
          /\ (forall e,
                SM4Encoders.make_cipher (_parse_sbox L v) kb mode sks sdr
                = Raise e ->
                e = TypeError /\ table_ints t = None)).
Proof.
  intros L v. split; [|split; [|split; [|split; [|split]]]].
  - intros t. split; [apply parse_sbox_sound | apply parse_sbox_complete].
  - intros l Hl. rewrite parse_sbox_list.
    apply Nat.eqb_neq in Hl. now rewrite Hl.
  - intros kb mode sks sdr ->. split.
    + unfold AesPureEncoders.make_cipher. rewrite init_standard.
      eexists. split; [reflexivity|]. unfold AesPure.build.
      now destruct (AesPure.key_expansion _ sks kb).
    + unfold SM4Encoders.make_cipher.
      rewrite (sm4_init_built None kb mode sks sdr SM4.STANDARD_SBOX)
        by apply table_ints_map_int.
      eexists. split; reflexivity.
  - intros t tbl kb mode sks sdr Hp Ht Hb.
    pose proof (proj1 (parse_sbox_sound L v t Hp)) as Hlen.
    assert (Hsb : sbox_bytesb tbl = true).
    { unfold sbox_bytesb. rewrite Hb, (table_ints_length t tbl Ht), Hlen.
      reflexivity. }
    rewrite Hp. split.
    + unfold AesPureEncoders.make_cipher.
      rewrite (init_bytes kb t tbl sks sdr Ht Hsb).
      eexists. split; [reflexivity|]. unfold AesPure.build, select_sbox.
      replace (Nat.eqb (length tbl) 256) with true
        by (now rewrite (table_ints_length t tbl Ht), Hlen).
      now destruct (AesPure.key_expansion _ sks kb).
    + unfold SM4Encoders.make_cipher.
      rewrite (sm4_init_some t kb mode sks sdr Hlen).
      rewrite (set_key_ints t tbl Ht Hlen).
      eexists. split; reflexivity.
  - intros t kb sks sdr Hp.
    pose proof (proj1 (parse_sbox_sound L v t Hp)) as Hlen.
    rewrite Hp. unfold AesPureEncoders.make_cipher. split.
    + intros H. now apply aes_init_good.
    + intros i Hi Hgood Hbad. apply aes_init_raise; [exact Hlen|].
      now apply inverse_sbox_bad.
  - intros t kb mode sks sdr Hp.
    pose proof (proj1 (parse_sbox_sound L v t Hp)) as Hlen.
    rewrite Hp. unfold SM4Encoders.make_cipher.
    rewrite (sm4_init_some t kb mode sks sdr Hlen). split.
    + intros tbl Ht. rewrite (set_key_ints t tbl Ht Hlen).
      eexists. split; reflexivity.
    + intros e E. split; [now apply (sm4_set_key_raise t kb mode sks sdr)|].
      destruct (table_ints t) as [tbl|] eqn:Ht; [|reflexivity].
      rewrite (set_key_ints t tbl Ht Hlen) in E. discriminate.
Qed.

Lemma C8_witness :
  _parse_sbox RefLib.lib (PyList (repeat (PyInt 7) 10)) = None
  /\ (exists aes,
        AesPureEncoders.make_cipher (repeat 0 16)
          (_parse_sbox RefLib.lib (PyList (repeat (PyInt 7) 10))) false false
        = Ok aes
        /\ AesPure.sbox aes = AesPure.STANDARD_SBOX).
Proof.
  destruct (C8_sbox_resolution RefLib.lib (PyList (repeat (PyInt 7) 10)))
    as (_ & Hn & Hstd & _).
  assert (Hnone : _parse_sbox RefLib.lib (PyList (repeat (PyInt 7) 10)) = None)
    by (apply Hn; vm_compute; lia).
  split; [exact Hnone|].
  exact (proj1 (Hstd (repeat 0 16) 0 false false Hnone)).
Defined.

(** Counterexample to C8 as stated: a list of 256 strings is no integer
    table, yet [_parse_sbox] returns it instead of [None], and the cipher
    raises [TypeError] instead of falling back to the standard S-box; and
    a list of 256 times the integer 300 is returned as well, and AES
    raises [IndexError] on it. *)
Lemma C8_counterexample :
  _parse_sbox RefLib.lib (PyList (repeat (PyStr "a") 256))
  = Some (repeat (PyStr "a") 256)
  /\ AesPureEncoders.encrypt RefLib.lib "HELLO" "k" "ECB" "" "pkcs7"
       (PyList (repeat (PyStr "a") 256)) false false "utf-8" "utf-8" None
     = Raise TypeError
  /\ SM4Encoders.sm4_encrypt RefLib.lib "HELLO" "k" "ECB" "" "pkcs7"
       (PyList (repeat (PyStr "a") 256)) "utf-8" "utf-8" false false false
       None
     = Raise TypeError
  /\ AesPureEncoders.encrypt RefLib.lib "HELLO" "k" "ECB" "" "pkcs7"
       (PyList (repeat (PyInt 300) 256)) false false "utf-8" "utf-8" None
     = Raise IndexError.
Proof. vm_compute. repeat split; reflexivity. Qed.

(** * Ciphertext length in the stream modes *)

Lemma stream_modes_supported m :
  str_in m stream_modes = true -> supported_mode m = true.
Proof.
  intros H. apply str_in_cases in H. cbn in H.
  destruct H as [<- | [<- | [<- | []]]]; reflexivity.
Qed.

Lemma stream_modes_not_ecb m :
  str_in m stream_modes = true -> String.eqb m "ECB" = false.
Proof.
  intros H. apply str_in_cases in H. cbn in H.
  destruct H as [<- | [<- | [<- | []]]]; reflexivity.
Qed.

Lemma pad_len_byte n : is_byteb (Z.of_nat (16 - n mod 16)) = true.
Proof. apply is_byteb_iff. pose proof (pad_len_range n). lia. Qed.

Lemma is_bytesb_one x : is_byteb x = true -> is_bytesb [x] = true.
Proof. intros H. cbn [is_bytesb forallb]. now rewrite H. Qed.

Ltac pad_bytes HL :=
  repeat first
    [ assumption
    | apply is_bytesb_repeat; first [reflexivity | apply pad_len_byte]
    | apply (urandom_bytes _ HL)
    | apply is_bytesb_one, pad_len_byte
    | rewrite is_bytesb_app; apply andb_true_intro; split ].

Lemma aes_pad_bytes L data padding :
  lib_ok L -> is_bytesb data = true ->
  is_bytesb (AesPureEncoders._pad L data padding) = true.
Proof.
  intros HL Hd. unfold AesPureEncoders._pad.
  repeat match goal with
         | |- context [if ?c then _ else _] => destruct c
         end; pad_bytes HL.
Qed.

Lemma sm4_pad_bytes L data padding :
  lib_ok L -> is_bytesb data = true ->
  is_bytesb (SM4Encoders._pad_data L data padding) = true.
Proof.
  intros HL Hd. unfold SM4Encoders._pad_data.
  repeat match goal with
         | |- context [if ?c then _ else _] => destruct c
         end; pad_bytes HL.
Qed.


Section StreamLength.
Variable L : PyLib.
Hypothesis HL : lib_ok L.
Variables (P key mode iv padding : string) (sbox : pyval).
Variables (sks sdr swap_endian : bool) (key_type iv_type : string).
Variables (kbA kbS ivb : bytes).
Hypothesis HP : str_true P = true.
Hypothesis HkA : AesPureEncoders.key_bytes_of L key key_type = Ok kbA.
Hypothesis HkS : SM4Encoders.key_bytes_of L key key_type = Ok kbS.
Hypothesis Hsbox : sbox_arg_ok L sbox sbox_permb.
Hypothesis Hmode : str_in (upper mode) stream_modes = true.
Hypothesis Hiv : iv_of L iv iv_type = Ok ivb.

Lemma stream_iv_step :
  (if str_in (upper mode) iv_modes then
     if negb (str_true iv) then Ok (Some zeros16)
     else b <- AesPureEncoders.given_iv L iv iv_type ;; Ok (Some b)
   else Ok None) = Ok (Some ivb).
Proof.
  rewrite (stream_modes_iv _ Hmode), iv_step_eq, Hiv. reflexivity.
Qed.



End StreamLength.




(** * Keystream cancellation in OFB and CFB *)

Lemma blocks16_same_lengths a b :
  length a = length b -> same_lengths (blocks16 a) (blocks16 b).
Proof.
  revert b. pattern a. apply blocks16_ind; clear a.
  2: intros x a IH.
  all: intros b Hl.
  - destruct b; [constructor|discriminate].
  - destruct b as [|y b]; [discriminate|].
    rewrite !blocks16_cons. constructor.
    + rewrite !length_firstn. now rewrite Hl.
    + apply IH. rewrite !length_skipn. now rewrite Hl.
Qed.

Lemma blocks16_single d :
  (1 <= length d <= 16)%nat -> blocks16 d = [d].
Proof.
  intros H. destruct d as [|a d]; [cbn in H; lia|].
  rewrite blocks16_cons, firstn_all2, skipn_all2 by lia. reflexivity.
Qed.

Section Cancel.
Variable E : bytes -> result bytes.
Hypothesis E_total :
  forall B, is_blockb B = true -> exists C, E B = Ok C /\ is_blockb C = true.
Variables (ivb a b : bytes).
Hypothesis Hiv : is_blockb ivb = true.
Hypothesis Hlen : length a = length b.

Lemma ofb_cancel :
  exists ca cb,
    ofb_loop E (blocks16 a) ivb [] = Ok ca
    /\ ofb_loop E (blocks16 b) ivb [] = Ok cb
    /\ xor_bytes ca cb = xor_bytes a b.
Proof.
  destruct (ofb_cancellation E E_total (blocks16 a) (blocks16 b) ivb [] []
              Hiv (chunked_short _ (blocks16_chunked a))
              (blocks16_same_lengths a b Hlen))
    as (ca & cb & Ea & Eb & Hx).
  exists ca, cb. rewrite !concat_blocks16 in Hx. auto.
Qed.

Lemma cfb_cancel :
  (length a <= 16)%nat ->
  exists ca cb,
    cfb_encrypt E (blocks16 a) ivb [] = Ok ca
    /\ cfb_encrypt E (blocks16 b) ivb [] = Ok cb
    /\ xor_bytes ca cb = xor_bytes a b.
Proof.
  intros Hle. destruct a as [|x a'] eqn:Ea.
  - destruct b; [|discriminate]. exists [], []. auto.
  - rewrite <- Ea in *.
    assert (Ha : (1 <= length a <= 16)%nat) by (rewrite Ea in *; cbn in *; lia).
    rewrite (blocks16_single a Ha), (blocks16_single b) by lia.
    apply (cfb_cancellation_one_block E E_total); auto.
Qed.
End Cancel.

Lemma cancelling_stream mode data :
  cancelling mode data -> str_in mode stream_modes = true.
Proof. intros [-> | [-> _]]; reflexivity. Qed.

Lemma aes_modes_cancel aes mode ivb a b :
  aes_ok aes -> is_blockb ivb = true -> length a = length b ->
  cancelling mode a ->
  exists ca cb,
    AesPureEncoders.encrypt_modes aes mode ivb a = Ok ca
    /\ AesPureEncoders.encrypt_modes aes mode ivb b = Ok cb
    /\ xor_bytes ca cb = xor_bytes a b.
Proof.
  intros Haes Hiv Hlen Hc.
  pose proof (encrypt_block_ok aes Haes) as Et.
  unfold AesPureEncoders.encrypt_modes.
  destruct Hc as [-> | [-> Hle]]; eval_mode.
  - now apply ofb_cancel.
  - now apply cfb_cancel.
Qed.

Lemma sm4_modes_cancel c mode ivb a b :
  sm4_ok c -> is_blockb ivb = true -> length a = length b ->
  cancelling mode a ->
  exists ca cb,
    SM4Encoders.encrypt_modes c mode ivb a = Ok ca
    /\ SM4Encoders.encrypt_modes c mode ivb b = Ok cb
    /\ xor_bytes ca cb = xor_bytes a b.
Proof.
  intros Hok Hiv Hlen Hc.
  pose proof (one_round_ok c Hok) as Et.
  unfold SM4Encoders.encrypt_modes.
  destruct Hc as [-> | [-> Hle]]; eval_mode.
  - now apply ofb_cancel.
  - now apply cfb_cancel.
Qed.

Section StreamEntry.
Variable L : PyLib.
Hypothesis HL : lib_ok L.
Variables (P key mode iv padding : string) (sbox : pyval).
Variables (sks sdr swap_endian : bool) (key_type iv_type : string).
Variables (kbA kbS ivb : bytes).
Hypothesis HP : str_true P = true.
Hypothesis HkA : AesPureEncoders.key_bytes_of L key key_type = Ok kbA.
Hypothesis HkS : SM4Encoders.key_bytes_of L key key_type = Ok kbS.
Hypothesis Hmode : str_in (upper mode) stream_modes = true.
Hypothesis Hiv : iv_of L iv iv_type = Ok ivb.

Lemma stream_wire res :
  (if carries_iv iv (Some ivb) (upper mode) then ivb ++ res else res)
  = wire iv (upper mode) ivb res.
Proof. unfold wire. now rewrite (stream_modes_iv _ Hmode). Qed.

Lemma aes_stream_encrypt_eq aes :
  AesPureEncoders.make_cipher kbA (_parse_sbox L sbox) sks sdr = Ok aes ->
  AesPureEncoders.encrypt_bytes L P key mode iv padding sbox sks sdr
    key_type iv_type None
  = (res <- AesPureEncoders.encrypt_modes aes (upper mode) ivb
              (aes_stream_input L padding (utf8_encode L P)) ;;
     Ok (Some (wire iv (upper mode) ivb res))).
Proof.
  intros Eaes.
  unfold AesPureEncoders.encrypt_bytes. rewrite HP. cbn [negb].
  rewrite HkA. cbn [bind]. rewrite Eaes. cbn [bind opt_is].
  rewrite (stream_iv_step L mode iv iv_type ivb Hmode Hiv).
  cbn [bind iv_or_empty].
  rewrite Hmode. cbn [andb].
  fold (aes_stream_input L padding (utf8_encode L P)).
  destruct (AesPureEncoders.encrypt_modes aes (upper mode) ivb _) as [res|e];
    cbn [bind]; [|reflexivity].
  rewrite <- stream_wire.
  now destruct (carries_iv iv (Some ivb) (upper mode)).
Qed.

Lemma sm4_stream_encrypt_eq sm4 :
  SM4Encoders.make_cipher (_parse_sbox L sbox) kbS 0
    (if swap_endian then true else sks)
    (if swap_endian then true else sdr) = Ok sm4 ->
  SM4Encoders.sm4_encrypt_bytes L P key mode iv padding sbox key_type
    iv_type sks sdr swap_endian None
  = (res <- SM4Encoders.encrypt_modes sm4 (upper mode) ivb
              (sm4_stream_input L padding (utf8_encode L P)) ;;
     Ok (Some (wire iv (upper mode) ivb res))).
Proof.
  intros Emk.
  unfold SM4Encoders.sm4_encrypt_bytes. rewrite HP. cbn [negb].
  rewrite HkS. cbn [bind].
  rewrite sm4_given_iv_eq, (stream_iv_step L mode iv iv_type ivb Hmode Hiv).
  cbn [bind iv_or_empty]. rewrite Emk. cbn [bind opt_is].
  rewrite Hmode. fold (sm4_stream_input L padding (utf8_encode L P)).
  destruct (SM4Encoders.encrypt_modes sm4 (upper mode) ivb _) as [res|e];
    cbn [bind]; [|reflexivity].
  rewrite <- stream_wire.
  now destruct (carries_iv iv (Some ivb) (upper mode)).
Qed.
End StreamEntry.

Lemma stream_input_nopadding L padding data :
  lower padding = "nopadding"%string ->
  aes_stream_input L padding data = data
  /\ sm4_stream_input L padding data = data.
Proof.
  intros E. unfold aes_stream_input, sm4_stream_input. now rewrite E.
Qed.

(** C5 (as the code has it) - Keystream cancellation.  Two plaintexts of
    the same byte length, encrypted without padding under the same key, IV
    and S-box, give ciphertexts (behind the IV, when it is carried in
    front) whose XOR is the XOR of the plaintexts: in OFB for every
    length, in CFB for plaintexts of at most 16 bytes.  This holds for AES
    and for SM4. *)
Theorem C5_keystream_cancellation :
  forall (L : PyLib) (PA PB key mode iv padding : string) (sbox : pyval)
         (sks sdr swap_endian : bool) (key_type iv_type : string)
         (kbA kbS ivb : bytes),
    lib_ok L ->
    str_true PA = true -> str_true PB = true ->
    AesPureEncoders.key_bytes_of L key key_type = Ok kbA ->
    SM4Encoders.key_bytes_of L key key_type = Ok kbS ->
    sbox_arg_ok L sbox sbox_permb ->
    iv_of L iv iv_type = Ok ivb ->
    lower padding = "nopadding"%string ->
    length (utf8_encode L PA) = length (utf8_encode L PB) ->
    cancelling (upper mode) (utf8_encode L PA) ->
    (exists cA cB,
       AesPureEncoders.encrypt_bytes L PA key mode iv padding sbox sks sdr
         key_type iv_type None = Ok (Some (wire iv (upper mode) ivb cA))
       /\ AesPureEncoders.encrypt_bytes L PB key mode iv padding sbox sks sdr
            key_type iv_type None = Ok (Some (wire iv (upper mode) ivb cB))
       /\ xor_bytes cA cB
          = xor_bytes (utf8_encode L PA) (utf8_encode L PB))
    /\ (exists cA cB,
          SM4Encoders.sm4_encrypt_bytes L PA key mode iv padding sbox
            key_type iv_type sks sdr swap_endian None
          = Ok (Some (wire iv (upper mode) ivb cA))
          /\ SM4Encoders.sm4_encrypt_bytes L PB key mode iv padding sbox
               key_type iv_type sks sdr swap_endian None
             = Ok (Some (wire iv (upper mode) ivb cB))
          /\ xor_bytes cA cB
             = xor_bytes (utf8_encode L PA) (utf8_encode L PB)).
Proof.
  intros L PA PB key mode iv padding sbox sks sdr swap_endian key_type iv_type
         kbA kbS ivb HL HPA HPB HkA HkS Hsbox Hiv Hnp Hlen Hc.
  pose proof (cancelling_stream _ _ Hc) as Hmode.
  pose proof (iv_of_block L HL _ _ _ Hiv) as Hblk.
  split.
  - destruct (aes_make_cipher_ok L kbA sbox sks sdr
                (aes_key_bytes L HL _ _ _ HkA) Hsbox) as (aes & Eaes & Haes).
    destruct (aes_modes_cancel aes (upper mode) ivb _ _ Haes Hblk Hlen Hc)
      as (cA & cB & EA & EB & Hx).
    exists cA, cB.
    rewrite (aes_stream_encrypt_eq L PA key mode iv padding sbox sks sdr
               key_type iv_type kbA ivb HPA HkA Hmode Hiv aes Eaes).
    rewrite (aes_stream_encrypt_eq L PB key mode iv padding sbox sks sdr
               key_type iv_type kbA ivb HPB HkA Hmode Hiv aes Eaes).
    rewrite !(proj1 (stream_input_nopadding L padding _ Hnp)).
    rewrite EA, EB. auto.
  - destruct (sm4_make_cipher_ok L kbS sbox
                (if swap_endian then true else sks)
                (if swap_endian then true else sdr)
                (sbox_perm_bytes L sbox Hsbox)) as (l & tbl & Ht & Hsb & Emk).
    pose proof (sm4_built_ok l tbl kbS 0 (if swap_endian then true else sks)
                  (if swap_endian then true else sdr) Ht Hsb) as Hok.
    destruct (sm4_modes_cancel _ (upper mode) ivb _ _ Hok Hblk Hlen Hc)
      as (cA & cB & EA & EB & Hx).
    exists cA, cB.
    rewrite (sm4_stream_encrypt_eq L PA key mode iv padding sbox sks sdr
               swap_endian key_type iv_type kbS ivb HPA HkS Hmode Hiv _ (Emk 0)).
    rewrite (sm4_stream_encrypt_eq L PB key mode iv padding sbox sks sdr
               swap_endian key_type iv_type kbS ivb HPB HkS Hmode Hiv _ (Emk 0)).
    rewrite !(proj2 (stream_input_nopadding L padding _ Hnp)).
    rewrite EA, EB. auto.
Qed.

Lemma C5_witness :
  exists cA cB,
    AesPureEncoders.encrypt_bytes RefLib.lib "AAAAAAAAAAAAAAAAA" "test" "OFB"
      "00000000000000000000000000000000" "nopadding" PyNone false false
      "utf-8" "hex" None = Ok (Some cA)
    /\ AesPureEncoders.encrypt_bytes RefLib.lib "BAAAAAAAAAAAAAAAA" "test"
         "OFB" "00000000000000000000000000000000" "nopadding" PyNone false
         false "utf-8" "hex" None = Ok (Some cB)
    /\ xor_bytes cA cB = [3; 0; 0; 0; 0; 0; 0; 0; 0; 0; 0; 0; 0; 0; 0; 0; 0].
Proof.
  destruct (C5_keystream_cancellation RefLib.lib "AAAAAAAAAAAAAAAAA"
              "BAAAAAAAAAAAAAAAA" "test" "OFB"
              "00000000000000000000000000000000" "nopadding" PyNone
              false false false "utf-8" "hex"
              (RefLib.sha256 [116; 101; 115; 116])
              (RefLib.md5 [116; 101; 115; 116]) (repeat 0 16) ref_lib_ok)
    as ((cA & cB & EA & EB & Hx) & _).
  1-8: vm_compute; first [reflexivity | exact I].
  - left. vm_compute. reflexivity.
  - exists cA, cB. split; [exact EA|]. split; [exact EB|].
    rewrite Hx. vm_compute. reflexivity.
Defined.

(** Counterexample to C5 as stated: in CFB the keystream of the second
    block depends on the first ciphertext block.  Two plaintexts of 17
    bytes that differ in the first byte only, encrypted without padding
    under the same key and IV, give ciphertexts that differ in the last
    byte as well, with AES and with SM4. *)
Lemma C5_counterexample :
  xor_bytes (utf8_encode RefLib.lib "AAAAAAAAAAAAAAAAA")
            (utf8_encode RefLib.lib "BAAAAAAAAAAAAAAAA")
  = [3; 0; 0; 0; 0; 0; 0; 0; 0; 0; 0; 0; 0; 0; 0; 0; 0]
  /\ (exists cA cB,
        AesPureEncoders.encrypt_bytes RefLib.lib "AAAAAAAAAAAAAAAAA" "test"
          "CFB" "00000000000000000000000000000000" "nopadding" PyNone false
          false "utf-8" "hex" None = Ok (Some cA)
        /\ AesPureEncoders.encrypt_bytes RefLib.lib "BAAAAAAAAAAAAAAAA"
             "test" "CFB" "00000000000000000000000000000000" "nopadding"
             PyNone false false "utf-8" "hex" None = Ok (Some cB)
        /\ xor_bytes cA cB
           = [3; 0; 0; 0; 0; 0; 0; 0; 0; 0; 0; 0; 0; 0; 0; 0; 51])
  /\ (exists cA cB,
        SM4Encoders.sm4_encrypt_bytes RefLib.lib "AAAAAAAAAAAAAAAAA" "test"
          "CFB" "00000000000000000000000000000000" "nopadding" PyNone
          "utf-8" "hex" false false false None = Ok (Some cA)
        /\ SM4Encoders.sm4_encrypt_bytes RefLib.lib "BAAAAAAAAAAAAAAAA"
             "test" "CFB" "00000000000000000000000000000000" "nopadding"
             PyNone "utf-8" "hex" false false false None = Ok (Some cB)
        /\ xor_bytes cA cB
           = [3; 0; 0; 0; 0; 0; 0; 0; 0; 0; 0; 0; 0; 0; 0; 0; 72]).
Proof.
  split; [vm_compute; reflexivity|]. split.
  - exists [42; 67; 163; 0; 198; 205; 130; 250; 156; 225; 182; 88; 142; 52;
            85; 173; 171],
           [41; 67; 163; 0; 198; 205; 130; 250; 156; 225; 182; 88; 142; 52;
            85; 173; 152].
    vm_compute. repeat split; reflexivity.
  - eexists. eexists. vm_compute. repeat split; reflexivity.
Qed.

(** X24 - Round trip.  For AES and for SM4, a plaintext of printable
    characters comes back from [decrypt] of [encrypt] under the same key,
    mode, IV, padding and S-box: in ECB and CBC with pkcs7, ansix923, or
    nopadding on block-aligned data; in CFB, OFB and CTR with nopadding, of
    any length, in CTR as long as the counter stays below 2^128.  The key is any accepted key, the custom S-box, if any, a
    permutation of the bytes, and an empty [iv] makes the encryptor put
    sixteen zero bytes in front for the decryptor to take back. *)
Theorem X24_encrypt_decrypt_roundtrip :
  forall (L : PyLib) (P key mode iv padding : string) (sbox : pyval)
         (sks sdr swap_endian : bool) (key_type iv_type : string)
         (kbA kbS ivb : bytes),
    lib_ok L ->
    all_chars in_printable P = true ->
    AesPureEncoders.key_bytes_of L key key_type = Ok kbA ->
    SM4Encoders.key_bytes_of L key key_type = Ok kbS ->
    sbox_arg_ok L sbox sbox_permb ->
    supported_mode (upper mode) = true ->
    (str_in (upper mode) iv_modes = true -> iv_of L iv iv_type = Ok ivb) ->
    roundtrip_padding mode padding (utf8_encode L P) ->
    ctr_in_range (upper mode) ivb (utf8_encode L P) ->
    (exists c,
       AesPureEncoders.encrypt L P key mode iv padding sbox sks sdr key_type
         iv_type None = Ok c
       /\ AesPureEncoders.decrypt L c key mode iv padding sbox sks sdr
            key_type iv_type None = Ok P)
    /\ (exists c,
          SM4Encoders.sm4_encrypt L P key mode iv padding sbox key_type
            iv_type sks sdr swap_endian None = Ok c
          /\ SM4Encoders.sm4_decrypt L c key mode iv padding sbox key_type
               iv_type sks sdr swap_endian None = Ok P).
Proof.
  intros L P key mode iv padding sbox sks sdr swap_endian key_type iv_type
         kbA kbS ivb HL HP HkA HkS Hsbox Hmode Hiv Hpad Hctr.
  split.
  - exact (aes_roundtrip_string L HL P key mode iv padding sbox sks sdr
             key_type iv_type kbA ivb HP HkA Hsbox Hmode Hiv Hpad Hctr).
  - exact (sm4_roundtrip_string L HL P key mode iv padding sbox sks sdr
             swap_endian key_type iv_type kbS ivb HP HkS
             (sbox_perm_bytes L sbox Hsbox) Hmode Hiv Hpad Hctr).
Qed.

Lemma X24_witness :
  (exists c,
     AesPureEncoders.encrypt RefLib.lib "HELLO" "test" "CBC" "" "pkcs7"
       PyNone false false "utf-8" "utf-8" None = Ok c
     /\ AesPureEncoders.decrypt RefLib.lib c "test" "CBC" "" "pkcs7" PyNone
          false false "utf-8" "utf-8" None = Ok "HELLO"%string)
  /\ (exists c,
        SM4Encoders.sm4_encrypt RefLib.lib "HELLO" "test" "CBC" "" "pkcs7"
          PyNone "utf-8" "utf-8" false false false None = Ok c
        /\ SM4Encoders.sm4_decrypt RefLib.lib c "test" "CBC" "" "pkcs7"
             PyNone "utf-8" "utf-8" false false false None
           = Ok "HELLO"%string).
Proof.
  apply (X24_encrypt_decrypt_roundtrip RefLib.lib "HELLO" "test" "CBC" ""
           "pkcs7" PyNone false false false "utf-8" "utf-8"
           (RefLib.sha256 [116; 101; 115; 116])
           (RefLib.md5 [116; 101; 115; 116]) (repeat 0 16) ref_lib_ok).
  1-5: vm_compute; first [reflexivity | exact I].
  - intros _. vm_compute. reflexivity.
  - left. vm_compute. reflexivity.
  - intros E. vm_compute in E. discriminate E.
Defined.

(** * Padding in the stream modes *)

Lemma aes_stream_input_bytes L padding data :
  lib_ok L -> is_bytesb data = true ->
  is_bytesb (aes_stream_input L padding data) = true
  /\ (length data <= length (aes_stream_input L padding data))%nat.
Proof.
  intros HL Hd. unfold aes_stream_input. destruct (String.eqb _ _).
  - split; [exact Hd | lia].
  - split; [now apply aes_pad_bytes | apply aes_pad_extends].
Qed.

Lemma sm4_stream_input_bytes L padding data :
  lib_ok L -> is_bytesb data = true ->
  is_bytesb (sm4_stream_input L padding data) = true
  /\ (length data <= length (sm4_stream_input L padding data))%nat.
Proof.
  intros HL Hd. unfold sm4_stream_input. destruct (String.eqb _ _).
  - split; [exact Hd | lia].
  - split; [now apply sm4_pad_bytes | apply sm4_pad_extends].
Qed.

Section StreamPadded.
Variable L : PyLib.
Hypothesis HL : lib_ok L.
Variables (P key mode iv padding : string) (sbox : pyval).
Variables (sks sdr swap_endian : bool) (key_type iv_type : string).
Variables (kbA kbS ivb : bytes).
Hypothesis HP : str_true P = true.
Hypothesis HkA : AesPureEncoders.key_bytes_of L key key_type = Ok kbA.
Hypothesis HkS : SM4Encoders.key_bytes_of L key key_type = Ok kbS.
Hypothesis Hsbox : sbox_arg_ok L sbox sbox_permb.
Hypothesis Hmode : str_in (upper mode) stream_modes = true.
Hypothesis Hiv : iv_of L iv iv_type = Ok ivb.

Let data := utf8_encode L P.

Lemma data_not_empty : data <> [].
Proof.
  intros E. apply (utf8_nonempty L HL) in E. rewrite E in HP. discriminate.
Qed.

(** What the decryptor finds in front of the bytes of the mode loop. *)
Lemma stream_wire_facts res :
  is_bytesb res = true -> res <> [] ->
  is_bytesb (wire iv (upper mode) ivb res) = true
  /\ wire iv (upper mode) ivb res <> []
  /\ negb (str_true iv) && Nat.ltb (length (wire iv (upper mode) ivb res)) 16
     = false
  /\ (if str_true iv then
        b <- AesPureEncoders.given_iv L iv iv_type ;;
        Ok (b, wire iv (upper mode) ivb res)
      else Ok (firstn 16 (wire iv (upper mode) ivb res),
               skipn 16 (wire iv (upper mode) ivb res)))
     = Ok (ivb, res).
Proof.
  intros Hb Hne.
  pose proof (iv_of_block L HL _ _ _ Hiv) as Hblk.
  pose proof Hiv as Ei. unfold iv_of in Ei.
  unfold wire, carries_iv.
  rewrite (stream_modes_iv _ Hmode), (stream_modes_not_ecb _ Hmode).
  destruct (str_true iv) eqn:Es; cbn [negb andb].
  - rewrite Ei. cbn [bind]. repeat split; auto.
  - injection Ei as <-. cbn [zeros16 repeat app andb negb].
    split; [exact Hb|]. split; [discriminate|].
    cbn [length Nat.ltb Nat.leb firstn skipn]. split; reflexivity.
Qed.

Lemma aes_stream_returns_input :
  ctr_in_range (upper mode) ivb (aes_stream_input L padding data) ->
  exists c,
    AesPureEncoders.encrypt L P key mode iv padding sbox sks sdr key_type
      iv_type None = Ok c
    /\ AesPureEncoders.decrypt L c key mode iv padding sbox sks sdr
         key_type iv_type None
       = Ok (render L (aes_stream_input L padding data)).
Proof.
  intros Hctr.
  destruct (aes_make_cipher_ok L kbA sbox sks sdr
              (aes_key_bytes L HL _ _ _ HkA) Hsbox) as (aes & Eaes & Haes).
  destruct (aes_stream_input_bytes L padding data HL (utf8_bytes L HL P))
    as (Hb & Hle).
  destruct (aes_modes_roundtrip aes (upper mode) ivb _ Haes
              (stream_modes_supported _ Hmode) Hb
              (fun _ => iv_of_block L HL _ _ _ Hiv)
              (fun H => False_ind _ (eq_true_false_abs _ Hmode H))
              Hctr) as (res & Eres & Hrb & Hl & Hdec).
  assert (Hne : res <> []).
  { intros ->. cbn [length] in Hl. apply data_not_empty.
    apply length_zero_iff_nil. lia. }
  destruct (stream_wire_facts res Hrb Hne) as (Hwb & Hwne & Hshort & Hivd).
  exists (b64encode L (wire iv (upper mode) ivb res)).
  unfold AesPureEncoders.encrypt.
  rewrite (aes_stream_encrypt_eq L P key mode iv padding sbox sks sdr
             key_type iv_type kbA ivb HP HkA Hmode Hiv aes Eaes).
  fold data. rewrite Eres. cbn [bind]. split; [reflexivity|].
  unfold AesPureEncoders.decrypt, AesPureEncoders.decrypt_bytes.
  assert (Hc : str_true (b64encode L (wire iv (upper mode) ivb res)) = true).
  { unfold str_true. apply negb_true_iff, String.eqb_neq. intros E.
    now apply (b64_nonempty L HL) in E. }
  rewrite Hc. cbn [negb]. rewrite HkA. cbn [bind]. rewrite Eaes.
  cbn [bind]. unfold AesPureEncoders.decode_input. cbn [opt_is].
  rewrite (b64_roundtrip L HL _ Hwb), (stream_modes_iv _ Hmode).
  destruct (str_true iv) eqn:Es.
  - rewrite Hivd. cbn [bind fst snd]. rewrite Hdec. cbn [bind].
    now rewrite Hmode.
  - cbn [negb andb] in Hshort. rewrite Hshort, Hivd. cbn [bind fst snd].
    rewrite Hdec. cbn [bind]. now rewrite Hmode.
Qed.

Lemma sm4_stream_returns_input :
  ctr_in_range (upper mode) ivb (sm4_stream_input L padding data) ->
  exists c,
    SM4Encoders.sm4_encrypt L P key mode iv padding sbox key_type iv_type
      sks sdr swap_endian None = Ok c
    /\ SM4Encoders.sm4_decrypt L c key mode iv padding sbox key_type
         iv_type sks sdr swap_endian None
       = Ok (render L (sm4_stream_input L padding data)).
Proof.
  intros Hctr.
  set (ks := if swap_endian then true else sks).
  set (dr := if swap_endian then true else sdr).
  destruct (sm4_make_cipher_ok L kbS sbox ks dr
              (sbox_perm_bytes L sbox Hsbox)) as (l & tbl & Ht & Hsb & Emk).
  destruct (sm4_stream_input_bytes L padding data HL (utf8_bytes L HL P))
    as (Hb & Hle).
  destruct (sm4_modes_roundtrip l tbl kbS ks dr (upper mode) ivb _ Ht Hsb
              (stream_modes_supported _ Hmode) Hb
              (fun _ => iv_of_block L HL _ _ _ Hiv)
              (fun H => False_ind _ (eq_true_false_abs _ Hmode H))
              Hctr) as (res & Eres & Hrb & Hl & Hdec).
  assert (Hne : res <> []).
  { intros ->. cbn [length] in Hl. apply data_not_empty.
    apply length_zero_iff_nil. lia. }
  destruct (stream_wire_facts res Hrb Hne) as (Hwb & Hwne & Hshort & Hivd).
  assert (Hbc : str_in (upper mode) ["ECB"; "CBC"]%string = false).
  { destruct (str_in (upper mode) ["ECB"; "CBC"]%string) eqn:E;
      [|reflexivity].
    rewrite (block_modes_not_stream _ E) in Hmode. discriminate. }
  rewrite Hbc in Hdec.
  exists (b64encode L (wire iv (upper mode) ivb res)).
  unfold SM4Encoders.sm4_encrypt.
  rewrite (sm4_stream_encrypt_eq L P key mode iv padding sbox sks sdr
             swap_endian key_type iv_type kbS ivb HP HkS Hmode Hiv _
             (Emk 0)).
  fold data. fold ks dr. rewrite Eres. cbn [bind]. split; [reflexivity|].
  unfold SM4Encoders.sm4_decrypt, SM4Encoders.sm4_decrypt_bytes.
  assert (Hc : str_true (b64encode L (wire iv (upper mode) ivb res)) = true).
  { unfold str_true. apply negb_true_iff, String.eqb_neq. intros E.
    now apply (b64_nonempty L HL) in E. }
  rewrite Hc. cbn [negb]. fold ks dr. rewrite HkS. cbn [bind].
  unfold SM4Encoders.decode_input. cbn [opt_is].
  rewrite (b64_roundtrip L HL _ Hwb), (stream_modes_iv _ Hmode), Hbc.
  cbn [andb]. rewrite Hshort, sm4_given_iv_eq, Hivd. cbn [bind fst snd].
  rewrite Emk. cbn [bind]. rewrite Hdec. cbn [bind].
  now rewrite Hmode.
Qed.
End StreamPadded.

(** * Further properties of the cipher code *)

(** ** The AES round steps *)

Lemma shift_inv_shift s :
  state_okb s = true ->
  AesPure._shift_rows (AesPure._inv_shift_rows s) = s.
Proof.
  intros H. destruct (state_ok_inv s H) as (r0 & r1 & r2 & r3 & -> & H0 & H1 & H2 & H3).
  apply andb_true_iff in H0 as [H0 _], H1 as [H1 _], H2 as [H2 _], H3 as [H3 _].
  apply Nat.eqb_eq in H0, H1, H2, H3.
  destruct r0 as [|? [|? [|? [|? [|]]]]]; try discriminate.
  destruct r1 as [|? [|? [|? [|? [|]]]]]; try discriminate.
  destruct r2 as [|? [|? [|? [|? [|]]]]]; try discriminate.
  destruct r3 as [|? [|? [|? [|? [|]]]]]; try discriminate.
  reflexivity.
Qed.

(** X1 - MixColumns and its inverse.  On a 4x4 state of bytes
    [_mix_columns] gives a 4x4 state of bytes, and [_inv_mix_columns]
    (which ends by calling [_mix_columns] itself) takes it back to the
    state it came from. *)
Theorem X1_inv_mix_columns_undoes_mix_columns :
  forall s : AesPure.state,
    state_okb s = true ->
    state_okb (AesPure._mix_columns s) = true
    /\ AesPure._inv_mix_columns (AesPure._mix_columns s) = s.
Proof.
  intros s H. split; [now apply mix_columns_ok | now apply inv_mix_mix].
Qed.

Lemma X1_witness :
  AesPure._inv_mix_columns
    (AesPure._mix_columns
       [[219; 242; 1; 198]; [19; 10; 1; 198]; [83; 34; 1; 198];
        [69; 92; 1; 198]])
  = [[219; 242; 1; 198]; [19; 10; 1; 198]; [83; 34; 1; 198];
     [69; 92; 1; 198]].
Proof.
  apply (X1_inv_mix_columns_undoes_mix_columns
           [[219; 242; 1; 198]; [19; 10; 1; 198]; [83; 34; 1; 198];
            [69; 92; 1; 198]]).
  vm_compute. reflexivity.
Defined.

(** X2 - ShiftRows and AddRoundKey.  On a 4x4 state of bytes
    [_inv_shift_rows] and [_shift_rows] undo each other in both orders,
    and adding the same round key twice gives the state back, whatever the
    round key holds. *)
Theorem X2_shift_rows_and_round_key_inverses :
  forall s k : AesPure.state,
    state_okb s = true ->
    AesPure._inv_shift_rows (AesPure._shift_rows s) = s
    /\ AesPure._shift_rows (AesPure._inv_shift_rows s) = s
    /\ AesPure._add_round_key (AesPure._add_round_key s k) k = s.
Proof.
  intros s k H. split; [now apply inv_shift_shift|].
  split; [now apply shift_inv_shift | now apply add_round_key_involutive].
Qed.

Lemma X2_witness :
  AesPure._shift_rows
    [[0; 1; 2; 3]; [4; 5; 6; 7]; [8; 9; 10; 11]; [12; 13; 14; 15]]
  = [[0; 1; 2; 3]; [5; 6; 7; 4]; [10; 11; 8; 9]; [15; 12; 13; 14]]
  /\ AesPure._inv_shift_rows
       (AesPure._shift_rows
          [[0; 1; 2; 3]; [4; 5; 6; 7]; [8; 9; 10; 11]; [12; 13; 14; 15]])
     = [[0; 1; 2; 3]; [4; 5; 6; 7]; [8; 9; 10; 11]; [12; 13; 14; 15]].
Proof.
  split; [vm_compute; reflexivity|].
  apply (X2_shift_rows_and_round_key_inverses
           [[0; 1; 2; 3]; [4; 5; 6; 7]; [8; 9; 10; 11]; [12; 13; 14; 15]]
           []).
  vm_compute. reflexivity.
Defined.

(** ** The inverse S-box of [__init__] *)

Lemma all_bytes_list x :
  is_byteb x = true -> In x (map Z.of_nat (seq 0 256)).
Proof.
  intros H. apply is_byteb_iff in H. apply in_map_iff.
  exists (Z.to_nat x). split; [lia|]. apply in_seq. lia.
Qed.

Lemma perm_onto sb x :
  sbox_permb sb = true -> is_byteb x = true ->
  exists y, is_byteb y = true /\ lookup sb y = x.
Proof.
  intros Hp Hx. destruct (sbox_permb_inv sb Hp) as (Hlen & Hb & Hnd).
  assert (Hin : In x sb).
  { apply (NoDup_length_incl Hnd (l' := map Z.of_nat (seq 0 256))).
    - now rewrite length_map, length_seq, Hlen.
    - intros z Hz. apply all_bytes_list.
      unfold is_bytesb in Hb. rewrite forallb_forall in Hb. auto.
    - now apply all_bytes_list. }
  destruct (In_nth sb x 0 Hin) as (i & Hi & E).
  exists (Z.of_nat i). split.
  - apply is_byteb_iff. lia.
  - rewrite lookup_nonneg by lia. now rewrite Nat2Z.id.
Qed.

(** X3 - The inverse table.  When the S-box in use (the custom table, or
    the standard one) is a permutation of the bytes, [__init__] succeeds
    and the table [rsbox] that it fills by [rsbox[sbox[i]] = i] is the
    inverse of the S-box on both sides. *)
Theorem X3_rsbox_inverts_sbox :
  forall (key : bytes) (custom : option (list pyval)) (tbl : list Z)
         (sks sdr : bool) (x : Z),
    table_ints (table_of AesPure.STANDARD_SBOX custom) = Some tbl ->
    sbox_permb tbl = true ->
    is_byteb x = true ->
    exists aes,
      AesPure.init key custom sks sdr = Ok aes
      /\ lookup (AesPure.rsbox aes) (lookup (AesPure.sbox aes) x) = x
      /\ lookup (AesPure.sbox aes) (lookup (AesPure.rsbox aes) x) = x.
Proof.
  intros key custom tbl sks sdr x Ht Hp Hx.
  assert (Hb : sbox_bytesb tbl = true)
    by (unfold sbox_permb in Hp; now apply andb_true_iff in Hp).
  exists (AesPure.build key (Some tbl) sks sdr).
  split; [now apply init_table|].
  assert (Es : AesPure.sbox (AesPure.build key (Some tbl) sks sdr) = tbl).
  { unfold AesPure.build. rewrite select_sbox_some
      by (now apply sbox_permb_inv in Hp).
    now destruct (AesPure.key_expansion _ sks key). }
  assert (Er : AesPure.rsbox (AesPure.build key (Some tbl) sks sdr)
               = AesPure.inverse_table tbl).
  { unfold AesPure.build. rewrite select_sbox_some
      by (now apply sbox_permb_inv in Hp).
    now destruct (AesPure.key_expansion _ sks key). }
  rewrite Es, Er. split.
  - now apply inverse_table_spec.
  - destruct (perm_onto _ x Hp Hx) as (y & Hy & <-).
    now rewrite inverse_table_spec.
Qed.

Lemma X3_witness :
  exists aes,
    AesPure.init (repeat 0 16) None false false = Ok aes
    /\ lookup (AesPure.rsbox aes) (lookup (AesPure.sbox aes) 83) = 83
    /\ lookup (AesPure.sbox aes) (lookup (AesPure.rsbox aes) 83) = 83.
Proof.
  apply (X3_rsbox_inverts_sbox (repeat 0 16) None AesPure.STANDARD_SBOX
           false false 83);
    vm_compute; reflexivity.
Defined.

(** ** One SM4 block *)

Lemma rev_involutive_keys (e d : SM4.t) :
  SM4.sk d = rev (SM4.sk e) -> SM4.sk e = rev (SM4.sk d).
Proof. intros ->. now rewrite rev_involutive. Qed.

(** X5 - SM4 block round trip.  For every key, both swap flags and every
    S-box that is a table of 256 bytes (a permutation or not: SM4 is a
    Feistel network), the instances for mode 0 and mode 1 are built, and
    [one_round] with the key schedule of mode 1 undoes [one_round] with
    the key schedule of mode 0 on a 16-byte block, and the other way
    round. *)
Theorem X5_sm4_block_roundtrip :
  forall (custom : option (list pyval)) (tbl : list Z) (key : bytes)
         (sks sdr : bool) (B : bytes),
    table_ints (table_of SM4.STANDARD_SBOX custom) = Some tbl ->
    is_bytesb tbl = true ->
    is_blockb B = true ->
    exists e d,
      SM4.init custom key 0 sks sdr = Ok e
      /\ SM4.init custom key 1 sks sdr = Ok d
      /\ (exists C,
            SM4.one_round e B = Ok C /\ is_blockb C = true
            /\ SM4.one_round d C = Ok B)
      /\ (exists P,
            SM4.one_round d B = Ok P /\ is_blockb P = true
            /\ SM4.one_round e P = Ok B).
Proof.
  intros custom tbl key sks sdr B Ht Hb HB.
  assert (Hsb : sbox_bytesb tbl = true).
  { unfold sbox_bytesb.
    rewrite Hb, (table_ints_length _ _ Ht),
      (table_of_length SM4.STANDARD_SBOX custom eq_refl). reflexivity. }
  set (l := table_of SM4.STANDARD_SBOX custom) in *.
  exists (sm4_built l tbl key 0 sks sdr), (sm4_built l tbl key 1 sks sdr).
  split; [now apply sm4_init_built|]. split; [now apply sm4_init_built|].
  pose proof (sm4_built_ok l tbl key 0 sks sdr Ht Hsb) as He.
  pose proof (sm4_built_ok l tbl key 1 sks sdr Ht Hsb) as Hd.
  destruct (sm4_built_keys l tbl key sks sdr) as (K1 & K2 & K3).
  split.
  - destruct (one_round_ok _ He B HB) as (C & EC & HC).
    exists C. split; [exact EC|]. split; [exact HC|].
    exact (one_round_inverse _ _ He K1 K2 K3 B C HB EC).
  - destruct (one_round_ok _ Hd B HB) as (P & EP & HP).
    exists P. split; [exact EP|]. split; [exact HP|].
    apply (one_round_inverse _ _ Hd (eq_sym K1) (eq_sym K2)
             (rev_involutive_keys _ _ K3) B P HB EP).
Qed.

Lemma X5_witness :
  exists e d,
    SM4.init (Some (repeat (PyInt 7) 256)) (repeat 1 16) 0 true false = Ok e
    /\ SM4.init (Some (repeat (PyInt 7) 256)) (repeat 1 16) 1 true false
       = Ok d
    /\ (exists C,
          SM4.one_round e (map Z.of_nat (seq 0 16)) = Ok C
          /\ is_blockb C = true
          /\ SM4.one_round d C = Ok (map Z.of_nat (seq 0 16)))
    /\ (exists P,
          SM4.one_round d (map Z.of_nat (seq 0 16)) = Ok P
          /\ is_blockb P = true
          /\ SM4.one_round e P = Ok (map Z.of_nat (seq 0 16))).
Proof.
  apply (X5_sm4_block_roundtrip (Some (repeat (PyInt 7) 256)) (repeat 7 256)
           (repeat 1 16) true false (map Z.of_nat (seq 0 16)));
    vm_compute; reflexivity.
Defined.

(** ** The padding schemes *)

Lemma lstrip0_zeros n x : lstrip0 (repeat 0 n ++ x) = lstrip0 x.
Proof. induction n as [|n IH]; [reflexivity|]. cbn. exact IH. Qed.

Lemma rstrip0_zeros d n : rstrip0 (d ++ repeat 0 n) = rstrip0 d.
Proof.
  unfold rstrip0. rewrite rev_app_distr, rev_repeat.
  now rewrite lstrip0_zeros.
Qed.

Lemma lstrip0_length x : (length (lstrip0 x) <= length x)%nat.
Proof.
  induction x as [|a x IH]; [reflexivity|]. cbn.
  destruct (a =? 0); cbn; lia.
Qed.

Lemma lstrip0_fixed x : lstrip0 x = x <-> hd_error x <> Some 0.
Proof.
  destruct x as [|a x]; cbn; [split; [discriminate|reflexivity]|].
  destruct (Z.eqb_spec a 0) as [->|Hne].
  - split; [|intros H; now destruct H].
    intros E. pose proof (lstrip0_length x) as Hl.
    rewrite E in Hl. cbn in Hl. lia.
  - split; [intros _ [= E]; contradiction | reflexivity].
Qed.

Lemma last_byte_rev d : last_byte d = hd_error (rev d).
Proof.
  induction d as [|a d IH] using rev_ind; [reflexivity|].
  now rewrite last_byte_app_one, rev_app_distr.
Qed.

Lemma rstrip0_fixed d : rstrip0 d = d <-> last_byte d <> Some 0.
Proof.
  rewrite last_byte_rev, <- lstrip0_fixed. unfold rstrip0. split.
  - intros E. rewrite <- E at 2. now rewrite rev_involutive.
  - intros E. now rewrite E, rev_involutive.
Qed.

Section PaddingSchemes.
Variable L : PyLib.
Hypothesis HL : lib_ok L.
Variables (data : bytes) (padding : string).

Let n := (16 - length data mod 16)%nat.

Lemma n_range : (1 <= n <= 16)%nat.
Proof. apply pad_len_range. Qed.

Lemma aes_pad_tail :
  lower padding <> "nopadding"%string ->
  exists tail,
    AesPureEncoders._pad L data padding = data ++ tail /\ length tail = n.
Proof.
  intros Hn. apply String.eqb_neq in Hn. pose proof n_range as Hr.
  unfold AesPureEncoders._pad. rewrite Hn. fold n.
  repeat match goal with
         | |- context [if ?c then _ else _] => destruct c
         end; eexists; (split; [reflexivity|]);
    rewrite ?length_app, ?repeat_length,
      ?(proj1 (urandom_bytes L HL _)); cbn [length]; lia.
Qed.

Lemma sm4_pad_tail :
  lower padding <> "nopadding"%string ->
  lower padding <> "zeropadding"%string ->
  exists tail,
    SM4Encoders._pad_data L data padding = data ++ tail /\ length tail = n.
Proof.
  intros Hn Hz. apply String.eqb_neq in Hn, Hz. pose proof n_range as Hr.
  unfold SM4Encoders._pad_data. rewrite Hn, Hz. fold n.
  repeat match goal with
         | |- context [if ?c then _ else _] => destruct c
         end; eexists; (split; [reflexivity|]);
    rewrite ?length_app, ?repeat_length,
      ?(proj1 (urandom_bytes L HL _)); cbn [length]; lia.
Qed.

Lemma sm4_pad_zero :
  lower padding = "zeropadding"%string ->
  SM4Encoders._pad_data L data padding
  = if Nat.eqb (length data mod 16) 0 then data
    else data ++ repeat 0 n.
Proof.
  intros Hz. pose proof n_range as Hr.
  unfold SM4Encoders._pad_data. rewrite Hz. fold n.
  cbn [String.eqb Ascii.eqb Bool.eqb].
  pose proof (Nat.mod_upper_bound (length data) 16 ltac:(lia)) as Hm.
  destruct (Nat.eqb_spec n 16) as [E|E];
    destruct (Nat.eqb_spec (length data mod 16) 0) as [E0|E0];
    try reflexivity; subst n; lia.
Qed.

Lemma iso_pad_last :
  last_byte (data ++ urandom L (n - 1) ++ [Z.of_nat n]) = Some (Z.of_nat n).
Proof. now rewrite app_assoc, last_byte_app_one. Qed.

Lemma checked_range : (16 <? Z.of_nat n) || (Z.of_nat n <? 1) = false.
Proof.
  pose proof n_range. apply orb_false_iff.
  split; apply Z.ltb_ge; lia.
Qed.

Lemma iso_unpad :
  lower padding = "iso10126"%string ->
  AesPureEncoders._unpad (AesPureEncoders._pad L data padding) padding
  = Ok data
  /\ SM4Encoders._unpad_data (SM4Encoders._pad_data L data padding) padding
     = Ok data.
Proof.
  intros E. pose proof n_range as Hr.
  assert (Hl : Z.of_nat n
               = Z.of_nat (length (urandom L (n - 1) ++ [Z.of_nat n]))).
  { rewrite length_app, (proj1 (urandom_bytes L HL _)). cbn [length]. lia. }
  assert (Hl1 : (1 <= length (urandom L (n - 1) ++ [Z.of_nat n]))%nat).
  { rewrite length_app. cbn [length]. lia. }
  unfold AesPureEncoders._unpad, AesPureEncoders._pad,
    SM4Encoders._unpad_data, SM4Encoders._pad_data.
  rewrite E. cbn [String.eqb Ascii.eqb Bool.eqb str_in existsb orb].
  fold n. rewrite iso_pad_last. cbn [of_option bind].
  rewrite checked_range.
  now rewrite (cut_tail_app_eq data _ _ Hl Hl1).
Qed.
End PaddingSchemes.

(** X6 - Padding fills the last block.  Under every padding name but
    nopadding, [_pad] of AES appends 1 to 16 bytes and [_pad_data] of SM4
    appends at most 16, so that the length becomes a multiple of 16; SM4
    appends nothing only for zeropadding on block-aligned data.  Under
    nopadding both return the data as they are. *)
Theorem X6_padding_fills_blocks :
  forall (L : PyLib) (data : bytes) (padding : string),
    lib_ok L ->
    (lower padding <> "nopadding"%string ->
     (exists tail,
        AesPureEncoders._pad L data padding = data ++ tail
        /\ (1 <= length tail <= 16)%nat
        /\ (length (data ++ tail) mod 16 = 0)%nat)
     /\ (exists tail,
           SM4Encoders._pad_data L data padding = data ++ tail
           /\ (length tail <= 16)%nat
           /\ (length (data ++ tail) mod 16 = 0)%nat
           /\ (tail = [] <->
               lower padding = "zeropadding"%string
               /\ (length data mod 16 = 0)%nat)))
    /\ (lower padding = "nopadding"%string ->
        AesPureEncoders._pad L data padding = data
        /\ SM4Encoders._pad_data L data padding = data).
Proof.
  intros L data padding HL.
  pose proof (pad_len_range (length data)) as Hr.
  pose proof (padded_length_aligned (length data)) as Hal.
  split.
  - intros Hn. split.
    + destruct (aes_pad_tail L HL data padding Hn) as (tail & E & Hl).
      exists tail. rewrite length_app, Hl. auto.
    + destruct (string_dec (lower padding) "zeropadding") as [Ez|Ez].
      * rewrite (sm4_pad_zero L data padding Ez).
        destruct (Nat.eqb_spec (length data mod 16) 0) as [E0|E0].
        -- exists []. rewrite app_nil_r. cbn [length].
           split; [reflexivity|]. split; [lia|]. split; [exact E0|].
           split; auto.
        -- exists (repeat 0 (16 - length data mod 16)).
           rewrite length_app, repeat_length.
           split; [reflexivity|]. split; [lia|]. split; [exact Hal|].
           split; [|intros [_ H]; contradiction].
           intros E. apply (f_equal (@length Z)) in E.
           rewrite repeat_length in E. cbn [length] in E. lia.
      * destruct (sm4_pad_tail L HL data padding Hn Ez) as (tail & E & Hl).
        exists tail. rewrite length_app, Hl.
        split; [exact E|]. split; [lia|]. split; [exact Hal|].
        split; [|intros [H _]; contradiction].
        intros ->. cbn [length] in Hl. lia.
  - intros E. unfold AesPureEncoders._pad, SM4Encoders._pad_data.
    rewrite E. split; reflexivity.
Qed.

Lemma X6_witness :
  exists tail,
    AesPureEncoders._pad RefLib.lib [72; 69; 76; 76; 79] "ISO10126"
    = [72; 69; 76; 76; 79] ++ tail
    /\ (1 <= length tail <= 16)%nat
    /\ (length ([72; 69; 76; 76; 79]%Z ++ tail) mod 16 = 0)%nat.
Proof.
  apply (X6_padding_fills_blocks RefLib.lib [72; 69; 76; 76; 79] "ISO10126"
           ref_lib_ok).
  vm_compute. discriminate.
Defined.

(** X7 - Padding comes off again.  For pkcs7, iso10126 (whatever the
    random filler) and ansix923, in any letter case, removing the padding
    from padded data gives the data back, for every byte string, the empty
    one included, in AES and in SM4. *)
Theorem X7_unpad_after_pad :
  forall (L : PyLib) (data : bytes) (padding : string),
    lib_ok L ->
    length_checked padding = true ->
    AesPureEncoders._unpad (AesPureEncoders._pad L data padding) padding
    = Ok data
    /\ SM4Encoders._unpad_data (SM4Encoders._pad_data L data padding) padding
       = Ok data.
Proof.
  intros L data padding HL Hc.
  destruct (length_checked_cases padding Hc) as [E | [E | E]].
  - assert (Hx : exact_padding padding = true)
      by (unfold exact_padding; now rewrite E).
    split; [now apply aes_unpad_pad | now apply sm4_unpad_pad].
  - now apply iso_unpad.
  - assert (Hx : exact_padding padding = true)
      by (unfold exact_padding; now rewrite E).
    split; [now apply aes_unpad_pad | now apply sm4_unpad_pad].
Qed.

Lemma X7_witness :
  AesPureEncoders._unpad (AesPureEncoders._pad RefLib.lib [] "Iso10126")
    "Iso10126" = Ok []
  /\ SM4Encoders._unpad_data
       (SM4Encoders._pad_data RefLib.lib [] "Iso10126") "Iso10126" = Ok [].
Proof.
  apply (X7_unpad_after_pad RefLib.lib [] "Iso10126" ref_lib_ok).
  vm_compute. reflexivity.
Defined.

(** X8 - Zero padding is lossy.  Under zeropadding, padding and
    unpadding give the data without their trailing zero bytes, in AES and
    in SM4: the data come back exactly when they do not end in a zero
    byte.  On block-aligned data AES appends a whole block of zeros and
    SM4 appends nothing. *)
Theorem X8_zero_padding_strips_zeros :
  forall (L : PyLib) (data : bytes) (padding : string),
    lower padding = "zeropadding"%string ->
    AesPureEncoders._unpad (AesPureEncoders._pad L data padding) padding
    = Ok (rstrip0 data)
    /\ SM4Encoders._unpad_data (SM4Encoders._pad_data L data padding) padding
       = Ok (rstrip0 data)
    /\ (rstrip0 data = data <-> last_byte data <> Some 0)
    /\ ((length data mod 16 = 0)%nat ->
        AesPureEncoders._pad L data padding = data ++ repeat 0 16
        /\ SM4Encoders._pad_data L data padding = data).
Proof.
  intros L data padding E.
  split; [|split; [|split; [apply rstrip0_fixed|]]].
  - unfold AesPureEncoders._unpad, AesPureEncoders._pad. rewrite E.
    cbn [String.eqb Ascii.eqb Bool.eqb]. now rewrite rstrip0_zeros.
  - rewrite (sm4_pad_zero L data padding E).
    unfold SM4Encoders._unpad_data. rewrite E.
    cbn [String.eqb Ascii.eqb Bool.eqb].
    destruct (Nat.eqb (length data mod 16) 0); [reflexivity|].
    now rewrite rstrip0_zeros.
  - intros H0. rewrite (sm4_pad_zero L data padding E), H0.
    unfold AesPureEncoders._pad. rewrite E, H0.
    split; reflexivity.
Qed.

Lemma X8_witness :
  AesPureEncoders._unpad
    (AesPureEncoders._pad RefLib.lib [65; 0; 0] "zeropadding") "zeropadding"
  = Ok [65]
  /\ SM4Encoders._unpad_data
       (SM4Encoders._pad_data RefLib.lib [65; 0; 0] "zeropadding")
       "zeropadding" = Ok [65].
Proof.
  destruct (X8_zero_padding_strips_zeros RefLib.lib [65; 0; 0] "zeropadding"
              eq_refl) as (HA & HS & _).
  split; [exact HA | exact HS].
Defined.

(** ** The entry points, mode by mode *)

Section EncryptEntry.
Variable L : PyLib.
Variables (P key mode iv padding : string) (sbox : pyval).
Variables (sks sdr swap_endian : bool) (key_type iv_type : string).
Variables (kbA kbS ivb : bytes).
Hypothesis HP : str_true P = true.
Hypothesis HkA : AesPureEncoders.key_bytes_of L key key_type = Ok kbA.
Hypothesis HkS : SM4Encoders.key_bytes_of L key key_type = Ok kbS.
Hypothesis Hiv :
  str_in (upper mode) iv_modes = true -> iv_of L iv iv_type = Ok ivb.

Lemma entry_iv_step :
  (if str_in (upper mode) iv_modes then
     if negb (str_true iv) then Ok (Some zeros16)
     else b <- AesPureEncoders.given_iv L iv iv_type ;; Ok (Some b)
   else Ok None)
  = Ok (if str_in (upper mode) iv_modes then Some ivb else None).
Proof.
  rewrite iv_step_eq. destruct (str_in (upper mode) iv_modes); [|reflexivity].
  now rewrite Hiv.
Qed.

Lemma entry_iv_used :
  iv_or_empty (if str_in (upper mode) iv_modes then Some ivb else None)
  = iv_for mode ivb.
Proof. unfold iv_for. now destruct (str_in (upper mode) iv_modes). Qed.

Lemma entry_wire res :
  (if carries_iv iv (if str_in (upper mode) iv_modes then Some ivb else None)
        (upper mode)
   then Ok (Some (iv_for mode ivb ++ res))
   else Ok (Some res))
  = Ok (Some (wire iv (upper mode) ivb res)).
Proof.
  unfold wire, iv_for. destruct (carries_iv _ _ _) eqn:Ec; [|reflexivity].
  destruct (str_in (upper mode) iv_modes); [reflexivity|].
  unfold carries_iv in Ec. destruct (str_true iv); discriminate.
Qed.

Lemma aes_encrypt_bytes_eq aes :
  AesPureEncoders.make_cipher kbA (_parse_sbox L sbox) sks sdr = Ok aes ->
  AesPureEncoders.encrypt_bytes L P key mode iv padding sbox sks sdr
    key_type iv_type None
  = (res <- AesPureEncoders.encrypt_modes aes (upper mode)
              (iv_for mode ivb)
              (aes_mode_input L mode padding (utf8_encode L P)) ;;
     Ok (Some (wire iv (upper mode) ivb res))).
Proof.
  intros Eaes.
  unfold AesPureEncoders.encrypt_bytes. rewrite HP. cbn [negb].
  rewrite HkA. cbn [bind]. rewrite Eaes. cbn [bind opt_is].
  rewrite entry_iv_step. cbn [bind]. rewrite entry_iv_used.
  fold (aes_mode_input L mode padding (utf8_encode L P)).
  destruct (AesPureEncoders.encrypt_modes aes _ _ _) as [res|e];
    cbn [bind]; [|reflexivity].
  apply entry_wire.
Qed.

Lemma sm4_encrypt_bytes_eq sm4 :
  SM4Encoders.make_cipher (_parse_sbox L sbox) kbS 0
    (if swap_endian then true else sks)
    (if swap_endian then true else sdr) = Ok sm4 ->
  SM4Encoders.sm4_encrypt_bytes L P key mode iv padding sbox key_type
    iv_type sks sdr swap_endian None
  = (res <- SM4Encoders.encrypt_modes sm4 (upper mode) (iv_for mode ivb)
              (sm4_mode_input L mode padding (utf8_encode L P)) ;;
     Ok (Some (wire iv (upper mode) ivb res))).
Proof.
  intros Emk.
  unfold SM4Encoders.sm4_encrypt_bytes. rewrite HP. cbn [negb].
  rewrite HkS. cbn [bind].
  rewrite sm4_given_iv_eq, entry_iv_step. cbn [bind].
  rewrite Emk. cbn [bind opt_is]. rewrite entry_iv_used.
  fold (sm4_mode_input L mode padding (utf8_encode L P)).
  destruct (SM4Encoders.encrypt_modes sm4 _ _ _) as [res|e];
    cbn [bind]; [|reflexivity].
  apply entry_wire.
Qed.
End EncryptEntry.





Lemma block_mode_input L mode padding data :
  str_in (upper mode) ["ECB"; "CBC"]%string = true ->
  aes_mode_input L mode padding data = AesPureEncoders._pad L data padding
  /\ sm4_mode_input L mode padding data
     = SM4Encoders._pad_data L data padding.
Proof.
  intros H. unfold aes_mode_input, sm4_mode_input.
  now rewrite (block_modes_not_stream _ H).
Qed.



Section CbcPartial.
Variable E : bytes -> result bytes.
Variable err : pyerror.
Hypothesis E_total :
  forall B, is_blockb B = true -> exists C, E B = Ok C /\ is_blockb C = true.
Hypothesis E_short : forall b, (length b < 16)%nat -> E b = Raise err.

Lemma cbc_encrypt_partial bs :
  chunked bs -> all_bytes bs ->
  (length (concat bs) mod 16 <> 0)%nat ->
  forall prev res,
    is_blockb prev = true -> cbc_encrypt E bs prev res = Raise err.
Proof.
  induction 1 as [|b Hb|b b' r Hb Hc IH]; intros Hall Hm prev res Hp.
  - now cbn in Hm.
  - cbn [concat] in Hm. rewrite app_nil_r in Hm. cbn [cbc_encrypt].
    rewrite E_short; [reflexivity|].
    rewrite xor_bytes_length, (is_blockb_length prev Hp).
    assert (length b <> 16%nat) by (intros E16; now rewrite E16 in Hm).
    lia.
  - inversion Hall as [|? ? Hbb Hall']; subst.
    assert (Hblk : is_blockb (xor_bytes b prev) = true).
    { apply xor_block; [|exact Hp].
      unfold is_blockb. now rewrite Hb, Hbb. }
    destruct (E_total _ Hblk) as (C & EC & HC).
    cbn [cbc_encrypt]. rewrite EC. cbn [bind].
    apply IH; [exact Hall'| |exact HC].
    intros H0. apply Hm.
    change (concat (b :: b' :: r)) with (b ++ concat (b' :: r)).
    rewrite length_app, Hb.
    rewrite <- Nat.Div0.add_mod_idemp_r, H0. reflexivity.
Qed.
End CbcPartial.

(** X10 - CBC without padding on unaligned data.  In CBC mode with
    nopadding, a plaintext whose byte length is not a multiple of 16 makes
    AES encryption raise [IndexError] and SM4 encryption raise
    [struct.error]: unlike the ECB loop, the CBC loop has no test for a
    short last block. *)
Theorem X10_cbc_unaligned_nopadding_raises :
  forall (L : PyLib) (P key mode iv padding : string) (sbox : pyval)
         (sks sdr swap_endian : bool) (key_type iv_type : string)
         (kbA kbS ivb : bytes),
    lib_ok L ->
    str_true P = true ->
    AesPureEncoders.key_bytes_of L key key_type = Ok kbA ->
    SM4Encoders.key_bytes_of L key key_type = Ok kbS ->
    sbox_arg_ok L sbox sbox_permb ->
    upper mode = "CBC"%string ->
    iv_of L iv iv_type = Ok ivb ->
    lower padding = "nopadding"%string ->
    (length (utf8_encode L P) mod 16 <> 0)%nat ->
    AesPureEncoders.encrypt L P key mode iv padding sbox sks sdr key_type
      iv_type None = Raise IndexError
    /\ SM4Encoders.sm4_encrypt L P key mode iv padding sbox key_type iv_type
         sks sdr swap_endian None = Raise StructError.
Proof.
  intros L P key mode iv padding sbox sks sdr swap_endian key_type iv_type
         kbA kbS ivb HL HP HkA HkS Hsbox Hmode Hiv Hnp Hm.
  assert (Hb : str_in (upper mode) ["ECB"; "CBC"]%string = true)
    by now rewrite Hmode.
  destruct (block_mode_input L mode padding (utf8_encode L P) Hb) as [EA ES].
  pose proof (utf8_bytes L HL P) as Hd.
  pose proof (iv_of_block L HL _ _ _ Hiv) as Hblk.
  assert (EpA : AesPureEncoders._pad L (utf8_encode L P) padding
                = utf8_encode L P)
    by (unfold AesPureEncoders._pad; now rewrite Hnp).
  assert (EpS : SM4Encoders._pad_data L (utf8_encode L P) padding
                = utf8_encode L P)
    by (unfold SM4Encoders._pad_data; now rewrite Hnp).
  assert (Eiv : iv_for mode ivb = ivb)
    by (unfold iv_for; now rewrite Hmode).
  split.
  - destruct (aes_make_cipher_ok L kbA sbox sks sdr
                (aes_key_bytes L HL _ _ _ HkA) Hsbox) as (aes & Eaes & Haes).
    unfold AesPureEncoders.encrypt.
    rewrite (aes_encrypt_bytes_eq L P key mode iv padding sbox sks sdr
               key_type iv_type kbA ivb HP HkA (fun _ => Hiv) aes Eaes).
    rewrite EA, EpA, Eiv, Hmode.
    unfold AesPureEncoders.encrypt_modes. eval_mode.
    rewrite (cbc_encrypt_partial (AesPure.encrypt_block aes) IndexError
               (encrypt_block_ok aes Haes)); try reflexivity.
    + intros b Hl. unfold AesPure.encrypt_block.
      apply Nat.ltb_lt in Hl. now rewrite Hl.
    + apply blocks16_chunked.
    + now apply blocks16_bytes.
    + now rewrite concat_blocks16.
    + exact Hblk.
  - destruct (sm4_make_cipher_ok L kbS sbox
                (if swap_endian then true else sks)
                (if swap_endian then true else sdr)
                (sbox_perm_bytes L sbox Hsbox)) as (l & tbl & Ht & Hsb & Emk).
    pose proof (sm4_built_ok l tbl kbS 0 (if swap_endian then true else sks)
                  (if swap_endian then true else sdr) Ht Hsb) as Hok.
    unfold SM4Encoders.sm4_encrypt.
    rewrite (sm4_encrypt_bytes_eq L P key mode iv padding sbox sks sdr
               swap_endian key_type iv_type kbS ivb HP HkS (fun _ => Hiv) _ (Emk 0)).
    rewrite ES, EpS, Eiv, Hmode.
    unfold SM4Encoders.encrypt_modes. eval_mode.
    rewrite (cbc_encrypt_partial _ StructError (one_round_ok _ Hok));
      try reflexivity.
    + intros b Hl. unfold SM4.one_round, SM4.unpack4I.
      replace (length b =? 16)%nat with false
        by (symmetry; apply Nat.eqb_neq; lia).
      reflexivity.
    + apply blocks16_chunked.
    + now apply blocks16_bytes.
    + now rewrite concat_blocks16.
    + exact Hblk.
Qed.

Lemma X10_witness :
  AesPureEncoders.encrypt RefLib.lib "HELLO" "test" "CBC" "" "nopadding"
    PyNone false false "utf-8" "utf-8" None = Raise IndexError
  /\ SM4Encoders.sm4_encrypt RefLib.lib "HELLO" "test" "CBC" "" "nopadding"
       PyNone "utf-8" "utf-8" false false false None = Raise StructError.
Proof.
  apply (X10_cbc_unaligned_nopadding_raises RefLib.lib "HELLO" "test" "CBC"
           "" "nopadding" PyNone false false false "utf-8" "utf-8"
           (RefLib.sha256 [116; 101; 115; 116])
           (RefLib.md5 [116; 101; 115; 116]) (repeat 0 16) ref_lib_ok).
  1-7: vm_compute; first [reflexivity | exact I].
  vm_compute. discriminate.
Defined.

(** *** ECB: blocks are encrypted independently *)

Lemma aligned_tail n :
  (n mod 16 = 0)%nat -> (n <> 0)%nat ->
  (16 <= n)%nat /\ ((n - 16) mod 16 = 0)%nat.
Proof.
  intros Hm Hn. apply Nat.Div0.mod_divides in Hm as [c ->].
  split; [lia|].
  replace (16 * c - 16)%nat with ((c - 1) * 16)%nat by lia.
  apply Nat.Div0.mod_mul.
Qed.

Lemma blocks16_app_aligned x :
  forall y, (length x mod 16 = 0)%nat ->
            blocks16 (x ++ y) = blocks16 x ++ blocks16 y.
Proof.
  pattern x. apply blocks16_ind; clear x.
  - reflexivity.
  - intros a x IH y Hm.
    destruct (aligned_tail (length (a :: x)) Hm ltac:(discriminate))
      as [Hl Ht].
    change ((a :: x) ++ y) with (a :: (x ++ y)).
    rewrite (blocks16_cons a (x ++ y)), (blocks16_cons a x).
    change (a :: (x ++ y)) with ((a :: x) ++ y).
    rewrite firstn_app, skipn_app.
    replace (16 - length (a :: x))%nat with 0%nat by lia.
    cbn [firstn skipn]. rewrite app_nil_r.
    rewrite IH; [reflexivity|].
    now rewrite length_skipn.
Qed.

Lemma blocks16_full x :
  (length x mod 16 = 0)%nat ->
  Forall (fun b => length b = 16%nat) (blocks16 x).
Proof.
  pattern x. apply blocks16_ind; clear x; [constructor|].
  intros a x IH Hm.
  destruct (aligned_tail (length (a :: x)) Hm ltac:(discriminate))
    as [Hl Ht].
  rewrite blocks16_cons. constructor.
  - rewrite length_firstn. lia.
  - apply IH. now rewrite length_skipn.
Qed.

Section EcbConcat.
Variable E : bytes -> result bytes.

Lemma ecb_break_acc bs :
  forall res,
    ecb_break E bs res = (r <- ecb_break E bs [] ;; Ok (res ++ r)).
Proof.
  induction bs as [|b bs IH]; intros res; cbn [ecb_break bind].
  - now rewrite app_nil_r.
  - destruct (Nat.ltb (length b) 16); cbn [bind];
      [now rewrite app_nil_r|].
    destruct (E b) as [c|e]; cbn [bind]; [|reflexivity].
    rewrite (IH (res ++ c)), (IH ([] ++ c)). cbn [app].
    destruct (ecb_break E bs []) as [r|e]; cbn [bind]; [|reflexivity].
    now rewrite app_assoc.
Qed.

Lemma ecb_all_acc bs :
  forall res,
    ecb_all E bs res = (r <- ecb_all E bs [] ;; Ok (res ++ r)).
Proof.
  induction bs as [|b bs IH]; intros res; cbn [ecb_all bind].
  - now rewrite app_nil_r.
  - destruct (E b) as [c|e]; cbn [bind]; [|reflexivity].
    rewrite (IH (res ++ c)), (IH ([] ++ c)). cbn [app].
    destruct (ecb_all E bs []) as [r|e]; cbn [bind]; [|reflexivity].
    now rewrite app_assoc.
Qed.

Lemma ecb_break_concat bs1 bs2 :
  Forall (fun b => length b = 16%nat) bs1 ->
  forall res,
    ecb_break E (bs1 ++ bs2) res
    = (r <- ecb_break E bs1 res ;; ecb_break E bs2 r).
Proof.
  induction 1 as [|b bs1 Hb H IH]; intros res; [reflexivity|].
  cbn [app ecb_break]. rewrite Hb. cbn [Nat.ltb Nat.leb].
  destruct (E b) as [c|e]; cbn [bind]; [apply IH|reflexivity].
Qed.

Lemma ecb_all_concat bs1 bs2 :
  forall res,
    ecb_all E (bs1 ++ bs2) res
    = (r <- ecb_all E bs1 res ;; ecb_all E bs2 r).
Proof.
  induction bs1 as [|b bs1 IH]; intros res; [reflexivity|].
  cbn [app ecb_all].
  destruct (E b) as [c|e]; cbn [bind]; [apply IH|reflexivity].
Qed.

Lemma ecb_break_data x y :
  (length x mod 16 = 0)%nat ->
  ecb_break E (blocks16 (x ++ y)) []
  = (cx <- ecb_break E (blocks16 x) [] ;;
     cy <- ecb_break E (blocks16 y) [] ;; Ok (cx ++ cy)).
Proof.
  intros Hm. rewrite (blocks16_app_aligned x y Hm).
  rewrite (ecb_break_concat _ _ (blocks16_full x Hm)).
  destruct (ecb_break E (blocks16 x) []) as [cx|e]; cbn [bind];
    [|reflexivity].
  apply ecb_break_acc.
Qed.

Lemma ecb_all_data x y :
  (length x mod 16 = 0)%nat ->
  ecb_all E (blocks16 (x ++ y)) []
  = (cx <- ecb_all E (blocks16 x) [] ;;
     cy <- ecb_all E (blocks16 y) [] ;; Ok (cx ++ cy)).
Proof.
  intros Hm. rewrite (blocks16_app_aligned x y Hm), ecb_all_concat.
  destruct (ecb_all E (blocks16 x) []) as [cx|e]; cbn [bind];
    [|reflexivity].
  apply ecb_all_acc.
Qed.
End EcbConcat.

(** X11 - ECB works block by block.  In ECB mode the result for data
    [x ++ y], where the length of [x] is a multiple of 16, is the result
    for [x] followed by the result for [y], errors included: for
    encryption and decryption, in AES and in SM4.  So equal plaintext
    blocks give equal ciphertext blocks, wherever they stand. *)
Theorem X11_ecb_block_independence :
  forall (aes : AesPure.t) (sm4 : SM4.t) (iv x y : bytes),
    (length x mod 16 = 0)%nat ->
    AesPureEncoders.encrypt_modes aes "ECB" iv (x ++ y)
    = (cx <- AesPureEncoders.encrypt_modes aes "ECB" iv x ;;
       cy <- AesPureEncoders.encrypt_modes aes "ECB" iv y ;; Ok (cx ++ cy))
    /\ AesPureEncoders.decrypt_modes aes "ECB" iv (x ++ y)
       = (cx <- AesPureEncoders.decrypt_modes aes "ECB" iv x ;;
          cy <- AesPureEncoders.decrypt_modes aes "ECB" iv y ;;
          Ok (cx ++ cy))
    /\ SM4Encoders.encrypt_modes sm4 "ECB" iv (x ++ y)
       = (cx <- SM4Encoders.encrypt_modes sm4 "ECB" iv x ;;
          cy <- SM4Encoders.encrypt_modes sm4 "ECB" iv y ;; Ok (cx ++ cy))
    /\ SM4Encoders.decrypt_modes sm4 "ECB" iv (x ++ y)
       = (cx <- SM4Encoders.decrypt_modes sm4 "ECB" iv x ;;
          cy <- SM4Encoders.decrypt_modes sm4 "ECB" iv y ;; Ok (cx ++ cy)).
Proof.
  intros aes sm4 iv x y Hm.
  unfold AesPureEncoders.encrypt_modes, AesPureEncoders.decrypt_modes,
    SM4Encoders.encrypt_modes, SM4Encoders.decrypt_modes.
  eval_mode.
  split; [now apply ecb_break_data|].
  split; [now apply ecb_break_data|].
  split; [now apply ecb_break_data | now apply ecb_all_data].
Qed.

Lemma X11_witness :
  exists aes,
    AesPure.init (repeat 1 16) None false false = Ok aes
    /\ AesPureEncoders.encrypt_modes aes "ECB" []
         (repeat 65 16 ++ repeat 65 16)
       = (cx <- AesPureEncoders.encrypt_modes aes "ECB" [] (repeat 65 16) ;;
          cy <- AesPureEncoders.encrypt_modes aes "ECB" [] (repeat 65 16) ;;
          Ok (cx ++ cy)).
Proof.
  exists (AesPure.build (repeat 1 16) None false false).
  split; [apply init_standard|].
  apply (X11_ecb_block_independence
           (AesPure.build (repeat 1 16) None false false)
           (sm4_built (map PyInt SM4.STANDARD_SBOX) SM4.STANDARD_SBOX
              (repeat 1 16) 0 false false) []
           (repeat 65 16) (repeat 65 16)).
  vm_compute. reflexivity.
Defined.

(** ** The IV argument *)







(** ** Keystream cancellation in CTR *)

Section CtrCancel.
Variable E : bytes -> result bytes.
Hypothesis E_total :
  forall B, is_blockb B = true -> exists C, E B = Ok C /\ is_blockb C = true.

Lemma ctr_cancellation xs ys :
  same_lengths xs ys ->
  forall ctr rx ry,
    0 <= ctr -> ctr + Z.of_nat (length xs) <= 2 ^ 128 ->
    Forall (fun b => (length b <= 16)%nat) xs ->
    exists cx cy, ctr_loop E xs ctr rx = Ok (rx ++ cx)
      /\ ctr_loop E ys ctr ry = Ok (ry ++ cy)
      /\ xor_bytes cx cy = xor_bytes (concat xs) (concat ys).
Proof.
  induction 1 as [|x y xs ys Hxy Hs IH]; intros ctr rx ry H0 Hr H.
  - exists [], []. cbn. now rewrite !app_nil_r.
  - inversion H as [|? ? Hx H']; subst. cbn [length] in Hr.
    destruct (to_bytes16_block ctr ltac:(lia)) as (cb & Ecb & Hcb).
    destruct (E_total cb Hcb) as (ks & Eks & Hks).
    destruct (IH (ctr + 1) (rx ++ xor_bytes x (firstn (length x) ks))
                 (ry ++ xor_bytes y (firstn (length y) ks))
                 ltac:(lia) ltac:(lia) H')
      as (cx & cy & Ex & Ey & Hxor).
    exists (xor_bytes x (firstn (length x) ks) ++ cx),
           (xor_bytes y (firstn (length y) ks) ++ cy).
    cbn [ctr_loop concat]. rewrite Ecb. cbn [bind]. rewrite Eks.
    cbn [bind]. rewrite Ex, Ey, <- !app_assoc. split; [reflexivity|].
    split; [reflexivity|].
    pose proof (is_blockb_length ks Hks) as Hl.
    rewrite !xor_bytes_app; try lia.
    + rewrite Hxor. f_equal. rewrite <- Hxy. apply xor_same_key; [lia|].
      rewrite length_firstn. lia.
    + rewrite !xor_bytes_length, !length_firstn. lia.
Qed.

Lemma ctr_cancel ivb a b :
  is_blockb ivb = true -> length a = length b ->
  int_from_bytes ivb + Z.of_nat (length (blocks16 a)) <= 2 ^ 128 ->
  exists ca cb,
    ctr_loop E (blocks16 a) (int_from_bytes ivb) [] = Ok ca
    /\ ctr_loop E (blocks16 b) (int_from_bytes ivb) [] = Ok cb
    /\ xor_bytes ca cb = xor_bytes a b.
Proof.
  intros Hiv Hlen Hr.
  destruct (ctr_cancellation (blocks16 a) (blocks16 b)
              (blocks16_same_lengths a b Hlen) (int_from_bytes ivb) [] []
              (int_from_bytes_nonneg ivb (is_blockb_bytes ivb Hiv)) Hr
              (chunked_short _ (blocks16_chunked a)))
    as (ca & cb & Ea & Eb & Hx).
  exists ca, cb. rewrite !concat_blocks16 in Hx. auto.
Qed.
End CtrCancel.

(** X14 - Keystream cancellation in CTR.  Two plaintexts of the same
    byte length, encrypted in CTR mode without padding under the same
    key, IV and S-box, give ciphertexts (behind the IV, when it is carried
    in front) whose XOR is the XOR of the plaintexts, for every length
    that keeps the counter below 2^128, in AES and in SM4. *)
Theorem X14_ctr_keystream_cancellation :
  forall (L : PyLib) (PA PB key mode iv padding : string) (sbox : pyval)
         (sks sdr swap_endian : bool) (key_type iv_type : string)
         (kbA kbS ivb : bytes),
    lib_ok L ->
    str_true PA = true -> str_true PB = true ->
    AesPureEncoders.key_bytes_of L key key_type = Ok kbA ->
    SM4Encoders.key_bytes_of L key key_type = Ok kbS ->
    sbox_arg_ok L sbox sbox_permb ->
    upper mode = "CTR"%string ->
    iv_of L iv iv_type = Ok ivb ->
    lower padding = "nopadding"%string ->
    length (utf8_encode L PA) = length (utf8_encode L PB) ->
    int_from_bytes ivb + Z.of_nat (length (blocks16 (utf8_encode L PA)))
    <= 2 ^ 128 ->
    (exists cA cB,
       AesPureEncoders.encrypt_bytes L PA key mode iv padding sbox sks sdr
         key_type iv_type None = Ok (Some (wire iv (upper mode) ivb cA))
       /\ AesPureEncoders.encrypt_bytes L PB key mode iv padding sbox sks sdr
            key_type iv_type None = Ok (Some (wire iv (upper mode) ivb cB))
       /\ xor_bytes cA cB
          = xor_bytes (utf8_encode L PA) (utf8_encode L PB))
    /\ (exists cA cB,
          SM4Encoders.sm4_encrypt_bytes L PA key mode iv padding sbox
            key_type iv_type sks sdr swap_endian None
          = Ok (Some (wire iv (upper mode) ivb cA))
          /\ SM4Encoders.sm4_encrypt_bytes L PB key mode iv padding sbox
               key_type iv_type sks sdr swap_endian None
             = Ok (Some (wire iv (upper mode) ivb cB))
          /\ xor_bytes cA cB
             = xor_bytes (utf8_encode L PA) (utf8_encode L PB)).
Proof.
  intros L PA PB key mode iv padding sbox sks sdr swap_endian key_type iv_type
         kbA kbS ivb HL HPA HPB HkA HkS Hsbox Hmode Hiv Hnp Hlen Hr.
  pose proof (iv_of_block L HL _ _ _ Hiv) as Hblk.
  assert (Eiv : iv_for mode ivb = ivb)
    by (unfold iv_for; now rewrite Hmode).
  assert (EinA : forall d, aes_mode_input L mode padding d = d)
    by (intros d; unfold aes_mode_input; now rewrite Hmode, Hnp).
  assert (EinS : forall d, sm4_mode_input L mode padding d = d)
    by (intros d; unfold sm4_mode_input; now rewrite Hmode, Hnp).
  split.
  - destruct (aes_make_cipher_ok L kbA sbox sks sdr
                (aes_key_bytes L HL _ _ _ HkA) Hsbox) as (aes & Eaes & Haes).
    destruct (ctr_cancel _ (encrypt_block_ok aes Haes) ivb _ _ Hblk Hlen Hr)
      as (cA & cB & EA & EB & Hx).
    exists cA, cB.
    rewrite (aes_encrypt_bytes_eq L PA key mode iv padding sbox sks sdr
               key_type iv_type kbA ivb HPA HkA (fun _ => Hiv) aes Eaes).
    rewrite (aes_encrypt_bytes_eq L PB key mode iv padding sbox sks sdr
               key_type iv_type kbA ivb HPB HkA (fun _ => Hiv) aes Eaes).
    rewrite !EinA, Eiv, Hmode.
    unfold AesPureEncoders.encrypt_modes. eval_mode.
    rewrite EA, EB. auto.
  - destruct (sm4_make_cipher_ok L kbS sbox
                (if swap_endian then true else sks)
                (if swap_endian then true else sdr)
                (sbox_perm_bytes L sbox Hsbox)) as (l & tbl & Ht & Hsb & Emk).
    pose proof (sm4_built_ok l tbl kbS 0 (if swap_endian then true else sks)
                  (if swap_endian then true else sdr) Ht Hsb) as Hok.
    destruct (ctr_cancel _ (one_round_ok _ Hok) ivb _ _ Hblk Hlen Hr)
      as (cA & cB & EA & EB & Hx).
    exists cA, cB.
    rewrite (sm4_encrypt_bytes_eq L PA key mode iv padding sbox sks sdr
               swap_endian key_type iv_type kbS ivb HPA HkS (fun _ => Hiv)
               _ (Emk 0)).
    rewrite (sm4_encrypt_bytes_eq L PB key mode iv padding sbox sks sdr
               swap_endian key_type iv_type kbS ivb HPB HkS (fun _ => Hiv)
               _ (Emk 0)).
    rewrite !EinS, Eiv, Hmode.
    unfold SM4Encoders.encrypt_modes. eval_mode.
    rewrite EA, EB. auto.
Qed.

Lemma X14_witness :
  exists cA cB,
    AesPureEncoders.encrypt_bytes RefLib.lib "AAAAAAAAAAAAAAAAA" "test" "CTR"
      "00000000000000000000000000000000" "nopadding" PyNone false false
      "utf-8" "hex" None = Ok (Some cA)
    /\ AesPureEncoders.encrypt_bytes RefLib.lib "BAAAAAAAAAAAAAAAA" "test"
         "CTR" "00000000000000000000000000000000" "nopadding" PyNone false
         false "utf-8" "hex" None = Ok (Some cB)
    /\ xor_bytes cA cB = [3; 0; 0; 0; 0; 0; 0; 0; 0; 0; 0; 0; 0; 0; 0; 0; 0].
Proof.
  destruct (X14_ctr_keystream_cancellation RefLib.lib "AAAAAAAAAAAAAAAAA"
              "BAAAAAAAAAAAAAAAA" "test" "CTR"
              "00000000000000000000000000000000" "nopadding" PyNone
              false false false "utf-8" "hex"
              (RefLib.sha256 [116; 101; 115; 116])
              (RefLib.md5 [116; 101; 115; 116]) (repeat 0 16) ref_lib_ok)
    as ((cA & cB & EA & EB & Hx) & _).
  1-9: vm_compute; first [reflexivity | exact I].
  - vm_compute. discriminate.
  - exists cA, cB. split; [exact EA|]. split; [exact EB|].
    rewrite Hx. vm_compute. reflexivity.
Defined.

(** ** Keys *)

Lemma key_norm_lengths key :
  let k := fst (AesPure.key_norm key) in
  length k = 16%nat \/ length k = 24%nat \/ length k = 32%nat.
Proof.
  cbv zeta. unfold AesPure.key_norm.
  destruct (Nat.eqb_spec (length key) 16); [cbn [fst]; auto|].
  destruct (Nat.eqb_spec (length key) 24); [cbn [fst]; auto|].
  destruct (Nat.eqb_spec (length key) 32); [cbn [fst]; auto|].
  cbn [fst].
  destruct (Nat.ltb_spec (length key) 16);
    [left; rewrite length_app, repeat_length; lia|].
  destruct (Nat.ltb_spec (length key) 24);
    [left; rewrite length_firstn; lia|].
  destruct (Nat.ltb_spec (length key) 32);
    [right; left; rewrite length_firstn; lia|].
  right; right. rewrite length_firstn. lia.
Qed.

Lemma key_norm_fixed k :
  length k = 16%nat \/ length k = 24%nat \/ length k = 32%nat ->
  fst (AesPure.key_norm k) = k.
Proof.
  intros [H | [H | H]]; unfold AesPure.key_norm; rewrite H; reflexivity.
Qed.

Lemma key_norm_rounds key :
  snd (AesPure.key_norm key)
  = if Nat.eqb (length (fst (AesPure.key_norm key))) 16 then 10%nat
    else if Nat.eqb (length (fst (AesPure.key_norm key))) 24 then 12%nat
    else 14%nat.
Proof.
  unfold AesPure.key_norm.
  destruct (Nat.eqb_spec (length key) 16) as [E|]; [cbn [fst snd]; now rewrite E|].
  destruct (Nat.eqb_spec (length key) 24) as [E|]; [cbn [fst snd]; now rewrite E|].
  destruct (Nat.eqb_spec (length key) 32) as [E|]; [cbn [fst snd]; now rewrite E|].
  reflexivity.
Qed.

Lemma key_norm_idem key :
  AesPure.key_norm (fst (AesPure.key_norm key)) = AesPure.key_norm key.
Proof.
  rewrite (surjective_pairing (AesPure.key_norm (fst (AesPure.key_norm key)))).
  rewrite (surjective_pairing (AesPure.key_norm key)) at 3.
  rewrite key_norm_fixed by apply key_norm_lengths.
  f_equal. rewrite !key_norm_rounds.
  now rewrite key_norm_fixed by apply key_norm_lengths.
Qed.

Lemma key16_length key : length (SM4.key16 key) = 16%nat.
Proof.
  unfold SM4.key16.
  destruct (Nat.eqb_spec (length key) 16) as [E|N]; [exact E|].
  destruct (Nat.ltb_spec (length key) 16) as [Hl|Hl].
  - rewrite length_app, repeat_length. lia.
  - rewrite length_firstn. lia.
Qed.

Lemma key16_idem key : SM4.key16 (SM4.key16 key) = SM4.key16 key.
Proof.
  generalize (key16_length key). generalize (SM4.key16 key).
  intros k Hk. unfold SM4.key16. now rewrite Hk.
Qed.

(** X15 - Keys that collide.  An AES cipher object depends on the key
    only through the normalised key: a key and its zero-padded or truncated
    form of 16, 24 or 32 bytes give the same object, so two keys of 17 to
    23 bytes with the same first 16 bytes encrypt alike.  In the same way
    an SM4 object depends on the key only through its zero-padded or
    truncated form of 16 bytes. *)
Theorem X15_keys_with_equal_normal_form_collide :
  forall (key key' : bytes) (custom : option (list pyval)) (sks sdr : bool)
         (mode : Z),
    (AesPure.init key custom sks sdr
     = AesPure.init (fst (AesPure.key_norm key)) custom sks sdr)
    /\ (fst (AesPure.key_norm key) = fst (AesPure.key_norm key') ->
        AesPure.init key custom sks sdr = AesPure.init key' custom sks sdr)
    /\ (SM4.init custom key mode sks sdr
        = SM4.init custom (SM4.key16 key) mode sks sdr)
    /\ (SM4.key16 key = SM4.key16 key' ->
        SM4.init custom key mode sks sdr = SM4.init custom key' mode sks sdr).
Proof.
  intros key key' custom sks sdr mode.
  assert (HA : forall k,
             AesPure.init k custom sks sdr
             = AesPure.init (fst (AesPure.key_norm k)) custom sks sdr).
  { intros k. unfold AesPure.init, AesPure.key_expansion.
    now rewrite key_norm_idem. }
  assert (HS : forall k,
             SM4.init custom k mode sks sdr
             = SM4.init custom (SM4.key16 k) mode sks sdr).
  { intros k. unfold SM4.init, SM4.set_key. now rewrite key16_idem. }
  split; [apply HA|]. split.
  - intros E. now rewrite (HA key), (HA key'), E.
  - split; [apply HS|]. intros E. now rewrite (HS key), (HS key'), E.
Qed.

Lemma X15_witness :
  AesPure.init (map Z.of_nat (seq 0 17)) None false false
  = AesPure.init (map Z.of_nat (seq 0 16) ++ [99; 98; 97]) None false false.
Proof.
  apply (X15_keys_with_equal_normal_form_collide
           (map Z.of_nat (seq 0 17))
           (map Z.of_nat (seq 0 16) ++ [99; 98; 97]) None false false 0).
  vm_compute. reflexivity.
Defined.

(** ** Modes that are not supported *)

Lemma unsupported_mode_inv m :
  supported_mode m = false ->
  String.eqb m "ECB" = false /\ String.eqb m "CBC" = false
  /\ String.eqb m "CFB" = false /\ String.eqb m "OFB" = false
  /\ String.eqb m "CTR" = false.
Proof.
  unfold supported_mode, str_in. cbn [existsb].
  rewrite !orb_false_iff. tauto.
Qed.

Lemma sm4_make_cipher_total L kb sbox mode sks sdr :
  sbox_arg_ok L sbox sbox_bytesb ->
  exists sm4,
    SM4Encoders.make_cipher (_parse_sbox L sbox) kb mode sks sdr = Ok sm4.
Proof.
  intros H. destruct (sm4_make_cipher_ok L kb sbox sks sdr H)
    as (l & tbl & _ & _ & E).
  rewrite E. eexists; reflexivity.
Qed.

Lemma sm4_unpad_empty padding :
  SM4Encoders._unpad_data [] padding
  = if length_checked padding then Raise IndexError else Ok [].
Proof.
  unfold SM4Encoders._unpad_data, length_checked. cbn [str_in existsb].
  destruct (String.eqb (lower padding) "pkcs7"); [reflexivity|].
  destruct (String.eqb (lower padding) "zeropadding") eqn:Ez.
  - apply String.eqb_eq in Ez. rewrite Ez. reflexivity.
  - destruct (String.eqb (lower padding) "iso10126"); [reflexivity|].
    destruct (String.eqb (lower padding) "ansix923"); [reflexivity|].
    cbn [orb]. now destruct (String.eqb (lower padding) "nopadding").
Qed.

(** X16 - A mode that is not supported.  With a mode name outside ECB,
    CBC, CFB, OFB and CTR (in any letter case), a non-empty data string
    and a key and S-box that are accepted: AES encryption and SM4
    encryption raise [ValueError] for every plaintext (one declared as hex
    must be hex), and AES decryption raises [ValueError] for every
    ciphertext that decodes; SM4 decryption has no such check, runs no
    mode loop and goes on to unpad the empty bytes, which raises
    [IndexError] under pkcs7, iso10126 and ansix923 and otherwise returns
    the rendering of the empty bytes. *)
Theorem X16_unsupported_mode :
  forall (L : PyLib) (data key mode iv padding : string) (sbox : pyval)
         (sks sdr swap_endian : bool) (key_type iv_type : string)
         (data_type : option string) (kbA kbS : bytes),
    str_true data = true ->
    AesPureEncoders.key_bytes_of L key key_type = Ok kbA ->
    SM4Encoders.key_bytes_of L key key_type = Ok kbS ->
    sbox_arg_ok L sbox sbox_bytesb ->
    supported_mode (upper mode) = false ->
    ((opt_is data_type "hex" = true ->
      fromhex L (remove_char newline (remove_char space data)) <> None) ->
     AesPureEncoders.encrypt L data key mode iv padding sbox sks sdr key_type
       iv_type data_type = Raise (ValueError UnsupportedMode)
     /\ SM4Encoders.sm4_encrypt L data key mode iv padding sbox key_type
          iv_type sks sdr swap_endian data_type
        = Raise (ValueError UnsupportedMode))
    /\ (AesPureEncoders.decode_input L data data_type <> None ->
        AesPureEncoders.decrypt L data key mode iv padding sbox sks sdr
          key_type iv_type data_type = Raise (ValueError UnsupportedMode)
        /\ SM4Encoders.sm4_decrypt L data key mode iv padding sbox key_type
             iv_type sks sdr swap_endian data_type
           = if length_checked padding then Raise IndexError
             else Ok (render L [])).
Proof.
  intros L data key mode iv padding sbox sks sdr swap_endian key_type iv_type
         data_type kbA kbS Hd HkA HkS Hsbox Hm.
  destruct (unsupported_mode_inv _ Hm) as (M1 & M2 & M3 & M4 & M5).
  assert (Hiv : str_in (upper mode) iv_modes = false)
    by (unfold str_in; cbn [existsb iv_modes]; now rewrite M2, M3, M4, M5).
  assert (Hst : str_in (upper mode) stream_modes = false)
    by (unfold str_in; cbn [existsb stream_modes]; now rewrite M3, M4, M5).
  assert (Hbc : str_in (upper mode) ["ECB"; "CBC"]%string = false)
    by (unfold str_in; cbn [existsb]; now rewrite M1, M2).
  destruct (aes_make_cipher_total L kbA sbox sks sdr Hsbox) as [aes Ea].
  destruct (sm4_make_cipher_total L kbS sbox 0
              (if swap_endian then true else sks)
              (if swap_endian then true else sdr) Hsbox) as [e0 Ee].
  split.
  - intros Hhex.
    assert (Hdata : exists b,
               (if opt_is data_type "hex" then
                  of_option
                    (fromhex L (remove_char newline (remove_char space data)))
                    (ValueError BadDataHex)
                else Ok (utf8_encode L data)) = Ok b).
    { destruct (opt_is data_type "hex") eqn:Eh; [|eexists; reflexivity].
      destruct (fromhex L _) as [b|] eqn:Ef; [eexists; reflexivity|].
      exfalso. apply (Hhex eq_refl). reflexivity. }
    destruct Hdata as (b & Eb). split.
    + unfold AesPureEncoders.encrypt, AesPureEncoders.encrypt_bytes.
      rewrite Hd, HkA. cbn [negb bind]. rewrite Ea. cbn [bind].
      rewrite Eb. cbn [bind]. rewrite Hiv. cbn [bind].
      unfold AesPureEncoders.encrypt_modes.
      now rewrite M1, M2, M3, M4, M5.
    + unfold SM4Encoders.sm4_encrypt, SM4Encoders.sm4_encrypt_bytes.
      rewrite Hd, HkS. cbn [negb bind]. rewrite Hiv. cbn [bind].
      rewrite Ee. cbn [bind]. rewrite Eb. cbn [bind].
      unfold SM4Encoders.encrypt_modes.
      now rewrite M1, M2, M3, M4, M5.
  - intros Hdec.
    destruct (AesPureEncoders.decode_input L data data_type) as [enc|] eqn:Henc;
      [|exfalso; apply Hdec; reflexivity].
    split.
    + unfold AesPureEncoders.decrypt, AesPureEncoders.decrypt_bytes.
      rewrite Hd, HkA. cbn [negb bind]. rewrite Ea. cbn [bind].
      rewrite Henc, Hiv. cbn [bind fst snd].
      unfold AesPureEncoders.decrypt_modes.
      now rewrite M1, M2, M3, M4, M5.
    + unfold SM4Encoders.sm4_decrypt, SM4Encoders.sm4_decrypt_bytes.
      rewrite Hd, HkS. cbn [negb bind].
      change (SM4Encoders.decode_input L data data_type)
        with (AesPureEncoders.decode_input L data data_type).
      rewrite Henc, Hiv, Hbc. cbn [andb bind fst snd]. rewrite Ee.
      cbn [bind]. unfold SM4Encoders.decrypt_modes.
      rewrite M1, M2, M3, M4, M5. cbn [bind]. rewrite Hst. cbn [negb].
      rewrite sm4_unpad_empty. now destruct (length_checked padding).
Qed.

Lemma X16_witness :
  AesPureEncoders.encrypt RefLib.lib "HELLO" "k" "GCM" "" "pkcs7" PyNone
    false false "utf-8" "utf-8" None = Raise (ValueError UnsupportedMode)
  /\ SM4Encoders.sm4_encrypt RefLib.lib "HELLO" "k" "GCM" "" "pkcs7" PyNone
       "utf-8" "utf-8" false false false None
     = Raise (ValueError UnsupportedMode)
  /\ AesPureEncoders.decrypt RefLib.lib "QUJD" "k" "GCM" "" "pkcs7" PyNone
       false false "utf-8" "utf-8" None = Raise (ValueError UnsupportedMode)
  /\ SM4Encoders.sm4_decrypt RefLib.lib "QUJD" "k" "GCM" "" "pkcs7" PyNone
       "utf-8" "utf-8" false false false None = Raise IndexError.
Proof.
  destruct (X16_unsupported_mode RefLib.lib "HELLO" "k" "GCM" "" "pkcs7"
              PyNone false false false "utf-8" "utf-8" None
              (RefLib.sha256 [107]) (RefLib.md5 [107]))
    as (HE & _).
  1-5: vm_compute; first [reflexivity | exact I].
  destruct (X16_unsupported_mode RefLib.lib "QUJD" "k" "GCM" "" "pkcs7"
              PyNone false false false "utf-8" "utf-8" None
              (RefLib.sha256 [107]) (RefLib.md5 [107]))
    as (_ & HD).
  1-5: vm_compute; first [reflexivity | exact I].
  destruct HE as (E1 & E2); [intros E; discriminate E|].
  destruct HD as (D1 & D2); [intros E; vm_compute in E; discriminate E|].
  repeat split; assumption.
Defined.

(** ** Empty data and keys that are not hex *)

(** X17 - Empty data and invalid hex keys.  The four entry points return
    the empty string for empty data before they look at any other
    argument, an invalid key included; for non-empty data a key declared
    as hex whose digits [bytes.fromhex] rejects makes all four raise
    [ValueError], whatever the mode, IV, padding and data are. *)
Theorem X17_empty_data_and_bad_hex_key :
  forall (L : PyLib) (data key mode iv padding : string) (sbox : pyval)
         (sks sdr swap_endian : bool) (key_type iv_type : string)
         (data_type : option string),
    (AesPureEncoders.encrypt L "" key mode iv padding sbox sks sdr key_type
       iv_type data_type = Ok ""%string
     /\ AesPureEncoders.decrypt L "" key mode iv padding sbox sks sdr
          key_type iv_type data_type = Ok ""%string
     /\ SM4Encoders.sm4_encrypt L "" key mode iv padding sbox key_type
          iv_type sks sdr swap_endian data_type = Ok ""%string
     /\ SM4Encoders.sm4_decrypt L "" key mode iv padding sbox key_type
          iv_type sks sdr swap_endian data_type = Ok ""%string)
    /\ (str_true data = true ->
        lower key_type = "hex"%string ->
        fromhex L (remove_char space key) = None ->
        AesPureEncoders.encrypt L data key mode iv padding sbox sks sdr
          key_type iv_type data_type = Raise (ValueError BadKeyHex)
        /\ AesPureEncoders.decrypt L data key mode iv padding sbox sks sdr
             key_type iv_type data_type = Raise (ValueError BadKeyHex)
        /\ SM4Encoders.sm4_encrypt L data key mode iv padding sbox key_type
             iv_type sks sdr swap_endian data_type
           = Raise (ValueError BadKeyHex)
        /\ SM4Encoders.sm4_decrypt L data key mode iv padding sbox key_type
             iv_type sks sdr swap_endian data_type
           = Raise (ValueError BadKeyHex)).
Proof.
  intros L data key mode iv padding sbox sks sdr swap_endian key_type iv_type
         data_type.
  split; [repeat split; reflexivity|].
  intros Hd Hk Hf.
  unfold AesPureEncoders.encrypt, AesPureEncoders.encrypt_bytes,
    AesPureEncoders.decrypt, AesPureEncoders.decrypt_bytes,
    SM4Encoders.sm4_encrypt, SM4Encoders.sm4_encrypt_bytes,
    SM4Encoders.sm4_decrypt, SM4Encoders.sm4_decrypt_bytes,
    AesPureEncoders.key_bytes_of, SM4Encoders.key_bytes_of.
  rewrite Hd, Hk, Hf. repeat split; reflexivity.
Qed.

Lemma X17_witness :
  AesPureEncoders.encrypt RefLib.lib "HELLO" "xyz" "ECB" "" "pkcs7" PyNone
    false false "HEX" "utf-8" None = Raise (ValueError BadKeyHex)
  /\ SM4Encoders.sm4_decrypt RefLib.lib "QUJD" "xyz" "ECB" "" "pkcs7" PyNone
       "HEX" "utf-8" false false false None = Raise (ValueError BadKeyHex)
  /\ AesPureEncoders.encrypt RefLib.lib "" "xyz" "ECB" "" "pkcs7" PyNone
       false false "HEX" "utf-8" None = Ok ""%string.
Proof.
  destruct (X17_empty_data_and_bad_hex_key RefLib.lib "HELLO" "xyz" "ECB" ""
              "pkcs7" PyNone false false false "HEX" "utf-8" None)
    as ((HE & _) & H1).
  destruct (X17_empty_data_and_bad_hex_key RefLib.lib "QUJD" "xyz" "ECB" ""
              "pkcs7" PyNone false false false "HEX" "utf-8" None)
    as (_ & H2).
  split; [apply H1; vm_compute; reflexivity|].
  split; [apply H2; vm_compute; reflexivity | exact HE].
Defined.

(** ** Which error comes first *)

(** X18 - Order of the checks in encryption.  When the data are declared
    as hex and are not, and the IV is declared as hex and is not, AES
    encryption reports the data ([ValueError] about the input) and SM4
    encryption reports the IV ([ValueError] about the IV): AES decodes the
    data before it reads the IV, SM4 reads the IV first. *)
Theorem X18_encrypt_error_precedence :
  forall (L : PyLib) (data key mode iv padding : string) (sbox : pyval)
         (sks sdr swap_endian : bool) (key_type iv_type : string)
         (data_type : option string) (kbA kbS : bytes),
    str_true data = true ->
    AesPureEncoders.key_bytes_of L key key_type = Ok kbA ->
    SM4Encoders.key_bytes_of L key key_type = Ok kbS ->
    sbox_arg_ok L sbox sbox_bytesb ->
    str_in (upper mode) iv_modes = true ->
    str_true iv = true ->
    lower iv_type = "hex"%string ->
    fromhex L (remove_char space iv) = None ->
    opt_is data_type "hex" = true ->
    fromhex L (remove_char newline (remove_char space data)) = None ->
    AesPureEncoders.encrypt L data key mode iv padding sbox sks sdr key_type
      iv_type data_type = Raise (ValueError BadDataHex)
    /\ SM4Encoders.sm4_encrypt L data key mode iv padding sbox key_type
         iv_type sks sdr swap_endian data_type = Raise (ValueError BadIvHex).
Proof.
  intros L data key mode iv padding sbox sks sdr swap_endian key_type iv_type
         data_type kbA kbS Hd HkA HkS Hsbox Hm Hi Hit Hif Hdt Hdf.
  destruct (aes_make_cipher_total L kbA sbox sks sdr Hsbox) as [aes Ea].
  split.
  - unfold AesPureEncoders.encrypt, AesPureEncoders.encrypt_bytes.
    rewrite Hd, HkA. cbn [negb bind]. rewrite Ea. cbn [bind].
    now rewrite Hdt, Hdf.
  - unfold SM4Encoders.sm4_encrypt, SM4Encoders.sm4_encrypt_bytes,
      SM4Encoders.given_iv.
    rewrite Hd, HkS. cbn [negb bind]. now rewrite Hm, Hi, Hit, Hif.
Qed.

Lemma X18_witness :
  AesPureEncoders.encrypt RefLib.lib "zz" "k" "CBC" "zz" "pkcs7" PyNone
    false false "utf-8" "hex" (Some "hex"%string)
  = Raise (ValueError BadDataHex)
  /\ SM4Encoders.sm4_encrypt RefLib.lib "zz" "k" "CBC" "zz" "pkcs7" PyNone
       "utf-8" "hex" false false false (Some "hex"%string)
     = Raise (ValueError BadIvHex).
Proof.
  apply (X18_encrypt_error_precedence RefLib.lib "zz" "k" "CBC" "zz" "pkcs7"
           PyNone false false false "utf-8" "hex" (Some "hex"%string)
           (RefLib.sha256 [107]) (RefLib.md5 [107]));
    vm_compute; first [reflexivity | exact I].
Defined.

(** ** Letter case of the option names *)







(** * Chains of operations *)

Lemma pop_split {A : Type} (a b : list A) (x : A) :
  pipeline.pop (a ++ x :: b) (length a) = a ++ b.
Proof.
  unfold pipeline.pop.
  rewrite firstn_app, Nat.sub_diag, firstn_all, app_nil_r.
  rewrite skipn_app, skipn_all2 by lia.
  now replace (S (length a) - length a)%nat with 1%nat by lia.
Qed.

Lemma insert_split {A : Type} (a b : list A) (x : A) :
  pipeline.insert (a ++ b) (length a) x = a ++ x :: b.
Proof.
  unfold pipeline.insert.
  rewrite firstn_app, Nat.sub_diag, firstn_all, app_nil_r.
  now rewrite skipn_app, Nat.sub_diag, skipn_all.
Qed.

Lemma insert_parts {A : Type} (l : list A) (i : nat) (x : A) :
  (i <= length l)%nat ->
  exists c d,
    l = c ++ d /\ length c = i /\ pipeline.insert l i x = c ++ x :: d.
Proof.
  intros Hi. exists (firstn i l), (skipn i l).
  split; [symmetry; apply firstn_skipn|].
  split; [apply firstn_length_le; exact Hi | reflexivity].
Qed.

Lemma pop_nth {A : Type} (l : list A) (i j : nat) :
  (i < length l)%nat ->
  nth_error (pipeline.pop l i) j
  = nth_error l (if (j <? i)%nat then j else S j).
Proof.
  intros Hi.
  destruct (nth_error l i) as [x|] eqn:Ex.
  - destruct (nth_error_split l i Ex) as (a & b & E & Ha).
    subst l i. rewrite pop_split.
    destruct (j <? length a)%nat eqn:Ej.
    + apply Nat.ltb_lt in Ej. now rewrite !nth_error_app1 by lia.
    + apply Nat.ltb_ge in Ej. rewrite !nth_error_app2 by lia.
      now replace (S j - length a)%nat with (S (j - length a)) by lia.
  - apply nth_error_None in Ex. lia.
Qed.

Section Guards.
Variable ops : pipeline.Pipeline.t.

Lemma index_guard (i : Z) :
  (0 <=? i) && (i <? Z.of_nat (length ops)) = true
  <-> 0 <= i < Z.of_nat (length ops).
Proof. rewrite andb_true_iff, Z.leb_le, Z.ltb_lt. tauto. Qed.

Lemma remove_in_range (i : Z) :
  0 <= i < Z.of_nat (length ops) ->
  pipeline.Pipeline.remove_operation ops i
  = pipeline.pop ops (Z.to_nat i).
Proof.
  intros Hi. unfold pipeline.Pipeline.remove_operation.
  now rewrite (proj2 (index_guard i) Hi).
Qed.

Lemma remove_out_of_range (i : Z) :
  ~ 0 <= i < Z.of_nat (length ops) ->
  pipeline.Pipeline.remove_operation ops i = ops.
Proof.
  intros Hi. unfold pipeline.Pipeline.remove_operation.
  destruct ((0 <=? i) && (i <? Z.of_nat (length ops))) eqn:E;
    [|reflexivity].
  now apply index_guard in E.
Qed.

Lemma move_out_of_range (i j : Z) :
  ~ (0 <= i < Z.of_nat (length ops) /\ 0 <= j < Z.of_nat (length ops)) ->
  pipeline.Pipeline.move_operation ops i j = ops.
Proof.
  intros H. unfold pipeline.Pipeline.move_operation.
  destruct ((0 <=? i) && (i <? Z.of_nat (length ops))
            && ((0 <=? j) && (j <? Z.of_nat (length ops)))) eqn:E;
    [|reflexivity].
  apply andb_true_iff in E. rewrite !index_guard in E. tauto.
Qed.
End Guards.

(** The shape of a move: the list is [a ++ x :: b] with [x] at the old
    position, and the result is [c ++ x :: d] with [x] at the new one,
    where [c ++ d] is [a ++ b]. *)
Lemma move_shape (ops : pipeline.Pipeline.t) (i j : Z) :
  0 <= i < Z.of_nat (length ops) -> 0 <= j < Z.of_nat (length ops) ->
  exists a x b c d,
    ops = a ++ x :: b /\ length a = Z.to_nat i
    /\ a ++ b = c ++ d /\ length c = Z.to_nat j
    /\ pipeline.Pipeline.move_operation ops i j = c ++ x :: d.
Proof.
  intros Hi Hj. unfold pipeline.Pipeline.move_operation.
  rewrite (proj2 (index_guard ops i) Hi), (proj2 (index_guard ops j) Hj).
  cbn [andb].
  destruct (nth_error ops (Z.to_nat i)) as [x|] eqn:Ex;
    [|apply nth_error_None in Ex; lia].
  destruct (nth_error_split ops (Z.to_nat i) Ex) as (a & b & E & Ha).
  rewrite E, <- Ha, pop_split.
  destruct (insert_parts (a ++ b) (Z.to_nat j) x) as (c & d & Ecd & Hc & Ei).
  { rewrite E, length_app in Hj. cbn [length] in Hj.
    rewrite length_app. lia. }
  exists a, x, b, c, d. rewrite Ei. repeat split; auto.
Qed.

Lemma move_length (ops : pipeline.Pipeline.t) (i j : Z) :
  length (pipeline.Pipeline.move_operation ops i j) = length ops.
Proof.
  destruct (Z_le_dec 0 i) as [Hi0|Hi0];
    [destruct (Z_lt_dec i (Z.of_nat (length ops))) as [Hi|Hi];
     [destruct (Z_le_dec 0 j) as [Hj0|Hj0];
      [destruct (Z_lt_dec j (Z.of_nat (length ops))) as [Hj|Hj]|]|]|].
  2-5: now rewrite move_out_of_range by lia.
  destruct (move_shape ops i j) as (a & x & b & c & d & E & _ & Ecd & _ & Em);
    [lia | lia |].
  rewrite Em, E, !length_app. cbn [length].
  apply (f_equal (@length _)) in Ecd. rewrite !length_app in Ecd. lia.
Qed.

(** X20 - Pipeline.move_operation.  With both indices in range the moved
    operation stands at the new index, the other operations keep their
    order (taking the moved one out again leaves what taking it out of
    the original chain leaves), the chain keeps its length, and moving it
    back restores the chain.  With an index out of range, a negative one
    included, the chain is left as it is. *)
Theorem X20_move_operation :
  forall (ops : pipeline.Pipeline.t) (old_index new_index : Z),
    let n := Z.of_nat (length ops) in
    let moved := pipeline.Pipeline.move_operation ops old_index new_index in
    length moved = length ops
    /\ (0 <= old_index < n /\ 0 <= new_index < n ->
        nth_error moved (Z.to_nat new_index)
        = nth_error ops (Z.to_nat old_index)
        /\ pipeline.Pipeline.remove_operation moved new_index
           = pipeline.Pipeline.remove_operation ops old_index
        /\ pipeline.Pipeline.move_operation moved new_index old_index = ops)
    /\ (~ (0 <= old_index < n /\ 0 <= new_index < n) -> moved = ops).
Proof.
  intros ops i j n moved. subst n moved.
  split; [apply move_length|].
  split; [|apply move_out_of_range].
  intros (Hi & Hj).
  destruct (move_shape ops i j Hi Hj)
    as (a & x & b & c & d & E & Ha & Ecd & Hc & Em).
  split; [|split].
  - rewrite Em, E, <- Hc, <- Ha.
    rewrite !nth_error_app2, !Nat.sub_diag by lia. reflexivity.
  - rewrite !remove_in_range by (rewrite ?move_length; lia).
    rewrite Em, <- Hc, pop_split, E, <- Ha, pop_split. now symmetry.
  - pose proof (move_length ops i j) as Hlen.
    destruct (move_shape (pipeline.Pipeline.move_operation ops i j) j i)
      as (a' & x' & b' & c' & d' & E' & Ha' & Ecd' & Hc' & Em');
      [rewrite Hlen; lia | rewrite Hlen; lia |].
    rewrite Em'. rewrite Em in E'.
    assert (Hx : c = a' /\ x = x' /\ d = b').
    { assert (Hl : length c = length a') by lia.
      clear - E' Hl. revert a' E' Hl.
      induction c as [|y c IH]; intros [|y' a'] E' Hl; cbn in *;
        try discriminate.
      - now injection E' as -> ->.
      - injection E' as -> E'. injection Hl as Hl.
        destruct (IH a' E' Hl) as (-> & -> & ->). auto. }
    destruct Hx as (<- & <- & <-).
    assert (Hy : a = c' /\ b = d').
    { assert (Hl : length a = length c') by lia.
      rewrite <- Ecd in Ecd'. clear - Ecd' Hl. revert c' Ecd' Hl.
      induction a as [|y a IH]; intros [|y' c'] E' Hl; cbn in *;
        try discriminate.
      - auto.
      - injection E' as -> E'. injection Hl as Hl.
        destruct (IH c' E' Hl) as (-> & ->). auto. }
    destruct Hy as (<- & <-). now symmetry.
Qed.

(** X21 - Pipeline.remove_operation and add_operation.  Removing at an
    index in range shortens the chain by one and shifts the later
    operations down by one place, leaving the earlier ones where they
    are; an index out of range, a negative one included, removes nothing;
    and removing at the old length undoes an [add_operation]. *)
Theorem X21_remove_operation :
  forall (ops : pipeline.Pipeline.t) (op : pipeline.Operation) (index : Z),
    let n := Z.of_nat (length ops) in
    let removed := pipeline.Pipeline.remove_operation ops index in
    (0 <= index < n ->
     S (length removed) = length ops
     /\ forall j : nat,
          nth_error removed j
          = nth_error ops (if (j <? Z.to_nat index)%nat then j else S j))
    /\ (~ 0 <= index < n -> removed = ops)
    /\ pipeline.Pipeline.remove_operation
         (pipeline.Pipeline.add_operation ops op) n = ops.
Proof.
  intros ops op i n removed. subst n removed.
  split; [|split; [apply remove_out_of_range|]].
  - intros Hi. rewrite remove_in_range by exact Hi. split.
    + unfold pipeline.pop.
      rewrite length_app, firstn_length_le, length_skipn by lia. lia.
    + intros j. apply pop_nth. lia.
  - unfold pipeline.Pipeline.add_operation.
    rewrite remove_in_range by (rewrite length_app; cbn [length]; lia).
    rewrite Nat2Z.id, pop_split. apply app_nil_r.
Qed.

Lemma run_app (ops1 ops2 : pipeline.Pipeline.t) (data : string) :
  pipeline.Pipeline.run (ops1 ++ ops2) data
  = (d <- pipeline.Pipeline.run ops1 data ;; pipeline.Pipeline.run ops2 d).
Proof.
  revert data. induction ops1 as [|op ops1 IH]; intros data;
    cbn [app pipeline.Pipeline.run bind]; [reflexivity|].
  destruct (pipeline.apply op data) as [d|e]; cbn [bind];
    [apply IH | reflexivity].
Qed.

(** X22 - Pipeline.run.  Running a chain made of two parts is running
    the first part and then the second on its result; an operation added
    to a chain runs last, on the result of the chain; the empty chain
    returns the data; and when an operation raises, the run raises the
    same exception whatever operations follow it. *)
Theorem X22_run_composes :
  forall (ops1 ops2 : pipeline.Pipeline.t) (op : pipeline.Operation)
         (data : string),
    pipeline.Pipeline.run (ops1 ++ ops2) data
    = (d <- pipeline.Pipeline.run ops1 data ;; pipeline.Pipeline.run ops2 d)
    /\ pipeline.Pipeline.run (pipeline.Pipeline.add_operation ops1 op) data
       = (d <- pipeline.Pipeline.run ops1 data ;; pipeline.apply op d)
    /\ pipeline.Pipeline.run pipeline.Pipeline.init data = Ok data
    /\ (forall d e,
          pipeline.Pipeline.run ops1 data = Ok d ->
          pipeline.apply op d = Raise e ->
          pipeline.Pipeline.run (ops1 ++ op :: ops2) data = Raise e).
Proof.
  intros ops1 ops2 op data.
  split; [apply run_app|]. split; [|split; [reflexivity|]].
  - unfold pipeline.Pipeline.add_operation. rewrite run_app.
    destruct (pipeline.Pipeline.run ops1 data) as [d|e];
      cbn [bind pipeline.Pipeline.run]; [|reflexivity].
    now destruct (pipeline.apply op d).
  - intros d e Hd He. rewrite run_app, Hd.
    cbn [bind pipeline.Pipeline.run]. now rewrite He.
Qed.

(** X23 - Encrypting and decrypting in one chain.  A chain of the
    registered AES (or SM4) encryption followed by the matching decryption
    with the same [params] and no [data_type] returns printable data
    unchanged, under the conditions of the round trip of the entry
    points; keys that [params] leaves out take the defaults of the
    operations (mode CBC for AES and ECB for SM4, padding pkcs7, empty key
    and IV). *)
Theorem X23_pipeline_roundtrip :
  forall (L : PyLib) (p : pipeline.params_t) (P : string)
         (kbA kbS ivb : bytes),
    let key := pipeline.get (pipeline.p_key p) ""%string in
    let iv := pipeline.get (pipeline.p_iv p) ""%string in
    let padding := pipeline.get (pipeline.p_padding p) "pkcs7"%string in
    let sbox := pipeline.get (pipeline.p_sbox p) PyNone in
    let key_type := pipeline.get (pipeline.p_key_type p) "utf-8"%string in
    let iv_type := pipeline.get (pipeline.p_iv_type p) "utf-8"%string in
    let aes_mode := pipeline.get (pipeline.p_mode p) "CBC"%string in
    let sm4_mode := pipeline.get (pipeline.p_mode p) "ECB"%string in
    let data := utf8_encode L P in
    lib_ok L ->
    all_chars in_printable P = true ->
    pipeline.p_data_type p = None ->
    sbox_arg_ok L sbox sbox_permb ->
    (AesPureEncoders.key_bytes_of L key key_type = Ok kbA ->
     supported_mode (upper aes_mode) = true ->
     (str_in (upper aes_mode) iv_modes = true ->
      iv_of L iv iv_type = Ok ivb) ->
     roundtrip_padding aes_mode padding data ->
     ctr_in_range (upper aes_mode) ivb data ->
     pipeline.Pipeline.run
       [pipeline.Operation_init "aes_encrypt" (pipeline.aes_encrypt L)
          (Some p);
        pipeline.Operation_init "aes_decrypt" (pipeline.aes_decrypt L)
          (Some p)] P = Ok P)
    /\ (SM4Encoders.key_bytes_of L key key_type = Ok kbS ->
        supported_mode (upper sm4_mode) = true ->
        (str_in (upper sm4_mode) iv_modes = true ->
         iv_of L iv iv_type = Ok ivb) ->
        roundtrip_padding sm4_mode padding data ->
        ctr_in_range (upper sm4_mode) ivb data ->
        pipeline.Pipeline.run
          [pipeline.Operation_init "sm4_encrypt" (pipeline.sm4_encrypt L)
             (Some p);
           pipeline.Operation_init "sm4_decrypt" (pipeline.sm4_decrypt L)
             (Some p)] P = Ok P).
Proof.
  intros L p P kbA kbS ivb key iv padding sbox key_type iv_type aes_mode
         sm4_mode data HL HP Hdt Hsbox.
  cbn [pipeline.Pipeline.run pipeline.apply pipeline.Operation_init
       pipeline.func pipeline.params pipeline.get].
  split; intros Hk Hmode Hiv Hpad Hctr.
  - destruct (aes_roundtrip_string L HL P key aes_mode iv padding sbox
                (pipeline.get (pipeline.p_swap_key_schedule p) false)
                (pipeline.get (pipeline.p_swap_data_round p) false)
                key_type iv_type kbA ivb HP Hk Hsbox Hmode Hiv Hpad Hctr)
      as (c & Ec & Ed).
    unfold pipeline.aes_encrypt, pipeline.aes_decrypt. cbv zeta.
    rewrite Hdt. fold key iv padding sbox key_type iv_type aes_mode.
    rewrite Ec. cbn [bind]. rewrite Ed. reflexivity.
  - destruct (sm4_roundtrip_string L HL P key sm4_mode iv padding sbox
                (pipeline.get (pipeline.p_swap_key_schedule p) false)
                (pipeline.get (pipeline.p_swap_data_round p) false)
                (pipeline.get (pipeline.p_swap_endian p) false)
                key_type iv_type kbS ivb HP Hk
                (sbox_perm_bytes L sbox Hsbox) Hmode Hiv Hpad Hctr)
      as (c & Ec & Ed).
    unfold pipeline.sm4_encrypt, pipeline.sm4_decrypt. cbv zeta.
    rewrite Hdt. fold key iv padding sbox key_type iv_type sm4_mode.
    rewrite Ec. cbn [bind]. rewrite Ed. reflexivity.
Qed.

Lemma X23_witness :
  let p :=
    {| pipeline.p_key := Some "test"%string; pipeline.p_mode := None;
       pipeline.p_iv := None; pipeline.p_padding := None;
       pipeline.p_sbox := None; pipeline.p_key_type := None;
       pipeline.p_iv_type := None; pipeline.p_data_type := None;
       pipeline.p_swap_key_schedule := None;
       pipeline.p_swap_data_round := None;
       pipeline.p_swap_endian := None |} in
  pipeline.Pipeline.run
    [pipeline.Operation_init "aes_encrypt" (pipeline.aes_encrypt RefLib.lib)
       (Some p);
     pipeline.Operation_init "aes_decrypt" (pipeline.aes_decrypt RefLib.lib)
       (Some p)] "HELLO" = Ok "HELLO"%string
  /\ pipeline.Pipeline.run
       [pipeline.Operation_init "sm4_encrypt"
          (pipeline.sm4_encrypt RefLib.lib) (Some p);
        pipeline.Operation_init "sm4_decrypt"
          (pipeline.sm4_decrypt RefLib.lib) (Some p)] "HELLO"
     = Ok "HELLO"%string.
Proof.
  intros p.
  destruct (X23_pipeline_roundtrip RefLib.lib p "HELLO"
              (RefLib.sha256 [116; 101; 115; 116])
              (RefLib.md5 [116; 101; 115; 116]) (repeat 0 16) ref_lib_ok)
    as (HA & HS).
  1-3: vm_compute; first [reflexivity | exact I].
  split.
  - apply HA.
    1-2: vm_compute; reflexivity.
    + intros _. vm_compute. reflexivity.
    + left. vm_compute. reflexivity.
    + intros E. vm_compute in E. discriminate E.
  - apply HS.
    1-2: vm_compute; reflexivity.
    + intros E. vm_compute in E. discriminate E.
    + left. vm_compute. reflexivity.
    + intros E. vm_compute in E. discriminate E.
Defined.

(** "HELLO" through CFB with pkcs7, from AES and from SM4: the eleven
    padding characters are still on after decryption. *)
Lemma stream_padding_example :
  AesPureEncoders.encrypt RefLib.lib "HELLO" "test" "CFB" "" "pkcs7" PyNone
    false false "utf-8" "utf-8" None
  = Ok "AAAAAAAAAAAAAAAAAAAAACNHrg3Ih8iw1qv8EsR+H+c="%string
  /\ AesPureEncoders.decrypt RefLib.lib
       "AAAAAAAAAAAAAAAAAAAAACNHrg3Ih8iw1qv8EsR+H+c=" "test" "CFB" ""
       "pkcs7" PyNone false false "utf-8" "utf-8" None
     = Ok ("HELLO" ++ string_of_list_ascii (repeat (ascii_of_nat 11) 11))%string
  /\ SM4Encoders.sm4_encrypt RefLib.lib "HELLO" "test" "CFB" "" "pkcs7"
       PyNone "utf-8" "utf-8" false false false None
     = Ok "AAAAAAAAAAAAAAAAAAAAAI6cTrnW6I3y3RPeOniAkgA="%string
  /\ SM4Encoders.sm4_decrypt RefLib.lib
       "AAAAAAAAAAAAAAAAAAAAAI6cTrnW6I3y3RPeOniAkgA=" "test" "CFB" ""
       "pkcs7" PyNone "utf-8" "utf-8" false false false None
     = Ok ("HELLO" ++ string_of_list_ascii (repeat (ascii_of_nat 11) 11))%string
  /\ ("HELLO" ++ string_of_list_ascii (repeat (ascii_of_nat 11) 11))%string
     <> "HELLO"%string.
Proof.
  vm_compute. repeat split; try reflexivity. discriminate.
Qed.

(** C1 - The round trip fails in the stream modes.  In CFB, OFB and CTR,
    under every padding name but nopadding ([pkcs7] and [ansix923]
    included), [encrypt] pads the plaintext and [decrypt], which removes the
    padding in ECB and CBC only, hands the padded text back: for AES and
    for SM4, [decrypt] of [encrypt] of a non-empty [P] is the rendering of
    the padded bytes of [P], and these are longer than the bytes of [P]
    (for SM4 unless the padding is zeropadding).  The key is any accepted
    key, the custom S-box, if any, a permutation of the bytes, and in CTR
    the counter stays below 2^128. *)
Theorem C1_stream_modes_return_padded_text :
  forall (L : PyLib) (P key mode iv padding : string) (sbox : pyval)
         (sks sdr swap_endian : bool) (key_type iv_type : string)
         (kbA kbS ivb : bytes),
    lib_ok L ->
    str_true P = true ->
    AesPureEncoders.key_bytes_of L key key_type = Ok kbA ->
    SM4Encoders.key_bytes_of L key key_type = Ok kbS ->
    sbox_arg_ok L sbox sbox_permb ->
    str_in (upper mode) stream_modes = true ->
    iv_of L iv iv_type = Ok ivb ->
    lower padding <> "nopadding"%string ->
    ctr_in_range (upper mode) ivb
      (AesPureEncoders._pad L (utf8_encode L P) padding) ->
    ctr_in_range (upper mode) ivb
      (SM4Encoders._pad_data L (utf8_encode L P) padding) ->
    (exists c,
       AesPureEncoders.encrypt L P key mode iv padding sbox sks sdr key_type
         iv_type None = Ok c
       /\ AesPureEncoders.decrypt L c key mode iv padding sbox sks sdr
            key_type iv_type None
          = Ok (render L (AesPureEncoders._pad L (utf8_encode L P) padding)))
    /\ (exists c,
          SM4Encoders.sm4_encrypt L P key mode iv padding sbox key_type
            iv_type sks sdr swap_endian None = Ok c
          /\ SM4Encoders.sm4_decrypt L c key mode iv padding sbox key_type
               iv_type sks sdr swap_endian None
             = Ok (render L
                     (SM4Encoders._pad_data L (utf8_encode L P) padding)))
    /\ (length (utf8_encode L P)
        < length (AesPureEncoders._pad L (utf8_encode L P) padding))%nat
    /\ (lower padding <> "zeropadding"%string ->
        (length (utf8_encode L P)
         < length (SM4Encoders._pad_data L (utf8_encode L P) padding))%nat).
Proof.
  intros L P key mode iv padding sbox sks sdr swap_endian key_type iv_type
         kbA kbS ivb HL HP HkA HkS Hsbox Hmode Hiv Hn HctrA HctrS.
  pose proof (pad_len_range (length (utf8_encode L P))) as Hr.
  assert (EA : aes_stream_input L padding (utf8_encode L P)
               = AesPureEncoders._pad L (utf8_encode L P) padding).
  { unfold aes_stream_input.
    now rewrite (proj2 (String.eqb_neq _ _) Hn). }
  assert (ES : sm4_stream_input L padding (utf8_encode L P)
               = SM4Encoders._pad_data L (utf8_encode L P) padding).
  { unfold sm4_stream_input.
    now rewrite (proj2 (String.eqb_neq _ _) Hn). }
  split; [|split; [|split]].
  - rewrite <- EA in HctrA |- *.
    exact (aes_stream_returns_input L HL P key mode iv padding sbox sks sdr
             key_type iv_type kbA ivb HP HkA Hsbox Hmode Hiv HctrA).
  - rewrite <- ES in HctrS |- *.
    exact (sm4_stream_returns_input L HL P key mode iv padding sbox sks sdr
             swap_endian key_type iv_type kbS ivb HP HkS Hsbox Hmode Hiv
             HctrS).
  - destruct (aes_pad_tail L HL (utf8_encode L P) padding Hn)
      as (tail & E & Hl).
    rewrite E, length_app. lia.
  - intros Ez.
    destruct (sm4_pad_tail L HL (utf8_encode L P) padding Hn Ez)
      as (tail & E & Hl).
    rewrite E, length_app. lia.
Qed.

Lemma C1_witness :
  (exists c,
     AesPureEncoders.encrypt RefLib.lib "HELLO" "test" "CFB" "" "pkcs7"
       PyNone false false "utf-8" "utf-8" None = Ok c
     /\ AesPureEncoders.decrypt RefLib.lib c "test" "CFB" "" "pkcs7" PyNone
          false false "utf-8" "utf-8" None
        = Ok ("HELLO"
              ++ string_of_list_ascii (repeat (ascii_of_nat 11) 11))%string)
  /\ (exists c,
        SM4Encoders.sm4_encrypt RefLib.lib "HELLO" "test" "CFB" "" "pkcs7"
          PyNone "utf-8" "utf-8" false false false None = Ok c
        /\ SM4Encoders.sm4_decrypt RefLib.lib c "test" "CFB" "" "pkcs7"
             PyNone "utf-8" "utf-8" false false false None
           = Ok ("HELLO"
                 ++ string_of_list_ascii (repeat (ascii_of_nat 11) 11))%string).
Proof.
  destruct (C1_stream_modes_return_padded_text RefLib.lib "HELLO" "test"
              "CFB" "" "pkcs7" PyNone false false false "utf-8" "utf-8"
              (RefLib.sha256 [116; 101; 115; 116])
              (RefLib.md5 [116; 101; 115; 116]) (repeat 0 16) ref_lib_ok)
    as ((c & E & D) & (c' & E' & D') & _).
  1-6: vm_compute; first [reflexivity | exact I].
  - intros E. vm_compute in E. discriminate E.
  - intros E. vm_compute in E. discriminate E.
  - intros E. vm_compute in E. discriminate E.
  - split.
    + exists c. split; [exact E|].
      etransitivity; [exact D|]. vm_compute. reflexivity.
    + exists c'. split; [exact E'|].
      etransitivity; [exact D'|]. vm_compute. reflexivity.
Defined.
